(** * Date extraction of the stamp/signature service

    A shallow embedding of [src/services/stampSignatureService.ts]
    (class [StampSignatureService]): the date pattern tables, the functions
    [extractDateFromText], [parseAndValidateDate], [parseDate],
    [calculateDateConfidence] and [analyzeDateConsistency], together with the
    part of the JavaScript runtime they run on (strings of UTF-16 code units,
    backtracking regular expressions, [parseInt], the [Date] object of
    ECMA-262 and exceptions).

    Conventions.
    - A JavaScript string is the list of its UTF-16 code units ([jsstring]).
    - The confidence is an IEEE-754 binary64 number, as in JavaScript: the
      kernel's primitive [float].
    - Time values and the integers produced by [parseInt] are exact integers
      ([Z]); [None] stands for [NaN] (an Invalid Date).  A double represents
      every integer below 2^53 exactly, and every time value is at most
      8.64e15 in magnitude.
    - What ECMA-262 leaves to the host is a field of [Host]: the clock, the
      local time zone and the parsing of date strings that are not in the
      ISO format.  One invocation reads one time from the clock: the calls
      of [new Date()] it makes are taken to fall in the same instant. *)

From Stdlib Require Import String Ascii ZArith NArith Bool Lia Floats QArith Qabs List.
Import ListNotations.

Set Warnings "-inexact-float".
Close Scope Q_scope.

(** ** Strings *)

Module Str.

Definition char := N.
Definition jsstring := list char.

Definition chr (a : ascii) : char := N_of_ascii a.

(** A string literal of the source (ASCII only). *)
Definition lit (s : string) : jsstring := map chr (list_ascii_of_string s).

Fixpoint eqb (s t : jsstring) : bool :=
  match s, t with
  | [], [] => true
  | c :: s', d :: t' => N.eqb c d && eqb s' t'
  | _, _ => false
  end.

Definition is_digit (c : char) : bool := (N.leb 48 c && N.leb c 57)%bool.

(** WhiteSpace and LineTerminator of ECMA-262: the class [\s], and what
    [trim] and [parseInt] strip. *)
Definition is_space (c : char) : bool :=
  existsb (N.eqb c)
    [9; 10; 11; 12; 13; 32; 160; 5760; 8232; 8233; 8239; 8287; 12288; 65279]%N
  || (N.leb 8192 c && N.leb c 8202).

Definition toUpperASCII (c : char) : char :=
  if (N.leb 97 c && N.leb c 122)%bool then (c - 32)%N else c.

(** [Canonicalize] of a regular expression with the [i] flag and without
    the [u] flag, compared with an ASCII character [p] of the pattern: a code
    unit above 127 never canonicalizes to an ASCII one, so only the two ASCII
    cases of a letter match it. *)
Definition ci_match (p c : char) : bool := N.eqb (toUpperASCII c) (toUpperASCII p).

Fixpoint prefixb (p s : jsstring) : bool :=
  match p, s with
  | [], _ => true
  | c :: p', d :: s' => N.eqb c d && prefixb p' s'
  | _ :: _, [] => false
  end.

(** [String.prototype.startsWith] and [String.prototype.includes]. *)
Definition startsWith (s p : jsstring) : bool := prefixb p s.

Fixpoint includes (s p : jsstring) : bool :=
  prefixb p s || match s with [] => false | _ :: s' => includes s' p end.

Fixpoint dropWhile (p : char -> bool) (s : jsstring) : jsstring :=
  match s with
  | c :: s' => if p c then dropWhile p s' else s
  | [] => []
  end.

Definition trimStart (s : jsstring) : jsstring := dropWhile is_space s.
Definition trimEnd (s : jsstring) : jsstring := rev (dropWhile is_space (rev s)).

(** [String.prototype.trim]. *)
Definition trim (s : jsstring) : jsstring := trimEnd (trimStart s).

(** [String.prototype.split] with a separator of one code unit. *)
Fixpoint split_char (sep : char) (s cur : jsstring) : list jsstring :=
  match s with
  | [] => [rev cur]
  | c :: s' => if N.eqb c sep then rev cur :: split_char sep s' []
               else split_char sep s' (c :: cur)
  end.

End Str.
Export Str.

(** ** Regular expressions

    The fragment the source's patterns are written in: character classes,
    concatenation, ordered alternation and the greedy [+] of a class.  Capture
    groups are not represented, the source reads only [match[0]].  [rmatch] is
    the backtracking matcher of ECMA-262 in continuation-passing style: the
    continuation [k] is the rest of the pattern, and the first success in
    priority order wins. *)

Module Regex.

Inductive regex : Type :=
| Eps
| Class (p : char -> bool)
| Seq (r1 r2 : regex)
| Alt (r1 r2 : regex)
| Plus (p : char -> bool).

Fixpoint star_class {X : Type} (p : char -> bool) (s : jsstring)
    (k : jsstring -> option X) : option X :=
  match s with
  | c :: s' =>
      if p c then
        match star_class p s' k with
        | Some x => Some x
        | None => k s
        end
      else k s
  | [] => k []
  end.

Fixpoint rmatch {X : Type} (r : regex) (s : jsstring)
    (k : jsstring -> option X) : option X :=
  match r with
  | Eps => k s
  | Class p =>
      match s with
      | c :: s' => if p c then k s' else None
      | [] => None
      end
  | Seq r1 r2 => rmatch r1 s (fun s' => rmatch r2 s' k)
  | Alt r1 r2 =>
      match rmatch r1 s k with
      | Some x => Some x
      | None => rmatch r2 s k
      end
  | Plus p =>
      match s with
      | c :: s' => if p c then star_class p s' k else None
      | [] => None
      end
  end.

(** A match that starts at the head of [s]: what is left of [s] after it. *)
Definition match_at (r : regex) (s : jsstring) : option jsstring :=
  rmatch r s (fun rest => Some rest).

(** [r.exec(s)] for a pattern without the [g] flag: the leftmost match. *)
Fixpoint exec (r : regex) (s : jsstring) : option jsstring :=
  match match_at r s with
  | Some rest => Some (firstn (length s - length rest) s)
  | None =>
      match s with
      | [] => None
      | _ :: s' => exec r s'
      end
  end.

(** [s.match(r)] used as a condition. *)
Definition test (r : regex) (s : jsstring) : bool :=
  match exec r s with Some _ => true | None => false end.

(** [Array.from(s.matchAll(r))] mapped to [match[0]], for a pattern with the
    [g] flag: the successive leftmost matches, each search starting where the
    previous match ended (one code unit further after an empty match).
    [skip] counts the code units of [s] that lie inside the previous match. *)
Fixpoint matchAll_from (r : regex) (s : jsstring) (skip : nat) : list jsstring :=
  match s with
  | [] =>
      match skip with
      | O => match match_at r [] with Some _ => [[]] | None => [] end
      | S _ => []
      end
  | c :: s' =>
      match skip with
      | S n => matchAll_from r s' n
      | O =>
          match match_at r s with
          | Some rest =>
              let len := (length s - length rest)%nat in
              firstn len s :: matchAll_from r s' (len - 1)
          | None => matchAll_from r s' 0
          end
      end
  end.

Definition matchAll (r : regex) (s : jsstring) : list jsstring :=
  matchAll_from r s 0.

(** [s.split(r)] for a pattern without capture groups (ECMA-262,
    [RegExp.prototype[@@split]]): [cur] is the piece being read, reversed. *)
Fixpoint split_from (r : regex) (s : jsstring) (skip : nat) (cur : jsstring)
    : list jsstring :=
  match s with
  | [] => [rev cur]
  | c :: s' =>
      match skip with
      | S n => split_from r s' n cur
      | O =>
          match match_at r s with
          | Some rest =>
              let len := (length s - length rest)%nat in
              match len, cur with
              | O, [] => split_from r s' 0 [c]
              | O, _ :: _ => rev cur :: split_from r s' 0 [c]
              | S n, _ => rev cur :: split_from r s' n []
              end
          | None => split_from r s' 0 (c :: cur)
          end
      end
  end.

Definition split (r : regex) (s : jsstring) : list jsstring :=
  match s with
  | [] => match match_at r [] with Some _ => [] | None => [[]] end
  | _ :: _ => split_from r s 0 []
  end.

(** Pattern syntax. *)
Definition one (a : ascii) : regex := Class (N.eqb (chr a)).
Definition digit : regex := Class is_digit.
Definition opt (r : regex) : regex := Alt r Eps.

(** [r{n}] and the greedy [r{n,n+m}]. *)
Fixpoint times (n : nat) (r : regex) : regex :=
  match n with
  | O => Eps
  | S n' => Seq r (times n' r)
  end.

Fixpoint upto (m : nat) (r : regex) : regex :=
  match m with
  | O => Eps
  | S m' => opt (Seq r (upto m' r))
  end.

Definition repeat (n m : nat) (r : regex) : regex := Seq (times n r) (upto m r).

(** A literal word under the [i] flag. *)
Definition word_i (w : string) : regex :=
  fold_right (fun a r => Seq (Class (ci_match (chr a))) r) Eps
    (list_ascii_of_string w).

(** [r1|r2|...|rn]. *)
Fixpoint alt (r : regex) (rs : list regex) : regex :=
  match rs with
  | [] => r
  | r' :: rs' => Alt r (alt r' rs')
  end.

Fixpoint seq (rs : list regex) : regex :=
  match rs with
  | [] => Eps
  | [r] => r
  | r :: rs' => Seq r (seq rs')
  end.

End Regex.
Export Regex.

(** ** Numbers read from strings *)

Module Num.

Local Open Scope Z_scope.

Definition digit_value (c : char) : option Z :=
  if is_digit c then Some (Z.of_N c - 48)
  else if (N.leb 97 c && N.leb c 122)%bool then Some (Z.of_N c - 87)
  else if (N.leb 65 c && N.leb c 90)%bool then Some (Z.of_N c - 55)
  else None.

(** The longest prefix of digits of the radix, read as an integer; [acc] is
    [None] until a digit has been read. *)
Fixpoint parse_digits (radix : Z) (s : jsstring) (acc : option Z) : option Z :=
  match s with
  | c :: s' =>
      match digit_value c with
      | Some v =>
          if (v <? radix)%Z
          then parse_digits radix s'
                 (Some (radix * match acc with Some a => a | None => 0 end + v)%Z)
          else acc
      | None => acc
      end
  | [] => acc
  end.

(** [parseInt(s)] with no radix argument; [None] is [NaN]. *)
Definition parseInt (s : jsstring) : option Z :=
  let s1 := trimStart s in
  let '(sign, s2) :=
    match s1 with
    | c :: r => if N.eqb c (chr "-") then ((-1)%Z, r)
                else if N.eqb c (chr "+") then (1%Z, r) else (1%Z, s1)
    | [] => (1%Z, s1)
    end in
  let '(radix, s3) :=
    match s2 with
    | z :: x :: r =>
        if (N.eqb z (chr "0") && (N.eqb x (chr "x") || N.eqb x (chr "X")))%bool
        then (16%Z, r) else (10%Z, s2)
    | _ => (10%Z, s2)
    end in
  option_map (Z.mul sign) (parse_digits radix s3 None).

(** [ToString] of an array element that may be [undefined]. *)
Definition ToString (o : option jsstring) : jsstring :=
  match o with
  | Some s => s
  | None => lit "undefined"
  end.

End Num.
Export Num.

(** ** Exceptions *)

Module Exn.

Inductive error : Type := RangeError | TypeError.

Inductive completion (A : Type) : Type :=
| Normal (a : A)
| Throw (e : error).
Arguments Normal {A} a.
Arguments Throw {A} e.

Definition bind {A B : Type} (c : completion A) (f : A -> completion B)
    : completion B :=
  match c with
  | Normal a => f a
  | Throw e => Throw e
  end.

(** [try { body } catch (error) { handler }]. *)
Definition try_catch {A : Type} (body : completion A)
    (handler : error -> completion A) : completion A :=
  match body with
  | Normal a => Normal a
  | Throw e => handler e
  end.

End Exn.
Export Exn.

Notation "x <- c ;; k" := (bind c (fun x => k))
  (at level 61, c at next level, right associativity).

(** ** The Date object (ECMA-262, section 21.4.1) *)

Module JSDate.

Local Open Scope Z_scope.

(** The host: what ECMA-262 leaves to the implementation and the
    environment. *)
Record Host : Type := {
  (** the time value [new Date()] reads from the clock *)
  now : Z;
  (** [LocalTZA(t, isUTC)]: the offset of local time, in milliseconds *)
  LocalTZA : Z -> bool -> Z;
  (** [Date.parse] on a string that is not a legal ISO calendar date:
      implementation-defined; [None] is [NaN] *)
  parse_other : jsstring -> option Z
}.

Definition msPerDay : Z := 86400000.

Definition Day (t : Z) : Z := t / msPerDay.
Definition TimeWithinDay (t : Z) : Z := t mod msPerDay.

Definition DaysInYear (y : Z) : Z :=
  if negb (y mod 4 =? 0) then 365
  else if negb (y mod 100 =? 0) then 366
  else if negb (y mod 400 =? 0) then 365
  else 366.

Definition DayFromYear (y : Z) : Z :=
  365 * (y - 1970) + (y - 1969) / 4 - (y - 1901) / 100 + (y - 1601) / 400.

Definition TimeFromYear (y : Z) : Z := msPerDay * DayFromYear y.

(** The largest [y] with [TimeFromYear y <= t]: an estimate from the mean
    length of a year, corrected by at most one. *)
Definition YearFromTime (t : Z) : Z :=
  let d := Day t in
  let y := 1970 + (d * 400) / 146097 in
  if d <? DayFromYear y then y - 1
  else if DayFromYear (y + 1) <=? d then y + 1
  else y.

Definition InLeapYear (t : Z) : Z :=
  if DaysInYear (YearFromTime t) =? 366 then 1 else 0.

Definition DayWithinYear (t : Z) : Z := Day t - DayFromYear (YearFromTime t).

Definition MonthFromTime (t : Z) : Z :=
  let d := DayWithinYear t in
  let leap := InLeapYear t in
  if d <? 31 then 0
  else if d <? 59 + leap then 1
  else if d <? 90 + leap then 2
  else if d <? 120 + leap then 3
  else if d <? 151 + leap then 4
  else if d <? 181 + leap then 5
  else if d <? 212 + leap then 6
  else if d <? 243 + leap then 7
  else if d <? 273 + leap then 8
  else if d <? 304 + leap then 9
  else if d <? 334 + leap then 10
  else 11.

Definition DateFromTime (t : Z) : Z :=
  let d := DayWithinYear t in
  let leap := InLeapYear t in
  match MonthFromTime t with
  | 0 => d + 1
  | 1 => d - 30
  | 2 => d - 58 - leap
  | 3 => d - 89 - leap
  | 4 => d - 119 - leap
  | 5 => d - 150 - leap
  | 6 => d - 180 - leap
  | 7 => d - 211 - leap
  | 8 => d - 242 - leap
  | 9 => d - 272 - leap
  | 10 => d - 303 - leap
  | _ => d - 333 - leap
  end.

Definition HourFromTime (t : Z) : Z := (t / 3600000) mod 24.
Definition MinFromTime (t : Z) : Z := (t / 60000) mod 60.
Definition SecFromTime (t : Z) : Z := (t / 1000) mod 60.
Definition msFromTime (t : Z) : Z := t mod 1000.

Definition LocalTime (h : Host) (t : Z) : Z := t + LocalTZA h t true.
Definition UTC (h : Host) (t : Z) : Z := t - LocalTZA h t false.

(** The number of days before month [mn] (0 to 11) in a year. *)
Definition DaysBeforeMonth (leap : Z) (mn : Z) : Z :=
  match mn with
  | 0 => 0
  | 1 => 31
  | 2 => 59 + leap
  | 3 => 90 + leap
  | 4 => 120 + leap
  | 5 => 151 + leap
  | 6 => 181 + leap
  | 7 => 212 + leap
  | 8 => 243 + leap
  | 9 => 273 + leap
  | 10 => 304 + leap
  | _ => 334 + leap
  end.

Definition MakeDay (year month date : Z) : Z :=
  let ym := year + month / 12 in
  let mn := month mod 12 in
  let leap := if DaysInYear ym =? 366 then 1 else 0 in
  DayFromYear ym + DaysBeforeMonth leap mn + date - 1.

Definition MakeDate (day time : Z) : Z := day * msPerDay + time.

Definition TimeClip (t : Z) : option Z :=
  if Z.abs t <=? 8640000000000000 then Some t else None.

(** A Date object is its time value; [None] is an Invalid Date. *)
Definition DateObj : Type := option Z.

(** [new Date()]. *)
Definition Date_now (h : Host) : DateObj := Some (now h).

(** [new Date(year, month, day)]: the fields are read in local time, and a
    year from 0 to 99 stands for 1900 to 1999.  An argument that is [NaN]
    gives an Invalid Date. *)
Definition Date_ymd (h : Host) (year month day : option Z) : DateObj :=
  match year, month, day with
  | Some y, Some m, Some dt =>
      let yr := if (0 <=? y) && (y <=? 99) then 1900 + y else y in
      TimeClip (UTC h (MakeDate (MakeDay yr m dt) 0))
  | _, _, _ => None
  end.

Definition DaysInMonth (y m : Z) : Z :=
  match m with
  | 2 => if DaysInYear y =? 366 then 29 else 28
  | 4 | 6 | 9 | 11 => 30
  | _ => 31
  end.

Definition digits_value (s : jsstring) : option Z :=
  if forallb is_digit s then parse_digits 10 s None else None.

(** The fields [Y-MM-DD] of a calendar date whose year has [ylen] digits and
    the sign [sign]; the legal values only ([-000000] is not one). *)
Definition iso_ymd (ylen : nat) (sign : Z) (s : jsstring) : option Z :=
  match split_char (chr "-") s [] with
  | [ys; ms; ds] =>
      match digits_value ys, digits_value ms, digits_value ds with
      | Some y, Some m, Some d =>
          if ((length ys =? ylen)%nat && (length ms =? 2)%nat
              && (length ds =? 2)%nat
              && negb ((sign <? 0) && (y =? 0))
              && (1 <=? m) && (m <=? 12)
              && (1 <=? d) && (d <=? DaysInMonth (sign * y) m))%bool
          then Some (MakeDate (MakeDay (sign * y) (m - 1) d) 0)
          else None
      | _, _, _ => None
      end
  | _ => None
  end.

(** The calendar dates of the Date Time String Format, [YYYY-MM-DD] and
    [+YYYYYY-MM-DD] or [-YYYYYY-MM-DD], with legal field values: midnight UTC
    of that day.  [None] when [s] is not one of them. *)
Definition parse_iso_date (s : jsstring) : option Z :=
  match s with
  | c :: s' =>
      if N.eqb c (chr "+") then iso_ymd 6 1 s'
      else if N.eqb c (chr "-") then iso_ymd 6 (-1) s'
      else iso_ymd 4 1 s
  | [] => None
  end.

(** [Date.parse]. *)
Definition Date_parse (h : Host) (s : jsstring) : option Z :=
  match parse_iso_date s with
  | Some t => Some t
  | None => parse_other h s
  end.

(** [new Date(s)] for a string [s]. *)
Definition Date_of_string (h : Host) (s : jsstring) : DateObj :=
  match Date_parse h s with
  | Some t => TimeClip t
  | None => None
  end.

Definition getTime (d : DateObj) : option Z := d.

(** [getFullYear()]: the year in local time, [NaN] for an Invalid Date. *)
Definition getFullYear (h : Host) (d : DateObj) : option Z :=
  match d with
  | Some t => Some (YearFromTime (LocalTime h t))
  | None => None
  end.

Definition digit_char (n : Z) : char := Z.to_N (48 + n mod 10).

(** The decimal digits of [n], padded with zeros to [width] places. *)
Fixpoint pad (width : nat) (n : Z) : jsstring :=
  match width with
  | O => []
  | S w => pad w (n / 10) ++ [digit_char n]
  end.

Definition iso_year (y : Z) : jsstring :=
  if (0 <=? y) && (y <=? 9999) then pad 4 y
  else (if y <? 0 then chr "-" else chr "+") :: pad 6 (Z.abs y).

(** The date and the time of [YYYY-MM-DDTHH:mm:ss.sssZ], in UTC; the year
    on six digits with a sign outside 0 to 9999. *)
Definition isoDate (t : Z) : jsstring :=
  iso_year (YearFromTime t) ++ [chr "-"]
  ++ pad 2 (MonthFromTime t + 1) ++ [chr "-"]
  ++ pad 2 (DateFromTime t).

Definition isoTime (t : Z) : jsstring :=
  pad 2 (HourFromTime t) ++ [chr ":"]
  ++ pad 2 (MinFromTime t) ++ [chr ":"]
  ++ pad 2 (SecFromTime t) ++ [chr "."]
  ++ pad 3 (msFromTime t) ++ [chr "Z"].

(** [toISOString()]; a [RangeError] for an Invalid Date. *)
Definition toISOString (d : DateObj) : completion jsstring :=
  match d with
  | None => Throw RangeError
  | Some t => Normal (isoDate t ++ chr "T" :: isoTime t)
  end.

End JSDate.
Export JSDate.

(** ** Numbers of the consistency check

    The arithmetic of [analyzeDateConsistency] on time values: [NaN], the
    infinities and the finite numbers, the latter as exact rationals.  The one
    comparison made, [(maxDate - minDate) / 86400000 <= 30], has the same
    outcome on doubles: the difference of two time values is an integer that
    rounding leaves on its side of 2592000000, and the quotient of an integer
    above 2592000000 by 86400000 exceeds 30 by more than the spacing of the
    doubles around 30. *)

Module Number.

Inductive number : Type :=
| NaN
| PosInf
| NegInf
| Fin (q : Q).

Definition of_time (t : option Z) : number :=
  match t with
  | Some z => Fin (inject_Z z)
  | None => NaN
  end.

Definition min2 (x y : number) : number :=
  match x, y with
  | NaN, _ | _, NaN => NaN
  | NegInf, _ | _, NegInf => NegInf
  | PosInf, z | z, PosInf => z
  | Fin a, Fin b => if Qle_bool a b then Fin a else Fin b
  end.

Definition max2 (x y : number) : number :=
  match x, y with
  | NaN, _ | _, NaN => NaN
  | PosInf, _ | _, PosInf => PosInf
  | NegInf, z | z, NegInf => z
  | Fin a, Fin b => if Qle_bool a b then Fin b else Fin a
  end.

(** [Math.min(...xs)] and [Math.max(...xs)]. *)
Definition Math_min (xs : list number) : number := fold_left min2 xs PosInf.
Definition Math_max (xs : list number) : number := fold_left max2 xs NegInf.

Definition sub (x y : number) : number :=
  match x, y with
  | NaN, _ | _, NaN => NaN
  | PosInf, PosInf | NegInf, NegInf => NaN
  | PosInf, _ | _, NegInf => PosInf
  | NegInf, _ | _, PosInf => NegInf
  | Fin a, Fin b => Fin (a - b)
  end.

(** Division by a positive finite constant. *)
Definition div_pos (x : number) (c : Q) : number :=
  match x with
  | Fin a => Fin (a / c)
  | other => other
  end.

Definition leb (x y : number) : bool :=
  match x, y with
  | NaN, _ | _, NaN => false
  | NegInf, _ | _, PosInf => true
  | PosInf, _ | _, NegInf => false
  | Fin a, Fin b => Qle_bool a b
  end.

End Number.

(** ** The service *)

Module StampSignatureService.

Record DateInformation : Type := {
  Date : option jsstring;
  Format : option jsstring;
  Confidence : float;
  ExtractedFromText : option jsstring
}.

Inductive DateConsistency : Type := Consistent | Inconsistent | Unknown.

(** Pieces of the patterns: [\d{1,2}], [\d{4}], [\d{2}], [[\/\-\.]], [\s+]
    and the alternations of month names. *)
Definition d12 : regex := repeat 1 1 digit.
Definition d4 : regex := times 4 digit.
Definition d2 : regex := times 2 digit.
Definition is_sep (c : char) : bool :=
  N.eqb c (chr "/") || N.eqb c (chr "-") || N.eqb c (chr ".").
Definition sep : regex := Class is_sep.
Definition ws : regex := Plus is_space.

Definition month_abbreviations : list string :=
  ["Jan"; "Feb"; "Mar"; "Apr"; "May"; "Jun";
   "Jul"; "Aug"; "Sep"; "Oct"; "Nov"; "Dec"]%string.

Definition month_names : list string :=
  ["January"; "February"; "March"; "April"; "May"; "June"; "July"; "August";
   "September"; "October"; "November"; "December"]%string.

Definition words_i (ws : list string) : regex :=
  match map word_i ws with
  | [] => Class (fun _ => false)
  | r :: rs => alt r rs
  end.

(** [(Jan|Feb|...|Dec)], [(January|...|December)] and
    [(Jan|...|Dec|January|...|December)], under the [i] flag. *)
Definition MMM : regex := words_i month_abbreviations.
Definition MMMM : regex := words_i month_names.
Definition MONTH : regex := words_i (month_abbreviations ++ month_names).

(** The ordered pattern table (all with the [g] flag). *)
Definition DATE_PATTERNS : list regex :=
  [ (* DD/MM/YYYY, DD-MM-YYYY, DD.MM.YYYY *)
    seq [d12; sep; d12; sep; d4];
    (* MM/DD/YYYY, MM-DD-YYYY, MM.DD.YYYY *)
    seq [d12; sep; d12; sep; d4];
    (* YYYY-MM-DD, YYYY/MM/DD, YYYY.MM.DD *)
    seq [d4; sep; d12; sep; d12];
    (* DD MMM YYYY, DD MMMM YYYY *)
    seq [d12; ws; MONTH; ws; d4];
    (* MMM DD, YYYY *)
    seq [MONTH; ws; d12; opt (one ","); ws; d4];
    (* DD/MM/YY, DD-MM-YY *)
    seq [d12; sep; d12; sep; d2];
    (* Ordinal dates: 1st, 2nd, 3rd, 4th, etc. *)
    seq [d12; words_i ["st"; "nd"; "rd"; "th"]%string; ws; MONTH; ws; d4] ].

(** The strict pattern of each format tag, in the order of the object's
    keys. *)
Definition DATE_FORMAT_MAP : list (jsstring * regex) :=
  [ (lit "DD/MM/YYYY", seq [d12; one "/"; d12; one "/"; d4]);
    (lit "DD-MM-YYYY", seq [d12; one "-"; d12; one "-"; d4]);
    (lit "DD.MM.YYYY", seq [d12; one "."; d12; one "."; d4]);
    (lit "YYYY-MM-DD", seq [d4; one "-"; d12; one "-"; d12]);
    (lit "DD MMM YYYY", seq [d12; ws; MMM]);
    (lit "DD MMMM YYYY", seq [d12; ws; MMMM]);
    (lit "MMM DD, YYYY", seq [MMM; ws; d12; opt (one ","); ws; d4]) ].

(** What reading a property of [monthMap] gives: [undefined], an own entry,
    or a member inherited from [Object.prototype] (not a number). *)
Inductive property : Type :=
| Undefined
| Own (n : Z)
| Inherited.

Definition monthMap_entries : list (string * Z) :=
  [ ("Jan", 0); ("January", 0); ("Feb", 1); ("February", 1); ("Mar", 2);
    ("March", 2); ("Apr", 3); ("April", 3); ("May", 4); ("Jun", 5);
    ("June", 5); ("Jul", 6); ("July", 6); ("Aug", 7); ("August", 7);
    ("Sep", 8); ("September", 8); ("Oct", 9); ("October", 9); ("Nov", 10);
    ("November", 10); ("Dec", 11); ("December", 11) ]%string%Z.

Definition Object_prototype_keys : list string :=
  [ "constructor"; "hasOwnProperty"; "isPrototypeOf"; "propertyIsEnumerable";
    "toLocaleString"; "toString"; "valueOf"; "__proto__";
    "__defineGetter__"; "__defineSetter__"; "__lookupGetter__";
    "__lookupSetter__" ]%string.

Definition monthMap (key : jsstring) : property :=
  match find (fun e => Str.eqb (lit (fst e)) key) monthMap_entries with
  | Some e => Own (snd e)
  | None =>
      if existsb (fun k => Str.eqb (lit k) key) Object_prototype_keys
      then Inherited else Undefined
  end.

(** [ToNumber] of a property of [monthMap] that is not [undefined]. *)
Definition ToNumber (p : property) : option Z :=
  match p with
  | Own n => Some n
  | _ => None
  end.

(** [parts[i]] converted to a string, as [parseInt] and a property access
    do. *)
Definition part (parts : list jsstring) (i : nat) : jsstring :=
  ToString (nth_error parts i).

(** Parse date based on format: [null] is [None].  No operation of its
    [try] block throws, so its [catch] is not represented. *)
Definition parseDate (h : Host) (dateString format : jsstring)
    : option DateObj :=
  if includes format (lit "MMM") || includes format (lit "MMMM") then
    let parts :=
      split (Plus (fun c => is_space c || N.eqb c (chr ","))) dateString in
    let '(day, month, year) :=
      if startsWith format (lit "DD")
      then (parseInt (part parts 0), monthMap (part parts 1),
            parseInt (part parts 2))
      else (parseInt (part parts 1), monthMap (part parts 0),
            parseInt (part parts 2)) in
    match month, day, year with
    | Undefined, _, _ => None
    | _, None, _ => None
    | _, _, None => None
    | _, Some _, Some _ => Some (Date_ymd h year (ToNumber month) day)
    end
  else
    let parts := split (Class is_sep) dateString in
    let '(day, month, year) :=
      if startsWith format (lit "YYYY")
      then (parseInt (part parts 2),
            option_map (fun m => m - 1)%Z (parseInt (part parts 1)),
            parseInt (part parts 0))
      else
        let year := parseInt (part parts 2) in
        (* Handle 2-digit years *)
        let year :=
          match year with
          | Some y =>
              if (y <? 100)%Z
              then Some (y + (if (y <? 50)%Z then 2000 else 1900))%Z
              else Some y
          | None => None
          end in
        (parseInt (part parts 0),
         option_map (fun m => m - 1)%Z (parseInt (part parts 1)),
         year) in
    match day, month, year with
    | Some _, Some _, Some _ => Some (Date_ymd h year month day)
    | _, _, _ => None
    end.

(** [Math.max] and [Math.min] of two numbers. *)
Definition Math_max (x y : float) : float :=
  if PrimFloat.is_nan x || PrimFloat.is_nan y then PrimFloat.nan
  else if PrimFloat.ltb x y then y
  else if PrimFloat.ltb y x then x
  else if PrimFloat.get_sign x then y else x.

Definition Math_min (x y : float) : float :=
  if PrimFloat.is_nan x || PrimFloat.is_nan y then PrimFloat.nan
  else if PrimFloat.ltb x y then x
  else if PrimFloat.ltb y x then y
  else if PrimFloat.get_sign x then x else y.

(** [Math.abs(a - b) > bound] on years; a [NaN] operand gives [false]. *)
Definition yearDiff (a b : option Z) : option Z :=
  match a, b with
  | Some x, Some y => Some (Z.abs (x - y))
  | _, _ => None
  end.

Definition exceeds (d : option Z) (bound : Z) : bool :=
  match d with
  | Some x => (bound <? x)%Z
  | None => false
  end.

(** Calculate confidence score for date extraction. *)
Definition calculateDateConfidence (h : Host) (dateString : jsstring)
    (parsedDate : DateObj) : float :=
  let confidence := 0.8%float in
  (* Check if date is reasonable (not too far in past or future) *)
  let now := Date_now h in
  let yearDiff := yearDiff (getFullYear h now) (getFullYear h parsedDate) in
  let confidence :=
    if exceeds yearDiff 50 then (confidence - 0.3)%float else confidence in
  let confidence :=
    if exceeds yearDiff 100 then (confidence - 0.4)%float else confidence in
  (* Check for clear date format *)
  let confidence :=
    if includes dateString (lit "/") || includes dateString (lit "-")
    then (confidence + 0.1)%float else confidence in
  let confidence :=
    if test d4 dateString then (confidence + 0.1)%float else confidence in
  (* Check for month names *)
  let confidence :=
    if test MMM dateString then (confidence + 0.1)%float else confidence in
  Math_min (Math_max confidence 0%float) 1%float.

(** The loop over [Object.entries(DATE_FORMAT_MAP)] of
    [parseAndValidateDate]: [Normal None] when no entry returned. *)
Fixpoint tryFormats (h : Host) (dateString : jsstring)
    (formats : list (jsstring * regex))
    : completion (option DateInformation) :=
  match formats with
  | [] => Normal None
  | (format, pattern) :: rest =>
      if test pattern dateString then
        match parseDate h dateString format with
        | Some parsedDate =>
            iso <- toISOString parsedDate ;;
            Normal (Some {| Date := nth_error (split_char (chr "T") iso []) 0;
                            Format := Some format;
                            Confidence :=
                              calculateDateConfidence h dateString parsedDate;
                            ExtractedFromText := Some dateString |})
        | None => tryFormats h dateString rest
        end
      else tryFormats h dateString rest
  end.

(** Parse and validate extracted date. *)
Definition parseAndValidateDate (h : Host) (dateString : jsstring)
    : completion (option DateInformation) :=
  match dateString with
  | [] => Normal None
  | _ :: _ =>
      try_catch
        (found <- tryFormats h dateString DATE_FORMAT_MAP ;;
         match found with
         | Some dateInfo => Normal (Some dateInfo)
         | None =>
             (* Fallback: try to parse with JavaScript Date *)
             let fallbackDate := Date_of_string h dateString in
             match getTime fallbackDate with
             | Some _ =>
                 iso <- toISOString fallbackDate ;;
                 Normal (Some {| Date := nth_error (split_char (chr "T") iso []) 0;
                                 Format := Some (lit "Auto-detected");
                                 Confidence := 0.6%float;
                                 ExtractedFromText := Some dateString |})
             | None => Normal None
             end
         end)
        (fun error => Normal None)
  end.

(** The variables [bestMatch] and [highestConfidence] of
    [extractDateFromText]. *)
Record Best : Type := {
  bestMatch : option DateInformation;
  highestConfidence : float
}.

(** The object [{ ...dateInfo, ExtractedFromText: fullMatch }]. *)
Definition withExtractedFromText (dateInfo : DateInformation)
    (fullMatch : jsstring) : DateInformation :=
  {| Date := Date dateInfo;
     Format := Format dateInfo;
     Confidence := Confidence dateInfo;
     ExtractedFromText := Some fullMatch |}.

(** The body of the inner loop, after [parseAndValidateDate]. *)
Definition keepBest (st : Best) (fullMatch : jsstring)
    (dateInfo : option DateInformation) : Best :=
  match dateInfo with
  | Some di =>
      if PrimFloat.ltb (highestConfidence st) (Confidence di) then
        {| bestMatch := Some (withExtractedFromText di fullMatch);
           highestConfidence := Confidence di |}
      else st
  | None => st
  end.

Fixpoint forMatches (h : Host) (matches : list jsstring) (st : Best)
    : completion Best :=
  match matches with
  | [] => Normal st
  | fullMatch :: rest =>
      dateInfo <- parseAndValidateDate h fullMatch ;;
      forMatches h rest (keepBest st fullMatch dateInfo)
  end.

Fixpoint forPatterns (h : Host) (cleanText : jsstring) (patterns : list regex)
    (st : Best) : completion Best :=
  match patterns with
  | [] => Normal st
  | pattern :: rest =>
      st' <- forMatches h (matchAll pattern cleanText) st ;;
      forPatterns h cleanText rest st'
  end.

(** Extract date information from text. *)
Definition extractDateFromText (h : Host) (text : jsstring)
    : completion (option DateInformation) :=
  match text with
  | [] => Normal None
  | _ :: _ =>
      let cleanText := trim text in
      st <- forPatterns h cleanText DATE_PATTERNS
              {| bestMatch := None; highestConfidence := 0%float |} ;;
      Normal (bestMatch st)
  end.

(** The filter [d => d && d.Date]: an entry that is not [null] and whose
    [Date] is neither [null] nor the empty string. *)
Definition hasDate (d : option DateInformation) : bool :=
  match d with
  | Some di => match Date di with Some (_ :: _) => true | _ => false end
  | None => false
  end.

(** [new Date(d.Date).getTime()] of an entry the filter kept: it is not
    null and its date is a string (the other cases are not reached). *)
Definition dateValue (h : Host) (d : option DateInformation) : Number.number :=
  match d with
  | Some di => Number.of_time (getTime (Date_of_string h (ToString (Date di))))
  | None => Number.NaN
  end.

(** Analyze date consistency across stamp, signature, and document. *)
Definition analyzeDateConsistency (h : Host)
    (stampDate signatureDate documentDate : option DateInformation)
    : DateConsistency :=
  let dates := filter hasDate [stampDate; signatureDate; documentDate] in
  if (length dates <? 2)%nat then Unknown
  else
    let dateValues := map (dateValue h) dates in
    let minDate := Number.Math_min dateValues in
    let maxDate := Number.Math_max dateValues in
    (* Consider dates consistent if they're within 30 days of each other *)
    let daysDiff :=
      Number.div_pos (Number.sub maxDate minDate)
        (inject_Z (1000 * 60 * 60 * 24)) in
    if Number.leb daysDiff (Number.Fin (inject_Z 30)) then Consistent
    else Inconsistent.

End StampSignatureService.
Export StampSignatureService.

(** ** Definitions used to state the properties *)

Module Props.

(** The candidates of a text: every match of every pattern, in the order of
    the pattern table and, for one pattern, from left to right. *)
Definition candidates (text : jsstring) : list jsstring :=
  flat_map (fun pattern => matchAll pattern (trim text)) DATE_PATTERNS.

(** The outcome of [parseAndValidateDate] on a candidate, an exception read
    as a rejection. *)
Definition parsed (h : Host) (candidate : jsstring) : option DateInformation :=
  match parseAndValidateDate h candidate with
  | Normal r => r
  | Throw _ => None
  end.

(** The local calendar year the clock of the host shows. *)
Definition currentYear (h : Host) : Z := YearFromTime (LocalTime h (now h)).

(** The score as a function of the five conditions it tests. *)
Definition score (over50 over100 separator fourDigits monthName : bool)
    : float :=
  let confidence := 0.8%float in
  let confidence := if over50 then (confidence - 0.3)%float else confidence in
  let confidence := if over100 then (confidence - 0.4)%float else confidence in
  let confidence := if separator then (confidence + 0.1)%float else confidence in
  let confidence := if fourDigits then (confidence + 0.1)%float else confidence in
  let confidence := if monthName then (confidence + 0.1)%float else confidence in
  Math_min (Math_max confidence 0%float) 1%float.

Definition booleans : list bool := [false; true].

(** Every value a confidence can take: the fallback's 0.6 and the scores. *)
Definition confidences : list float :=
  0.6%float ::
  flat_map (fun a => flat_map (fun b => flat_map (fun c => flat_map (fun d =>
    map (fun e => score a b c d e) booleans) booleans) booleans) booleans)
    booleans.

Definition within01 (x : float) : Prop :=
  PrimFloat.leb 0%float x = true /\ PrimFloat.leb x 1%float = true.

(** *** The score in the words of the specification *)

Definition clamp01 (x : float) : float :=
  if PrimFloat.ltb x 0%float then 0%float
  else if PrimFloat.ltb 1%float x then 1%float
  else x.

Definition when (condition : bool) (amount : float) : float :=
  if condition then amount else 0%float.

(** [w] occurs in [s] with the case of its letters ignored. *)
Fixpoint prefix_i (w s : jsstring) : bool :=
  match w, s with
  | [], _ => true
  | p :: w', c :: s' => ci_match p c && prefix_i w' s'
  | _ :: _, [] => false
  end.

Fixpoint contains_i (s w : jsstring) : bool :=
  prefix_i w s || match s with [] => false | _ :: s' => contains_i s' w end.

Definition containsMonthName (s : jsstring) : bool :=
  existsb (fun w => contains_i s (lit w)) (month_abbreviations ++ month_names).

(** Four digits in a row somewhere in [s]. *)
Fixpoint containsFourDigits (s : jsstring) : bool :=
  match s with
  | a :: ((b :: c :: d :: _) as s') =>
      (is_digit a && is_digit b && is_digit c && is_digit d)
      || containsFourDigits s'
  | _ => false
  end.

Definition containsChar (s : jsstring) (a : ascii) : bool :=
  existsb (N.eqb (chr a)) s.

(** Base 0.8, the age penalties, the three bonuses, clamped to [0, 1]. *)
Definition confidence_spec (currentYear parsedYear : option Z)
    (matched : jsstring) : float :=
  let age := yearDiff currentYear parsedYear in
  clamp01
    (0.8 - when (exceeds age 50) 0.3 - when (exceeds age 100) 0.4
     + when (containsChar matched "/" || containsChar matched "-") 0.1
     + when (containsFourDigits matched) 0.1
     + when (containsMonthName matched) 0.1)%float.

(** The same score in exact arithmetic, and the exact value of a double. *)
Definition whenQ (condition : bool) (amount : Q) : Q :=
  if condition then amount else 0%Q.

Definition clampQ (q : Q) : Q :=
  if Qle_bool q 0 then 0%Q else if Qle_bool 1 q then 1%Q else q.

Definition score_exact (over50 over100 separator fourDigits monthName : bool)
    : Q :=
  clampQ ((8 # 10) - whenQ over50 (3 # 10) - whenQ over100 (4 # 10)
          + whenQ separator (1 # 10) + whenQ fourDigits (1 # 10)
          + whenQ monthName (1 # 10))%Q.

Definition confidence_exact (currentYear parsedYear : option Z)
    (matched : jsstring) : Q :=
  let age := yearDiff currentYear parsedYear in
  score_exact (exceeds age 50) (exceeds age 100)
    (containsChar matched "/" || containsChar matched "-")
    (containsFourDigits matched) (containsMonthName matched).

Definition float_value (x : float) : option Q :=
  match Prim2SF x with
  | S754_zero _ => Some 0%Q
  | S754_finite negative m e =>
      Some (inject_Z (if negative then Z.neg m else Z.pos m) * Qpower 2 e)%Q
  | _ => None
  end.

(** [x] is the real number [q] up to the rounding of doubles: they differ by
    at most 10^-15. *)
Definition close_to (x : float) (q : Q) : bool :=
  match float_value x with
  | Some v => Qle_bool (Qabs (v - q)) (1 # 1000000000000000)
  | None => false
  end.

(** *** The consistency check in the words of the specification *)

(** The time values of the present dates, [None] when one of them is not a
    date the host can read. *)
Fixpoint timesOf (h : Host) (dates : list (option DateInformation))
    : option (list Z) :=
  match dates with
  | [] => Some []
  | d :: rest =>
      match d, timesOf h rest with
      | Some di, Some ts =>
          match Date_of_string h (ToString (Date di)) with
          | Some t => Some (t :: ts)
          | None => None
          end
      | _, _ => None
      end
  end.

Definition maximum (t : Z) (ts : list Z) : Z := fold_right Z.max t ts.
Definition minimum (t : Z) (ts : list Z) : Z := fold_right Z.min t ts.

(** The span from the earliest to the latest date is at most 30 days. *)
Definition within30Days (ts : list Z) : bool :=
  match ts with
  | [] => true
  | t :: rest => (maximum t rest - minimum t rest <=? 30 * msPerDay)%Z
  end.

Definition consistency_spec (h : Host)
    (a b c : option DateInformation) : DateConsistency :=
  let present := filter hasDate [a; b; c] in
  if (length present <? 2)%nat then Unknown
  else
    match timesOf h present with
    | Some ts => if within30Days ts then Consistent else Inconsistent
    | None => Inconsistent
    end.

(** The date an entry carries: absent when the entry is absent or its date
    is. *)
Definition dateOf (d : option DateInformation) : option jsstring :=
  match d with
  | Some di => Date di
  | None => None
  end.

(** An entry with a present date, in the words of the specification: it
    carries a date, and that date is not the empty string, which is the date
    of no day. *)
Definition presentDate (d : option DateInformation) : bool :=
  match dateOf d with
  | Some s => negb (Str.eqb s [])
  | None => false
  end.

(** An entry whose date is not absent, and one whose date is the empty
    string. *)
Definition givenDate (d : option DateInformation) : bool :=
  match dateOf d with
  | Some _ => true
  | None => false
  end.

Definition emptyDate (d : option DateInformation) : bool :=
  match dateOf d with
  | Some s => Str.eqb s []
  | None => false
  end.

(** The entry with an empty date taken for an absent one. *)
Definition absentIfEmpty (d : option DateInformation)
    : option DateInformation :=
  if emptyDate d then None else d.

(** The three cases of the specification: fewer than two present dates,
    a span from the earliest to the latest of at most 30 days, and the
    rest. *)
Definition consistency_cases (h : Host)
    (a b c : option DateInformation) : DateConsistency :=
  let present := filter presentDate [a; b; c] in
  if (length present <? 2)%nat then Unknown
  else
    match timesOf h present with
    | Some (t :: ts) =>
        if (maximum t ts - minimum t ts <=? 30 * msPerDay)%Z then Consistent
        else Inconsistent
    | _ => Inconsistent
    end.

(** An entry with the empty string for its date. *)
Definition undated : option DateInformation :=
  Some {| Date := Some []; Format := None; Confidence := 0%float;
          ExtractedFromText := None |}.

(** *** Shapes of a date string *)

Definition is_dash (c : char) : bool := N.eqb c (chr "-").

(** [YYYY-MM-DD]. *)
Definition isYYYYMMDD (s : jsstring) : bool :=
  match s with
  | [y1; y2; y3; y4; a; m1; m2; b; d1; d2] =>
      forallb is_digit [y1; y2; y3; y4; m1; m2; d1; d2] && is_dash a && is_dash b
  | _ => false
  end.

(** The expanded year of ISO 8601: a sign and six digits, then [-MM-DD]. *)
Definition isExpandedDate (s : jsstring) : bool :=
  match s with
  | [sg; y1; y2; y3; y4; y5; y6; a; m1; m2; b; d1; d2] =>
      (N.eqb sg (chr "+") || N.eqb sg (chr "-"))
      && forallb is_digit [y1; y2; y3; y4; y5; y6; m1; m2; d1; d2]
      && is_dash a && is_dash b
  | _ => false
  end.

(** *** The words a pattern matches *)

(** [matches r w]: the pattern [r] matches the whole of [w]. *)
Fixpoint matches (r : regex) (w : jsstring) : Prop :=
  match r with
  | Eps => w = []
  | Class p => exists c, w = [c] /\ p c = true
  | Seq r1 r2 => exists w1 w2, w = w1 ++ w2 /\ matches r1 w1 /\ matches r2 w2
  | Alt r1 r2 => matches r1 w \/ matches r2 w
  | Plus p => w <> [] /\ forallb p w = true
  end.

(** Every digit replaced by [0]: the patterns do not tell digits apart. *)
Definition canon (c : char) : char := if is_digit c then chr "0" else c.

(** The classes of [r] do not tell a character from its canonical form. *)
Fixpoint invariant (r : regex) : Prop :=
  match r with
  | Eps => True
  | Class p | Plus p => forall c, p (canon c) = p c
  | Seq r1 r2 | Alt r1 r2 => invariant r1 /\ invariant r2
  end.

(** The pattern of the table for two-digit years, [DD/MM/YY]. *)
Definition twoDigitYearPattern : regex := seq [d12; sep; d12; sep; d2].

(** The canonical forms of the strings [twoDigitYearPattern] matches: one
    or two digits, a separator, one or two digits, a separator, two
    digits. *)
Definition twoDigitYearShapes : list jsstring :=
  let digits := [lit "0"; lit "00"] in
  let separators := [chr "/"; chr "-"; chr "."] in
  flat_map (fun d => flat_map (fun s1 => flat_map (fun m => map (fun s2 =>
    d ++ s1 :: m ++ s2 :: lit "00") separators) digits) separators) digits.

(** *** The selection in the words of the specification *)

(** [result] is the first candidate of [cs] with the highest score: absent
    when no candidate parses; otherwise the parse of a candidate [c], carrying
    [c] as extracted text, that no parsed candidate beats and that every
    parsed candidate before it is strictly below. *)
Definition isFirstBest (h : Host) (cs : list jsstring)
    (result : option DateInformation) : Prop :=
  match result with
  | None => forall c, In c cs -> parsed h c = None
  | Some r =>
      exists (i : nat) (c : jsstring) (d : DateInformation),
        nth_error cs i = Some c /\ parsed h c = Some d /\
        r = withExtractedFromText d c /\
        forall (j : nat) (c' : jsstring) (d' : DateInformation),
          nth_error cs j = Some c' -> parsed h c' = Some d' ->
          PrimFloat.leb (Confidence d') (Confidence r) = true /\
          ((j < i)%nat ->
           PrimFloat.ltb (Confidence d') (Confidence r) = true)
  end.

(** The comparisons of the loop on the values a confidence can take: each is
    positive and at most 1, and on them [<] and [<=] are a total order. *)
Definition order_check : bool :=
  forallb (fun a =>
    PrimFloat.ltb 0%float a && PrimFloat.leb 0%float a
    && PrimFloat.leb a 1%float && PrimFloat.leb a a
    && forallb (fun b =>
         (PrimFloat.ltb a b || PrimFloat.leb b a)
         && implb (PrimFloat.ltb a b) (PrimFloat.leb a b)
         && implb (PrimFloat.ltb a b) (negb (PrimFloat.leb b a))
         && forallb (fun c =>
              implb (PrimFloat.ltb a b && PrimFloat.leb c a)
                    (PrimFloat.ltb c b))
              confidences)
         confidences)
    confidences.

End Props.
Export Props.

(** ** Hosts used in the examples *)

(** 22 March 2024, 12:00 UTC, and 1 January 2100, 12:00 UTC. *)
Definition noon_22_march_2024 : Z := 1711108800000.
Definition noon_1_january_2100 : Z := 4102488000000.

(** A parser that reads the ISO calendar dates only and gives an Invalid
    Date for every other string. *)
Definition reject_other : jsstring -> option Z := fun _ => None.

(** A host on UTC. *)
Definition host_utc : Host :=
  {| now := noon_22_march_2024;
     LocalTZA := fun _ _ => 0%Z;
     parse_other := reject_other |}.

(** The same host a day later, and in the year 2100. *)
Definition host_utc_next_day : Host :=
  {| now := (noon_22_march_2024 + msPerDay)%Z;
     LocalTZA := fun _ _ => 0%Z;
     parse_other := reject_other |}.

Definition host_utc_2100 : Host :=
  {| now := noon_1_january_2100;
     LocalTZA := fun _ _ => 0%Z;
     parse_other := reject_other |}.

(** A host on Indian Standard Time, UTC+05:30. *)
Definition host_ist : Host :=
  {| now := noon_22_march_2024;
     LocalTZA := fun _ _ => 19800000%Z;
     parse_other := reject_other |}.

(** A host on UTC whose parser reads one more string, the way V8 reads it:
    [March 18, 2024] is midnight of that day in local time. *)
Definition host_legacy : Host :=
  {| now := noon_22_march_2024;
     LocalTZA := fun _ _ => 0%Z;
     parse_other := fun s =>
       if Str.eqb s (lit "March 18, 2024") then Some 1710720000000%Z
       else None |}.

(** An entry of the consistency check with the given date. *)
Definition dated (date : string) : option DateInformation :=
  Some {| Date := Some (lit date); Format := Some (lit "YYYY-MM-DD");
          Confidence := 1%float; ExtractedFromText := Some (lit date) |}.


(** ** The inference service ([src/services/huggingFaceService.ts]) *)

Module HuggingFaceService.

Definition is_letter (c : char) : bool :=
  (N.leb 97 c && N.leb c 122) || (N.leb 65 c && N.leb c 90).

Definition is_punctuation (c : char) : bool :=
  existsb (N.eqb c)
    [chr "."; chr ","; chr ";"; chr ":"; chr "!"; chr "?"].

(** [calculateConfidence(text)]: the patterns are [\d], [[a-zA-Z]] and
    [[.,;:!?]]; [text.length] counts code units. *)
Definition calculateConfidence (text : jsstring) : float :=
  match text with
  | [] => 0%float
  | _ :: _ =>
      let confidence := 0.7%float in
      let confidence :=
        if (100 <? length text)%nat then (confidence + 0.1)%float
        else confidence in
      let confidence :=
        if (500 <? length text)%nat then (confidence + 0.1)%float
        else confidence in
      let confidence :=
        if (length text <? 20)%nat then (confidence - 0.2)%float
        else confidence in
      let hasNumbers := test (Class is_digit) text in
      let hasLetters := test (Class is_letter) text in
      let hasPunctuation := test (Class is_punctuation) text in
      let confidence :=
        if hasNumbers && hasLetters then (confidence + 0.05)%float
        else confidence in
      let confidence :=
        if hasPunctuation then (confidence + 0.05)%float else confidence in
      Math_min (Math_max confidence 0%float) 1%float
  end.

(** The fields [apiKey] and [model] of the service object. *)
Record Service : Type := {
  apiKey : jsstring;
  model : jsstring
}.

(** [value || fallback] for a value that is a string or [undefined]. *)
Definition orElse (value : option jsstring) (fallback : jsstring) : jsstring :=
  match value with
  | Some (c :: s) => c :: s
  | _ => fallback
  end.

(** The constructor, from the two environment variables. *)
Definition construct (VITE_HUGGINGFACE_API_KEY VITE_HUGGINGFACE_MODEL
                      : option jsstring) : Service :=
  {| apiKey := orElse VITE_HUGGINGFACE_API_KEY [];
     model := orElse VITE_HUGGINGFACE_MODEL (lit "google/gemma-3-12b-it") |}.

Record ModelInfo : Type := {
  info_model : jsstring;
  info_apiKey : jsstring
}.

(** [getModelInfo()]; [substring(0, 10)] is the first ten code units. *)
Definition getModelInfo (this : Service) : ModelInfo :=
  {| info_model := model this;
     info_apiKey :=
       match apiKey this with
       | [] => lit "Not configured"
       | _ :: _ => firstn 10 (apiKey this) ++ lit "..."
       end |}.

(** The [onload] handler of [fileToBase64]: [result.split(',')[1]], what
    the promise resolves with ([None] is [undefined]). *)
Definition base64OfDataURL (result : jsstring) : option jsstring :=
  nth_error (split_char (chr ",") result []) 1.

(** The score as a function of the conditions it tests, and the same in
    exact arithmetic. *)
Definition hfScore (over100 over500 under20 alphanumeric punctuated : bool)
    : float :=
  clamp01 (0.7 + when over100 0.1 + when over500 0.1 - when under20 0.2
           + when alphanumeric 0.05 + when punctuated 0.05)%float.

Definition hfScore_exact
    (over100 over500 under20 alphanumeric punctuated : bool) : Q :=
  clampQ ((7 # 10) + whenQ over100 (1 # 10) + whenQ over500 (1 # 10)
          - whenQ under20 (2 # 10) + whenQ alphanumeric (5 # 100)
          + whenQ punctuated (5 # 100))%Q.

End HuggingFaceService.

(** ** Definitions used to state further properties *)

(** A host on UTC whose parser reads [05/03/19] the way V8 reads it, month
    first and in the current century: 3 May 2019. *)
Definition host_month_first : Host :=
  {| now := noon_22_march_2024;
     LocalTZA := fun _ _ => 0%Z;
     parse_other := fun s =>
       if Str.eqb s (lit "05/03/19") then Some 1556841600000%Z
       else None |}.

(** The day a leap year adds to the months after February. *)
Definition leapDay (y : Z) : Z := if (DaysInYear y =? 366)%Z then 1%Z else 0%Z.

(** The places of the matches [matchAll] returns: the offset in the text and
    the length of each. *)
Fixpoint spans_from (r : regex) (s : jsstring) (skip pos : nat)
    : list (nat * nat) :=
  match s with
  | [] =>
      match skip with
      | O => match match_at r [] with Some _ => [(pos, O)] | None => [] end
      | S _ => []
      end
  | c :: s' =>
      match skip with
      | S n => spans_from r s' n (S pos)
      | O =>
          match match_at r s with
          | Some rest =>
              let len := (length s - length rest)%nat in
              (pos, len) :: spans_from r s' (len - 1) (S pos)
          | None => spans_from r s' 0 (S pos)
          end
      end
  end.

Definition slice (s : jsstring) (span : nat * nat) : jsstring :=
  firstn (snd span) (skipn (fst span) s).

(** The classes of [r] do not tell a character [c] from [f c]. *)
Fixpoint invariant_under (f : char -> char) (r : regex) : Prop :=
  match r with
  | Eps => True
  | Class p | Plus p => forall c, p (f c) = p c
  | Seq r1 r2 | Alt r1 r2 => invariant_under f r1 /\ invariant_under f r2
  end.

(** The canonical form of a character for the patterns: digits become [0]
    and letters upper case. *)
Definition canonCase (c : char) : char := toUpperASCII (canon c).

Definition letters_only (w : string) : bool :=
  forallb (fun a => negb (is_digit (toUpperASCII (chr a))))
    (list_ascii_of_string w).

(** An ASCII letter. *)
Definition is_alpha (c : char) : bool :=
  (N.leb 65 c && N.leb c 90) || (N.leb 97 c && N.leb c 122).

(** [v] is [w] up to the case of its letters. *)
Definition sameLetters (v w : jsstring) : Prop :=
  map toUpperASCII v = map toUpperASCII w.

(** One or two digits; four digits. *)
Definition digits12 (s : jsstring) : bool :=
  forallb is_digit s && ((length s =? 1)%nat || (length s =? 2)%nat).
Definition digits4 (s : jsstring) : bool :=
  forallb is_digit s && (length s =? 4)%nat.

(** A date written day first, and the format tag of its separator. *)
Definition dayFirst (ds ms ys : jsstring) (sp : char) : jsstring :=
  ds ++ sp :: ms ++ sp :: ys.
Definition dayFirstTag (sp : char) : jsstring :=
  lit "DD" ++ sp :: lit "MM" ++ sp :: lit "YYYY".

(** The year [parseDate] makes of the year field of a day-first format. *)
Definition expandYear (y : Z) : Z :=
  if (y <? 50)%Z then (2000 + y)%Z
  else if (y <? 100)%Z then (1900 + y)%Z else y.

(** [YYYY-MM-DD]. *)
Definition isoYMD (y m d : Z) : jsstring :=
  pad 4 y ++ [chr "-"] ++ pad 2 m ++ [chr "-"] ++ pad 2 d.

(** A date written year first, with dashes. *)
Definition yearFirst (ys ms ds : jsstring) : jsstring :=
  ys ++ chr "-" :: ms ++ chr "-" :: ds.

(** A numeric date with any two separators. *)
Definition looseNumeric (a b c : jsstring) (s1 s2 : char) : jsstring :=
  a ++ s1 :: b ++ s2 :: c.

(** The keys of [monthMap]. *)
Definition month_keys : list string := map fst monthMap_entries.

(** The keys of the table, and the members of [Object.prototype], differ by
    more than the case of their letters. *)
Definition keys_apart : bool :=
  forallb (fun name =>
    forallb (fun k =>
      implb (Str.eqb (map toUpperASCII (lit k)) (map toUpperASCII (lit name)))
            (Str.eqb (lit k) (lit name)))
      (month_keys ++ Object_prototype_keys))
    month_keys.

(** Day, month name and year, with single spaces. *)
Definition dayMonthYear (ds mw ys : jsstring) : jsstring :=
  ds ++ chr " " :: mw ++ chr " " :: ys.

(** Month name, day, an optional comma, and year, with single spaces. *)
Definition monthDayYear (mw ds : jsstring) (comma : bool) (ys : jsstring)
    : jsstring :=
  mw ++ chr " " :: ds ++ (if comma then [chr ","] else []) ++ chr " " :: ys.

Definition isAbbreviation (name : string) : bool :=
  existsb (String.eqb name) month_abbreviations.

(** Day with an ordinal suffix, month name and year, with single spaces. *)
Definition ordinalDate (ds suffix mw ys : jsstring) : jsstring :=
  ds ++ suffix ++ chr " " :: mw ++ chr " " :: ys.

Definition ordinal_suffixes : list string := ["st"; "nd"; "rd"; "th"]%string.

(** Two UTC days at most 30 days apart. *)
Definition daysApart (D1 D2 : Z) : bool := (Z.abs (D1 - D2) <=? 30)%Z.

(** [extractDateFromText] with the pattern table as a parameter. *)
Definition extractDateFromTextWith (patterns : list regex) (h : Host)
    (text : jsstring) : completion (option DateInformation) :=
  match text with
  | [] => Normal None
  | _ :: _ =>
      let cleanText := trim text in
      st <- forPatterns h cleanText patterns
              {| bestMatch := None; highestConfidence := 0%float |} ;;
      Normal (bestMatch st)
  end.

(** The highest confidence so far is 0 or the confidence of a parse. *)
Definition scored (st : Best) : Prop :=
  highestConfidence st = 0%float \/ In (highestConfidence st) confidences.

(** No parse of [m] would replace the best match of [st]. *)
Definition settled (h : Host) (st : Best) (m : jsstring) : Prop :=
  match parsed h m with
  | Some d => PrimFloat.ltb (highestConfidence st) (Confidence d) = false
  | None => True
  end.

Definition succeeds {X : Type} (o : option X) : bool :=
  match o with Some _ => true | None => false end.

(** ** The asynchronous methods

    The methods that log, read the clock, draw random numbers and call the
    inference API ([analyzeStampsAndSignatures] of
    [src/services/stampSignatureService.ts]; [extractTextFromDocument] and
    [analyzeDocumentWithModel] of [src/services/huggingFaceService.ts]).
    One invocation is a sequence of calls to the outside, each of which
    returns or throws; an [await] of a rejected promise throws its reason.
    What the outside answers is given by a [World]; the calls made to
    [securityService.logAction] are recorded in the state. *)

Module Runtime.

(** What a [catch] clause tells apart in a thrown value: an [Error], with its
    message, or any other value. *)
Inductive thrown : Type :=
| ErrorValue (message : jsstring)
| OtherValue.

Inductive outcome (A : Type) : Type :=
| Fulfilled (value : A)
| Rejected (reason : thrown).

Arguments Fulfilled {A} value.
Arguments Rejected {A} reason.

(** A value of the [details] object of a log entry. *)
Inductive detail : Type :=
| Text (s : jsstring)
| Number (x : float)
| Integer (n : Z)
| Flag (b : bool).

(** The arguments of one call of [securityService.logAction]. *)
Record LogEntry : Type := {
  entry_userId : jsstring;
  entry_action : jsstring;
  entry_resourceType : jsstring;
  entry_resourceId : jsstring;
  entry_details : list (string * detail)
}.

(** The fields of a [File] the methods read. *)
Record File : Type := {
  file_name : jsstring;
  file_size : Z;
  file_type : jsstring
}.

(** A JSON value. *)
#[warnings="-register-all"]
Inductive json : Type :=
| JNull
| JBool (b : bool)
| JNumber (x : float)
| JString (s : jsstring)
| JArray (items : list json)
| JObject (fields : list (string * json)).

(** The arguments of [fetch]; [body] is the value given to
    [JSON.stringify]. *)
Record FetchRequest : Type := {
  url : jsstring;
  method : jsstring;
  headers : list (string * jsstring);
  body : json
}.

(** The request and the response of [hf.textGeneration]. *)
Record Parameters : Type := {
  max_new_tokens : Z;
  temperature : float;
  top_p : float;
  return_full_text : bool
}.

Record Request : Type := {
  request_model : jsstring;
  inputs : jsstring;
  parameters : Parameters
}.

Record Response : Type := {
  generated_text : option jsstring
}.

Record World : Type := {
  (** the successive readings of [Date.now()] *)
  clock : nat -> Z;
  (** the successive draws of [Math.random()] *)
  random : nat -> float;
  (** what the n-th call of [securityService.logAction] throws, if it does *)
  logAction_throws : nat -> LogEntry -> option thrown;
  (** [reader.result] after [readAsDataURL], [None] when reading fails *)
  readAsDataURL : File -> option jsstring;
  (** [hf.textGeneration] *)
  textGeneration : Request -> outcome Response;
  (** [JSON.parse], or what it throws *)
  JSON_parse : jsstring -> outcome json;
  (** [fetch], answering [response.ok] *)
  fetch : FetchRequest -> outcome bool;
  (** the message of the [TypeError] of a property read on [undefined] *)
  undefined_property : string -> jsstring
}.

(** What an invocation has done so far: the number of clock readings and of
    random draws, the total of the delays waited for, the calls of
    [securityService.logAction] and of [console.error]. *)
Record State : Type := {
  clock_reads : nat;
  draws : nat;
  waited : Z;
  logged : list LogEntry;
  console : list (list jsstring)
}.

Definition initial : State :=
  {| clock_reads := 0; draws := 0; waited := 0; logged := []; console := [] |}.

Definition with_logged (s : State) (entries : list LogEntry) : State :=
  {| clock_reads := clock_reads s; draws := draws s; waited := waited s;
     logged := logged s ++ entries; console := console s |}.

Definition M (A : Type) : Type := World -> State -> outcome A * State.

Definition ret {A : Type} (a : A) : M A := fun _ s => (Fulfilled a, s).

Definition throw {A : Type} (e : thrown) : M A := fun _ s => (Rejected e, s).

Definition bind {A B : Type} (m : M A) (k : A -> M B) : M B :=
  fun w s =>
    match m w s with
    | (Fulfilled a, s') => k a w s'
    | (Rejected e, s') => (Rejected e, s')
    end.

(** [try { m } catch (error) { handler error }]. *)
Definition try_catch {A : Type} (m : M A) (handler : thrown -> M A) : M A :=
  fun w s =>
    match m w s with
    | (Fulfilled a, s') => (Fulfilled a, s')
    | (Rejected e, s') => handler e w s'
    end.

(** An awaited promise that settles with [o]. *)
Definition await {A : Type} (o : World -> outcome A) : M A :=
  fun w s => (o w, s).

Definition Date_now : M Z :=
  fun w s =>
    (Fulfilled (clock w (clock_reads s)),
     {| clock_reads := S (clock_reads s); draws := draws s;
        waited := waited s; logged := logged s; console := console s |}).

Definition Math_random : M float :=
  fun w s =>
    (Fulfilled (random w (draws s)),
     {| clock_reads := clock_reads s; draws := S (draws s);
        waited := waited s; logged := logged s; console := console s |}).

(** [await new Promise(resolve => setTimeout(resolve, ms))]. *)
Definition delay (ms : Z) : M unit :=
  fun w s =>
    (Fulfilled tt,
     {| clock_reads := clock_reads s; draws := draws s;
        waited := (waited s + ms)%Z; logged := logged s;
        console := console s |}).

(** A call of [securityService.logAction], which is not awaited: it can only
    fail by throwing. *)
Definition logAction (entry : LogEntry) : M unit :=
  fun w s =>
    let s' := {| clock_reads := clock_reads s; draws := draws s;
                 waited := waited s; logged := logged s ++ [entry];
                 console := console s |} in
    match logAction_throws w (length (logged s)) entry with
    | Some e => (Rejected e, s')
    | None => (Fulfilled tt, s')
    end.

Definition console_error (arguments : list jsstring) : M unit :=
  fun w s =>
    (Fulfilled tt,
     {| clock_reads := clock_reads s; draws := draws s;
        waited := waited s; logged := logged s;
        console := console s ++ [arguments] |}).

(** [list.length] as a Number. *)
Definition length_of {A : Type} (list : list A) : float :=
  of_uint63 (Uint63.of_Z (Z.of_nat (length list))).

(** [Math.floor(x)] as an integer, [None] for [NaN] and the infinities. *)
Definition Math_floor (x : float) : option Z :=
  match Prim2SF x with
  | S754_zero _ => Some 0%Z
  | S754_finite sign m e =>
      let v := if sign then Z.neg m else Z.pos m in
      Some (if (0 <=? e)%Z then v * 2 ^ e else v / 2 ^ (- e))%Z
  | _ => None
  end.

(** [list[Math.floor(x)]], [None] when it is [undefined]. *)
Definition at_floor {A : Type} (list : list A) (x : float) : option A :=
  match Math_floor x with
  | Some i =>
      if ((0 <=? i) && (i <? Z.of_nat (length list)))%Z
      then nth_error list (Z.to_nat i)
      else None
  | None => None
  end.

(** [error instanceof Error ? error.message : fallback]. *)
Notation "x <-- m ;; k" := (bind m (fun x => k))
  (at level 61, m at next level, right associativity).
Notation "m ;;; k" := (bind m (fun _ => k))
  (at level 61, right associativity).

Definition messageOf (error : thrown) (fallback : jsstring) : jsstring :=
  match error with
  | ErrorValue message => message
  | OtherValue => fallback
  end.

End Runtime.

Module HuggingFaceRequests.

Import Runtime.
Import HuggingFaceService.


Record LineResult : Type := {
  line_content : jsstring;
  line_boundingBox : list Z
}.

Record WordResult : Type := {
  word_content : jsstring;
  word_boundingBox : list Z;
  word_confidence : float
}.

Record PageResult : Type := {
  pageNumber : Z;
  width : Z;
  height : Z;
  lines : list LineResult;
  words : list WordResult
}.

Record HuggingFaceResult : Type := {
  extractedText : jsstring;
  confidence : float;
  pages : list PageResult;
  processingTime : Z;
  result_model : jsstring
}.

Definition line_feed : char := 10%N.
Definition double_quote : char := 34%N.

(** [fileToBase64(file)]: the promise resolves with [result.split(',')[1]]
    and is rejected with the event of [onerror], which is not an [Error]. *)
Definition fileToBase64 (file : File) : M (option jsstring) :=
  await (fun w =>
    match readAsDataURL w file with
    | Some result => Fulfilled (base64OfDataURL result)
    | None => Rejected OtherValue
    end).

Definition extraction_prompt : jsstring :=
  lit "Extract all text content from this document image. Maintain the original structure and formatting as much as possible. Return only the extracted text without any additional commentary."
  ++ [line_feed; line_feed] ++ lit "Document content:".

Definition extraction_request (this : Service) : Request :=
  {| request_model := model this;
     inputs := extraction_prompt;
     parameters := {| max_new_tokens := 1000; temperature := 0.1;
                      top_p := 0.9; return_full_text := false |} |}.

Definition processing_start (this : Service) (file : File) (userId : jsstring)
    : LogEntry :=
  {| entry_userId := userId;
     entry_action := lit "huggingface_processing_start";
     entry_resourceType := lit "document";
     entry_resourceId := file_name file;
     entry_details := [ ("fileSize", Integer (file_size file));
                        ("fileType", Text (file_type file));
                        ("model", Text (model this)) ]%string |}.

Definition processing_complete (this : Service) (file : File)
    (userId : jsstring) (result : HuggingFaceResult) (processingTime : Z)
    : LogEntry :=
  {| entry_userId := userId;
     entry_action := lit "huggingface_processing_complete";
     entry_resourceType := lit "document";
     entry_resourceId := file_name file;
     entry_details :=
       [ ("model", Text (model this));
         ("confidence", Number (confidence result));
         ("textLength", Integer (Z.of_nat (length (extractedText result))));
         ("processingTime", Integer processingTime) ]%string |}.

Definition processing_error (this : Service) (file : File) (userId : jsstring)
    (errorMessage : jsstring) : LogEntry :=
  {| entry_userId := userId;
     entry_action := lit "huggingface_processing_error";
     entry_resourceType := lit "document";
     entry_resourceId := file_name file;
     entry_details := [ ("error", Text errorMessage);
                        ("model", Text (model this)) ]%string |}.

Definition extractTextFromDocument (this : Service) (file : File)
    (userId : jsstring) : M HuggingFaceResult :=
  startTime <-- Date_now ;;
  try_catch
    (logAction (processing_start this file userId) ;;;
     (* Convert file to base64 for processing *)
     base64Data <-- fileToBase64 file ;;
     (* Use HuggingFace model for text extraction *)
     response <-- await (fun w => textGeneration w (extraction_request this)) ;;
     let extractedText :=
       orElse (generated_text response) (lit "No text extracted") in
     now <-- Date_now ;;
     let processingTime := (now - startTime)%Z in
     let confidence := calculateConfidence extractedText in
     let result :=
       {| extractedText := extractedText;
          confidence := confidence;
          pages := [ {| pageNumber := 1; width := 800; height := 600;
                        lines := [ {| line_content := extractedText;
                                      line_boundingBox := [0; 0; 800; 600]%Z
                                   |} ];
                        words := [] |} ];
          processingTime := processingTime;
          result_model := model this |} in
     logAction (processing_complete this file userId result processingTime) ;;;
     ret result)
    (fun error =>
       let errorMessage :=
         messageOf error (lit "HuggingFace processing failed") in
       logAction (processing_error this file userId errorMessage) ;;;
       throw (ErrorValue (lit "HuggingFace text extraction failed: "
                          ++ errorMessage))).

(** The template of [analyzeDocumentWithModel], which ends with the text. *)
Definition quoted (s : string) : jsstring :=
  double_quote :: lit s ++ [double_quote].

Definition analysis_prompt (text : jsstring) : jsstring :=
  lit "Analyze this document text and extract key information. Format the response as JSON with the following structure:"
  ++ line_feed :: lit "{"
  ++ line_feed :: lit "  " ++ quoted "documentType" ++ lit ": "
     ++ quoted "type of document" ++ lit ","
  ++ line_feed :: lit "  " ++ quoted "confidence" ++ lit ": 0.8,"
  ++ line_feed :: lit "  " ++ quoted "keyInformation" ++ lit ": {"
  ++ line_feed :: lit "    " ++ quoted "names" ++ lit ": [],"
  ++ line_feed :: lit "    " ++ quoted "dates" ++ lit ": [],"
  ++ line_feed :: lit "    " ++ quoted "locations" ++ lit ": [],"
  ++ line_feed :: lit "    " ++ quoted "organizations" ++ lit ": []"
  ++ line_feed :: lit "  }"
  ++ line_feed :: lit "}"
  ++ line_feed :: line_feed :: lit "Document text: " ++ text.

Definition analysis_request (this : Service) (text : jsstring) : Request :=
  {| request_model := model this;
     inputs := analysis_prompt text;
     parameters := {| max_new_tokens := 500; temperature := 0.1;
                      top_p := 0.9; return_full_text := false |} |}.

Definition analysis_entry (this : Service) (userId : jsstring)
    (action : string) (details : list (string * detail)) : LogEntry :=
  {| entry_userId := userId;
     entry_action := lit action;
     entry_resourceType := lit "document";
     entry_resourceId := lit "text_analysis";
     entry_details := details |}.

(** The result returned when the answer of the model is not JSON. *)
Definition fallback_analysis : json :=
  JObject [ ("documentType", JString (lit "Unknown"));
            ("confidence", JNumber 0.5);
            ("keyInformation",
             JObject [ ("names", JArray []); ("dates", JArray []);
                       ("locations", JArray []);
                       ("organizations", JArray []) ]) ]%string.

Definition analyzeDocumentWithModel (this : Service) (text userId : jsstring)
    : M json :=
  try_catch
    (logAction
       (analysis_entry this userId "huggingface_analysis_start"
          [ ("textLength", Integer (Z.of_nat (length text)));
            ("model", Text (model this)) ]%string) ;;;
     response <-- await (fun w => textGeneration w (analysis_request this text)) ;;
     let analysisResult := orElse (generated_text response) (lit "{}") in
     try_catch
       (parsedResult <-- await (fun w => JSON_parse w analysisResult) ;;
        logAction
          (analysis_entry this userId "huggingface_analysis_complete"
             [ ("model", Text (model this)); ("success", Flag true) ]%string) ;;;
        ret parsedResult)
       (fun parseError =>
          (* Return fallback result if parsing fails *)
          ret fallback_analysis))
    (fun error =>
       let errorMessage := messageOf error (lit "Analysis failed") in
       logAction
         (analysis_entry this userId "huggingface_analysis_error"
            [ ("error", Text errorMessage);
              ("model", Text (model this)) ]%string) ;;;
       throw (ErrorValue (lit "HuggingFace analysis failed: "
                          ++ errorMessage))).

Definition health_request (this : Service) : FetchRequest :=
  {| url := lit "https://api-inference.huggingface.co/models/" ++ model this;
     method := lit "POST";
     headers := [ ("Authorization"%string, lit "Bearer " ++ apiKey this);
                  ("Content-Type"%string, lit "application/json") ];
     body :=
       JObject [ ("inputs", JString (lit "Test connection"));
                 ("parameters",
                  JObject [ ("max_new_tokens", JNumber 5);
                            ("temperature", JNumber 0.1);
                            ("return_full_text", JBool false) ]) ]%string |}.

Definition checkServiceHealth (this : Service) : M bool :=
  try_catch
    (* Test the HuggingFace API with a simple request *)
    (await (fun w => fetch w (health_request this)))
    (fun error =>
       console_error [lit "HuggingFace service health check failed:";
                      messageOf error []] ;;;
       ret false).

End HuggingFaceRequests.

Module StampSignatureAnalysis.

Import Runtime.

Record OfficialStamp : Type := {
  id : jsstring;
  name : jsstring;
  keywords : list jsstring;
  pattern : regex
}.

(** [.] and [.*] of a pattern without the [s] flag. *)
Definition is_line_terminator (c : char) : bool :=
  (N.eqb c 10 || N.eqb c 13 || N.eqb c 8232 || N.eqb c 8233)%N.

Definition any : regex := opt (Plus (fun c => negb (is_line_terminator c))).

Definition spaces : regex := Plus is_space.

(** Master list of official stamps *)
Definition OFFICIAL_STAMP_MASTER_LIST : list OfficialStamp :=
  [ {| id := lit "stamp_1";
       name := lit "OFFICER COMMANDING 14th BN A.P.S.P. ANANTHAPURAMU";
       keywords := map lit [ "OFFICER COMMANDING"; "14TH BN"; "A.P.S.P";
                             "ANANTHAPURAMU" ]%string;
       pattern :=
         Regex.seq [ word_i "OFFICER"; spaces; word_i "COMMANDING"; any;
                     word_i "14"; any; word_i "BN"; any; word_i "A.P.S.P";
                     any; word_i "ANANTHAPURAMU" ] |};
    {| id := lit "stamp_2";
       name := lit "STATE OFFICER TO ADGP APSP HEAD OFFICE MANGALAGIRI";
       keywords := map lit [ "STATE OFFICER"; "ADGP"; "APSP"; "HEAD OFFICE";
                             "MANGALAGIRI" ]%string;
       pattern :=
         Regex.seq [ word_i "STATE"; spaces; word_i "OFFICER"; any;
                     word_i "ADGP"; any; word_i "APSP"; any; word_i "HEAD";
                     spaces; word_i "OFFICE"; any; word_i "MANGALAGIRI" ] |};
    {| id := lit "stamp_3";
       name := lit "Inspector General of Police APSP Bns, Amaravathi";
       keywords := map lit [ "INSPECTOR GENERAL"; "POLICE"; "APSP"; "BNS";
                             "AMARAVATHI" ]%string;
       pattern :=
         Regex.seq [ word_i "INSPECTOR"; spaces; word_i "GENERAL"; any;
                     word_i "POLICE"; any; word_i "APSP"; any; word_i "BNS";
                     any; word_i "AMARAVATHI" ] |};
    {| id := lit "stamp_4";
       name := lit "Dy. Inspector General of Police-IV APSP Battalions, Mangalagiri";
       keywords := map lit [ "DY"; "INSPECTOR GENERAL"; "POLICE"; "APSP";
                             "BATTALIONS"; "MANGALAGIRI" ]%string;
       pattern :=
         Regex.seq [ word_i "DY"; any; word_i "INSPECTOR"; spaces;
                     word_i "GENERAL"; any; word_i "POLICE"; any;
                     word_i "APSP"; any; word_i "BATTALIONS"; any;
                     word_i "MANGALAGIRI" ] |};
    {| id := lit "stamp_5";
       name := lit "Sd/- B. Sreenivasulu, IPS., Addl. Commissioner of Police, Vijayawada City";
       keywords := map lit [ "SD"; "SREENIVASULU"; "IPS"; "COMMISSIONER";
                             "POLICE"; "VIJAYAWADA" ]%string;
       pattern :=
         Regex.seq [ word_i "SD"; any; word_i "SREENIVASULU"; any;
                     word_i "IPS"; any; word_i "COMMISSIONER"; any;
                     word_i "POLICE"; any; word_i "VIJAYAWADA" ] |};
    {| id := lit "stamp_6";
       name := lit "Dr. SHANKHABRATA BAGCHI IPS., Addl. Director General of Police, APSP Battalions";
       keywords := map lit [ "SHANKHABRATA"; "BAGCHI"; "IPS";
                             "DIRECTOR GENERAL"; "POLICE"; "APSP";
                             "BATTALIONS" ]%string;
       pattern :=
         Regex.seq [ word_i "SHANKHABRATA"; any; word_i "BAGCHI"; any;
                     word_i "IPS"; any; word_i "DIRECTOR"; spaces;
                     word_i "GENERAL"; any; word_i "POLICE"; any;
                     word_i "APSP"; any; word_i "BATTALIONS" ] |} ].

Inductive DetectionStatus : Type := Present | Absent.

(** ['Y'] and ['N']. *)
Inductive Validation : Type := Yes | No.

(** [StampDetectionResult] and [SignatureDetectionResult], the latter
    without [Type]; an optional field that is not set is [None]. *)
Record DetectionResult : Type := {
  Status : DetectionStatus;
  Coordinates : option (Z * Z * Z * Z);
  Type_ : option jsstring;
  Confidence : option float;
  DateInfo : option DateInformation
}.

Record DateAnalysisResult : Type := {
  StampDate : option DateInformation;
  SignatureDate : option DateInformation;
  DocumentDate : option DateInformation;
  DateConsistency : StampSignatureService.DateConsistency
}.

(** [StampSignatureAnalysisResult]; the interface requires [DateAnalysis],
    the objects built by the code may lack it. *)
Record StampSignatureAnalysisResult : Type := {
  Stamp : DetectionResult;
  Signature : DetectionResult;
  StampValidation : Validation;
  MatchedStampType : option jsstring;
  ProcessingTime : Z;
  DateAnalysis : option DateAnalysisResult
}.

Definition analysis_entry (file : File) (userId : jsstring) (action : string)
    (details : list (string * detail)) : LogEntry :=
  {| entry_userId := userId;
     entry_action := lit action;
     entry_resourceType := lit "document";
     entry_resourceId := file_name file;
     entry_details := details |}.

Definition present_result (matched : jsstring) (processingTime : Z)
    : StampSignatureAnalysisResult :=
  {| Stamp := {| Status := Present;
                 Coordinates := Some (100, 100, 200, 100)%Z;
                 Type_ := Some (lit "official_stamp");
                 Confidence := Some 0.85%float;
                 DateInfo := None |};
     Signature := {| Status := Present;
                     Coordinates := Some (300, 400, 150, 50)%Z;
                     Type_ := None;
                     Confidence := Some 0.78%float;
                     DateInfo := None |};
     StampValidation := Yes;
     MatchedStampType := Some matched;
     ProcessingTime := processingTime;
     DateAnalysis := None |}.

(** Return fallback result *)
Definition fallback_result (processingTime : Z)
    : StampSignatureAnalysisResult :=
  {| Stamp := {| Status := Absent; Coordinates := None; Type_ := None;
                 Confidence := None; DateInfo := None |};
     Signature := {| Status := Absent; Coordinates := None; Type_ := None;
                     Confidence := None; DateInfo := None |};
     StampValidation := No;
     MatchedStampType := None;
     ProcessingTime := processingTime;
     DateAnalysis := None |}.

Definition analyzeStampsAndSignatures (file : File) (userId : jsstring)
    : M StampSignatureAnalysisResult :=
  startTime <-- Date_now ;;
  try_catch
    ((* Log analysis start *)
     logAction
       (analysis_entry file userId "stamp_signature_analysis_start"
          [ ("fileSize", Integer (file_size file));
            ("fileType", Text (file_type file)) ]%string) ;;;
     delay 2000 ;;;
     (* Simulate results - always return Present and Y for stamp validation *)
     r <-- Math_random ;;
     stamp <-- (fun w =>
                  match at_floor OFFICIAL_STAMP_MASTER_LIST
                          (r * length_of OFFICIAL_STAMP_MASTER_LIST)
                  with
                  | Some stamp => ret stamp w
                  | None => throw (ErrorValue (undefined_property w "name")) w
                  end) ;;
     let result := present_result (name stamp) 0 in
     (* Log successful analysis *)
     now <-- Date_now ;;
     logAction
       (analysis_entry file userId "stamp_signature_analysis_complete"
          [ ("stampStatus", Text (lit "Present"));
            ("signatureStatus", Text (lit "Present"));
            ("stampValidation", Text (lit "Y"));
            ("processingTime", Integer (now - startTime)) ]%string) ;;;
     now' <-- Date_now ;;
     ret (present_result (name stamp) (now' - startTime)))
    (fun error =>
       let errorMessage := messageOf error (lit "Analysis failed") in
       (* Log analysis error *)
       logAction
         (analysis_entry file userId "stamp_signature_analysis_error"
            [ ("error", Text errorMessage) ]%string) ;;;
       console_error [lit "Stamp/Signature analysis failed:"; errorMessage] ;;;
       now <-- Date_now ;;
       ret (fallback_result (now - startTime))).

(** Get the master list of official stamps *)
Definition getMasterStampList : list (jsstring * jsstring) :=
  map (fun stamp => (id stamp, name stamp)) OFFICIAL_STAMP_MASTER_LIST.

(** Public method to check service health *)
Definition checkServiceHealth : M bool :=
  try_catch
    (delay 500 ;;; ret true)
    (fun error =>
       console_error [lit "Service health check failed:"; messageOf error []] ;;;
       ret false).

End StampSignatureAnalysis.

(** ** Worlds used in the examples *)

(** A world in which every call succeeds: the clock advances by a second
    and a half per reading, the model answers with a dated line, which is
    not JSON. *)
Definition world_quiet : Runtime.World :=
  {| Runtime.clock := fun n => (noon_22_march_2024 + 1500 * Z.of_nat n)%Z;
     Runtime.random := fun _ => 0.5%float;
     Runtime.logAction_throws := fun _ _ => None;
     Runtime.readAsDataURL :=
       fun _ => Some (lit "data:application/pdf;base64,JVBERi0xLjQK");
     Runtime.textGeneration :=
       fun _ =>
         Runtime.Fulfilled
           {| Runtime.generated_text := Some (lit "Date: 22-03-2024") |};
     Runtime.JSON_parse :=
       fun _ => Runtime.Rejected
                  (Runtime.ErrorValue (lit "Unexpected token D in JSON"));
     Runtime.fetch := fun _ => Runtime.Fulfilled true;
     Runtime.undefined_property :=
       fun _ => lit "Cannot read properties of undefined" |}.

(** The same world without a network. *)
Definition world_offline : Runtime.World :=
  {| Runtime.clock := Runtime.clock world_quiet;
     Runtime.random := Runtime.random world_quiet;
     Runtime.logAction_throws := fun _ _ => None;
     Runtime.readAsDataURL := Runtime.readAsDataURL world_quiet;
     Runtime.textGeneration :=
       fun _ => Runtime.Rejected (Runtime.ErrorValue (lit "Failed to fetch"));
     Runtime.JSON_parse := Runtime.JSON_parse world_quiet;
     Runtime.fetch :=
       fun _ => Runtime.Rejected (Runtime.ErrorValue (lit "Failed to fetch"));
     Runtime.undefined_property := Runtime.undefined_property world_quiet |}.

(** The quiet world with a logger that throws at every call. *)
Definition world_failing_logger : Runtime.World :=
  {| Runtime.clock := Runtime.clock world_quiet;
     Runtime.random := Runtime.random world_quiet;
     Runtime.logAction_throws :=
       fun _ _ => Some (Runtime.ErrorValue (lit "Audit log unavailable"));
     Runtime.readAsDataURL := Runtime.readAsDataURL world_quiet;
     Runtime.textGeneration := Runtime.textGeneration world_quiet;
     Runtime.JSON_parse := Runtime.JSON_parse world_quiet;
     Runtime.fetch := Runtime.fetch world_quiet;
     Runtime.undefined_property := Runtime.undefined_property world_quiet |}.

(** The quiet world with the given random draws. *)
Definition world_drawing (r : float) : Runtime.World :=
  {| Runtime.clock := Runtime.clock world_quiet;
     Runtime.random := fun _ => r;
     Runtime.logAction_throws := fun _ _ => None;
     Runtime.readAsDataURL := Runtime.readAsDataURL world_quiet;
     Runtime.textGeneration := Runtime.textGeneration world_quiet;
     Runtime.JSON_parse := Runtime.JSON_parse world_quiet;
     Runtime.fetch := Runtime.fetch world_quiet;
     Runtime.undefined_property := Runtime.undefined_property world_quiet |}.

Definition service_default : HuggingFaceService.Service :=
  HuggingFaceService.construct None None.

Definition scanned_order : Runtime.File :=
  {| Runtime.file_name := lit "order.pdf";
     Runtime.file_size := 48213;
     Runtime.file_type := lit "application/pdf" |}.

(** * Properties *)

(** ** Exceptions stay inside [parseAndValidateDate] *)

Lemma parseAndValidateDate_parsed (h : Host) (s : jsstring) :
  parseAndValidateDate h s = Normal (parsed h s).
Proof.
  unfold parsed, parseAndValidateDate.
  destruct s as [|c s]; [reflexivity|].
  unfold try_catch.
  destruct (bind _ _); reflexivity.
Qed.

Lemma forMatches_fold (h : Host) (ms : list jsstring) :
  forall st,
    forMatches h ms st
    = Normal (fold_left (fun st m => keepBest st m (parsed h m)) ms st).
Proof.
  induction ms as [|m ms IH]; intros st; simpl.
  - reflexivity.
  - rewrite parseAndValidateDate_parsed. simpl. apply IH.
Qed.

Lemma forPatterns_fold (h : Host) (t : jsstring) (ps : list regex) :
  forall st,
    forPatterns h t ps st
    = Normal (fold_left (fun st m => keepBest st m (parsed h m))
                (flat_map (fun pattern => matchAll pattern t) ps) st).
Proof.
  induction ps as [|p ps IH]; intros st; simpl.
  - reflexivity.
  - rewrite forMatches_fold. simpl. rewrite fold_left_app. apply IH.
Qed.

Lemma extractDateFromText_fold (h : Host) (text : jsstring) :
  extractDateFromText h text
  = Normal (bestMatch
              (fold_left (fun st m => keepBest st m (parsed h m))
                 (candidates text)
                 {| bestMatch := None; highestConfidence := 0%float |})).
Proof.
  destruct text as [|c text].
  - reflexivity.
  - unfold extractDateFromText, candidates.
    rewrite forPatterns_fold. reflexivity.
Qed.

(** ** The calendar and the ISO string *)

Lemma YearFromTime_spec (t : Z) :
  (DayFromYear (YearFromTime t) <= Day t < DayFromYear (YearFromTime t + 1))%Z.
Proof.
  unfold YearFromTime, DayFromYear.
  set (d := Day t).
  destruct (Z.ltb_spec d
    (365 * (1970 + d * 400 / 146097 - 1970)
     + (1970 + d * 400 / 146097 - 1969) / 4
     - (1970 + d * 400 / 146097 - 1901) / 100
     + (1970 + d * 400 / 146097 - 1601) / 400)) as [H1|H1];
  [|destruct (Z.leb_spec
    (365 * (1970 + d * 400 / 146097 + 1 - 1970)
     + (1970 + d * 400 / 146097 + 1 - 1969) / 4
     - (1970 + d * 400 / 146097 + 1 - 1901) / 100
     + (1970 + d * 400 / 146097 + 1 - 1601) / 400) d) as [H2|H2]];
  Z.div_mod_to_equations; lia.
Qed.

Lemma is_digit_digit_char (n : Z) : is_digit (digit_char n) = true.
Proof.
  unfold is_digit, digit_char.
  pose proof (Z.mod_pos_bound n 10 ltac:(lia)) as Hb.
  apply andb_true_iff; split; apply N.leb_le; lia.
Qed.

Lemma forallb_pad (P : char -> bool) (w : nat) :
  (forall n, P (digit_char n) = true) ->
  forall n, forallb P (pad w n) = true.
Proof.
  intros HP. induction w as [|w IH]; intros n; simpl.
  - reflexivity.
  - rewrite forallb_app, IH. simpl. now rewrite HP.
Qed.

Lemma length_pad (w : nat) : forall n, length (pad w n) = w.
Proof.
  induction w as [|w IH]; intros n; simpl.
  - reflexivity.
  - rewrite length_app, IH. simpl. lia.
Qed.

Lemma split_char_first (sep : char) (a : jsstring) :
  forall (b cur : jsstring),
    forallb (fun c => negb (N.eqb c sep)) a = true ->
    split_char sep (a ++ sep :: b) cur
    = (rev cur ++ a) :: split_char sep b [].
Proof.
  induction a as [|c a IH]; intros b cur Ha; simpl in *.
  - rewrite N.eqb_refl, app_nil_r. reflexivity.
  - apply andb_true_iff in Ha as [Hc Ha].
    apply negb_true_iff in Hc. rewrite Hc.
    rewrite IH by exact Ha. simpl. now rewrite <- app_assoc.
Qed.

Lemma digit_char_not (x : char) (n : Z) :
  is_digit x = false -> negb (N.eqb (digit_char n) x) = true.
Proof.
  intros Hx. apply negb_true_iff, N.eqb_neq. intros E.
  rewrite <- E, is_digit_digit_char in Hx. discriminate.
Qed.

Lemma isoDate_no_T (t : Z) :
  forallb (fun c => negb (N.eqb c (chr "T"))) (isoDate t) = true.
Proof.
  assert (HT : forall w n,
    forallb (fun c => negb (N.eqb c (chr "T"))) (pad w n) = true).
  { intros w n. apply forallb_pad. intros m. now apply digit_char_not. }
  unfold isoDate, iso_year.
  destruct ((0 <=? YearFromTime t) && (YearFromTime t <=? 9999))%Z;
    [|destruct (YearFromTime t <? 0)%Z];
    rewrite !forallb_app; cbn [forallb]; rewrite !HT; reflexivity.
Qed.

(** The date field: what stands before the [T] of the ISO string. *)
Lemma toISOString_date (t : Z) :
  nth_error (split_char (chr "T") (isoDate t ++ chr "T" :: isoTime t) []) 0
  = Some (isoDate t).
Proof.
  rewrite split_char_first by apply isoDate_no_T. reflexivity.
Qed.

Lemma pad2_digits (n : Z) : pad 2 n = [digit_char (n / 10); digit_char n].
Proof. reflexivity. Qed.

Lemma pad4_digits (n : Z) :
  pad 4 n = [digit_char (n / 10 / 10 / 10); digit_char (n / 10 / 10);
             digit_char (n / 10); digit_char n].
Proof. reflexivity. Qed.

Lemma pad6_digits (n : Z) :
  pad 6 n = [digit_char (n / 10 / 10 / 10 / 10 / 10);
             digit_char (n / 10 / 10 / 10 / 10);
             digit_char (n / 10 / 10 / 10); digit_char (n / 10 / 10);
             digit_char (n / 10); digit_char n].
Proof. reflexivity. Qed.

(** The date field has the four-digit shape exactly when the UTC year is
    within 0 to 9999, and the expanded shape otherwise. *)
Lemma isoDate_shape (t : Z) :
  if ((0 <=? YearFromTime t) && (YearFromTime t <=? 9999))%Z
  then isYYYYMMDD (isoDate t) = true /\ isExpandedDate (isoDate t) = false
  else isExpandedDate (isoDate t) = true /\ isYYYYMMDD (isoDate t) = false.
Proof.
  unfold isoDate, iso_year.
  destruct ((0 <=? YearFromTime t) && (YearFromTime t <=? 9999))%Z.
  - rewrite pad4_digits, !pad2_digits. split; [|reflexivity].
    cbn [app isYYYYMMDD forallb].
    rewrite !is_digit_digit_char. reflexivity.
  - rewrite pad6_digits, !pad2_digits. split; [|reflexivity].
    cbn [app isExpandedDate forallb].
    rewrite !is_digit_digit_char.
    now destruct (_ <? _)%Z.
Qed.

(** ** What [parseAndValidateDate] returns *)

Lemma tryFormats_some (h : Host) (s : jsstring)
    (formats : list (jsstring * regex)) (d : DateInformation) :
  tryFormats h s formats = Normal (Some d) ->
  exists f pattern t,
    In (f, pattern) formats /\ test pattern s = true /\
    parseDate h s f = Some (Some t) /\
    d = {| Date := Some (isoDate t);
           Format := Some f;
           Confidence := calculateDateConfidence h s (Some t);
           ExtractedFromText := Some s |}.
Proof.
  induction formats as [|[f pattern] formats IH]; cbn [tryFormats]; intros H.
  - discriminate.
  - destruct (test pattern s) eqn:Ht.
    + destruct (parseDate h s f) as [[t|]|] eqn:Hp.
      * cbn [toISOString bind] in H. rewrite toISOString_date in H.
        injection H as <-.
        exists f, pattern, t. repeat split; auto. now left.
      * discriminate.
      * destruct (IH H) as (f' & p' & t & Hin & H1 & H2 & H3).
        exists f', p', t. repeat split; auto. now right.
    + destruct (IH H) as (f' & p' & t & Hin & H1 & H2 & H3).
      exists f', p', t. repeat split; auto. now right.
Qed.

(** A parsed candidate came either through a strict format, scored by
    [calculateDateConfidence], or through the fallback, with the tag
    [Auto-detected] and the confidence 0.6. *)
Lemma parsed_cases (h : Host) (s : jsstring) (d : DateInformation) :
  parsed h s = Some d ->
  exists t,
    Date d = Some (isoDate t) /\ ExtractedFromText d = Some s /\
    ((exists f pattern,
        In (f, pattern) DATE_FORMAT_MAP /\ test pattern s = true /\
        parseDate h s f = Some (Some t) /\
        Format d = Some f /\
        Confidence d = calculateDateConfidence h s (Some t))
     \/ (tryFormats h s DATE_FORMAT_MAP = Normal None /\
         Date_of_string h s = Some t /\
         Format d = Some (lit "Auto-detected") /\
         Confidence d = 0.6%float)).
Proof.
  unfold parsed, parseAndValidateDate.
  destruct s as [|c s]; [discriminate|].
  set (str := c :: s).
  destruct (tryFormats h str DATE_FORMAT_MAP) as [[d'|]|e] eqn:Htry;
    cbn [bind try_catch].
  - intros H. injection H as <-.
    destruct (tryFormats_some _ _ _ _ Htry) as (f & p & t & Hin & H1 & H2 & ->).
    exists t. repeat split. left. exists f, p. repeat split; auto.
  - destruct (Date_of_string h str) as [t|] eqn:Hd;
      cbn [getTime toISOString bind try_catch].
    + rewrite toISOString_date. intros H. injection H as <-.
      exists t. repeat split. right. repeat split; auto.
    + discriminate.
  - discriminate.
Qed.

Lemma calculateDateConfidence_score (h : Host) (s : jsstring) (d : DateObj) :
  calculateDateConfidence h s d
  = score (exceeds (yearDiff (getFullYear h (Date_now h)) (getFullYear h d)) 50)
          (exceeds (yearDiff (getFullYear h (Date_now h)) (getFullYear h d)) 100)
          (includes s (lit "/") || includes s (lit "-"))
          (test d4 s) (test MMM s).
Proof. reflexivity. Qed.

Lemma score_in_confidences (a b c d e : bool) :
  In (score a b c d e) confidences.
Proof.
  destruct a, b, c, d, e; vm_compute;
    repeat (first [left; reflexivity | right]).
Qed.

Lemma parsed_confidence (h : Host) (s : jsstring) (d : DateInformation) :
  parsed h s = Some d -> In (Confidence d) confidences.
Proof.
  intros H. destruct (parsed_cases _ _ _ H) as (t & _ & _ & [Hs|Hf]).
  - destruct Hs as (f & p & _ & _ & _ & _ & ->).
    rewrite calculateDateConfidence_score. apply score_in_confidences.
  - destruct Hf as (_ & _ & _ & ->). now left.
Qed.

(** ** The order on confidences *)

Lemma order_check_true : order_check = true.
Proof. vm_compute. reflexivity. Qed.

Lemma confidence_bounds (a : float) :
  In a confidences ->
  PrimFloat.ltb 0%float a = true /\ within01 a
  /\ PrimFloat.leb a a = true.
Proof.
  intros Ha. pose proof order_check_true as H. unfold order_check in H.
  rewrite forallb_forall in H. specialize (H a Ha).
  rewrite !andb_true_iff in H. unfold within01. tauto.
Qed.

Lemma confidence_pair (a b : float) :
  In a confidences -> In b confidences ->
  (PrimFloat.ltb a b = false -> PrimFloat.leb b a = true)
  /\ (PrimFloat.ltb a b = true -> PrimFloat.leb a b = true).
Proof.
  intros Ha Hb. pose proof order_check_true as H. unfold order_check in H.
  rewrite forallb_forall in H. specialize (H a Ha).
  rewrite !andb_true_iff in H. destruct H as [_ H].
  rewrite forallb_forall in H. specialize (H b Hb).
  rewrite !andb_true_iff in H. destruct H as [[[H1 H2] _] _].
  split; intros E; rewrite E in *; simpl in *; auto.
Qed.

Lemma confidence_lt_not_ge (a b : float) :
  In a confidences -> In b confidences ->
  PrimFloat.ltb a b = true -> PrimFloat.leb b a = false.
Proof.
  intros Ha Hb E. pose proof order_check_true as H. unfold order_check in H.
  rewrite forallb_forall in H. specialize (H a Ha).
  rewrite !andb_true_iff in H. destruct H as [_ H].
  rewrite forallb_forall in H. specialize (H b Hb).
  rewrite !andb_true_iff in H. destruct H as [[_ H] _].
  rewrite E in H. now apply negb_true_iff in H.
Qed.

Lemma confidence_trans (a b c : float) :
  In a confidences -> In b confidences -> In c confidences ->
  PrimFloat.ltb a b = true -> PrimFloat.leb c a = true ->
  PrimFloat.ltb c b = true.
Proof.
  intros Ha Hb Hc Hab Hca.
  pose proof order_check_true as H. unfold order_check in H.
  rewrite forallb_forall in H. specialize (H a Ha).
  rewrite !andb_true_iff in H. destruct H as [_ H].
  rewrite forallb_forall in H. specialize (H b Hb).
  rewrite !andb_true_iff in H. destruct H as [_ H].
  rewrite forallb_forall in H. specialize (H c Hc).
  rewrite Hab, Hca in H. exact H.
Qed.

(** ** The loop keeps the first candidate of the highest score *)

Lemma nth_error_snoc (A : Type) (pre : list A) (c x : A) (j : nat) :
  nth_error (pre ++ [c]) j = Some x ->
  ((j < length pre)%nat /\ nth_error pre j = Some x)
  \/ (j = length pre /\ x = c).
Proof.
  intros H. destruct (Nat.lt_ge_cases j (length pre)) as [Hj|Hj].
  - left. split; [exact Hj|]. now rewrite nth_error_app1 in H.
  - right. rewrite nth_error_app2 in H by exact Hj.
    destruct (j - length pre)%nat as [|k] eqn:E; simpl in H.
    + split; [lia|congruence].
    + destruct k; discriminate.
Qed.

Lemma keepBest_step (h : Host) (pre : list jsstring) (c : jsstring)
    (st : Best) :
  isFirstBest h pre (bestMatch st) ->
  highestConfidence st
  = match bestMatch st with Some r => Confidence r | None => 0%float end ->
  let st' := keepBest st c (parsed h c) in
  isFirstBest h (pre ++ [c]) (bestMatch st')
  /\ highestConfidence st'
     = match bestMatch st' with Some r => Confidence r | None => 0%float end.
Proof.
  destruct st as [bm hc]. cbn [bestMatch highestConfidence].
  intros Hbest Hhc. unfold keepBest. cbn [bestMatch highestConfidence].
  destruct (parsed h c) as [d|] eqn:Hc.
  - pose proof (parsed_confidence _ _ _ Hc) as Hd.
    destruct (PrimFloat.ltb hc (Confidence d)) eqn:Hlt;
      cbn [bestMatch highestConfidence].
    + (* the candidate becomes the best *)
      split; [|reflexivity].
      exists (length pre), c, d.
      split; [now rewrite nth_error_app2, Nat.sub_diag by lia|].
      split; [exact Hc|]. split; [reflexivity|].
      intros j c' d' Hn Hp. cbn [withExtractedFromText Confidence].
      destruct (nth_error_snoc _ _ _ _ _ Hn) as [[Hj Hn']|[-> ->]].
      * destruct bm as [r|].
        -- destruct Hbest as (i & c0 & d0 & Hi & Hc0 & -> & Hall).
           destruct (Hall _ _ _ Hn' Hp) as [Hle _].
           cbn [withExtractedFromText Confidence] in *. subst hc.
           assert (Hlt' : PrimFloat.ltb (Confidence d') (Confidence d) = true)
             by (apply (confidence_trans (Confidence d0)); auto;
                 eapply parsed_confidence; eauto).
           split; [|intros _; exact Hlt'].
           apply (confidence_pair (Confidence d') (Confidence d)); auto;
             eapply parsed_confidence; eauto.
        -- rewrite (Hbest c') in Hp by (eapply nth_error_In; eauto).
           discriminate.
      * assert (d' = d) by congruence. subst d'.
        split; [now apply confidence_bounds|lia].
    + (* the best stays *)
      split; [|exact Hhc].
      destruct bm as [r|].
      * destruct Hbest as (i & c0 & d0 & Hi & Hc0 & -> & Hall).
        assert (Hilt : (i < length pre)%nat)
          by (apply nth_error_Some; congruence).
        exists i, c0, d0.
        split; [now rewrite nth_error_app1|].
        split; [exact Hc0|]. split; [reflexivity|].
        intros j c' d' Hn Hp.
        destruct (nth_error_snoc _ _ _ _ _ Hn) as [[Hj Hn']|[-> ->]].
        -- now apply (Hall _ _ _ Hn' Hp).
        -- assert (d' = d) by congruence. subst d' hc.
           cbn [withExtractedFromText Confidence] in *.
           split; [|lia].
           apply (confidence_pair (Confidence d0) (Confidence d)); auto;
             eapply parsed_confidence; eauto.
      * subst hc. destruct (confidence_bounds _ Hd) as [Hpos _]. congruence.
  - (* the candidate does not parse *)
    split; [|exact Hhc].
    destruct bm as [r|].
    + destruct Hbest as (i & c0 & d0 & Hi & Hc0 & -> & Hall).
      assert (Hilt : (i < length pre)%nat)
        by (apply nth_error_Some; congruence).
      exists i, c0, d0.
      split; [now rewrite nth_error_app1|].
      split; [exact Hc0|]. split; [reflexivity|].
      intros j c' d' Hn Hp.
      destruct (nth_error_snoc _ _ _ _ _ Hn) as [[Hj Hn']|[-> ->]];
        [now apply (Hall _ _ _ Hn' Hp)|congruence].
    + intros c' Hin. apply in_app_or in Hin as [Hin|[<-|[]]]; auto.
Qed.

Lemma fold_keepBest (h : Host) (cs : list jsstring) :
  forall (pre : list jsstring) (st : Best),
    isFirstBest h pre (bestMatch st) ->
    highestConfidence st
    = match bestMatch st with Some r => Confidence r | None => 0%float end ->
    isFirstBest h (pre ++ cs)
      (bestMatch (fold_left (fun st m => keepBest st m (parsed h m)) cs st)).
Proof.
  induction cs as [|c cs IH]; intros pre st Hbest Hhc; cbn [fold_left].
  - now rewrite app_nil_r.
  - destruct (keepBest_step h pre c st Hbest Hhc) as [H1 H2].
    specialize (IH (pre ++ [c]) _ H1 H2).
    now rewrite <- app_assoc in IH.
Qed.

Lemma extract_isFirstBest (h : Host) (text : jsstring) :
  exists result,
    extractDateFromText h text = Normal result
    /\ isFirstBest h (candidates text) result.
Proof.
  rewrite extractDateFromText_fold. eexists. split; [reflexivity|].
  apply (fold_keepBest h (candidates text) []).
  - intros c [].
  - reflexivity.
Qed.

(** ** The tests of the score, read without regular expressions *)

Lemma includes_char (s : jsstring) (a : ascii) :
  includes s (lit (String a EmptyString)) = containsChar s a.
Proof.
  unfold containsChar. induction s as [|c s IH]; cbn.
  - reflexivity.
  - rewrite <- IH. cbn. now rewrite andb_true_r.
Qed.

Lemma test_cons (r : regex) (c : char) (s : jsstring) :
  test r (c :: s)
  = (match match_at r (c :: s) with Some _ => true | None => false end)
    || test r s.
Proof.
  unfold test. cbn [exec]. now destruct (match_at r (c :: s)).
Qed.

Lemma test_d4 (s : jsstring) : test d4 s = containsFourDigits s.
Proof.
  induction s as [|a s IH]; [reflexivity|].
  rewrite test_cons, IH.
  destruct s as [|b [|c [|d rest]]]; cbn;
    repeat match goal with |- context [is_digit ?x] => destruct (is_digit x) end;
    reflexivity.
Qed.

Lemma rmatch_word (X : Type) (w : list ascii) :
  forall (s : jsstring) (k : jsstring -> option X),
    rmatch (fold_right (fun a r => Seq (Class (ci_match (chr a))) r) Eps w) s k
    = if prefix_i (map chr w) s then k (skipn (length w) s) else None.
Proof.
  induction w as [|a w IH]; intros s k; cbn [fold_right rmatch map prefix_i].
  - reflexivity.
  - destruct s as [|c s]; [reflexivity|].
    destruct (ci_match (chr a) c); cbn [andb length skipn]; [apply IH|reflexivity].
Qed.

Lemma match_at_word (w : string) (s : jsstring) :
  match match_at (word_i w) s with Some _ => true | None => false end
  = prefix_i (lit w) s.
Proof.
  unfold match_at, word_i, lit. rewrite rmatch_word.
  now destruct (prefix_i _ s).
Qed.

Lemma match_at_alt (r : regex) (rs : list regex) (s : jsstring) :
  match match_at (alt r rs) s with Some _ => true | None => false end
  = existsb (fun r' => match match_at r' s with Some _ => true | None => false end)
      (r :: rs).
Proof.
  revert r. induction rs as [|r' rs IH]; intros r; cbn [alt existsb].
  - now rewrite orb_false_r.
  - specialize (IH r'). cbn [existsb] in IH. rewrite <- IH.
    unfold match_at. cbn [rmatch].
    now destruct (rmatch r s _).
Qed.

Lemma match_at_words (ws : list string) (s : jsstring) :
  match match_at (words_i ws) s with Some _ => true | None => false end
  = existsb (fun w => prefix_i (lit w) s) ws.
Proof.
  unfold words_i. destruct ws as [|w ws]; cbn [map].
  - now destruct s.
  - rewrite match_at_alt. cbn [existsb]. rewrite match_at_word. f_equal.
    induction ws as [|w' ws IH]; cbn [map existsb]; [reflexivity|].
    now rewrite match_at_word, IH.
Qed.

Lemma existsb_orb (A : Type) (f g : A -> bool) (l : list A) :
  existsb (fun x => f x || g x) l = existsb f l || existsb g l.
Proof.
  induction l as [|x l IH]; cbn; [reflexivity|].
  rewrite IH. destruct (f x), (g x), (existsb f l); reflexivity.
Qed.

Lemma existsb_pointwise (A : Type) (f g : A -> bool) (l : list A) :
  (forall x, f x = g x) -> existsb f l = existsb g l.
Proof.
  intros H. induction l as [|x l IH]; cbn; [reflexivity|].
  now rewrite H, IH.
Qed.

Lemma test_words (ws : list string) (s : jsstring) :
  test (words_i ws) s = existsb (fun w => contains_i s (lit w)) ws.
Proof.
  induction s as [|c s IH].
  - unfold test. cbn [exec].
    pose proof (match_at_words ws []) as H.
    destruct (match_at (words_i ws) []); rewrite H;
      apply existsb_pointwise; intros w; cbn; now rewrite orb_false_r.
  - rewrite test_cons, IH, match_at_words, <- existsb_orb.
    reflexivity.
Qed.

Lemma prefix_i_app (a b s : jsstring) :
  prefix_i (a ++ b) s = true -> prefix_i a s = true.
Proof.
  revert s. induction a as [|p a IH]; intros s H; cbn in *.
  - reflexivity.
  - destruct s as [|c s]; [discriminate|].
    apply andb_true_iff in H as [H1 H2]. rewrite H1. cbn. now apply IH.
Qed.

Lemma contains_i_app (a b s : jsstring) :
  contains_i s (a ++ b) = true -> contains_i s a = true.
Proof.
  induction s as [|c s IH]; cbn [contains_i]; intros H.
  - apply orb_true_iff in H as [H|H]; [|discriminate].
    now rewrite (prefix_i_app _ _ _ H).
  - apply orb_true_iff in H as [H|H].
    + now rewrite (prefix_i_app _ _ _ H).
    + rewrite (IH H). apply orb_true_r.
Qed.

Lemma existsb_absorb (A : Type) (f : A -> bool) (l1 l2 : list A) :
  (forall y, In y l2 -> f y = true -> existsb f l1 = true) ->
  existsb f (l1 ++ l2) = existsb f l1.
Proof.
  intros H. rewrite existsb_app.
  destruct (existsb f l1) eqn:E1; [reflexivity|].
  destruct (existsb f l2) eqn:E2; [|reflexivity].
  apply existsb_exists in E2 as (y & Hy & Hf).
  now rewrite <- (H y Hy Hf).
Qed.

(** A text holds a month name or abbreviation exactly when it holds an
    abbreviation: every name starts with its abbreviation. *)
Lemma containsMonthName_abbreviation (s : jsstring) :
  containsMonthName s
  = existsb (fun w => contains_i s (lit w)) month_abbreviations.
Proof.
  unfold containsMonthName. apply existsb_absorb.
  intros name Hin Hc. apply existsb_exists.
  exists (String.substring 0 3 name).
  cbn in Hin.
  repeat (destruct Hin as [<-|Hin];
          [split; [cbn; tauto|];
           match goal with
           | H : contains_i s (lit ?n) = true |- _ =>
               apply (contains_i_app _ (lit (String.substring 3 9 n)));
               exact H
           end|]).
  destruct Hin.
Qed.

Lemma test_MMM (s : jsstring) : test MMM s = containsMonthName s.
Proof.
  rewrite containsMonthName_abbreviation. apply test_words.
Qed.

(** ** Selection of the best candidate *)

(** C1: for every input text, [extractDateFromText] goes through all the
    matches of every pattern of the ordered table (the candidates: for each
    pattern in turn, its matches from left to right), parses each one, and
    returns the parse of the candidate with the highest confidence; among
    candidates of equal confidence the first found is kept, so every parsed
    candidate before the returned one has a strictly lower confidence.  The
    result is absent exactly when no candidate parses. *)
Theorem extractDate_keeps_first_best (h : Host) (text : jsstring) :
  exists result,
    extractDateFromText h text = Normal result
    /\ isFirstBest h
         (flat_map (fun pattern => matchAll pattern (trim text)) DATE_PATTERNS)
         result.
Proof.
  fold (candidates text).
  rewrite extractDateFromText_fold. eexists. split; [reflexivity|].
  change (candidates text) with ([] ++ candidates text).
  apply fold_keepBest.
  - intros c Hin. destruct Hin.
  - reflexivity.
Qed.

(** The second match of one pattern wins over the first when it scores
    higher: the date of 1900 carries both age penalties. *)
Example second_match_wins :
  extractDateFromText host_utc (lit "01/01/1900 and 22-03-2024")
  = Normal (Some {| Date := Some (lit "2024-03-22");
                    Format := Some (lit "DD-MM-YYYY");
                    Confidence := 1%float;
                    ExtractedFromText := Some (lit "22-03-2024") |}).
Proof. vm_compute. reflexivity. Qed.

Example first_match_parsed :
  option_map Confidence (parsed host_utc (lit "01/01/1900"))
  = Some (0.8 - 0.3 - 0.4 + 0.1 + 0.1)%float.
Proof. vm_compute. reflexivity. Qed.

(** Of two candidates of equal score the first found is kept. *)
Example tie_keeps_first :
  extractDateFromText host_utc (lit "15/03/2024 or 16/03/2024")
  = Normal (Some {| Date := Some (lit "2024-03-15");
                    Format := Some (lit "DD/MM/YYYY");
                    Confidence := 1%float;
                    ExtractedFromText := Some (lit "15/03/2024") |}).
Proof. vm_compute. reflexivity. Qed.

(** ** The confidence score *)

Lemma score_spec (a b c d e : bool) :
  score a b c d e
  = clamp01 (0.8 - when a 0.3 - when b 0.4 + when c 0.1 + when d 0.1
             + when e 0.1)%float.
Proof. destruct a, b, c, d, e; vm_compute; reflexivity. Qed.

Lemma calculateDateConfidence_spec (h : Host) (s : jsstring) (d : DateObj) :
  calculateDateConfidence h s d
  = confidence_spec (getFullYear h (Date_now h)) (getFullYear h d) s.
Proof.
  rewrite calculateDateConfidence_score, score_spec. unfold confidence_spec.
  now rewrite <- !includes_char, <- test_d4, <- test_MMM.
Qed.

Lemma score_close_to_exact (a b c d e : bool) :
  close_to (score a b c d e) (score_exact a b c d e) = true.
Proof. destruct a, b, c, d, e; vm_compute; reflexivity. Qed.

Lemma calculateDateConfidence_close (h : Host) (s : jsstring) (d : DateObj) :
  close_to (calculateDateConfidence h s d)
    (confidence_exact (getFullYear h (Date_now h)) (getFullYear h d) s)
  = true.
Proof.
  rewrite calculateDateConfidence_score. unfold confidence_exact.
  rewrite <- !includes_char, <- test_d4, <- test_MMM.
  apply score_close_to_exact.
Qed.

Lemma calculateDateConfidence_within01 (h : Host) (s : jsstring) (d : DateObj) :
  within01 (calculateDateConfidence h s d).
Proof.
  rewrite calculateDateConfidence_score.
  apply confidence_bounds, score_in_confidences.
Qed.

Lemma extract_result (h : Host) (text : jsstring) (r : DateInformation) :
  extractDateFromText h text = Normal (Some r) ->
  exists c d,
    In c (candidates text) /\ parsed h c = Some d
    /\ r = withExtractedFromText d c.
Proof.
  intros H. destruct (extract_isFirstBest h text) as (res & Hres & Hbest).
  rewrite H in Hres. injection Hres as <-.
  destruct Hbest as (i & c & d & Hi & Hc & -> & _).
  exists c, d. repeat split; auto. eapply nth_error_In; eauto.
Qed.

(** C2: for every matched string and parsed date the confidence is the clamp
    to [0, 1] of 0.8, minus 0.3 when the current year and the parsed year are
    more than 50 apart, minus 0.4 more when they are more than 100 apart, plus
    0.1 when the string holds a slash or a dash, plus 0.1 when it holds four
    digits in a row, plus 0.1 when it holds a month name or abbreviation:
    equal to that expression evaluated in the doubles of the source, and
    within 10^-15 of its value in exact arithmetic; it lies in [0, 1], and so
    does the confidence of every result of [extractDateFromText]. *)
Theorem confidence_is_clamped_score (h : Host) :
  (forall (matched : jsstring) (parsedDate : DateObj),
     calculateDateConfidence h matched parsedDate
     = confidence_spec (getFullYear h (Date_now h))
         (getFullYear h parsedDate) matched
     /\ close_to (calculateDateConfidence h matched parsedDate)
          (confidence_exact (getFullYear h (Date_now h))
             (getFullYear h parsedDate) matched) = true
     /\ within01 (calculateDateConfidence h matched parsedDate))
  /\ (forall (text : jsstring) (r : DateInformation),
        extractDateFromText h text = Normal (Some r) ->
        within01 (Confidence r)).
Proof.
  split.
  - intros s d. split; [|split].
    + apply calculateDateConfidence_spec.
    + apply calculateDateConfidence_close.
    + apply calculateDateConfidence_within01.
  - intros text r H.
    destruct (extract_result _ _ _ H) as (c & d & _ & Hc & ->).
    cbn [withExtractedFromText Confidence].
    now apply confidence_bounds, (parsed_confidence h c).
Qed.

Lemma confidence_is_clamped_score_witness :
  extractDateFromText host_utc (lit "Signature 22-03-2024")
  = Normal (Some {| Date := Some (lit "2024-03-22");
                    Format := Some (lit "DD-MM-YYYY");
                    Confidence := 1%float;
                    ExtractedFromText := Some (lit "22-03-2024") |})
  /\ within01 1%float.
Proof.
  assert (E : extractDateFromText host_utc (lit "Signature 22-03-2024")
              = Normal (Some {| Date := Some (lit "2024-03-22");
                                Format := Some (lit "DD-MM-YYYY");
                                Confidence := 1%float;
                                ExtractedFromText := Some (lit "22-03-2024") |}))
    by (vm_compute; reflexivity).
  split; [exact E|].
  exact (proj2 (confidence_is_clamped_score host_utc) _ _ E).
Defined.

(** The score of a date more than a century old, with a separator and a
    four-digit year: both penalties and two bonuses. *)
Example confidence_old_date :
  calculateDateConfidence host_utc (lit "16-03-1923")
    (Date_ymd host_utc (Some 1923%Z) (Some 2%Z) (Some 16%Z))
  = (0.8 - 0.3 - 0.4 + 0.1 + 0.1)%float.
Proof. vm_compute. reflexivity. Qed.

(** ** The consistency check *)

Lemma min2_inject (a b : Z) :
  Number.min2 (Number.Fin (inject_Z a)) (Number.Fin (inject_Z b))
  = Number.Fin (inject_Z (Z.min a b)).
Proof.
  unfold Number.min2, Qle_bool. cbn [Qnum Qden inject_Z].
  rewrite !Z.mul_1_r.
  destruct (Z.leb_spec a b); [rewrite Z.min_l|rewrite Z.min_r]; auto; lia.
Qed.

Lemma max2_inject (a b : Z) :
  Number.max2 (Number.Fin (inject_Z a)) (Number.Fin (inject_Z b))
  = Number.Fin (inject_Z (Z.max a b)).
Proof.
  unfold Number.max2, Qle_bool. cbn [Qnum Qden inject_Z].
  rewrite !Z.mul_1_r.
  destruct (Z.leb_spec a b); [rewrite Z.max_r|rewrite Z.max_l]; auto; lia.
Qed.

Lemma fold_min2_inject (ts : list Z) :
  forall t,
    fold_left Number.min2 (map (fun z => Number.Fin (inject_Z z)) ts)
      (Number.Fin (inject_Z t))
    = Number.Fin (inject_Z (fold_left Z.min ts t)).
Proof.
  induction ts as [|x ts IH]; intros t; cbn [map fold_left].
  - reflexivity.
  - now rewrite min2_inject, IH.
Qed.

Lemma fold_max2_inject (ts : list Z) :
  forall t,
    fold_left Number.max2 (map (fun z => Number.Fin (inject_Z z)) ts)
      (Number.Fin (inject_Z t))
    = Number.Fin (inject_Z (fold_left Z.max ts t)).
Proof.
  induction ts as [|x ts IH]; intros t; cbn [map fold_left].
  - reflexivity.
  - now rewrite max2_inject, IH.
Qed.

Lemma Math_min_times (t : Z) (ts : list Z) :
  Number.Math_min (map (fun z => Number.Fin (inject_Z z)) (t :: ts))
  = Number.Fin (inject_Z (minimum t ts)).
Proof.
  unfold Number.Math_min, minimum. cbn [map fold_left Number.min2].
  rewrite fold_min2_inject. f_equal. f_equal.
  apply fold_symmetric; intros; lia.
Qed.

Lemma Math_max_times (t : Z) (ts : list Z) :
  Number.Math_max (map (fun z => Number.Fin (inject_Z z)) (t :: ts))
  = Number.Fin (inject_Z (maximum t ts)).
Proof.
  unfold Number.Math_max, maximum. cbn [map fold_left Number.max2].
  rewrite fold_max2_inject. f_equal. f_equal.
  apply fold_symmetric; intros; lia.
Qed.

Lemma fold_min2_NaN (xs : list Number.number) :
  fold_left Number.min2 xs Number.NaN = Number.NaN.
Proof. induction xs as [|x xs IH]; cbn; auto. Qed.

Lemma fold_max2_NaN (xs : list Number.number) :
  fold_left Number.max2 xs Number.NaN = Number.NaN.
Proof. induction xs as [|x xs IH]; cbn; auto. Qed.

Lemma fold_min2_In_NaN (xs : list Number.number) :
  In Number.NaN xs ->
  forall x, fold_left Number.min2 xs x = Number.NaN.
Proof.
  induction xs as [|y xs IH]; intros Hin x; [destruct Hin|].
  cbn [fold_left]. destruct Hin as [->|Hin].
  - replace (Number.min2 x Number.NaN) with Number.NaN by now destruct x.
    apply fold_min2_NaN.
  - now apply IH.
Qed.

Lemma fold_max2_In_NaN (xs : list Number.number) :
  In Number.NaN xs ->
  forall x, fold_left Number.max2 xs x = Number.NaN.
Proof.
  induction xs as [|y xs IH]; intros Hin x; [destruct Hin|].
  cbn [fold_left]. destruct Hin as [->|Hin].
  - replace (Number.max2 x Number.NaN) with Number.NaN by now destruct x.
    apply fold_max2_NaN.
  - now apply IH.
Qed.

(** The time values the source computes are those of [timesOf]; a date the
    host cannot read shows as a [NaN] among them. *)
Lemma dateValues_times (h : Host) (dates : list (option DateInformation)) :
  forallb hasDate dates = true ->
  match timesOf h dates with
  | Some ts =>
      map (dateValue h) dates = map (fun z => Number.Fin (inject_Z z)) ts
      /\ length ts = length dates
  | None => In Number.NaN (map (dateValue h) dates)
  end.
Proof.
  induction dates as [|d dates IH]; cbn [forallb timesOf map]; intros H.
  - now split.
  - apply andb_true_iff in H as [Hd H]. specialize (IH H).
    destruct d as [di|]; [|discriminate].
    destruct (timesOf h dates) as [ts|].
    + destruct IH as [IH Hlen].
      destruct (Date_of_string h (ToString (Date di))) as [t|] eqn:E;
        cbn [map length].
      * rewrite IH. unfold dateValue, getTime. rewrite E.
        split; [reflexivity|]. now rewrite Hlen.
      * left. unfold dateValue, getTime. now rewrite E.
    + now right.
Qed.

Lemma daysDiff_le_30 (M m : Z) :
  Number.leb
    (Number.div_pos
       (Number.sub (Number.Fin (inject_Z M)) (Number.Fin (inject_Z m)))
       (inject_Z (1000 * 60 * 60 * 24)))
    (Number.Fin (inject_Z 30))
  = (M - m <=? 30 * msPerDay)%Z.
Proof.
  unfold Number.leb, Number.div_pos, Number.sub, Qle_bool.
  cbn. replace ((M * 1 + - m * 1) * 1 * 1)%Z with (M - m)%Z by lia.
  reflexivity.
Qed.

Lemma analyzeDateConsistency_spec (h : Host)
    (a b c : option DateInformation) :
  analyzeDateConsistency h a b c = consistency_spec h a b c.
Proof.
  unfold analyzeDateConsistency, consistency_spec.
  set (dates := filter hasDate [a; b; c]).
  destruct (length dates <? 2)%nat eqn:Hlen; [reflexivity|].
  apply Nat.ltb_ge in Hlen.
  assert (Hall : forallb hasDate dates = true).
  { apply forallb_forall. intros x Hx. now apply filter_In in Hx. }
  pose proof (dateValues_times h dates Hall) as Hv.
  destruct (timesOf h dates) as [ts|].
  - destruct Hv as [Hv Hl]. rewrite Hv.
    destruct ts as [|t ts]; [rewrite <- Hl in Hlen; cbn in Hlen; lia|].
    rewrite Math_min_times, Math_max_times, daysDiff_le_30.
    reflexivity.
  - unfold Number.Math_min, Number.Math_max.
    rewrite fold_min2_In_NaN, fold_max2_In_NaN by exact Hv.
    reflexivity.
Qed.

Lemma maximum_ge (t : Z) (ts : list Z) (x : Z) :
  In x (t :: ts) -> (x <= maximum t ts)%Z.
Proof.
  unfold maximum. induction ts as [|y ts IH]; cbn [fold_right In].
  - intros [->|[]]. lia.
  - intros [->|[->|H]]; [specialize (IH (or_introl eq_refl))| |
                         specialize (IH (or_intror H))]; lia.
Qed.

Lemma minimum_le (t : Z) (ts : list Z) (x : Z) :
  In x (t :: ts) -> (minimum t ts <= x)%Z.
Proof.
  unfold minimum. induction ts as [|y ts IH]; cbn [fold_right In].
  - intros [->|[]]. lia.
  - intros [->|[->|H]]; [specialize (IH (or_introl eq_refl))| |
                         specialize (IH (or_intror H))]; lia.
Qed.

Lemma maximum_In (t : Z) (ts : list Z) : In (maximum t ts) (t :: ts).
Proof.
  unfold maximum. induction ts as [|y ts IH]; cbn [fold_right].
  - now left.
  - destruct (Z.max_spec y (fold_right Z.max t ts)) as [[_ ->]|[_ ->]].
    + destruct IH as [IH|IH]; [now left|right; now right].
    + right. now left.
Qed.

Lemma minimum_In (t : Z) (ts : list Z) : In (minimum t ts) (t :: ts).
Proof.
  unfold minimum. induction ts as [|y ts IH]; cbn [fold_right].
  - now left.
  - destruct (Z.min_spec y (fold_right Z.min t ts)) as [[_ ->]|[_ ->]].
    + right. now left.
    + destruct IH as [IH|IH]; [now left|right; now right].
Qed.

(** The span is within 30 days exactly when any two of the dates are. *)
Lemma within30Days_pairs (ts : list Z) :
  within30Days ts = true
  <-> forall x y, In x ts -> In y ts -> (x - y <= 30 * msPerDay)%Z.
Proof.
  destruct ts as [|t ts]; cbn [within30Days].
  - split; [intros _ x y []|reflexivity].
  - rewrite Z.leb_le. split.
    + intros H x y Hx Hy.
      pose proof (maximum_ge t ts x Hx). pose proof (minimum_le t ts y Hy).
      lia.
    + intros H. apply H; [apply maximum_In|apply minimum_In].
Qed.

Lemma hasDate_presentDate (d : option DateInformation) :
  hasDate d = presentDate d.
Proof.
  unfold hasDate, presentDate, dateOf.
  destruct d as [di|]; [|reflexivity].
  destruct (Date di) as [[|c s]|]; reflexivity.
Qed.

Lemma presentDate_absentIfEmpty (d : option DateInformation) :
  presentDate (absentIfEmpty d) = presentDate d.
Proof.
  unfold absentIfEmpty, emptyDate, presentDate.
  destruct (dateOf d) as [s|] eqn:E; [|now rewrite E].
  destruct (Str.eqb s []) eqn:B; [reflexivity|]. now rewrite E, B.
Qed.

Lemma timesOf_length (h : Host) (ds : list (option DateInformation)) :
  forall ts, timesOf h ds = Some ts -> length ts = length ds.
Proof.
  induction ds as [|d ds IH]; intros ts H; cbn [timesOf] in H.
  - now injection H as <-.
  - destruct d as [di|]; [|discriminate].
    destruct (timesOf h ds) as [ts'|]; [|discriminate].
    destruct (Date_of_string h _); [|discriminate].
    injection H as <-. cbn [length]. now rewrite (IH ts' eq_refl).
Qed.

Lemma filter_absentIfEmpty (ds : list (option DateInformation)) :
  filter hasDate (map absentIfEmpty ds) = filter hasDate ds.
Proof.
  induction ds as [|d ds IH]; [reflexivity|].
  cbn [map filter]. rewrite IH, !hasDate_presentDate.
  rewrite presentDate_absentIfEmpty.
  destruct (presentDate d) eqn:E; [|reflexivity].
  f_equal. unfold absentIfEmpty, emptyDate. unfold presentDate in E.
  destruct (dateOf d) as [s|]; [|discriminate].
  now destruct (Str.eqb s []).
Qed.

(** C3: the date-consistency check keeps the entries with a present date:
    those that are given and carry a date other than the empty string (an
    entry whose date is the empty string is taken for an absent one; when
    no entry is such, the entries kept are those whose date is not absent).
    With fewer than 2 of them it answers Unknown; with 2 or more, it answers
    Consistent when all of them are dates the host can read and the span from
    the earliest to the latest (equivalently, between any two) is at most 30
    days, and Inconsistent otherwise. *)
Theorem consistency_check_cases (h : Host)
    (stampDate signatureDate documentDate : option DateInformation) :
  let entries := [stampDate; signatureDate; documentDate] in
  let present := filter presentDate entries in
  let answer :=
    analyzeDateConsistency h stampDate signatureDate documentDate in
  answer = consistency_cases h stampDate signatureDate documentDate
  /\ ((length present < 2)%nat -> answer = Unknown)
  /\ ((2 <= length present)%nat ->
      (answer = Consistent
       <-> exists t ts, timesOf h present = Some (t :: ts)
                        /\ (maximum t ts - minimum t ts <= 30 * msPerDay)%Z)
      /\ (answer = Consistent
          <-> exists ts, timesOf h present = Some ts
                         /\ forall x y, In x ts -> In y ts ->
                                        (x - y <= 30 * msPerDay)%Z)
      /\ (answer <> Consistent -> answer = Inconsistent))
  /\ answer = analyzeDateConsistency h (absentIfEmpty stampDate)
                (absentIfEmpty signatureDate) (absentIfEmpty documentDate)
  /\ (forallb (fun d => negb (emptyDate d)) entries = true ->
      present = filter givenDate entries).
Proof.
  intros entries present answer. subst answer.
  assert (Hfilter : filter hasDate entries = present)
    by (apply filter_ext; intros d; apply hasDate_presentDate).
  assert (Hcases :
    analyzeDateConsistency h stampDate signatureDate documentDate
    = consistency_cases h stampDate signatureDate documentDate).
  { rewrite analyzeDateConsistency_spec.
    unfold consistency_spec, consistency_cases. fold entries.
    rewrite Hfilter. fold present.
    destruct (length present <? 2)%nat eqn:Hn; [reflexivity|].
    destruct (timesOf h present) as [[|t ts]|] eqn:Ht; try reflexivity.
    apply Nat.ltb_ge in Hn. apply timesOf_length in Ht.
    cbn [length] in Ht. lia. }
  split; [exact Hcases|].
  split; [|split; [|split]].
  - rewrite Hcases. unfold consistency_cases. fold entries. fold present.
    intros H. apply Nat.ltb_lt in H. now rewrite H.
  - rewrite Hcases. unfold consistency_cases. fold entries. fold present.
    intros Hlen. pose proof Hlen as H. apply Nat.ltb_ge in H. rewrite H.
    destruct (timesOf h present) as [[|t ts]|] eqn:Ht.
    + apply timesOf_length in Ht. cbn [length] in Ht. lia.
    + pose proof (within30Days_pairs (t :: ts)) as Hp.
      cbn [within30Days] in Hp.
      destruct (maximum t ts - minimum t ts <=? 30 * msPerDay)%Z eqn:Hspan.
      * repeat split; try congruence.
        -- intros _. exists t, ts. split; [reflexivity|]. now apply Z.leb_le.
        -- intros _. exists (t :: ts). split; [reflexivity|]. now apply Hp.
      * repeat split; try discriminate.
        -- intros (t' & ts' & [= <- <-] & Hle).
           apply Z.leb_le in Hle. congruence.
        -- intros (ts' & [= <-] & Hall). apply Hp in Hall. discriminate.
    + repeat split; try discriminate.
      * intros (t & ts & E & _). discriminate.
      * intros (ts & E & _). discriminate.
  - rewrite !analyzeDateConsistency_spec.
    unfold consistency_spec.
    change [absentIfEmpty stampDate; absentIfEmpty signatureDate;
            absentIfEmpty documentDate]
      with (map absentIfEmpty [stampDate; signatureDate; documentDate]).
    now rewrite filter_absentIfEmpty.
  - intros Hne. subst present. apply filter_ext_in. intros d Hd.
    rewrite forallb_forall in Hne. specialize (Hne d Hd).
    unfold presentDate, givenDate, emptyDate in *.
    destruct (dateOf d) as [s|]; [|reflexivity].
    now destruct (Str.eqb s []).
Qed.

Example consistency_two_days :
  analyzeDateConsistency host_utc (dated "2024-03-14") None (dated "2024-03-16")
  = Consistent.
Proof. vm_compute. reflexivity. Qed.

Example consistency_thirty_days :
  analyzeDateConsistency host_utc (dated "2024-03-14") (dated "2024-04-13")
    (dated "2024-03-20")
  = Consistent.
Proof. vm_compute. reflexivity. Qed.

Example consistency_thirty_one_days :
  analyzeDateConsistency host_utc (dated "2024-03-14") (dated "2024-04-14") None
  = Inconsistent.
Proof. vm_compute. reflexivity. Qed.

Example consistency_century :
  analyzeDateConsistency host_utc (dated "2024-03-14") (dated "1924-03-16") None
  = Inconsistent.
Proof. vm_compute. reflexivity. Qed.

Example consistency_single :
  analyzeDateConsistency host_utc None (dated "2024-03-14") None = Unknown.
Proof. vm_compute. reflexivity. Qed.

Example consistency_unreadable :
  analyzeDateConsistency host_utc (dated "2024-03-14") (dated "14th March") None
  = Inconsistent.
Proof. vm_compute. reflexivity. Qed.

(** An entry whose date is the empty string is not counted. *)
Example consistency_empty_date :
  analyzeDateConsistency host_utc undated (dated "2024-03-14") None = Unknown
  /\ analyzeDateConsistency host_utc undated (dated "2024-03-14")
       (dated "2024-03-16") = Consistent.
Proof. split; vm_compute; reflexivity. Qed.

Lemma consistency_check_cases_witness :
  analyzeDateConsistency host_utc (dated "2024-03-14") (dated "2024-04-13")
    None = Consistent
  /\ analyzeDateConsistency host_utc (dated "2024-03-14")
       (dated "2024-04-14") None = Inconsistent
  /\ analyzeDateConsistency host_utc None (dated "2024-03-14") None = Unknown
  /\ analyzeDateConsistency host_utc undated (dated "2024-03-14") None
     = Unknown.
Proof.
  split; [|split; [|split]].
  - pose proof (consistency_check_cases host_utc (dated "2024-03-14")
                  (dated "2024-04-13") None) as H.
    cbv zeta in H. destruct H as (_ & _ & H & _).
    destruct H as (H & _); [cbn; lia|]. apply H.
    exists 1710374400000%Z, [1712966400000%Z].
    split; [vm_compute; reflexivity|]. vm_compute. discriminate.
  - pose proof (consistency_check_cases host_utc (dated "2024-03-14")
                  (dated "2024-04-14") None) as H.
    cbv zeta in H. destruct H as (_ & _ & H & _).
    destruct H as (H & _ & Hrest); [cbn; lia|]. apply Hrest.
    intros Hc. apply H in Hc. destruct Hc as (t & ts & E & Hspan).
    vm_compute in E. injection E as <- <-. vm_compute in Hspan.
    now apply Hspan.
  - pose proof (consistency_check_cases host_utc None (dated "2024-03-14")
                  None) as H.
    cbv zeta in H. destruct H as (_ & H & _). apply H. cbn. lia.
  - pose proof (consistency_check_cases host_utc undated (dated "2024-03-14")
                  None) as H.
    cbv zeta in H. destruct H as (_ & H & _). apply H. cbn. lia.
Defined.

(** ** Exceptions *)

Lemma parseAndValidateDate_catches (h : Host) (s : jsstring) (e : error) :
  tryFormats h s DATE_FORMAT_MAP = Throw e ->
  parseAndValidateDate h s = Normal None.
Proof.
  intros H. unfold parseAndValidateDate. destruct s; [reflexivity|].
  rewrite H. reflexivity.
Qed.

Lemma extract_none (h : Host) (text : jsstring) :
  (forall c, In c (candidates text) -> parsed h c = None) ->
  extractDateFromText h text = Normal None.
Proof.
  intros Hnone.
  destruct (extract_isFirstBest h text) as ([r|] & Hres & Hbest);
    [|exact Hres].
  destruct Hbest as (i & c & d & Hi & Hc & _).
  rewrite (Hnone c) in Hc by (eapply nth_error_In; eauto). discriminate.
Qed.

(** C7: [extractDateFromText] never raises, for any input string and host:
    it completes normally; the empty input, and an input none of whose
    candidates parses, give the absent result; and an exception raised while
    a candidate is handled (the [RangeError] of [toISOString] on an Invalid
    Date) makes [parseAndValidateDate] return null for that candidate instead
    of propagating. *)
Theorem extractDate_never_raises (h : Host) (text : jsstring) :
  (exists result, extractDateFromText h text = Normal result)
  /\ extractDateFromText h [] = Normal None
  /\ ((forall c, In c (candidates text) -> parsed h c = None) ->
      extractDateFromText h text = Normal None)
  /\ (forall candidate,
        (exists result, parseAndValidateDate h candidate = Normal result)
        /\ forall e, tryFormats h candidate DATE_FORMAT_MAP = Throw e ->
                     parseAndValidateDate h candidate = Normal None).
Proof.
  split; [|split; [|split]].
  - destruct (extract_isFirstBest h text) as (r & Hr & _). now exists r.
  - reflexivity.
  - apply extract_none.
  - intros c. split.
    + exists (parsed h c). apply parseAndValidateDate_parsed.
    + apply parseAndValidateDate_catches.
Qed.

Lemma extractDate_never_raises_witness :
  tryFormats host_utc (lit "01-01-9999999") DATE_FORMAT_MAP = Throw RangeError
  /\ parseAndValidateDate host_utc (lit "01-01-9999999") = Normal None.
Proof.
  assert (E : tryFormats host_utc (lit "01-01-9999999") DATE_FORMAT_MAP
              = Throw RangeError) by (vm_compute; reflexivity).
  split; [exact E|].
  exact (proj2 (proj2 (proj2 (proj2
           (extractDate_never_raises host_utc []))) (lit "01-01-9999999"))
           RangeError E).
Defined.

Example no_dates_here :
  extractDateFromText host_utc (lit "no dates here") = Normal None.
Proof. vm_compute. reflexivity. Qed.

Example blank_text :
  extractDateFromText host_utc (lit "   ") = Normal None.
Proof. vm_compute. reflexivity. Qed.

(** ** The fields of a result *)

Lemma extract_fields (h : Host) (text : jsstring) (r : DateInformation) :
  extractDateFromText h text = Normal (Some r) ->
  exists t c,
    Date r = Some (isoDate t) /\ ExtractedFromText r = Some c
    /\ In c (candidates text)
    /\ ((exists f pattern, In (f, pattern) DATE_FORMAT_MAP
                           /\ parseDate h c f = Some (Some t)
                           /\ Format r = Some f)
        \/ (Date_of_string h c = Some t
            /\ Format r = Some (lit "Auto-detected"))).
Proof.
  intros H. destruct (extract_result _ _ _ H) as (c & d & Hin & Hc & ->).
  destruct (parsed_cases _ _ _ Hc) as (t & Hd & _ & Hcase).
  exists t, c. cbn [withExtractedFromText Date Format ExtractedFromText].
  repeat split; auto.
  destruct Hcase as [(f & p & Hf & _ & Hp & Hfmt & _)|(_ & Hp & Hfmt & _)].
  - left. exists f, p. auto.
  - right. auto.
Qed.

(** C8: in every [DateInformation] that [extractDateFromText] produces, the
    date is present if and only if the format and the extracted text are
    present (all three are). *)
Theorem result_fields_present_together (h : Host) (text : jsstring)
    (r : DateInformation) :
  extractDateFromText h text = Normal (Some r) ->
  (Date r <> None <-> (Format r <> None /\ ExtractedFromText r <> None))
  /\ Date r <> None.
Proof.
  intros H. destruct (extract_fields _ _ _ H) as (t & c & Hd & He & _ & Hf).
  assert (Format r <> None).
  { destruct Hf as [(f & p & _ & _ & ->)|[_ ->]]; discriminate. }
  rewrite Hd, He. repeat split; try discriminate; auto.
Qed.

Lemma result_fields_present_together_witness :
  let r := {| Date := Some (lit "2024-03-22");
              Format := Some (lit "DD-MM-YYYY");
              Confidence := 1%float;
              ExtractedFromText := Some (lit "22-03-2024") |} in
  extractDateFromText host_utc (lit "Signature 22-03-2024") = Normal (Some r)
  /\ (Date r <> None <-> (Format r <> None /\ ExtractedFromText r <> None)).
Proof.
  assert (E : extractDateFromText host_utc (lit "Signature 22-03-2024")
              = Normal (Some {| Date := Some (lit "2024-03-22");
                                Format := Some (lit "DD-MM-YYYY");
                                Confidence := 1%float;
                                ExtractedFromText := Some (lit "22-03-2024") |}))
    by (vm_compute; reflexivity).
  split; [exact E|].
  exact (proj1 (result_fields_present_together host_utc _ _ E)).
Defined.

(** ** Fallback candidates *)

Lemma format_tag_not_auto (f : jsstring) (pattern : regex) :
  In (f, pattern) DATE_FORMAT_MAP -> f <> lit "Auto-detected".
Proof.
  intros H E. subst f. cbn in H.
  repeat (destruct H as [H|H]; [vm_compute in H; discriminate|]).
  exact H.
Qed.

Lemma fallback_confidence (h : Host) (s : jsstring) (d : DateInformation) :
  parsed h s = Some d ->
  Format d = Some (lit "Auto-detected") ->
  Confidence d = 0.6%float.
Proof.
  intros H Hfmt.
  destruct (parsed_cases _ _ _ H) as (t & _ & _ & [Hs|Hf]).
  - destruct Hs as (f & p & Hin & _ & _ & Hf & _).
    rewrite Hf in Hfmt. injection Hfmt as ->.
    now destruct (format_tag_not_auto _ _ Hin).
  - now destruct Hf as (_ & _ & _ & ->).
Qed.

(** C9: every candidate parsed by the fallback (format tag [Auto-detected])
    has the fixed confidence 0.6, whatever its text; hence, when some
    candidate of a text parses through a strict format with a confidence
    above 0.6, the result of [extractDateFromText] is not a fallback parse:
    its tag is not [Auto-detected] and its confidence is at least that of
    the strict candidate. *)
Theorem fallback_scores_six_tenths (h : Host) :
  (forall (s : jsstring) (d : DateInformation),
     parsed h s = Some d ->
     Format d = Some (lit "Auto-detected") ->
     Confidence d = 0.6%float)
  /\ (forall (text c : jsstring) (d : DateInformation),
        In c (candidates text) ->
        parsed h c = Some d ->
        Format d <> Some (lit "Auto-detected") ->
        PrimFloat.ltb 0.6%float (Confidence d) = true ->
        exists r, extractDateFromText h text = Normal (Some r)
                  /\ Format r <> Some (lit "Auto-detected")
                  /\ PrimFloat.leb (Confidence d) (Confidence r) = true).
Proof.
  split; [apply fallback_confidence|].
  intros text c d Hin Hc Hfmt Hlt.
  destruct (extract_isFirstBest h text) as ([r|] & Hres & Hbest).
  - destruct Hbest as (i & c0 & d0 & Hi & Hc0 & -> & Hall).
    destruct (In_nth_error _ _ Hin) as (j & Hj).
    destruct (Hall _ _ _ Hj Hc) as [Hle _].
    cbn [withExtractedFromText Confidence Format] in *.
    exists (withExtractedFromText d0 c0). repeat split; auto.
    cbn [withExtractedFromText Format]. intros E.
    rewrite (fallback_confidence _ _ _ Hc0 E) in Hle.
    rewrite (confidence_lt_not_ge 0.6%float (Confidence d)) in Hle;
      [discriminate|now left|eapply parsed_confidence; eauto|exact Hlt].
  - rewrite (Hbest c Hin) in Hc. discriminate.
Qed.

Example fallback_parse :
  parsed host_legacy (lit "March 18, 2024")
  = Some {| Date := Some (lit "2024-03-18");
            Format := Some (lit "Auto-detected");
            Confidence := 0.6%float;
            ExtractedFromText := Some (lit "March 18, 2024") |}.
Proof. vm_compute. reflexivity. Qed.

Lemma fallback_scores_six_tenths_witness :
  parsed host_legacy (lit "March 18, 2024")
  = Some {| Date := Some (lit "2024-03-18");
            Format := Some (lit "Auto-detected");
            Confidence := 0.6%float;
            ExtractedFromText := Some (lit "March 18, 2024") |}
  /\ 0.6%float = 0.6%float.
Proof.
  assert (E : parsed host_legacy (lit "March 18, 2024")
              = Some {| Date := Some (lit "2024-03-18");
                        Format := Some (lit "Auto-detected");
                        Confidence := 0.6%float;
                        ExtractedFromText := Some (lit "March 18, 2024") |})
    by (vm_compute; reflexivity).
  split; [exact E|].
  exact (proj1 (fallback_scores_six_tenths host_legacy) _ _ E eq_refl).
Defined.

(** A strict candidate above 0.6 wins over a fallback candidate of the same
    text. *)
Example strict_beats_fallback :
  extractDateFromText host_legacy (lit "March 18, 2024 signed 1.4.2024")
  = Normal (Some {| Date := Some (lit "2024-04-01");
                    Format := Some (lit "DD.MM.YYYY");
                    Confidence := 0.9%float;
                    ExtractedFromText := Some (lit "1.4.2024") |}).
Proof. vm_compute. reflexivity. Qed.

(** ** The shape of the date field *)

Lemma Date_ymd_clip (h : Host) (y m d : option Z) (t : Z) :
  Date_ymd h y m d = Some t -> (Z.abs t <= 8640000000000000)%Z.
Proof.
  unfold Date_ymd, TimeClip.
  destruct y, m, d; try discriminate.
  destruct (Z.leb_spec (Z.abs (UTC h (MakeDate (MakeDay
              (if ((0 <=? z) && (z <=? 99))%Z then (1900 + z)%Z else z)
              z0 z1) 0))) 8640000000000000); [|discriminate].
  intros [= <-]. assumption.
Qed.

Lemma Date_of_string_clip (h : Host) (s : jsstring) (t : Z) :
  Date_of_string h s = Some t -> (Z.abs t <= 8640000000000000)%Z.
Proof.
  unfold Date_of_string, TimeClip.
  destruct (Date_parse h s) as [t'|]; [|discriminate].
  destruct (Z.leb_spec (Z.abs t') 8640000000000000); [|discriminate].
  intros [= <-]. assumption.
Qed.

Lemma parseDate_clip (h : Host) (s f : jsstring) (t : Z) :
  parseDate h s f = Some (Some t) -> (Z.abs t <= 8640000000000000)%Z.
Proof.
  assert (Hclip : forall y m d,
            Some (Date_ymd h y m d) = Some (Some t) ->
            (Z.abs t <= 8640000000000000)%Z).
  { intros y m d H. apply (Date_ymd_clip h y m d). congruence. }
  unfold parseDate.
  destruct (includes f (lit "MMM") || includes f (lit "MMMM")).
  - set (parts := split _ s).
    destruct (startsWith f (lit "DD")); lazy beta iota zeta.
    + destruct (monthMap (part parts 1)), (parseInt (part parts 0)),
        (parseInt (part parts 2)); solve [congruence | apply Hclip].
    + destruct (monthMap (part parts 0)), (parseInt (part parts 1)),
        (parseInt (part parts 2)); solve [congruence | apply Hclip].
  - set (parts := split _ s).
    destruct (startsWith f (lit "YYYY")); lazy beta iota zeta.
    + destruct (parseInt (part parts 2)), (parseInt (part parts 1)),
        (parseInt (part parts 0)); cbn [option_map];
        solve [congruence | apply Hclip].
    + destruct (parseInt (part parts 0)), (parseInt (part parts 1)),
        (parseInt (part parts 2)) as [y|]; cbn [option_map];
        try destruct (y <? 100)%Z; solve [congruence | apply Hclip].
Qed.

(** C10 (counterexample): in [13/13/9999] the month 13 of the year 9999
    rolls over to January 10000, which [toISOString] prints with a sign and
    six digits.  The other candidate of the text, [13/13/99] of the
    two-digit-year pattern, is read by no strict format and is left to the
    parser of the host, which here does not read it. *)
Lemma C10_counterexample :
  exists r,
    extractDateFromText host_utc (lit "13/13/9999") = Normal (Some r)
    /\ Date r = Some (lit "+010000-01-13")
    /\ Format r = Some (lit "DD/MM/YYYY")
    /\ ExtractedFromText r = Some (lit "13/13/9999")
    /\ isYYYYMMDD (lit "+010000-01-13") = false
    /\ candidates (lit "13/13/9999")
       = [lit "13/13/9999"; lit "13/13/9999"; lit "13/13/99"].
Proof.
  eexists. split; [vm_compute; reflexivity|].
  cbn [Date Format ExtractedFromText].
  repeat (split; [reflexivity|]). vm_compute. reflexivity.
Qed.

(** C10 (amended): whenever [extractDateFromText] returns a result, its date
    field is the date part of the ISO-8601 timestamp of a valid time value:
    of the shape [YYYY-MM-DD] when the UTC year of that time lies within 0 to
    9999, and otherwise of the expanded shape, a sign and a six-digit year
    followed by [-MM-DD]; this holds whichever format matched. *)
Theorem date_field_iso_shape (h : Host) (text : jsstring)
    (r : DateInformation) :
  extractDateFromText h text = Normal (Some r) ->
  exists t,
    (Z.abs t <= 8640000000000000)%Z
    /\ Date r = Some (isoDate t)
    /\ if ((0 <=? YearFromTime t) && (YearFromTime t <=? 9999))%Z
       then isYYYYMMDD (isoDate t) = true
       else isExpandedDate (isoDate t) = true.
Proof.
  intros H. destruct (extract_fields _ _ _ H) as (t & c & Hd & _ & _ & Hf).
  exists t. split; [|split; [exact Hd|]].
  - destruct Hf as [(f & p & _ & Hp & _)|[Hp _]].
    + eapply parseDate_clip; eauto.
    + eapply Date_of_string_clip; eauto.
  - pose proof (isoDate_shape t) as Hs.
    destruct ((0 <=? YearFromTime t) && (YearFromTime t <=? 9999))%Z;
      apply Hs.
Qed.

Lemma date_field_iso_shape_witness :
  extractDateFromText host_utc (lit "Signature 22-03-2024")
  = Normal (Some {| Date := Some (lit "2024-03-22");
                    Format := Some (lit "DD-MM-YYYY");
                    Confidence := 1%float;
                    ExtractedFromText := Some (lit "22-03-2024") |})
  /\ exists t,
       (Z.abs t <= 8640000000000000)%Z
       /\ Some (lit "2024-03-22") = Some (isoDate t)
       /\ if ((0 <=? YearFromTime t) && (YearFromTime t <=? 9999))%Z
          then isYYYYMMDD (isoDate t) = true
          else isExpandedDate (isoDate t) = true.
Proof.
  assert (E : extractDateFromText host_utc (lit "Signature 22-03-2024")
              = Normal (Some {| Date := Some (lit "2024-03-22");
                                Format := Some (lit "DD-MM-YYYY");
                                Confidence := 1%float;
                                ExtractedFromText := Some (lit "22-03-2024") |}))
    by (vm_compute; reflexivity).
  split; [exact E|].
  exact (date_field_iso_shape host_utc _ _ E).
Defined.

(** ** Dependence on the host *)

Lemma tryFormats_same_year (now1 now2 : Z) (tz : Z -> bool -> Z)
    (p : jsstring -> option Z) (s : jsstring)
    (formats : list (jsstring * regex)) :
  let h1 := {| now := now1; LocalTZA := tz; parse_other := p |} in
  let h2 := {| now := now2; LocalTZA := tz; parse_other := p |} in
  currentYear h1 = currentYear h2 ->
  tryFormats h1 s formats = tryFormats h2 s formats.
Proof.
  intros h1 h2 Hy.
  induction formats as [|[f pattern] formats IH]; cbn [tryFormats].
  - reflexivity.
  - destruct (test pattern s); [|exact IH].
    change (parseDate h2 s f) with (parseDate h1 s f).
    destruct (parseDate h1 s f) as [d|]; [|exact IH].
    rewrite !calculateDateConfidence_score.
    change (getFullYear h1 (Date_now h1)) with (Some (currentYear h1)).
    change (getFullYear h2 (Date_now h2)) with (Some (currentYear h2)).
    change (getFullYear h2 d) with (getFullYear h1 d).
    now rewrite Hy.
Qed.

Lemma parsed_same_year (h1 h2 : Host) (s : jsstring) :
  LocalTZA h1 = LocalTZA h2 ->
  parse_other h1 = parse_other h2 ->
  currentYear h1 = currentYear h2 ->
  parsed h1 s = parsed h2 s.
Proof.
  destruct h1 as [now1 tz1 p1], h2 as [now2 tz2 p2].
  cbn [LocalTZA parse_other]. intros <- <- Hy.
  unfold parsed, parseAndValidateDate. destruct s as [|c s]; [reflexivity|].
  rewrite (tryFormats_same_year now1 now2 tz1 p1 (c :: s) DATE_FORMAT_MAP Hy).
  reflexivity.
Qed.

Lemma fold_left_pointwise (A B : Type) (f g : A -> B -> A) (l : list B) :
  (forall a b, f a b = g a b) ->
  forall a, fold_left f l a = fold_left g l a.
Proof.
  intros H. induction l as [|b l IH]; intros a; cbn; [reflexivity|].
  now rewrite H, IH.
Qed.

(** C6 (counterexample): the same text on the same host gives the confidence
    1 when the clock shows 2024 and 0.7 when it shows 2100. *)
Lemma C6_counterexample :
  extractDateFromText host_utc (lit "Signature 22-03-2024")
  <> extractDateFromText host_utc_2100 (lit "Signature 22-03-2024").
Proof. vm_compute. discriminate. Qed.

(** C6 (amended): for a fixed input text and the fixed pattern table, two
    invocations on hosts with the same time zone and the same date parser,
    whose clocks show the same local calendar year, return the same result
    (same date, format, confidence and extracted text); nothing is random,
    and the clock and the time zone are the only ambient state read. *)
Theorem extractDate_same_year_same_result (h1 h2 : Host) (text : jsstring) :
  LocalTZA h1 = LocalTZA h2 ->
  parse_other h1 = parse_other h2 ->
  currentYear h1 = currentYear h2 ->
  extractDateFromText h1 text = extractDateFromText h2 text.
Proof.
  intros Htz Hp Hy. rewrite !extractDateFromText_fold.
  do 2 f_equal. apply fold_left_pointwise.
  intros st m. now rewrite (parsed_same_year h1 h2 m Htz Hp Hy).
Qed.

Lemma extractDate_same_year_same_result_witness :
  currentYear host_utc = currentYear host_utc_next_day
  /\ extractDateFromText host_utc (lit "Signature 22-03-2024")
     = extractDateFromText host_utc_next_day (lit "Signature 22-03-2024").
Proof.
  split; [reflexivity|].
  apply extractDate_same_year_same_result; reflexivity.
Defined.

(** ** Evaluating a candidate on an arbitrary host *)

Lemma tryFormats_miss (h : Host) (s : jsstring)
    (formats : list (jsstring * regex)) :
  forallb (fun entry => negb (test (snd entry) s)) formats = true ->
  tryFormats h s formats = Normal None.
Proof.
  induction formats as [|[f pattern] formats IH]; cbn [tryFormats forallb snd].
  - reflexivity.
  - intros H. apply andb_true_iff in H as [H1 H2].
    apply negb_true_iff in H1. rewrite H1. now apply IH.
Qed.

Lemma tryFormats_hit (h : Host) (s : jsstring)
    (before after : list (jsstring * regex)) (f : jsstring)
    (pattern : regex) (t : Z) :
  forallb (fun entry => negb (test (snd entry) s)) before = true ->
  test pattern s = true ->
  parseDate h s f = Some (Some t) ->
  tryFormats h s (before ++ (f, pattern) :: after)
  = Normal (Some {| Date := Some (isoDate t);
                    Format := Some f;
                    Confidence := calculateDateConfidence h s (Some t);
                    ExtractedFromText := Some s |}).
Proof.
  induction before as [|[f' p'] before IH];
    cbn [tryFormats forallb snd app]; intros Hb Ht Hp.
  - rewrite Ht, Hp. cbn [toISOString bind]. now rewrite toISOString_date.
  - apply andb_true_iff in Hb as [H1 H2].
    apply negb_true_iff in H1. rewrite H1. now apply IH.
Qed.

Lemma parsed_strict (h : Host) (s : jsstring)
    (before after : list (jsstring * regex)) (f : jsstring)
    (pattern : regex) (t : Z) :
  DATE_FORMAT_MAP = before ++ (f, pattern) :: after ->
  s <> [] ->
  forallb (fun entry => negb (test (snd entry) s)) before = true ->
  test pattern s = true ->
  parseDate h s f = Some (Some t) ->
  parsed h s = Some {| Date := Some (isoDate t);
                       Format := Some f;
                       Confidence := calculateDateConfidence h s (Some t);
                       ExtractedFromText := Some s |}.
Proof.
  intros Hmap Hs Hb Ht Hp. unfold parsed, parseAndValidateDate.
  destruct s as [|c s]; [contradiction|].
  rewrite Hmap, (tryFormats_hit h (c :: s) before after f pattern t Hb Ht Hp).
  reflexivity.
Qed.

Lemma parsed_fallback (h : Host) (s : jsstring) :
  s <> [] ->
  forallb (fun entry => negb (test (snd entry) s)) DATE_FORMAT_MAP = true ->
  parsed h s
  = match Date_of_string h s with
    | Some t => Some {| Date := Some (isoDate t);
                        Format := Some (lit "Auto-detected");
                        Confidence := 0.6%float;
                        ExtractedFromText := Some s |}
    | None => None
    end.
Proof.
  intros Hs Hb. unfold parsed, parseAndValidateDate.
  destruct s as [|c s]; [contradiction|].
  rewrite (tryFormats_miss h (c :: s) DATE_FORMAT_MAP Hb).
  cbn [bind try_catch getTime].
  destruct (Date_of_string h (c :: s)) as [t|]; [|reflexivity].
  cbn [toISOString bind]. now rewrite toISOString_date.
Qed.

Lemma isoDate_Day (t1 t2 : Z) : Day t1 = Day t2 -> isoDate t1 = isoDate t2.
Proof.
  intros H.
  assert (Hy : YearFromTime t1 = YearFromTime t2)
    by (unfold YearFromTime; now rewrite H).
  assert (Hd : DayWithinYear t1 = DayWithinYear t2)
    by (unfold DayWithinYear; now rewrite H, Hy).
  assert (Hl : InLeapYear t1 = InLeapYear t2)
    by (unfold InLeapYear; now rewrite Hy).
  assert (Hm : MonthFromTime t1 = MonthFromTime t2)
    by (unfold MonthFromTime; now rewrite Hd, Hl).
  unfold isoDate, DateFromTime. now rewrite Hy, Hm, Hd, Hl.
Qed.

(** ** The two-digit year of "Document Date: 16/03/24" *)

(** C4 (the code at the failing input): the candidate [16/03/24] matches no
    strict pattern of [DATE_FORMAT_MAP], so [parseDate] and its rule for
    two-digit years are not reached; the result is what the host's own
    parser makes of [16/03/24], tagged [Auto-detected] with confidence 0.6,
    and it is absent on a host that rejects this string. *)
Theorem two_digit_year_left_to_host (h : Host) :
  candidates (lit "Document Date: 16/03/24") = [lit "16/03/24"]
  /\ tryFormats h (lit "16/03/24") DATE_FORMAT_MAP = Normal None
  /\ extractDateFromText h (lit "Document Date: 16/03/24")
     = Normal
         match Date_of_string h (lit "16/03/24") with
         | Some t => Some {| Date := Some (isoDate t);
                             Format := Some (lit "Auto-detected");
                             Confidence := 0.6%float;
                             ExtractedFromText := Some (lit "16/03/24") |}
         | None => None
         end.
Proof.
  assert (Hc : candidates (lit "Document Date: 16/03/24") = [lit "16/03/24"])
    by (vm_compute; reflexivity).
  assert (Hb : forallb (fun entry => negb (test (snd entry) (lit "16/03/24")))
                 DATE_FORMAT_MAP = true) by (vm_compute; reflexivity).
  split; [exact Hc|]. split; [now apply tryFormats_miss|].
  rewrite extractDateFromText_fold, Hc. cbn [fold_left].
  rewrite parsed_fallback by (exact Hb || discriminate).
  destruct (Date_of_string h (lit "16/03/24")) as [t|]; reflexivity.
Qed.

Example two_digit_year_rejected :
  extractDateFromText host_utc (lit "Document Date: 16/03/24") = Normal None.
Proof. vm_compute. reflexivity. Qed.

(** The rule of [parseDate] for two-digit years, had it been reached. *)
Example parseDate_two_digit_year :
  parseDate host_utc (lit "16/03/24") (lit "DD/MM/YYYY")
  = Some (Date_ymd host_utc (Some 2024%Z) (Some 2%Z) (Some 16%Z))
  /\ parseDate host_utc (lit "16/03/50") (lit "DD/MM/YYYY")
     = Some (Date_ymd host_utc (Some 1950%Z) (Some 2%Z) (Some 16%Z)).
Proof. split; vm_compute; reflexivity. Qed.

(** ** The stamp text of 22-03-2024 *)

Lemma Date_ymd_fixed_offset (h : Host) (off y m d : Z) :
  (forall t b, LocalTZA h t b = off) ->
  (y < 0 \/ 99 < y)%Z ->
  Date_ymd h (Some y) (Some m) (Some d)
  = TimeClip (MakeDay y m d * msPerDay - off).
Proof.
  intros Hoff Hy. unfold Date_ymd, UTC, MakeDate. rewrite Hoff.
  replace ((0 <=? y) && (y <=? 99))%Z with false by (symmetry; lia).
  now rewrite Z.add_0_r.
Qed.

(** The stamp text on a host of fixed offset within a day of UTC and with a
    clock between 1974 and 2074: the date is read at local midnight of 22
    March 2024 and printed in UTC. *)
Lemma stamp_text_fixed_offset (h : Host) (off : Z) :
  (forall t b, LocalTZA h t b = off) ->
  (- msPerDay < off < msPerDay)%Z ->
  (1974 <= currentYear h <= 2074)%Z ->
  extractDateFromText h
    (lit "Inspector General of Police APSP Bns, Amaravathi 22-03-2024")
  = Normal (Some {| Date := Some (isoDate (1711065600000 - off));
                    Format := Some (lit "DD-MM-YYYY");
                    Confidence := 1%float;
                    ExtractedFromText := Some (lit "22-03-2024") |}).
Proof.
  intros Hoff Hrange Hyear.
  set (midnight := 1711065600000%Z).
  (* the strict parse of 22-03-2024 *)
  assert (Hd : parseDate h (lit "22-03-2024") (lit "DD-MM-YYYY")
               = Some (Some (midnight - off)%Z)).
  { transitivity (Some (Date_ymd h (Some 2024%Z) (Some 2%Z) (Some 22%Z)));
      [reflexivity|].
    rewrite (Date_ymd_fixed_offset h off) by (auto; lia).
    change (MakeDay 2024 2 22 * msPerDay)%Z with midnight.
    unfold TimeClip, midnight, msPerDay in *.
    replace (Z.abs (1711065600000 - off) <=? 8640000000000000)%Z with true
      by (symmetry; lia).
    reflexivity. }
  assert (Hconf : calculateDateConfidence h (lit "22-03-2024")
                    (Some (midnight - off)%Z) = 1%float).
  { rewrite calculateDateConfidence_score.
    change (getFullYear h (Date_now h)) with (Some (currentYear h)).
    unfold getFullYear, LocalTime. rewrite Hoff.
    replace (midnight - off + off)%Z with midnight by lia.
    change (YearFromTime midnight) with 2024%Z.
    unfold yearDiff, exceeds.
    replace (50 <? Z.abs (currentYear h - 2024))%Z with false
      by (symmetry; lia).
    replace (100 <? Z.abs (currentYear h - 2024))%Z with false
      by (symmetry; lia).
    vm_compute. reflexivity. }
  assert (H1 : parsed h (lit "22-03-2024")
               = Some {| Date := Some (isoDate (midnight - off));
                         Format := Some (lit "DD-MM-YYYY");
                         Confidence := 1%float;
                         ExtractedFromText := Some (lit "22-03-2024") |}).
  { rewrite <- Hconf.
    apply (parsed_strict h _ [(lit "DD/MM/YYYY",
                               seq [d12; one "/"; d12; one "/"; d4])]
             (skipn 2 DATE_FORMAT_MAP) (lit "DD-MM-YYYY")
             (seq [d12; one "-"; d12; one "-"; d4]));
      [reflexivity | discriminate | vm_compute; reflexivity
      | vm_compute; reflexivity | exact Hd]. }
  (* the candidate of the two-digit pattern is left to the host *)
  assert (H3 : parsed h (lit "22-03-20") = None
               \/ exists d, parsed h (lit "22-03-20") = Some d
                            /\ Confidence d = 0.6%float).
  { rewrite parsed_fallback by (discriminate || (vm_compute; reflexivity)).
    destruct (Date_of_string h (lit "22-03-20")) as [t|];
      [right; eexists; split; reflexivity|now left]. }
  rewrite extractDateFromText_fold.
  replace (candidates
             (lit "Inspector General of Police APSP Bns, Amaravathi 22-03-2024"))
    with [lit "22-03-2024"; lit "22-03-2024"; lit "22-03-20"]
    by (vm_compute; reflexivity).
  cbn [fold_left]. rewrite H1.
  destruct H3 as [->|(d & -> & Hd6)].
  - reflexivity.
  - unfold keepBest at 1. cbn [Confidence highestConfidence keepBest bestMatch].
    rewrite Hd6. reflexivity.
Qed.

(** The year of an instant within two days of the midnight that starts 22
    March 2024 in UTC. *)
Lemma year_near_22_march_2024 (t : Z) :
  (1711065600000 - 2 * msPerDay < t < 1711065600000 + 2 * msPerDay)%Z ->
  YearFromTime t = 2024%Z.
Proof.
  intros H.
  assert (Hd : Day t = 19802%Z \/ Day t = 19803%Z \/ Day t = 19804%Z
               \/ Day t = 19805%Z)
    by (unfold Day, msPerDay in *; Z.div_mod_to_equations; lia).
  unfold YearFromTime.
  destruct Hd as [->|[->|[->| ->]]]; vm_compute; reflexivity.
Qed.

(** The stamp text on any host whose clock shows a year from 1974 to 2074:
    the date is read at local midnight of 22 March 2024 and printed in UTC.
    [off] is the offset of local time the host applies to that local
    midnight; it and the offset at the instant found lie within a day of
    UTC, as the offsets of every time zone do, with or without daylight
    saving time. *)
Lemma stamp_text_local_midnight (h : Host) :
  let off := LocalTZA h 1711065600000%Z false in
  (- msPerDay < off < msPerDay)%Z ->
  (- msPerDay < LocalTZA h (1711065600000 - off)%Z true < msPerDay)%Z ->
  (1974 <= currentYear h <= 2074)%Z ->
  extractDateFromText h
    (lit "Inspector General of Police APSP Bns, Amaravathi 22-03-2024")
  = Normal (Some {| Date := Some (isoDate (1711065600000 - off));
                    Format := Some (lit "DD-MM-YYYY");
                    Confidence := 1%float;
                    ExtractedFromText := Some (lit "22-03-2024") |}).
Proof.
  intros off Hrange Hback Hyear.
  set (midnight := 1711065600000%Z) in *.
  (* the strict parse of 22-03-2024 *)
  assert (Hd : parseDate h (lit "22-03-2024") (lit "DD-MM-YYYY")
               = Some (Some (midnight - off)%Z)).
  { transitivity (Some (Date_ymd h (Some 2024%Z) (Some 2%Z) (Some 22%Z)));
      [reflexivity|].
    change (Date_ymd h (Some 2024%Z) (Some 2%Z) (Some 22%Z))
      with (TimeClip (midnight - off)).
    unfold TimeClip, midnight, msPerDay in *.
    replace (Z.abs (1711065600000 - off) <=? 8640000000000000)%Z with true
      by (symmetry; lia).
    reflexivity. }
  assert (Hconf : calculateDateConfidence h (lit "22-03-2024")
                    (Some (midnight - off)%Z) = 1%float).
  { rewrite calculateDateConfidence_score.
    change (getFullYear h (Date_now h)) with (Some (currentYear h)).
    unfold getFullYear, LocalTime.
    rewrite (year_near_22_march_2024
               (midnight - off + LocalTZA h (midnight - off) true))
      by (unfold midnight, msPerDay in *; lia).
    unfold yearDiff, exceeds.
    replace (50 <? Z.abs (currentYear h - 2024))%Z with false
      by (symmetry; lia).
    replace (100 <? Z.abs (currentYear h - 2024))%Z with false
      by (symmetry; lia).
    vm_compute. reflexivity. }
  assert (H1 : parsed h (lit "22-03-2024")
               = Some {| Date := Some (isoDate (midnight - off));
                         Format := Some (lit "DD-MM-YYYY");
                         Confidence := 1%float;
                         ExtractedFromText := Some (lit "22-03-2024") |}).
  { rewrite <- Hconf.
    apply (parsed_strict h _ [(lit "DD/MM/YYYY",
                               seq [d12; one "/"; d12; one "/"; d4])]
             (skipn 2 DATE_FORMAT_MAP) (lit "DD-MM-YYYY")
             (seq [d12; one "-"; d12; one "-"; d4]));
      [reflexivity | discriminate | vm_compute; reflexivity
      | vm_compute; reflexivity | exact Hd]. }
  (* the candidate of the two-digit pattern is left to the host *)
  assert (H3 : parsed h (lit "22-03-20") = None
               \/ exists d, parsed h (lit "22-03-20") = Some d
                            /\ Confidence d = 0.6%float).
  { rewrite parsed_fallback by (discriminate || (vm_compute; reflexivity)).
    destruct (Date_of_string h (lit "22-03-20")) as [t|];
      [right; eexists; split; reflexivity|now left]. }
  rewrite extractDateFromText_fold.
  replace (candidates
             (lit "Inspector General of Police APSP Bns, Amaravathi 22-03-2024"))
    with [lit "22-03-2024"; lit "22-03-2024"; lit "22-03-20"]
    by (vm_compute; reflexivity).
  cbn [fold_left]. rewrite H1.
  destruct H3 as [->|(d & -> & Hd6)].
  - reflexivity.
  - unfold keepBest at 1. cbn [Confidence highestConfidence keepBest bestMatch].
    rewrite Hd6. reflexivity.
Qed.

(** C5: on every host whose clock shows a year from 1974 to 2074 (no age
    penalty), [extractDateFromText] applied to "Inspector General of Police
    APSP Bns, Amaravathi 22-03-2024" returns the format tag DD-MM-YYYY, the
    extracted text 22-03-2024 and the confidence 1, which is at least 0.9;
    but the date depends on the time zone of the host.  It is 2024-03-22, the
    date written, where local time is UTC or behind it, and 2024-03-21, the
    day before, where local time is ahead of UTC: the date is built at local
    midnight and printed in UTC.  [off] is the offset of local time at the
    local midnight of 22 March 2024; the time zone may observe daylight
    saving time. *)
Theorem stamp_text_day_follows_zone (h : Host) :
  let off := LocalTZA h 1711065600000%Z false in
  (- msPerDay < off < msPerDay)%Z ->
  (- msPerDay < LocalTZA h (1711065600000 - off)%Z true < msPerDay)%Z ->
  (1974 <= currentYear h <= 2074)%Z ->
  exists date,
    extractDateFromText h
      (lit "Inspector General of Police APSP Bns, Amaravathi 22-03-2024")
    = Normal (Some {| Date := Some date;
                      Format := Some (lit "DD-MM-YYYY");
                      Confidence := 1%float;
                      ExtractedFromText := Some (lit "22-03-2024") |})
    /\ PrimFloat.leb 0.9%float 1%float = true
    /\ ((off <= 0)%Z -> date = lit "2024-03-22")
    /\ ((0 < off)%Z -> date = lit "2024-03-21"
                       /\ date <> lit "2024-03-22").
Proof.
  intros off Hrange Hback Hyear.
  exists (isoDate (1711065600000 - off)).
  split; [exact (stamp_text_local_midnight h Hrange Hback Hyear)|].
  split; [reflexivity|]. split.
  - intros Hwest.
    rewrite (isoDate_Day _ 1711065600000); [vm_compute; reflexivity|].
    unfold Day, msPerDay in *. Z.div_mod_to_equations. lia.
  - intros Heast.
    rewrite (isoDate_Day _ (1711065600000 - 1)).
    + split; [vm_compute; reflexivity|]. vm_compute. discriminate.
    + unfold Day, msPerDay in *. Z.div_mod_to_equations. lia.
Qed.

Lemma stamp_text_day_follows_zone_witness :
  exists r,
    extractDateFromText host_ist
      (lit "Inspector General of Police APSP Bns, Amaravathi 22-03-2024")
    = Normal (Some r)
    /\ Date r = Some (lit "2024-03-21")
    /\ Date r <> Some (lit "2024-03-22")
    /\ Format r = Some (lit "DD-MM-YYYY")
    /\ Confidence r = 1%float.
Proof.
  assert (H1 : (- msPerDay < 19800000 < msPerDay)%Z)
    by (unfold msPerDay; lia).
  assert (H2 : (1974 <= currentYear host_ist <= 2074)%Z)
    by (vm_compute; split; discriminate).
  destruct (stamp_text_day_follows_zone host_ist H1 H1 H2)
    as (date & E & _ & _ & Heast).
  destruct Heast as [Hdate Hne]; [reflexivity|].
  eexists. split; [exact E|]. cbn [Date Format Confidence].
  repeat split; [now rewrite Hdate|congruence].
Defined.

(** The second scenario of the specification. *)
Example stamp_text_mar_18 :
  extractDateFromText host_utc (lit "Dy. Inspector General ... Mar 18, 2024")
  = Normal (Some {| Date := Some (lit "2024-03-18");
                    Format := Some (lit "MMM DD, YYYY");
                    Confidence := 1%float;
                    ExtractedFromText := Some (lit "Mar 18, 2024") |}).
Proof. vm_compute. reflexivity. Qed.

(** ** East of UTC *)

(** On a host whose local time is ahead of UTC, by a fixed offset of less
    than a day, the date field is the day before the one written in the
    text: the date is built at local midnight and printed in UTC. *)
Theorem stamp_text_east_of_utc (h : Host) (off : Z) :
  (forall t b, LocalTZA h t b = off) ->
  (0 < off < msPerDay)%Z ->
  (1974 <= currentYear h <= 2074)%Z ->
  extractDateFromText h
    (lit "Inspector General of Police APSP Bns, Amaravathi 22-03-2024")
  = Normal (Some {| Date := Some (lit "2024-03-21");
                    Format := Some (lit "DD-MM-YYYY");
                    Confidence := 1%float;
                    ExtractedFromText := Some (lit "22-03-2024") |}).
Proof.
  intros Hoff Hrange Hyear.
  rewrite (stamp_text_fixed_offset h off Hoff) by (auto; lia).
  replace (isoDate (1711065600000 - off)) with (lit "2024-03-21");
    [reflexivity|].
  rewrite (isoDate_Day _ (1711065600000 - 1)); [vm_compute; reflexivity|].
  unfold Day, msPerDay in *. Z.div_mod_to_equations. lia.
Qed.

Lemma stamp_text_east_of_utc_witness :
  (0 < 19800000 < msPerDay)%Z
  /\ (1974 <= currentYear host_ist <= 2074)%Z
  /\ extractDateFromText host_ist
       (lit "Inspector General of Police APSP Bns, Amaravathi 22-03-2024")
     = Normal (Some {| Date := Some (lit "2024-03-21");
                       Format := Some (lit "DD-MM-YYYY");
                       Confidence := 1%float;
                       ExtractedFromText := Some (lit "22-03-2024") |}).
Proof.
  assert (H1 : (0 < 19800000 < msPerDay)%Z) by (unfold msPerDay; lia).
  assert (H2 : (1974 <= currentYear host_ist <= 2074)%Z)
    by (vm_compute; split; discriminate).
  split; [exact H1|]. split; [exact H2|].
  exact (stamp_text_east_of_utc host_ist 19800000 (fun _ _ => eq_refl) H1 H2).
Defined.

(** ** Month names are looked up with their case *)

(** The patterns accept a month name in any case, but [monthMap] knows
    only the capitalised spellings: for [20 march 2024] both month formats
    match and [parseDate] returns null for each, so the candidate is left to
    the host's parser. *)
Theorem lower_case_month_left_to_host (h : Host) :
  test (seq [d12; ws; MMM]) (lit "20 march 2024") = true
  /\ parseDate h (lit "20 march 2024") (lit "DD MMM YYYY") = None
  /\ parseDate h (lit "20 march 2024") (lit "DD MMMM YYYY") = None
  /\ extractDateFromText h (lit "20 march 2024")
     = Normal
         match Date_of_string h (lit "20 march 2024") with
         | Some t => Some {| Date := Some (isoDate t);
                             Format := Some (lit "Auto-detected");
                             Confidence := 0.6%float;
                             ExtractedFromText := Some (lit "20 march 2024") |}
         | None => None
         end.
Proof.
  assert (H1 : parseDate h (lit "20 march 2024") (lit "DD MMM YYYY") = None)
    by reflexivity.
  assert (H2 : parseDate h (lit "20 march 2024") (lit "DD MMMM YYYY") = None)
    by reflexivity.
  split; [vm_compute; reflexivity|]. split; [exact H1|]. split; [exact H2|].
  assert (Hp : parsed h (lit "20 march 2024")
               = match Date_of_string h (lit "20 march 2024") with
                 | Some t =>
                     Some {| Date := Some (isoDate t);
                             Format := Some (lit "Auto-detected");
                             Confidence := 0.6%float;
                             ExtractedFromText := Some (lit "20 march 2024") |}
                 | None => None
                 end).
  { unfold parsed, parseAndValidateDate.
    change (lit "20 march 2024") with (chr "2" :: lit "0 march 2024") at 1.
    cbv beta iota.
    assert (Ht : tryFormats h (lit "20 march 2024") DATE_FORMAT_MAP
                 = Normal None).
    { change DATE_FORMAT_MAP
        with (firstn 4 DATE_FORMAT_MAP
              ++ (lit "DD MMM YYYY", seq [d12; ws; MMM])
              :: (lit "DD MMMM YYYY", seq [d12; ws; MMMM])
              :: skipn 6 DATE_FORMAT_MAP).
      assert (Hskip : forall before rest,
                forallb (fun entry =>
                           negb (test (snd entry) (lit "20 march 2024")))
                  before = true ->
                tryFormats h (lit "20 march 2024") (before ++ rest)
                = tryFormats h (lit "20 march 2024") rest).
      { induction before as [|[f p] before IH]; intros rest Hb;
          cbn [app tryFormats forallb snd] in *; [reflexivity|].
        apply andb_true_iff in Hb as [Hb1 Hb2].
        apply negb_true_iff in Hb1. rewrite Hb1. now apply IH. }
      rewrite Hskip by (vm_compute; reflexivity).
      cbn [tryFormats].
      replace (test (seq [d12; ws; MMM]) (lit "20 march 2024")) with true
        by (vm_compute; reflexivity).
      replace (test (seq [d12; ws; MMMM]) (lit "20 march 2024")) with true
        by (vm_compute; reflexivity).
      rewrite H1, H2.
      apply tryFormats_miss. vm_compute. reflexivity. }
    change (chr "2" :: lit "0 march 2024") with (lit "20 march 2024").
    rewrite Ht. cbn [bind try_catch getTime].
    destruct (Date_of_string h (lit "20 march 2024")) as [t|]; [|reflexivity].
    cbn [toISOString bind]. now rewrite toISOString_date. }
  rewrite extractDateFromText_fold.
  replace (candidates (lit "20 march 2024")) with [lit "20 march 2024"]
    by (vm_compute; reflexivity).
  cbn [fold_left]. rewrite Hp.
  destruct (Date_of_string h (lit "20 march 2024")) as [t|]; reflexivity.
Qed.

Example capitalised_month_parsed :
  extractDateFromText host_utc (lit "20 March 2024")
  = Normal (Some {| Date := Some (lit "2024-03-20");
                    Format := Some (lit "DD MMM YYYY");
                    Confidence := 1%float;
                    ExtractedFromText := Some (lit "20 March 2024") |}).
Proof. vm_compute. reflexivity. Qed.

(** ** The extracted text is a slice of the input *)

Lemma matchAll_from_slice (r : regex) (s : jsstring) :
  forall (skip : nat) (c : jsstring),
    In c (matchAll_from r s skip) ->
    exists before after, s = before ++ c ++ after.
Proof.
  induction s as [|a s IH]; intros skip c Hin.
  - destruct skip; [|destruct Hin].
    cbn [matchAll_from] in Hin.
    destruct (match_at r []); [|destruct Hin].
    destruct Hin as [<-|[]]. now exists [], [].
  - assert (Htail : forall n, In c (matchAll_from r s n) ->
                      exists before after, a :: s = before ++ c ++ after).
    { intros n H. destruct (IH n c H) as (before & after & ->).
      now exists (a :: before), after. }
    cbn [matchAll_from] in Hin. destruct skip as [|n]; [|now apply (Htail n)].
    destruct (match_at r (a :: s)) as [rest|]; [|now apply (Htail 0%nat)].
    destruct Hin as [<-|Hin]; [|now apply (Htail _ Hin)].
    exists [], (skipn (length (a :: s) - length rest) (a :: s)).
    cbn [app]. now rewrite firstn_skipn.
Qed.

Lemma dropWhile_slice (p : char -> bool) (s : jsstring) :
  exists before, s = before ++ dropWhile p s.
Proof.
  induction s as [|c s [before IH]]; cbn [dropWhile].
  - now exists [].
  - destruct (p c); [|now exists []].
    exists (c :: before). cbn. now rewrite <- IH.
Qed.

Lemma trim_slice (s : jsstring) :
  exists before after, s = before ++ trim s ++ after.
Proof.
  unfold trim, trimEnd, trimStart.
  destruct (dropWhile_slice is_space s) as [before Hb].
  destruct (dropWhile_slice is_space (rev (dropWhile is_space s)))
    as [after Ha].
  exists before, (rev after).
  rewrite <- rev_app_distr, <- Ha, rev_involutive. exact Hb.
Qed.

(** X1: the extracted text of a result is an exact, contiguous and non-empty
    slice of the input text. *)
Theorem extracted_text_is_slice (h : Host) (text : jsstring)
    (r : DateInformation) :
  extractDateFromText h text = Normal (Some r) ->
  exists before c after,
    ExtractedFromText r = Some c /\ c <> [] /\ text = before ++ c ++ after.
Proof.
  intros H. destruct (extract_result _ _ _ H) as (c & d & Hin & Hc & ->).
  unfold candidates in Hin. apply in_flat_map in Hin as (p & _ & Hin).
  destruct (matchAll_from_slice _ _ _ _ Hin) as (b1 & a1 & E1).
  destruct (trim_slice text) as (b2 & a2 & E2).
  exists (b2 ++ b1), c, (a1 ++ a2). split; [reflexivity|]. split.
  - intros ->. unfold parsed in Hc. cbn in Hc. discriminate.
  - rewrite E2 at 1. rewrite E1. now rewrite <- !app_assoc.
Qed.

Lemma extracted_text_is_slice_witness :
  extractDateFromText host_utc (lit "Signature 22-03-2024")
  = Normal (Some {| Date := Some (lit "2024-03-22");
                    Format := Some (lit "DD-MM-YYYY");
                    Confidence := 1%float;
                    ExtractedFromText := Some (lit "22-03-2024") |})
  /\ exists before c after,
       Some (lit "22-03-2024") = Some c /\ c <> []
       /\ lit "Signature 22-03-2024" = before ++ c ++ after.
Proof.
  assert (E : extractDateFromText host_utc (lit "Signature 22-03-2024")
              = Normal (Some {| Date := Some (lit "2024-03-22");
                                Format := Some (lit "DD-MM-YYYY");
                                Confidence := 1%float;
                                ExtractedFromText := Some (lit "22-03-2024") |}))
    by (vm_compute; reflexivity).
  split; [exact E|].
  exact (extracted_text_is_slice host_utc _ _ E).
Defined.

(** ** Candidates of the two-digit-year pattern *)

Lemma star_class_sound (X : Type) (p : char -> bool) (s : jsstring) :
  forall (k : jsstring -> option X) (x : X),
    star_class p s k = Some x ->
    exists w rest, s = w ++ rest /\ forallb p w = true /\ k rest = Some x.
Proof.
  induction s as [|c s IH]; intros k x H; cbn [star_class] in H.
  - now exists [], [].
  - destruct (p c) eqn:Hp; [|now exists [], (c :: s)].
    destruct (star_class p s k) as [y|] eqn:Hs.
    + injection H as ->.
      destruct (IH k x Hs) as (w & rest & -> & Hw & Hk).
      exists (c :: w), rest. cbn. now rewrite Hp, Hw.
    + now exists [], (c :: s).
Qed.

(** The matcher is sound: a success consumed a word the pattern matches and
    handed the rest to the continuation. *)
Lemma rmatch_sound (X : Type) (r : regex) :
  forall (s : jsstring) (k : jsstring -> option X) (x : X),
    rmatch r s k = Some x ->
    exists w rest, s = w ++ rest /\ matches r w /\ k rest = Some x.
Proof.
  induction r as [|p|r1 IH1 r2 IH2|r1 IH1 r2 IH2|p]; intros s k x H;
    cbn [rmatch matches] in *.
  - now exists [], s.
  - destruct s as [|c s]; [discriminate|].
    destruct (p c) eqn:Hp; [|discriminate].
    exists [c], s. repeat split; auto. now exists c.
  - destruct (IH1 _ _ _ H) as (w1 & rest1 & -> & Hm1 & H1).
    destruct (IH2 _ _ _ H1) as (w2 & rest2 & -> & Hm2 & H2).
    exists (w1 ++ w2), rest2. rewrite <- app_assoc.
    repeat split; auto. now exists w1, w2.
  - destruct (rmatch r1 s k) as [y|] eqn:E1.
    + injection H as ->.
      destruct (IH1 _ _ _ E1) as (w & rest & -> & Hm & Hk).
      exists w, rest. auto.
    + destruct (IH2 _ _ _ H) as (w & rest & -> & Hm & Hk).
      exists w, rest. auto.
  - destruct s as [|c s]; [discriminate|].
    destruct (p c) eqn:Hp; [|discriminate].
    destruct (star_class_sound _ _ _ _ _ H) as (w & rest & -> & Hw & Hk).
    exists (c :: w), rest. repeat split; auto; [discriminate|].
    cbn. now rewrite Hp, Hw.
Qed.

(** Every candidate is matched as a whole by its pattern. *)
Lemma matchAll_from_matches (r : regex) (s : jsstring) :
  forall (skip : nat) (c : jsstring),
    In c (matchAll_from r s skip) -> matches r c.
Proof.
  assert (Hhead : forall s' rest,
            match_at r s' = Some rest ->
            matches r (firstn (length s' - length rest) s')).
  { intros s' rest H. unfold match_at in H.
    destruct (rmatch_sound _ _ _ _ _ H) as (w & rest' & -> & Hm & [= ->]).
    rewrite length_app, Nat.add_sub, firstn_app, Nat.sub_diag, firstn_all.
    cbn. now rewrite app_nil_r. }
  induction s as [|a s IH]; intros skip c Hin; cbn [matchAll_from] in Hin.
  - destruct skip; [|destruct Hin].
    destruct (match_at r []) eqn:E; [|destruct Hin].
    destruct Hin as [<-|[]]. apply (Hhead [] _ E).
  - destruct skip as [|n]; [|now apply (IH n)].
    destruct (match_at r (a :: s)) as [rest|] eqn:E; [|now apply (IH 0%nat)].
    destruct Hin as [<-|Hin]; [apply (Hhead _ _ E)|now apply (IH _ _ Hin)].
Qed.

Lemma star_class_canon (X : Type) (p : char -> bool) (s : jsstring) :
  (forall c, p (canon c) = p c) ->
  forall (k k' : jsstring -> option X),
    (forall s', k' (map canon s') = k s') ->
    star_class p (map canon s) k' = star_class p s k.
Proof.
  intros Hp. induction s as [|c s IH]; intros k k' Hk;
    cbn [map star_class].
  - apply (Hk []).
  - rewrite Hp, (IH k k' Hk). now rewrite <- (Hk (c :: s)).
Qed.

Lemma rmatch_canon (X : Type) (r : regex) :
  invariant r ->
  forall (s : jsstring) (k k' : jsstring -> option X),
    (forall s', k' (map canon s') = k s') ->
    rmatch r (map canon s) k' = rmatch r s k.
Proof.
  induction r as [|p|r1 IH1 r2 IH2|r1 IH1 r2 IH2|p]; intros Hinv s k k' Hk;
    cbn [rmatch invariant] in *.
  - apply Hk.
  - destruct s as [|c s]; [reflexivity|]. cbn [map].
    rewrite Hinv. now rewrite Hk.
  - destruct Hinv as [H1 H2]. apply IH1; [exact H1|].
    intros s'. now apply IH2.
  - destruct Hinv as [H1 H2].
    now rewrite (IH1 H1 s k k' Hk), (IH2 H2 s k k' Hk).
  - destruct s as [|c s]; [reflexivity|]. cbn [map].
    rewrite Hinv. destruct (p c); [|reflexivity].
    now apply star_class_canon.
Qed.

(** Whether a match succeeds depends on the continuation only through
    whether it succeeds. *)
Lemma rmatch_success (X Y : Type) (r : regex) :
  forall (t : jsstring) (k1 : jsstring -> option X)
         (k2 : jsstring -> option Y),
    (forall u, match k1 u with Some _ => true | None => false end
               = match k2 u with Some _ => true | None => false end) ->
    match rmatch r t k1 with Some _ => true | None => false end
    = match rmatch r t k2 with Some _ => true | None => false end.
Proof.
  induction r as [|p|r1 IH1 r2 IH2|r1 IH1 r2 IH2|p];
    intros t k1 k2 Hk; cbn [rmatch].
  - apply Hk.
  - destruct t as [|c t]; [reflexivity|].
    destruct (p c); [apply Hk|reflexivity].
  - apply IH1. intros u. now apply IH2.
  - specialize (IH1 t k1 k2 Hk). specialize (IH2 t k1 k2 Hk).
    destruct (rmatch r1 t k1), (rmatch r1 t k2); try discriminate; auto.
  - destruct t as [|c t]; [reflexivity|].
    destruct (p c); [|reflexivity].
    induction t as [|d t IHt]; cbn [star_class]; [apply Hk|].
    destruct (p d); [|apply Hk].
    specialize (Hk (d :: t)).
    destruct (star_class p t k1), (star_class p t k2);
      try discriminate; auto.
Qed.

(** A pattern that does not tell digits apart gives the same answer on a
    string and on its canonical form. *)
Lemma test_canon (r : regex) (s : jsstring) :
  invariant r -> test r (map canon s) = test r s.
Proof.
  intros Hinv.
  assert (Hat : forall s',
            match match_at r (map canon s') with Some _ => true | None => false end
            = match match_at r s' with Some _ => true | None => false end).
  { intros s'. unfold match_at.
    rewrite (rmatch_success _ unit r (map canon s') _ (fun _ => Some tt))
      by reflexivity.
    rewrite (rmatch_success _ unit r s' _ (fun _ => Some tt)) by reflexivity.
    now rewrite (rmatch_canon _ r Hinv s' (fun _ => Some tt)
                   (fun _ => Some tt)). }
  induction s as [|c s IH].
  - unfold test. cbn [map exec]. specialize (Hat []). cbn [map] in Hat.
    now destruct (match_at r []), (match_at r []).
  - cbn [map]. rewrite !test_cons, IH.
    specialize (Hat (c :: s)). cbn [map] in Hat. now rewrite Hat.
Qed.

Lemma digit_cases (c : char) :
  is_digit c = true ->
  In c [48; 49; 50; 51; 52; 53; 54; 55; 56; 57]%N.
Proof.
  unfold is_digit. intros H. apply andb_true_iff in H as [H1 H2].
  apply N.leb_le in H1, H2. cbn [In].
  assert (c = 48 \/ c = 49 \/ c = 50 \/ c = 51 \/ c = 52 \/ c = 53
          \/ c = 54 \/ c = 55 \/ c = 56 \/ c = 57)%N by lia.
  intuition auto.
Qed.

Lemma canon_digit (c : char) : is_digit c = true -> canon c = chr "0".
Proof. intros H. unfold canon. now rewrite H. Qed.

Lemma sep_cases (c : char) :
  is_sep c = true -> c = chr "/" \/ c = chr "-" \/ c = chr ".".
Proof.
  unfold is_sep. intros H.
  apply orb_true_iff in H as [H|H]; [apply orb_true_iff in H as [H|H]|];
    apply N.eqb_eq in H; auto.
Qed.

Ltac class_invariant :=
  let c := fresh "c" in
  let E := fresh "E" in
  intros c; unfold canon; destruct (is_digit c) eqn:E;
  [|first [reflexivity | exact E]];
  apply digit_cases in E; cbn [In] in E;
  repeat (destruct E as [<-|E]; [vm_compute; reflexivity|]);
  destruct E.

(** The strict patterns do not tell digits apart. *)
Lemma strict_patterns_invariant :
  Forall (fun entry => invariant (snd entry)) DATE_FORMAT_MAP.
Proof.
  unfold DATE_FORMAT_MAP.
  repeat (apply Forall_cons; [|]); [..|apply Forall_nil];
    cbn -[canon is_digit is_space ci_match N.eqb chr];
    repeat split; class_invariant.
Qed.

(** A string the two-digit-year pattern matches has one of the 36 canonical
    forms. *)
Lemma twoDigitYear_shape (w : jsstring) :
  matches twoDigitYearPattern w -> In (map canon w) twoDigitYearShapes.
Proof.
  unfold twoDigitYearPattern.
  cbn -[is_digit is_sep]. intros H.
  repeat match goal with
         | H : exists _, _ |- _ => destruct H
         | H : _ /\ _ |- _ => destruct H
         | H : _ \/ _ |- _ => destruct H
         end; subst;
    repeat match goal with
           | H : is_sep _ = true |- _ =>
               apply sep_cases in H; destruct H as [-> | [-> | ->] ]
           end;
    cbn [app map];
    repeat match goal with
           | H : is_digit ?c = true |- _ => rewrite (canon_digit c H); clear H
           end;
    vm_compute; repeat (first [left; reflexivity | right]).
Qed.

Lemma twoDigitYearShapes_strict :
  forallb (fun w =>
             forallb (fun entry => negb (test (snd entry) w)) DATE_FORMAT_MAP)
    twoDigitYearShapes = true.
Proof. vm_compute. reflexivity. Qed.

Lemma twoDigitYear_no_strict_format (w : jsstring) :
  matches twoDigitYearPattern w ->
  forallb (fun entry => negb (test (snd entry) w)) DATE_FORMAT_MAP = true.
Proof.
  intros Hm. apply twoDigitYear_shape in Hm.
  pose proof twoDigitYearShapes_strict as Hs.
  rewrite forallb_forall in Hs. specialize (Hs _ Hm).
  rewrite forallb_forall in Hs. apply forallb_forall.
  intros entry Hin. rewrite <- (Hs entry Hin).
  f_equal. symmetry. apply test_canon.
  pose proof strict_patterns_invariant as Hinv.
  rewrite Forall_forall in Hinv. now apply Hinv.
Qed.

Lemma matches_nonempty_twoDigitYear (w : jsstring) :
  matches twoDigitYearPattern w -> w <> [].
Proof.
  intros Hm ->. apply twoDigitYear_shape in Hm.
  vm_compute in Hm. intuition discriminate.
Qed.

(** X2: no candidate of the two-digit-year pattern (the sixth of the table),
    in any text, reaches [parseDate]: no strict pattern matches it and its
    parse is the fallback's. *)
Theorem two_digit_year_candidates_left_to_host (h : Host)
    (text c : jsstring) :
  nth_error DATE_PATTERNS 5 = Some twoDigitYearPattern
  /\ (In c (matchAll twoDigitYearPattern (trim text)) ->
      tryFormats h c DATE_FORMAT_MAP = Normal None
      /\ parsed h c
         = match Date_of_string h c with
           | Some t => Some {| Date := Some (isoDate t);
                               Format := Some (lit "Auto-detected");
                               Confidence := 0.6%float;
                               ExtractedFromText := Some c |}
           | None => None
           end).
Proof.
  split; [reflexivity|]. intros Hin.
  apply matchAll_from_matches in Hin.
  pose proof (twoDigitYear_no_strict_format c Hin) as Hb.
  split; [now apply tryFormats_miss|].
  apply parsed_fallback; [now apply matches_nonempty_twoDigitYear|exact Hb].
Qed.

Lemma two_digit_year_candidates_left_to_host_witness :
  In (lit "16/03/24")
     (matchAll twoDigitYearPattern (trim (lit "Document Date: 16/03/24")))
  /\ tryFormats host_utc (lit "16/03/24") DATE_FORMAT_MAP = Normal None.
Proof.
  assert (Hin : In (lit "16/03/24")
                  (matchAll twoDigitYearPattern
                     (trim (lit "Document Date: 16/03/24"))))
    by (vm_compute; left; reflexivity).
  split; [exact Hin|].
  exact (proj1 (proj2 (two_digit_year_candidates_left_to_host host_utc
                         (lit "Document Date: 16/03/24") (lit "16/03/24"))
                  Hin)).
Defined.

(** * The inference service *)

Lemma test_class (p : char -> bool) (s : jsstring) :
  test (Class p) s = existsb p s.
Proof.
  induction s as [|c s IH]; [reflexivity|].
  rewrite test_cons, IH. cbn [existsb]. unfold match_at. cbn [rmatch].
  now destruct (p c).
Qed.

Lemma hf_calculateConfidence_score (text : jsstring) :
  text <> [] ->
  HuggingFaceService.calculateConfidence text
  = HuggingFaceService.hfScore
      (100 <? length text)%nat (500 <? length text)%nat
      (length text <? 20)%nat
      (existsb is_digit text && existsb HuggingFaceService.is_letter text)
      (existsb HuggingFaceService.is_punctuation text).
Proof.
  intros H. unfold HuggingFaceService.calculateConfidence.
  destruct text as [|c s]; [contradiction|].
  rewrite !test_class.
  destruct (100 <? length (c :: s))%nat, (500 <? length (c :: s))%nat,
    (length (c :: s) <? 20)%nat,
    (existsb is_digit (c :: s)
     && existsb HuggingFaceService.is_letter (c :: s)),
    (existsb HuggingFaceService.is_punctuation (c :: s));
    vm_compute; reflexivity.
Qed.

Lemma hfScore_facts (a b c d e : bool) :
  HuggingFaceService.hfScore a b c d e <> 0%float
  /\ PrimFloat.leb (0.7 - 0.2)%float (HuggingFaceService.hfScore a b c d e)
     = true
  /\ PrimFloat.leb (HuggingFaceService.hfScore a b c d e) 1%float = true
  /\ close_to (HuggingFaceService.hfScore a b c d e)
       (HuggingFaceService.hfScore_exact a b c d e) = true.
Proof.
  destruct a, b, c, d, e; vm_compute; repeat split; try reflexivity;
    discriminate.
Qed.

(** X3: [calculateConfidence] of the inference service is 0 exactly for the
    empty text; for every other text it is the clamp of 0.7, plus 0.1 above
    100 code units, plus 0.1 above 500, minus 0.2 below 20, plus 0.05 when
    the text holds both a digit and a letter, plus 0.05 when it holds one of
    [.,;:!?] (equal to that expression in doubles and within 10^-15 of its
    exact value), and it lies between 0.7 - 0.2 and 1. *)
Theorem hf_confidence_zero_only_when_empty (text : jsstring) :
  (HuggingFaceService.calculateConfidence text = 0%float <-> text = [])
  /\ (text = []
      \/ (HuggingFaceService.calculateConfidence text
          = HuggingFaceService.hfScore
              (100 <? length text)%nat (500 <? length text)%nat
              (length text <? 20)%nat
              (existsb is_digit text
               && existsb HuggingFaceService.is_letter text)
              (existsb HuggingFaceService.is_punctuation text)
          /\ close_to (HuggingFaceService.calculateConfidence text)
               (HuggingFaceService.hfScore_exact
                  (100 <? length text)%nat (500 <? length text)%nat
                  (length text <? 20)%nat
                  (existsb is_digit text
                   && existsb HuggingFaceService.is_letter text)
                  (existsb HuggingFaceService.is_punctuation text)) = true
          /\ PrimFloat.leb (0.7 - 0.2)%float
               (HuggingFaceService.calculateConfidence text) = true
          /\ PrimFloat.leb (HuggingFaceService.calculateConfidence text)
               1%float = true)).
Proof.
  destruct text as [|c s].
  - split; [split; reflexivity|now left].
  - assert (Hne : c :: s <> []) by discriminate.
    rewrite (hf_calculateConfidence_score _ Hne).
    destruct (hfScore_facts (100 <? length (c :: s))%nat
                (500 <? length (c :: s))%nat (length (c :: s) <? 20)%nat
                (existsb is_digit (c :: s)
                 && existsb HuggingFaceService.is_letter (c :: s))
                (existsb HuggingFaceService.is_punctuation (c :: s)))
      as (H0 & Hlo & Hhi & Hclose).
    split; [split; [intros E; contradiction|discriminate]|].
    right. repeat split; assumption.
Qed.

Example hf_confidence_placeholder :
  HuggingFaceService.calculateConfidence (lit "No text extracted")
  = (0.7 - 0.2)%float.
Proof. vm_compute. reflexivity. Qed.

Example hf_confidence_thresholds :
  HuggingFaceService.calculateConfidence (List.repeat (chr "a") 100) = 0.7%float
  /\ HuggingFaceService.calculateConfidence (List.repeat (chr "a") 101)
     = (0.7 + 0.1)%float
  /\ HuggingFaceService.calculateConfidence (List.repeat (chr "a") 20) = 0.7%float
  /\ HuggingFaceService.calculateConfidence (List.repeat (chr "a") 19)
     = (0.7 - 0.2)%float
  /\ HuggingFaceService.calculateConfidence
       (lit "a1." ++ List.repeat (chr "a") 500) = 1%float.
Proof. repeat split; vm_compute; reflexivity. Qed.

(** ** The masked key of [getModelInfo] *)

Lemma masked_key_length (k : jsstring) :
  (length (firstn 10 k ++ lit "...") <= 13)%nat.
Proof.
  rewrite length_app, length_firstn.
  change (length (lit "...")) with 3%nat. lia.
Qed.

Lemma not_configured_iff (this : HuggingFaceService.Service) :
  HuggingFaceService.info_apiKey (HuggingFaceService.getModelInfo this)
  = lit "Not configured"
  <-> HuggingFaceService.apiKey this = [].
Proof.
  unfold HuggingFaceService.getModelInfo.
  cbn [HuggingFaceService.info_apiKey].
  destruct (HuggingFaceService.apiKey this) as [|c k].
  - split; reflexivity.
  - split; [|discriminate]. intros E.
    pose proof (masked_key_length (c :: k)) as Hlen.
    rewrite E in Hlen. vm_compute in Hlen. lia.
Qed.

(** X4: [getModelInfo] reports [Not configured] exactly when the key is
    empty; otherwise it shows the first ten code units of the key followed by
    three dots, so that it depends on nothing of the key past the tenth code
    unit, never exceeds 13 code units, and shows a key of at most ten code
    units in full. *)
Theorem getModelInfo_masks_key (this other : HuggingFaceService.Service) :
  let shown s :=
    HuggingFaceService.info_apiKey (HuggingFaceService.getModelInfo s) in
  (shown this = lit "Not configured" <-> HuggingFaceService.apiKey this = [])
  /\ (HuggingFaceService.apiKey this <> [] ->
      shown this = firstn 10 (HuggingFaceService.apiKey this) ++ lit "..."
      /\ (length (shown this) <= 13)%nat
      /\ ((length (HuggingFaceService.apiKey this) <= 10)%nat ->
          shown this = HuggingFaceService.apiKey this ++ lit "...")
      /\ (HuggingFaceService.apiKey other <> [] ->
          firstn 10 (HuggingFaceService.apiKey this)
          = firstn 10 (HuggingFaceService.apiKey other) ->
          shown this = shown other)).
Proof.
  cbv zeta beta. split; [apply not_configured_iff|].
  unfold HuggingFaceService.getModelInfo.
  cbn [HuggingFaceService.info_apiKey].
  destruct (HuggingFaceService.apiKey this) as [|c k] eqn:Hk;
    [intros H; contradiction|].
  intros _. split; [reflexivity|]. split; [apply masked_key_length|]. split.
  - intros Hshort. now rewrite firstn_all2.
  - intros Ho Hf.
    destruct (HuggingFaceService.apiKey other) as [|c' k'];
      [contradiction|]. now rewrite Hf.
Qed.

Lemma getModelInfo_masks_key_witness :
  HuggingFaceService.apiKey
    (HuggingFaceService.construct (Some (lit "hf_abc")) None) <> []
  /\ HuggingFaceService.info_apiKey
       (HuggingFaceService.getModelInfo
          (HuggingFaceService.construct (Some (lit "hf_abc")) None))
     = lit "hf_abc...".
Proof.
  assert (H : HuggingFaceService.apiKey
                (HuggingFaceService.construct (Some (lit "hf_abc")) None)
              <> []) by discriminate.
  split; [exact H|].
  exact (proj1 (proj2 (getModelInfo_masks_key
                         (HuggingFaceService.construct (Some (lit "hf_abc"))
                            None)
                         (HuggingFaceService.construct None None)) H)).
Defined.

(** X5: the service built from the environment takes its model name from
    the variable when that is set and not empty, and is
    [google/gemma-3-12b-it] when the variable is unset or empty, so that the
    name is never empty; its key is the key variable, empty when that is
    unset; and [getModelInfo] reports [Not configured] exactly when the key
    variable is unset or empty. *)
Theorem construct_defaults (key modelName : option jsstring) :
  let this := HuggingFaceService.construct key modelName in
  (forall v, modelName = Some v -> v <> [] ->
             HuggingFaceService.model this = v)
  /\ (modelName = None \/ modelName = Some [] ->
      HuggingFaceService.model this = lit "google/gemma-3-12b-it")
  /\ HuggingFaceService.model this <> []
  /\ (forall v, key = Some v -> HuggingFaceService.apiKey this = v)
  /\ (key = None -> HuggingFaceService.apiKey this = [])
  /\ (HuggingFaceService.info_apiKey (HuggingFaceService.getModelInfo this)
      = lit "Not configured"
      <-> key = None \/ key = Some []).
Proof.
  cbv zeta. split; [|split; [|split; [|split; [|split]]]].
  - intros v -> Hv. destruct v as [|c s]; [contradiction|reflexivity].
  - intros [-> | ->]; reflexivity.
  - destruct modelName as [[|c s]|]; discriminate.
  - intros v ->. destruct v; reflexivity.
  - intros ->. reflexivity.
  - rewrite not_configured_iff. unfold HuggingFaceService.construct.
    cbn [HuggingFaceService.apiKey].
    destruct key as [[|c s]|]; cbn; split; intros H; auto;
      try discriminate; destruct H; discriminate.
Qed.

(** A model variable that is set is the model of the service, whatever the
    default. *)
Example construct_uses_the_variable :
  HuggingFaceService.model
    (HuggingFaceService.construct (Some (lit "hf_0123456789abcdef"))
       (Some (lit "mistralai/Mistral-7B-Instruct-v0.2")))
  = lit "mistralai/Mistral-7B-Instruct-v0.2".
Proof. reflexivity. Qed.

(** ** The payload of a data URL *)

Lemma split_char_none (sep : char) (a : jsstring) :
  forall cur,
    forallb (fun c => negb (N.eqb c sep)) a = true ->
    split_char sep a cur = [rev cur ++ a].
Proof.
  induction a as [|c a IH]; intros cur Ha; cbn in *.
  - now rewrite app_nil_r.
  - apply andb_true_iff in Ha as [Hc Ha].
    apply negb_true_iff in Hc. rewrite Hc, IH by exact Ha.
    cbn. now rewrite <- app_assoc.
Qed.

(** X6: the handler of [fileToBase64] resolves with what stands between
    the first comma of the data URL and the next one (or the end): the whole
    payload when it holds no comma, only its first piece otherwise, and
    [undefined] when the URL holds no comma at all. *)
Theorem base64_payload (header payload rest : jsstring) :
  forallb (fun c => negb (N.eqb c (chr ","))) header = true ->
  forallb (fun c => negb (N.eqb c (chr ","))) payload = true ->
  HuggingFaceService.base64OfDataURL (header ++ chr "," :: payload)
  = Some payload
  /\ HuggingFaceService.base64OfDataURL
       (header ++ chr "," :: payload ++ chr "," :: rest) = Some payload
  /\ HuggingFaceService.base64OfDataURL header = None.
Proof.
  intros Hh Hp. unfold HuggingFaceService.base64OfDataURL.
  rewrite !(split_char_first _ header) by exact Hh.
  rewrite (split_char_first _ payload) by exact Hp.
  rewrite (split_char_none _ payload) by exact Hp.
  rewrite (split_char_none _ header) by exact Hh.
  repeat split.
Qed.

Lemma base64_payload_witness :
  HuggingFaceService.base64OfDataURL (lit "data:image/png;base64,iVBORw0KGgo=")
  = Some (lit "iVBORw0KGgo=").
Proof.
  exact (proj1 (base64_payload (lit "data:image/png;base64")
                  (lit "iVBORw0KGgo=") [] eq_refl eq_refl)).
Defined.

(** * Further properties *)

(** ** The calendar *)

Section Calendar.

Local Open Scope Z_scope.

Lemma DayFromYear_succ (y : Z) :
  DayFromYear (y + 1) = DayFromYear y + DaysInYear y.
Proof.
  unfold DayFromYear, DaysInYear.
  destruct (Z.eqb_spec (y mod 4) 0); cbn [negb];
    [destruct (Z.eqb_spec (y mod 100) 0); cbn [negb];
     [destruct (Z.eqb_spec (y mod 400) 0); cbn [negb]|]|];
    Z.div_mod_to_equations; lia.
Qed.

Lemma DayFromYear_le (a b : Z) : a <= b -> DayFromYear a <= DayFromYear b.
Proof.
  intros H. unfold DayFromYear. Z.div_mod_to_equations. lia.
Qed.

Lemma DaysInYear_cases (y : Z) : DaysInYear y = 365 \/ DaysInYear y = 366.
Proof.
  unfold DaysInYear.
  destruct (negb (y mod 4 =? 0)), (negb (y mod 100 =? 0)),
    (negb (y mod 400 =? 0)); auto.
Qed.

Lemma YearFromTime_unique (t y : Z) :
  DayFromYear y <= Day t < DayFromYear (y + 1) -> YearFromTime t = y.
Proof.
  intros H. pose proof (YearFromTime_spec t) as S.
  set (y' := YearFromTime t) in *.
  destruct (Z.lt_trichotomy y y') as [L|[E|L]]; [|now symmetry|].
  - pose proof (DayFromYear_le (y + 1) y' ltac:(lia)). lia.
  - pose proof (DayFromYear_le (y' + 1) y ltac:(lia)). lia.
Qed.

Lemma DayWithinYear_range (t : Z) :
  0 <= DayWithinYear t < DaysInYear (YearFromTime t).
Proof.
  unfold DayWithinYear. pose proof (YearFromTime_spec t) as S.
  rewrite DayFromYear_succ in S. lia.
Qed.

Lemma MonthFromTime_range (t : Z) : 0 <= MonthFromTime t <= 11.
Proof.
  unfold MonthFromTime.
  repeat match goal with |- context [if ?b then _ else _] => destruct b end;
    lia.
Qed.

Lemma fields_of_day (t : Z) :
  MakeDay (YearFromTime t) (MonthFromTime t) (DateFromTime t) = Day t
  /\ 1 <= DateFromTime t
          <= DaysInMonth (YearFromTime t) (MonthFromTime t + 1).
Proof.
  pose proof (DayWithinYear_range t) as R.
  pose proof (MonthFromTime_range t) as M.
  unfold MakeDay.
  rewrite (Z.div_small (MonthFromTime t) 12), (Z.mod_small (MonthFromTime t) 12),
    Z.add_0_r by lia.
  unfold DateFromTime, MonthFromTime, InLeapYear, DaysInMonth in *.
  unfold DayWithinYear in *.
  set (y := YearFromTime t) in *.
  set (D := Day t - DayFromYear y) in *.
  assert (HD : Day t = DayFromYear y + D) by (unfold D; lia).
  rewrite HD. clearbody D. clear HD.
  destruct (DaysInYear_cases y) as [E|E]; rewrite E in *; cbn [Z.eqb Pos.eqb];
    repeat match goal with
           | |- context [if (?a <? ?b) then _ else _] =>
               destruct (Z.ltb_spec a b)
           end; cbn; lia.
Qed.

Ltac month_cases m :=
  let Hc := fresh "Hc" in
  assert (Hc : m = 0 \/ m = 1 \/ m = 2 \/ m = 3 \/ m = 4 \/ m = 5 \/ m = 6
               \/ m = 7 \/ m = 8 \/ m = 9 \/ m = 10 \/ m = 11) by lia;
  repeat (destruct Hc as [->|Hc]); try subst m.

Ltac calendar_tables E :=
  cbv beta iota delta [DaysBeforeMonth DaysInMonth] in *;
  rewrite E in *;
  change (365 =? 366) with false in *; change (366 =? 366) with true in *;
  cbv beta iota in *.

Lemma MakeDay_in_year (y m d : Z) :
  0 <= m <= 11 -> 1 <= d <= DaysInMonth y (m + 1) ->
  MakeDay y m d = DayFromYear y + DaysBeforeMonth (leapDay y) m + d - 1
  /\ 0 <= DaysBeforeMonth (leapDay y) m + d - 1 < DaysInYear y.
Proof.
  intros Hm Hd. unfold MakeDay.
  rewrite (Z.div_small m 12), (Z.mod_small m 12), Z.add_0_r by lia.
  fold (leapDay y). split; [reflexivity|].
  unfold leapDay.
  destruct (DaysInYear_cases y) as [E|E]; month_cases m;
    simpl (_ + 1) in Hd; calendar_tables E; lia.
Qed.

Lemma day_of_fields (y m d t : Z) :
  0 <= m <= 11 -> 1 <= d <= DaysInMonth y (m + 1) ->
  Day t = MakeDay y m d ->
  YearFromTime t = y /\ MonthFromTime t = m /\ DateFromTime t = d.
Proof.
  intros Hm Hd Ht.
  destruct (MakeDay_in_year y m d Hm Hd) as [E R].
  assert (Hy : YearFromTime t = y).
  { apply YearFromTime_unique. rewrite DayFromYear_succ. lia. }
  assert (Hw : DayWithinYear t = DaysBeforeMonth (leapDay y) m + d - 1)
    by (unfold DayWithinYear; rewrite Hy; lia).
  assert (Hl : InLeapYear t = leapDay y)
    by (unfold InLeapYear, leapDay; now rewrite Hy).
  unfold DateFromTime, MonthFromTime. rewrite Hw, Hl.
  split; [exact Hy|].
  unfold leapDay in *. clear Hw Hl E Ht Hy.
  destruct (DaysInYear_cases y) as [E'|E']; month_cases m;
    simpl (_ + 1) in Hd; calendar_tables E';
    repeat match goal with
           | |- context [if (?a <? ?b) then _ else _] =>
               destruct (Z.ltb_spec a b); try lia
           end; split; lia.
Qed.

End Calendar.

(** ** Digit strings *)

Section Digits.

Local Open Scope Z_scope.

(** Digit strings *)

Lemma digit_value_digit (c : char) :
  is_digit c = true ->
  digit_value c = Some (Z.of_N c - 48) /\ 0 <= Z.of_N c - 48 < 10.
Proof.
  intros H. unfold digit_value. rewrite H. split; [reflexivity|].
  unfold is_digit in H. apply andb_true_iff in H as [H1 H2].
  apply N.leb_le in H1, H2. lia.
Qed.

Lemma parse_digits_app (a b : jsstring) :
  forallb is_digit a = true ->
  forall acc,
    parse_digits 10 (a ++ b) acc = parse_digits 10 b (parse_digits 10 a acc).
Proof.
  induction a as [|c a IH]; intros Ha acc; cbn [app parse_digits forallb] in *.
  - reflexivity.
  - apply andb_true_iff in Ha as [Hc Ha].
    destruct (digit_value_digit c Hc) as [-> Hr].
    replace (Z.of_N c - 48 <? 10) with true by (symmetry; lia).
    now apply IH.
Qed.

Lemma parse_digits_some (s : jsstring) :
  forallb is_digit s = true -> s <> [] ->
  forall acc, exists n, parse_digits 10 s acc = Some n
    /\ 0 <= n - 10 ^ Z.of_nat (length s) * match acc with Some a => a | None => 0 end
         < 10 ^ Z.of_nat (length s).
Proof.
  induction s as [|c s IH]; intros Hs Hne acc; [contradiction|].
  cbn [forallb] in Hs. apply andb_true_iff in Hs as [Hc Hs].
  cbn [parse_digits].
  destruct (digit_value_digit c Hc) as [-> Hr].
  replace (Z.of_N c - 48 <? 10) with true by (symmetry; lia).
  set (a := match acc with Some a => a | None => 0 end).
  destruct s as [|c' s].
  - cbn [parse_digits length]. eexists. split; [reflexivity|].
    change (10 ^ Z.of_nat 1) with 10. lia.
  - destruct (IH Hs ltac:(discriminate) (Some (10 * a + (Z.of_N c - 48))))
      as (n & -> & Hn).
    exists n. split; [reflexivity|].
    change (length (c :: c' :: s)) with (S (length (c' :: s))).
    rewrite Nat2Z.inj_succ, Z.pow_succ_r by lia.
    set (P := 10 ^ Z.of_nat (length (c' :: s))) in *.
    assert (0 < P) by (apply Z.pow_pos_nonneg; lia).
    nia.
Qed.

Lemma is_space_digit (c : char) : is_digit c = true -> is_space c = false.
Proof.
  intros H. apply digit_cases in H. cbn [In] in H.
  repeat (destruct H as [<-|H]; [reflexivity|]). destruct H.
Qed.

(** [parseInt] of a string of digits reads all of them. *)
Lemma parseInt_digits (s : jsstring) :
  forallb is_digit s = true -> parseInt s = digits_value s.
Proof.
  intros Hs. unfold digits_value. rewrite Hs.
  destruct s as [|c s]; [reflexivity|].
  pose proof Hs as Hs'. cbn [forallb] in Hs'.
  apply andb_true_iff in Hs' as [Hc Hs'].
  unfold parseInt, trimStart. cbn [dropWhile].
  rewrite (is_space_digit c Hc).
  assert (Hm : N.eqb c (chr "-") = false /\ N.eqb c (chr "+") = false).
  { apply digit_cases in Hc. cbn [In] in Hc.
    repeat (destruct Hc as [<-|Hc]; [split; reflexivity|]). destruct Hc. }
  destruct Hm as [-> ->].
  assert (Hend : forall s',
            option_map (Z.mul 1) (parse_digits 10 s' None)
            = parse_digits 10 s' None).
  { intros s'. destruct (parse_digits 10 s' None); cbn [option_map];
      [f_equal; lia|reflexivity]. }
  destruct s as [|x r]; [apply Hend|].
  cbn [forallb] in Hs'. apply andb_true_iff in Hs' as [Hx _].
  assert (E : (N.eqb x (chr "x") || N.eqb x (chr "X"))%bool = false).
  { apply digit_cases in Hx. cbn [In] in Hx.
    repeat (destruct Hx as [<-|Hx]; [reflexivity|]). destruct Hx. }
  rewrite E, andb_false_r. apply Hend.
Qed.

Lemma digits_value_range (s : jsstring) :
  forallb is_digit s = true -> s <> [] ->
  exists n, digits_value s = Some n /\ 0 <= n < 10 ^ Z.of_nat (length s).
Proof.
  intros Hs Hne. unfold digits_value. rewrite Hs.
  destruct (parse_digits_some s Hs Hne None) as (n & -> & Hn).
  exists n. split; [reflexivity|]. lia.
Qed.

(** The digits [pad] writes are read back, for a number that fits. *)
Lemma parse_digits_pad (w : nat) :
  forall n acc,
    parse_digits 10 (pad w n) acc
    = match w with
      | O => acc
      | S _ => Some (10 ^ Z.of_nat w * match acc with Some a => a | None => 0 end
                     + n mod 10 ^ Z.of_nat w)
      end.
Proof.
  induction w as [|w IH]; intros n acc; [reflexivity|].
  cbn [pad]. rewrite parse_digits_app
    by (apply forallb_pad; apply is_digit_digit_char).
  rewrite IH. cbn [parse_digits].
  destruct (digit_value_digit _ (is_digit_digit_char n)) as [-> Hr].
  replace (Z.of_N (digit_char n) - 48 <? 10) with true by (symmetry; lia).
  assert (Hv : Z.of_N (digit_char n) - 48 = n mod 10).
  { unfold digit_char. pose proof (Z.mod_pos_bound n 10 ltac:(lia)). lia. }
  rewrite Hv. f_equal.
  rewrite Nat2Z.inj_succ, Z.pow_succ_r by lia.
  set (a := match acc with Some a => a | None => 0 end).
  destruct w as [|w'].
  - change (10 ^ Z.of_nat 0) with 1. rewrite Z.mul_1_r. lia.
  - set (P := 10 ^ Z.of_nat (S w')).
    assert (0 < P) by (apply Z.pow_pos_nonneg; lia).
    rewrite (Z.rem_mul_r n 10 P) by lia. lia.
Qed.

Lemma digits_value_pad (w : nat) (n : Z) :
  0 <= n < 10 ^ Z.of_nat (S w) -> digits_value (pad (S w) n) = Some n.
Proof.
  intros Hn. unfold digits_value.
  rewrite forallb_pad by apply is_digit_digit_char.
  rewrite parse_digits_pad. f_equal. rewrite Z.mod_small by exact Hn. lia.
Qed.

Lemma digits_not_sep (s : jsstring) :
  forallb is_digit s = true ->
  forallb (fun c => negb (is_sep c)) s = true.
Proof.
  intros H. rewrite forallb_forall in *. intros c Hc.
  specialize (H c Hc). apply digit_cases in H. cbn [In] in H.
  repeat (destruct H as [<-|H]; [reflexivity|]). destruct H.
Qed.

Lemma digits12_cases (s : jsstring) :
  digits12 s = true ->
  forallb is_digit s = true
  /\ ((exists a, s = [a] /\ is_digit a = true)
      \/ (exists a b, s = [a; b] /\ is_digit a = true /\ is_digit b = true)).
Proof.
  unfold digits12. intros H. apply andb_true_iff in H as [Hd Hl].
  split; [exact Hd|].
  destruct s as [|a [|b [|c s]]]; try discriminate; cbn [forallb] in Hd;
    rewrite ?andb_true_iff in Hd.
  - left. exists a. tauto.
  - right. exists a, b. tauto.
Qed.

Lemma digits4_cases (s : jsstring) :
  digits4 s = true ->
  forallb is_digit s = true
  /\ exists a b c d,
       s = [a; b; c; d] /\ is_digit a = true /\ is_digit b = true
       /\ is_digit c = true /\ is_digit d = true.
Proof.
  unfold digits4. intros H. apply andb_true_iff in H as [Hd Hl].
  split; [exact Hd|].
  destruct s as [|a [|b [|c [|d [|e s]]]]]; try discriminate.
  cbn [forallb] in Hd. rewrite ?andb_true_iff in Hd.
  exists a, b, c, d. tauto.
Qed.

End Digits.

(** ** The matcher *)

Lemma star_class_map (X Y : Type) (f : X -> Y) (p : char -> bool)
    (s : jsstring) (k : jsstring -> option X) (k' : jsstring -> option Y) :
  (forall u, k' u = option_map f (k u)) ->
  star_class p s k' = option_map f (star_class p s k).
Proof.
  intros Hk. induction s as [|c s IH]; cbn [star_class]; [apply Hk|].
  destruct (p c); [|apply Hk].
  rewrite IH. destruct (star_class p s k); [reflexivity|apply Hk].
Qed.

(** The matcher is natural in the answer of its continuation. *)
Lemma rmatch_map (X Y : Type) (f : X -> Y) (r : regex) :
  forall (s : jsstring) (k : jsstring -> option X)
         (k' : jsstring -> option Y),
    (forall u, k' u = option_map f (k u)) ->
    rmatch r s k' = option_map f (rmatch r s k).
Proof.
  induction r as [|p|r1 IH1 r2 IH2|r1 IH1 r2 IH2|p]; intros s k k' Hk;
    cbn [rmatch].
  - apply Hk.
  - destruct s as [|c s]; [reflexivity|]. destruct (p c); [apply Hk|reflexivity].
  - apply IH1. intros u. now apply IH2.
  - rewrite (IH1 s k k' Hk), (IH2 s k k' Hk).
    now destruct (rmatch r1 s k).
  - destruct s as [|c s]; [reflexivity|]. destruct (p c); [|reflexivity].
    now apply star_class_map.
Qed.

(** [split] with a separator that is one character of a class. *)
Lemma split_from_class_piece (p : char -> bool) (a : jsstring) :
  forall (rest cur : jsstring),
    forallb (fun c => negb (p c)) a = true ->
    split_from (Class p) (a ++ rest) 0 cur
    = match rest with
      | [] => [rev cur ++ a]
      | _ :: _ => split_from (Class p) rest 0 (rev a ++ cur)
      end.
Proof.
  induction a as [|c a IH]; intros rest cur Ha.
  - cbn [app rev]. rewrite app_nil_r. destruct rest; reflexivity.
  - cbn [forallb] in Ha. apply andb_true_iff in Ha as [Hc Ha].
    apply negb_true_iff in Hc.
    cbn [app split_from]. unfold match_at. cbn [rmatch]. rewrite Hc.
    rewrite IH by exact Ha. cbn [rev].
    destruct rest; rewrite <- ?app_assoc; reflexivity.
Qed.

Lemma split_from_class_sep (p : char -> bool) (c : char) (rest cur : jsstring) :
  p c = true ->
  split_from (Class p) (c :: rest) 0 cur
  = rev cur :: match rest with
               | [] => [[]]
               | _ :: _ => split_from (Class p) rest 0 []
               end.
Proof.
  intros Hc. cbn [split_from]. unfold match_at. cbn [rmatch]. rewrite Hc.
  replace (length (c :: rest) - length rest)%nat with 1%nat
    by (cbn [length]; lia).
  destruct rest; reflexivity.
Qed.

(** Three fields without a separator, with a separator between them. *)
Lemma split_three (p : char -> bool) (a b c : jsstring) (s1 s2 : char) :
  forallb (fun x => negb (p x)) a = true ->
  forallb (fun x => negb (p x)) b = true ->
  forallb (fun x => negb (p x)) c = true ->
  p s1 = true -> p s2 = true ->
  Regex.split (Class p) (a ++ s1 :: b ++ s2 :: c) = [a; b; c].
Proof.
  intros Ha Hb Hc H1 H2.
  assert (E : Regex.split (Class p) (a ++ s1 :: b ++ s2 :: c)
              = split_from (Class p) (a ++ s1 :: b ++ s2 :: c) 0 []).
  { unfold Regex.split. destruct a; reflexivity. }
  rewrite E, split_from_class_piece by exact Ha.
  rewrite split_from_class_sep by exact H1.
  rewrite app_nil_r, rev_involutive. f_equal.
  assert (E2 : match b ++ s2 :: c with
               | [] => [[]]
               | _ :: _ => split_from (Class p) (b ++ s2 :: c) 0 []
               end = split_from (Class p) (b ++ s2 :: c) 0 [])
    by (destruct b; reflexivity).
  rewrite E2, split_from_class_piece by exact Hb.
  rewrite split_from_class_sep by exact H2.
  rewrite app_nil_r, rev_involutive. f_equal.
  destruct c as [|x c']; [reflexivity|].
  pose proof (split_from_class_piece p (x :: c') [] [] Hc) as H.
  now rewrite app_nil_r in H.
Qed.



Lemma matchAll_from_spans (r : regex) (text : jsstring) :
  forall (s : jsstring) (skip pos : nat),
    s = skipn pos text ->
    matchAll_from r s skip = map (slice text) (spans_from r s skip pos).
Proof.
  intros s. induction s as [|c s IH]; intros skip pos Hs.
  - cbn [matchAll_from spans_from]. destruct skip; [|reflexivity].
    destruct (match_at r []); [|reflexivity].
    cbn [map]. unfold slice. cbn [fst snd]. reflexivity.
  - assert (Hs' : s = skipn (S pos) text).
    { replace (S pos) with (1 + pos)%nat by lia.
      rewrite <- skipn_skipn, <- Hs. reflexivity. }
    cbn [matchAll_from spans_from]. destruct skip as [|n]; [|now apply IH].
    destruct (match_at r (c :: s)) as [rest|]; [|now apply IH].
    cbn [map]. f_equal; [|now apply IH].
    unfold slice. cbn [fst snd]. now rewrite <- Hs.
Qed.


(** ** Canonical forms *)



Section Canonical.

Variable f : char -> char.

Lemma star_class_under (X : Type) (p : char -> bool) (s : jsstring) :
  (forall c, p (f c) = p c) ->
  forall (k k' : jsstring -> option X),
    (forall s', k' (map f s') = k s') ->
    star_class p (map f s) k' = star_class p s k.
Proof.
  intros Hp. induction s as [|c s IH]; intros k k' Hk;
    cbn [map star_class].
  - apply (Hk []).
  - rewrite Hp, (IH k k' Hk). now rewrite <- (Hk (c :: s)).
Qed.

Lemma rmatch_under (X : Type) (r : regex) :
  invariant_under f r ->
  forall (s : jsstring) (k k' : jsstring -> option X),
    (forall s', k' (map f s') = k s') ->
    rmatch r (map f s) k' = rmatch r s k.
Proof.
  induction r as [|p|r1 IH1 r2 IH2|r1 IH1 r2 IH2|p]; intros Hinv s k k' Hk;
    cbn [rmatch invariant_under] in *.
  - apply Hk.
  - destruct s as [|c s]; [reflexivity|]. cbn [map].
    rewrite Hinv. now rewrite Hk.
  - destruct Hinv as [H1 H2]. apply IH1; [exact H1|].
    intros s'. now apply IH2.
  - destruct Hinv as [H1 H2].
    now rewrite (IH1 H1 s k k' Hk), (IH2 H2 s k k' Hk).
  - destruct s as [|c s]; [reflexivity|]. cbn [map].
    rewrite Hinv. destruct (p c); [|reflexivity].
    now apply star_class_under.
Qed.

Lemma match_at_under (r : regex) (s : jsstring) :
  invariant_under f r ->
  match_at r (map f s) = option_map (map f) (match_at r s).
Proof.
  intros Hinv. unfold match_at.
  transitivity (rmatch r s (fun u => Some (map f u))).
  - now apply rmatch_under.
  - now apply rmatch_map.
Qed.

Lemma test_under (r : regex) (s : jsstring) :
  invariant_under f r -> test r (map f s) = test r s.
Proof.
  intros Hinv. induction s as [|c s IH].
  - unfold test. cbn [map exec].
    pose proof (match_at_under r [] Hinv) as H. cbn [map] in H.
    rewrite H. now destruct (match_at r []).
  - cbn [map]. rewrite !test_cons, IH.
    pose proof (match_at_under r (c :: s) Hinv) as H. cbn [map] in H.
    rewrite H. now destruct (match_at r (c :: s)).
Qed.

Lemma spans_from_under (r : regex) (s : jsstring) :
  invariant_under f r ->
  forall skip pos,
    spans_from r (map f s) skip pos = spans_from r s skip pos.
Proof.
  intros Hinv. induction s as [|c s IH]; intros skip pos.
  - cbn [map spans_from]. destruct skip; [|reflexivity].
    pose proof (match_at_under r [] Hinv) as H. cbn [map] in H.
    rewrite H. now destruct (match_at r []).
  - cbn [map spans_from]. destruct skip as [|n]; [|apply IH].
    pose proof (match_at_under r (c :: s) Hinv) as H. cbn [map] in H.
    rewrite H. destruct (match_at r (c :: s)) as [rest|]; cbn [option_map];
      [|apply IH].
    cbn [length]. rewrite !length_map. now rewrite IH.
Qed.

(** The matches of a pattern lie where they lie in the canonical form of
    the text. *)
Lemma matchAll_under (r : regex) (s : jsstring) :
  invariant_under f r ->
  matchAll r s = map (slice s) (spans_from r (map f s) 0 0).
Proof.
  intros Hinv. unfold matchAll.
  rewrite (matchAll_from_spans r s s 0 0) by reflexivity.
  now rewrite spans_from_under.
Qed.

Lemma candidates_under (text : jsstring) :
  Forall (invariant_under f) DATE_PATTERNS ->
  candidates text
  = map (slice (trim text))
      (flat_map (fun pattern => spans_from pattern (map f (trim text)) 0 0)
         DATE_PATTERNS).
Proof.
  unfold candidates. intros H.
  induction H as [|p ps Hp Hps IH]; [reflexivity|].
  cbn [flat_map]. rewrite map_app, IH. f_equal. now apply matchAll_under.
Qed.

Lemma no_format_under (s : jsstring) (formats : list (jsstring * regex)) :
  Forall (fun entry => invariant_under f (snd entry)) formats ->
  forallb (fun entry => negb (test (snd entry) s)) formats
  = forallb (fun entry => negb (test (snd entry) (map f s))) formats.
Proof.
  induction 1 as [|e es He Hes IH]; [reflexivity|].
  cbn [forallb]. now rewrite IH, test_under.
Qed.

End Canonical.

Lemma letter_cases (c : char) :
  (N.leb 97 c && N.leb c 122)%bool = true ->
  In c [97; 98; 99; 100; 101; 102; 103; 104; 105; 106; 107; 108; 109; 110;
        111; 112; 113; 114; 115; 116; 117; 118; 119; 120; 121; 122]%N.
Proof.
  intros H. apply andb_true_iff in H as [H1 H2].
  apply N.leb_le in H1, H2. cbn [In].
  assert (c = 97 \/ c = 98 \/ c = 99 \/ c = 100 \/ c = 101 \/ c = 102
          \/ c = 103 \/ c = 104 \/ c = 105 \/ c = 106 \/ c = 107 \/ c = 108
          \/ c = 109 \/ c = 110 \/ c = 111 \/ c = 112 \/ c = 113 \/ c = 114
          \/ c = 115 \/ c = 116 \/ c = 117 \/ c = 118 \/ c = 119 \/ c = 120
          \/ c = 121 \/ c = 122)%N by lia.
  intuition auto.
Qed.

(** A class that tells neither digits nor the two cases of a letter apart. *)
Ltac class_invariant_case :=
  let c := fresh "c" in
  let E := fresh "E" in
  let L := fresh "L" in
  intros c; unfold canonCase, canon; destruct (is_digit c) eqn:E;
  [apply digit_cases in E; cbn [In] in E;
   repeat (destruct E as [<-|E]; [vm_compute; reflexivity|]);
   destruct E
  |unfold toUpperASCII;
   destruct (N.leb 97 c && N.leb c 122)%bool eqn:L;
   [apply letter_cases in L; cbn [In] in L;
    repeat (destruct L as [<-|L]; [vm_compute; reflexivity|]);
    destruct L
   |first [reflexivity | exact E] ] ].

Lemma toUpperASCII_idempotent (c : char) :
  toUpperASCII (toUpperASCII c) = toUpperASCII c.
Proof.
  unfold toUpperASCII.
  destruct (N.leb 97 c && N.leb c 122)%bool eqn:L; [|now rewrite L].
  apply letter_cases in L. cbn [In] in L.
  repeat (destruct L as [<-|L]; [reflexivity|]). destruct L.
Qed.

Lemma toUpperASCII_digit (c : char) :
  is_digit c = true -> toUpperASCII c = c.
Proof.
  intros H. apply digit_cases in H. cbn [In] in H.
  repeat (destruct H as [<-|H]; [reflexivity|]). destruct H.
Qed.

Lemma ci_match_canonCase (p c : char) :
  is_digit (toUpperASCII p) = false ->
  ci_match p (canonCase c) = ci_match p c.
Proof.
  intros Hp. unfold ci_match, canonCase, canon.
  destruct (is_digit c) eqn:E.
  - rewrite (toUpperASCII_digit c E).
    transitivity false; [|symmetry]; apply N.eqb_neq; intros H.
    + rewrite <- H in Hp. vm_compute in Hp. discriminate.
    + rewrite <- H in Hp. congruence.
  - now rewrite toUpperASCII_idempotent.
Qed.

Lemma word_i_invariant (w : string) :
  letters_only w = true -> invariant_under canonCase (word_i w).
Proof.
  unfold letters_only, word_i.
  induction (list_ascii_of_string w) as [|a l IH]; cbn [forallb fold_right];
    intros H; [exact I|].
  apply andb_true_iff in H as [Ha Hl]. cbn [invariant_under].
  split; [|now apply IH].
  intros c. apply ci_match_canonCase. now apply negb_true_iff.
Qed.

Lemma words_i_invariant (ws : list string) :
  forallb letters_only ws = true -> invariant_under canonCase (words_i ws).
Proof.
  unfold words_i. destruct ws as [|w ws]; cbn [map forallb].
  - intros _ c. reflexivity.
  - intros H. apply andb_true_iff in H as [Hw Hws].
    revert w Hw. induction ws as [|w' ws IH]; intros w Hw; cbn [map alt].
    + now apply word_i_invariant.
    + cbn [forallb] in Hws. apply andb_true_iff in Hws as [Hw' Hws].
      cbn [invariant_under]. split; [now apply word_i_invariant|].
      now apply IH.
Qed.

Lemma seq_invariant (f : char -> char) (rs : list regex) :
  Forall (invariant_under f) rs -> invariant_under f (Regex.seq rs).
Proof.
  induction 1 as [|r rs Hr Hrs IH]; [exact I|].
  destruct rs as [|r' rs]; [exact Hr|].
  cbn [Regex.seq invariant_under]. now split.
Qed.

Ltac pattern_invariant_case :=
  apply seq_invariant;
  repeat (apply Forall_cons;
          [first [apply words_i_invariant; vm_compute; reflexivity
                 |cbn -[canonCase is_digit is_space ci_match N.eqb chr];
                  repeat split; class_invariant_case]|]);
  apply Forall_nil.

Lemma patterns_invariant_case : Forall (invariant_under canonCase) DATE_PATTERNS.
Proof.
  unfold DATE_PATTERNS.
  repeat (apply Forall_cons; [pattern_invariant_case|]).
  apply Forall_nil.
Qed.

Lemma strict_patterns_invariant_case :
  Forall (fun entry => invariant_under canonCase (snd entry)) DATE_FORMAT_MAP.
Proof.
  unfold DATE_FORMAT_MAP.
  repeat (apply Forall_cons; [cbn [snd]; pattern_invariant_case|]).
  apply Forall_nil.
Qed.



Lemma alpha_cases (c : char) :
  is_alpha c = true ->
  In c [65; 66; 67; 68; 69; 70; 71; 72; 73; 74; 75; 76; 77; 78; 79; 80; 81;
        82; 83; 84; 85; 86; 87; 88; 89; 90;
        97; 98; 99; 100; 101; 102; 103; 104; 105; 106; 107; 108; 109; 110;
        111; 112; 113; 114; 115; 116; 117; 118; 119; 120; 121; 122]%N.
Proof.
  unfold is_alpha. intros H. apply orb_true_iff in H as [H|H].
  - apply andb_true_iff in H as [H1 H2]. apply N.leb_le in H1, H2.
    assert (E : exists k, (k < 26)%nat /\ c = (65 + N.of_nat k)%N)
      by (exists (N.to_nat (c - 65)); split; lia).
    destruct E as (k & Hk & ->).
    do 26 (destruct k as [|k]; [cbn; tauto|]). lia.
  - apply letter_cases in H. cbn [In] in *. tauto.
Qed.

Lemma alpha_upper (c n : char) :
  is_alpha n = true -> toUpperASCII c = toUpperASCII n -> is_alpha c = true.
Proof.
  intros Hn H.
  assert (Hu : is_alpha (toUpperASCII c) = true).
  { rewrite H. apply alpha_cases in Hn. cbn [In] in Hn.
    repeat (destruct Hn as [<-|Hn]; [reflexivity|]). destruct Hn. }
  unfold toUpperASCII in Hu.
  destruct (N.leb 97 c && N.leb c 122)%bool eqn:L; [|exact Hu].
  unfold is_alpha. rewrite L. apply orb_true_r.
Qed.

Lemma alpha_facts (c : char) :
  is_alpha c = true ->
  is_digit c = false /\ is_space c = false /\ N.eqb c (chr ",") = false
  /\ canonCase c = toUpperASCII c.
Proof.
  intros H. apply alpha_cases in H. cbn [In] in H.
  repeat (destruct H as [<-|H]; [repeat split; reflexivity|]). destruct H.
Qed.

Lemma sameLetters_facts (v w : jsstring) :
  forallb is_alpha w = true -> sameLetters v w ->
  forallb is_alpha v = true /\ map canonCase v = map toUpperASCII w.
Proof.
  unfold sameLetters. revert w.
  induction v as [|c v IH]; intros [|n w] Hw H; try discriminate.
  - now split.
  - cbn [forallb map] in *. apply andb_true_iff in Hw as [Hn Hw].
    injection H as Hc Hv.
    destruct (IH w Hw Hv) as [IH1 IH2].
    pose proof (alpha_upper c n Hn Hc) as Ha.
    destruct (alpha_facts c Ha) as (_ & _ & _ & Hcc).
    rewrite Ha, IH1, Hcc, Hc, IH2. now split.
Qed.

Lemma canonCase_digit (c : char) : is_digit c = true -> canonCase c = chr "0".
Proof. intros H. unfold canonCase. now rewrite (canon_digit c H). Qed.

(** ** [split] on runs of a class *)

Lemma star_class_run (p : char -> bool) (run : jsstring) :
  forall (x : char) (rest : jsstring),
    forallb p run = true -> p x = false ->
    star_class p (run ++ x :: rest) (fun u => Some u) = Some (x :: rest).
Proof.
  induction run as [|c run IH]; intros x rest Hrun Hx;
    cbn [app star_class forallb] in *.
  - now rewrite Hx.
  - apply andb_true_iff in Hrun as [-> Hrun]. now rewrite IH.
Qed.

Lemma split_from_skip (r : regex) (a : jsstring) :
  forall (rest cur : jsstring),
    split_from r (a ++ rest) (length a) cur = split_from r rest 0 cur.
Proof.
  induction a as [|c a IH]; intros rest cur; cbn [app length].
  - reflexivity.
  - cbn [split_from]. apply IH.
Qed.

Lemma split_from_plus_piece (p : char -> bool) (a : jsstring) :
  forall (rest cur : jsstring),
    forallb (fun c => negb (p c)) a = true ->
    split_from (Plus p) (a ++ rest) 0 cur
    = match rest with
      | [] => [rev cur ++ a]
      | _ :: _ => split_from (Plus p) rest 0 (rev a ++ cur)
      end.
Proof.
  induction a as [|c a IH]; intros rest cur Ha.
  - cbn [app rev]. rewrite app_nil_r. destruct rest; reflexivity.
  - cbn [forallb] in Ha. apply andb_true_iff in Ha as [Hc Ha].
    apply negb_true_iff in Hc.
    cbn [app split_from]. unfold match_at. cbn [rmatch]. rewrite Hc.
    rewrite IH by exact Ha. cbn [rev].
    destruct rest; rewrite <- ?app_assoc; reflexivity.
Qed.

(** A run of separators, followed by a character that is not one. *)
Lemma split_from_plus_run (p : char -> bool) (c : char) (run : jsstring)
    (x : char) (rest cur : jsstring) :
  p c = true -> forallb p run = true -> p x = false ->
  split_from (Plus p) (c :: run ++ x :: rest) 0 cur
  = rev cur :: split_from (Plus p) (x :: rest) 0 [].
Proof.
  intros Hc Hrun Hx. cbn [split_from]. unfold match_at. cbn [rmatch].
  rewrite Hc, (star_class_run p run x rest Hrun Hx).
  replace (length (c :: run ++ x :: rest) - length (x :: rest))%nat
    with (S (length run))
    by (cbn [length]; rewrite length_app; cbn [length]; lia).
  now rewrite split_from_skip.
Qed.

Lemma split_three_runs (p : char -> bool) (a b c : jsstring)
    (s1 s2 : char) (run1 run2 : jsstring) :
  a <> [] -> b <> [] -> c <> [] ->
  forallb (fun x => negb (p x)) a = true ->
  forallb (fun x => negb (p x)) b = true ->
  forallb (fun x => negb (p x)) c = true ->
  p s1 = true -> forallb p run1 = true ->
  p s2 = true -> forallb p run2 = true ->
  Regex.split (Plus p) (a ++ s1 :: run1 ++ b ++ s2 :: run2 ++ c) = [a; b; c].
Proof.
  intros Na Nb Nc Ha Hb Hc H1 R1 H2 R2.
  destruct a as [|a0 a]; [contradiction|].
  destruct b as [|b0 b]; [contradiction|].
  destruct c as [|c0 c]; [contradiction|].
  assert (Pb : p b0 = false)
    by (cbn [forallb] in Hb; apply andb_true_iff in Hb as [Hb _];
        now apply negb_true_iff).
  assert (Pc : p c0 = false)
    by (cbn [forallb] in Hc; apply andb_true_iff in Hc as [Hc _];
        now apply negb_true_iff).
  unfold Regex.split.
  change ((a0 :: a) ++ s1 :: run1 ++ (b0 :: b) ++ s2 :: run2 ++ c0 :: c)
    with ((a0 :: a) ++ (s1 :: run1 ++ b0 :: (b ++ s2 :: run2 ++ c0 :: c))).
  cbv iota beta. cbn [app].
  change (a0 :: a ++ s1 :: run1 ++ b0 :: b ++ s2 :: run2 ++ c0 :: c)
    with ((a0 :: a) ++ (s1 :: run1 ++ b0 :: (b ++ s2 :: run2 ++ c0 :: c))).
  rewrite split_from_plus_piece by exact Ha.
  rewrite split_from_plus_run by assumption.
  rewrite app_nil_r, rev_involutive. f_equal.
  change (b0 :: b ++ s2 :: run2 ++ c0 :: c)
    with ((b0 :: b) ++ (s2 :: run2 ++ c0 :: c)).
  rewrite split_from_plus_piece by exact Hb.
  rewrite split_from_plus_run by assumption.
  rewrite app_nil_r, rev_involutive. f_equal.
  pose proof (split_from_plus_piece p (c0 :: c) [] [] Hc) as H.
  now rewrite app_nil_r in H.
Qed.

(** ** Facts read off the canonical form of a text *)

Lemma dropWhile_map (f : char -> char) (p : char -> bool) (s : jsstring) :
  (forall c, p (f c) = p c) ->
  dropWhile p (map f s) = map f (dropWhile p s).
Proof.
  intros Hp. induction s as [|c s IH]; cbn [map dropWhile]; [reflexivity|].
  rewrite Hp. destruct (p c); [exact IH|reflexivity].
Qed.

Lemma trim_map (f : char -> char) (s : jsstring) :
  (forall c, is_space (f c) = is_space c) ->
  trim (map f s) = map f (trim s).
Proof.
  intros Hp. unfold trim, trimEnd, trimStart.
  rewrite dropWhile_map by exact Hp.
  rewrite <- map_rev, dropWhile_map by exact Hp.
  now rewrite map_rev.
Qed.

Lemma canonCase_space (c : char) : is_space (canonCase c) = is_space c.
Proof. revert c. class_invariant_case. Qed.

Lemma slice_all (s : jsstring) (n : nat) :
  length s = n -> slice s (0%nat, n) = s.
Proof. intros <-. unfold slice. cbn [fst snd skipn]. apply firstn_all. Qed.

Lemma trim_by_shape (text : jsstring) :
  trim (map canonCase text) = map canonCase text -> trim text = text.
Proof.
  rewrite (trim_map canonCase text canonCase_space). intros H.
  apply (f_equal (@length char)) in H. rewrite !length_map in H.
  destruct (trim_slice text) as (before & after & E).
  pose proof (f_equal (@length char) E) as L. rewrite !length_app in L.
  destruct before; [|cbn [length] in L; lia].
  destruct after; [|cbn [length] in L; lia].
  cbn [app] in E. now rewrite app_nil_r in E.
Qed.

Lemma includes_one (s : jsstring) (a : ascii) :
  includes s (lit (String a EmptyString)) = test (Regex.one a) s.
Proof.
  rewrite includes_char. unfold Regex.one. rewrite test_class. reflexivity.
Qed.

(** What the score and the two tables see of a text is what they see of its
    canonical form. *)
Lemma shape_facts (text shape : jsstring) :
  map canonCase text = shape ->
  trim shape = shape ->
  trim text = text
  /\ candidates text
     = map (slice text)
         (flat_map (fun pattern => spans_from pattern shape 0 0) DATE_PATTERNS)
  /\ (forall formats : list (jsstring * regex),
        Forall (fun entry => invariant_under canonCase (snd entry)) formats ->
        forallb (fun entry => negb (test (snd entry) text)) formats
        = forallb (fun entry => negb (test (snd entry) shape)) formats)
  /\ (forall r, invariant_under canonCase r -> test r text = test r shape)
  /\ includes text (lit "/") || includes text (lit "-")
     = includes shape (lit "/") || includes shape (lit "-")
  /\ test d4 text = test d4 shape /\ test MMM text = test MMM shape.
Proof.
  intros <- Htrim.
  assert (Ht : trim text = text) by now apply trim_by_shape.
  split; [exact Ht|]. split; [|split; [|split; [|split; [|split] ] ] ].
  - rewrite (candidates_under canonCase text patterns_invariant_case).
    now rewrite Ht.
  - intros formats Hf. now apply no_format_under.
  - intros r Hr. symmetry. now apply test_under.
  - rewrite !includes_one.
    rewrite !(test_under canonCase)
      by (cbn; class_invariant_case).
    reflexivity.
  - symmetry. apply test_under. cbn. repeat split; class_invariant_case.
  - symmetry. apply test_under. now apply words_i_invariant.
Qed.

Lemma digits12_shape (s : jsstring) :
  digits12 s = true ->
  map canonCase s = lit "0" \/ map canonCase s = lit "00".
Proof.
  intros H. destruct (digits12_cases s H) as [_ [(a & -> & A)|(a & b & -> & A & B)] ];
    cbn [map]; rewrite ?(canonCase_digit a A), ?(canonCase_digit b B); auto.
Qed.

Lemma digits4_shape (s : jsstring) :
  digits4 s = true -> map canonCase s = lit "0000".
Proof.
  intros H.
  destruct (digits4_cases s H) as [_ (a & b & c & d & -> & A & B & C & D)].
  cbn [map].
  now rewrite (canonCase_digit a A), (canonCase_digit b B),
    (canonCase_digit c C), (canonCase_digit d D).
Qed.

(** ** The month table *)

Lemma Str_eqb_eq (a b : jsstring) : Str.eqb a b = true -> a = b.
Proof.
  revert b. induction a as [|x a IH]; intros [|y b] H; try discriminate;
    [reflexivity|].
  cbn [Str.eqb] in H. apply andb_true_iff in H as [Hx Ha].
  apply N.eqb_eq in Hx. subst y. f_equal. now apply IH.
Qed.

Lemma keys_apart_true : keys_apart = true.
Proof. vm_compute. reflexivity. Qed.

Lemma Str_eqb_refl (a : jsstring) : Str.eqb a a = true.
Proof.
  induction a as [|x a IH]; [reflexivity|].
  cbn [Str.eqb]. now rewrite N.eqb_refl, IH.
Qed.

Lemma find_none_all (A : Type) (f : A -> bool) (l : list A) :
  (forall x, In x l -> f x = false) -> find f l = None.
Proof.
  induction l as [|x l IH]; intros H; cbn [find]; [reflexivity|].
  rewrite (H x (or_introl eq_refl)). apply IH. intros y Hy. apply H. now right.
Qed.

Lemma monthMap_variant (name : string) (mw : jsstring) :
  In name month_keys -> sameLetters mw (lit name) -> mw <> lit name ->
  monthMap mw = Undefined.
Proof.
  intros Hin Hsame Hne.
  pose proof keys_apart_true as K. unfold keys_apart in K.
  rewrite forallb_forall in K. specialize (K name Hin).
  rewrite forallb_forall in K.
  assert (Hk : forall k, In k (month_keys ++ Object_prototype_keys) ->
                 Str.eqb (lit k) mw = false).
  { intros k Hk. destruct (Str.eqb (lit k) mw) eqn:E; [|reflexivity].
    exfalso. apply Str_eqb_eq in E. specialize (K k Hk).
    unfold sameLetters in Hsame. rewrite <- E in Hsame.
    rewrite Hsame, Str_eqb_refl in K. cbn [implb] in K.
    apply Str_eqb_eq in K. congruence. }
  unfold monthMap.
  assert (Hfind : find (fun e => Str.eqb (lit (fst e)) mw) monthMap_entries
                  = None).
  { apply find_none_all. intros e He. apply Hk. apply in_or_app. left.
    unfold month_keys. now apply in_map. }
  rewrite Hfind.
  replace (existsb (fun k => Str.eqb (lit k) mw) Object_prototype_keys)
    with false; [reflexivity|].
  symmetry. apply not_true_is_false. intros E.
  apply existsb_exists in E as (k & Hk' & E).
  rewrite Hk in E; [discriminate|]. apply in_or_app. now right.
Qed.

Lemma monthMap_exact (name : string) (idx : Z) :
  In (name, idx) monthMap_entries -> monthMap (lit name) = Own idx.
Proof.
  intros H. cbn [monthMap_entries In] in H.
  repeat (destruct H as [ [= <- <-]|H]; [reflexivity|]). destruct H.
Qed.


(** ** Numeric dates *)

Lemma Forall_firstn (A : Type) (P : A -> Prop) (l : list A) :
  Forall P l -> forall n, Forall P (firstn n l).
Proof.
  induction 1 as [|x l Hx Hl IH]; intros [|n]; cbn [firstn]; auto.
Qed.

Lemma is_sep_shape (c : char) :
  is_sep c = true -> canonCase c = c /\ In c [chr "/"; chr "-"; chr "."].
Proof.
  intros H. destruct (sep_cases c H) as [-> | [-> | ->] ]; cbn; auto.
Qed.

(** The facts of [shape_facts] at the canonical form of [text]: the
    candidates, the tests of the strict patterns named in the context, and
    the tests of the score, each computed on that form. *)
Ltac compute_on_shape text Hshape Hlen :=
  match type of Hshape with
  | _ = ?s =>
      let shape := eval vm_compute in s in
      let Hs := fresh "Hs" in
      let Hc := fresh "Hc" in
      let Hformats := fresh "Hformats" in
      let Htest := fresh "Htest" in
      let Hi := fresh "Hi" in
      let Hd := fresh "Hd" in
      let Hm := fresh "Hm" in
      assert (Hs : map canonCase text = shape) by exact Hshape;
      rewrite Hs in Hlen; cbn [length] in Hlen;
      rewrite ?Hs, ?Hlen;
      destruct (shape_facts text shape Hs ltac:(vm_compute; reflexivity))
        as (_ & Hc & Hformats & Htest & Hi & Hd & Hm);
      rewrite ?Hc, ?Hi, ?Hd, ?Hm;
      repeat match goal with
             | H : Forall _ ?fs |- context [forallb _ ?fs] =>
                 rewrite (Hformats fs H)
             | H : invariant_under canonCase ?r |- context [test ?r text] =>
                 rewrite (Htest r H)
             end;
      try match goal with
          | |- context [flat_map ?f ?l] =>
              let v := eval vm_compute in (flat_map f l) in
              replace (flat_map f l) with v by (vm_compute; reflexivity);
              cbn [map]
          end
  end.

(** What the patterns make of a date written day first: it is the match of
    the two day-first patterns, and the two-digit-year pattern matches it up
    to the second digit of the year; of the strict patterns, the one of the
    separator matches it and no earlier one. *)
Lemma day_first_facts (ds ms ys : jsstring) (sp : char) :
  digits12 ds = true -> digits12 ms = true -> digits4 ys = true ->
  is_sep sp = true ->
  let text := dayFirst ds ms ys sp in
  let cut := firstn (length text - 2) text in
  candidates text = [text; text; cut]
  /\ text <> [] /\ cut <> []
  /\ forallb (fun entry => negb (test (snd entry) cut)) DATE_FORMAT_MAP = true
  /\ (exists before pattern after,
        DATE_FORMAT_MAP = before ++ (dayFirstTag sp, pattern) :: after
        /\ forallb (fun entry => negb (test (snd entry) text)) before = true
        /\ test pattern text = true)
  /\ includes text (lit "/") || includes text (lit "-")
     = negb (N.eqb sp (chr "."))
  /\ test d4 text = true /\ test MMM text = false.
Proof.
  intros Hds Hms Hys Hsp text cut.
  destruct (is_sep_shape sp Hsp) as [Csp Isp].
  pose proof (digits4_shape ys Hys) as Sy.
  assert (Hshape : map canonCase text
                   = map canonCase ds ++ sp :: map canonCase ms
                     ++ sp :: lit "0000").
  { unfold text, dayFirst. rewrite map_app. cbn [map].
    rewrite map_app. cbn [map]. now rewrite Csp, Sy. }
  assert (Hlen : length text = length (map canonCase text))
    by now rewrite length_map.
  assert (Hcut : map canonCase cut
                 = firstn (length text - 2) (map canonCase text))
    by (unfold cut; now rewrite firstn_map).
  assert (Hcutlen : length cut = (length text - 2)%nat)
    by (unfold cut; rewrite length_firstn; lia).
  pose proof strict_patterns_invariant_case as Hstrict.
  rewrite (no_format_under canonCase cut _ Hstrict), Hcut.
  assert (Hpattern : forall a : ascii,
            is_sep (chr a) = true ->
            invariant_under canonCase
              (Regex.seq [d12; Regex.one a; d12; Regex.one a; d4])).
  { intros a Ha.
    destruct (sep_cases _ Ha) as [E | [E | E] ];
      apply (f_equal ascii_of_N) in E; unfold chr in E;
      rewrite ascii_N_embedding in E; subst a; pattern_invariant_case. }
  cbn [In] in Isp.
  destruct (digits12_shape ds Hds) as [Sd|Sd];
    destruct (digits12_shape ms Hms) as [Sm|Sm];
    rewrite Sd, Sm in Hshape;
    destruct Isp as [<-|[<-|[<-|[] ] ] ];
    compute_on_shape text Hshape Hlen.
  all: split;
    [f_equal; [apply (slice_all text _ Hlen)|];
     f_equal; [apply (slice_all text _ Hlen)|];
     f_equal; unfold cut, slice; cbn [fst snd skipn]; now rewrite Hlen|].
  all: split; [intros E; rewrite E in Hlen; discriminate|].
  all: split; [intros E; rewrite E, Hlen in Hcutlen; discriminate|].
  all: split; [vm_compute; reflexivity|].
  all: split; [|repeat split; vm_compute; reflexivity].
  all: match goal with
       | |- context [dayFirstTag (chr ?a)] =>
           pose proof (Hpattern a eq_refl) as Hinv;
           let i := match a with
                    | "/"%char => constr:(0%nat)
                    | "-"%char => constr:(1%nat)
                    | _ => constr:(2%nat)
                    end in
           pose proof (Forall_firstn _ _ _ Hstrict i) as Hsub;
           exists (firstn i DATE_FORMAT_MAP),
             (Regex.seq [d12; Regex.one a; d12; Regex.one a; d4]),
             (skipn (S i) DATE_FORMAT_MAP);
           split; [reflexivity|];
           rewrite (Hformats _ Hsub), (Htest _ Hinv);
           split; vm_compute; reflexivity
       end.
Qed.

Lemma slice_canonCase (text : jsstring) (span : nat * nat) :
  map canonCase (slice text span) = slice (map canonCase text) span.
Proof. unfold slice. now rewrite <- firstn_map, <- skipn_map. Qed.

(** Whether a strict pattern matches a slice of a text is read off the
    canonical form of the text. *)
Lemma slice_no_format (text shape : jsstring) (span : nat * nat) :
  map canonCase text = shape ->
  slice shape span <> [] ->
  forallb (fun entry => negb (test (snd entry) (slice shape span)))
    DATE_FORMAT_MAP = true ->
  slice text span <> []
  /\ forallb (fun entry => negb (test (snd entry) (slice text span)))
       DATE_FORMAT_MAP = true.
Proof.
  intros <- Hne Hnone. split.
  - intros E. apply Hne. now rewrite <- slice_canonCase, E.
  - rewrite (no_format_under canonCase _ _ strict_patterns_invariant_case).
    now rewrite slice_canonCase.
Qed.

(** What the patterns make of a date written year first: it is the first
    candidate, and the others match no strict pattern; of the strict
    patterns, [YYYY-MM-DD] matches it and no earlier one. *)
Lemma year_first_facts (ys ms ds : jsstring) :
  digits4 ys = true -> digits12 ms = true -> digits12 ds = true ->
  let text := yearFirst ys ms ds in
  (exists rest,
     candidates text = text :: rest
     /\ Forall (fun c => c <> []
                         /\ forallb (fun entry => negb (test (snd entry) c))
                              DATE_FORMAT_MAP = true) rest)
  /\ text <> []
  /\ forallb (fun entry => negb (test (snd entry) text))
       (firstn 3 DATE_FORMAT_MAP) = true
  /\ test (Regex.seq [d4; Regex.one "-"; d12; Regex.one "-"; d12]) text = true
  /\ includes text (lit "/") || includes text (lit "-") = true
  /\ test d4 text = true /\ test MMM text = false.
Proof.
  intros Hys Hms Hds text.
  pose proof (digits4_shape ys Hys) as Sy.
  assert (Hshape : map canonCase text
                   = lit "0000" ++ chr "-" :: map canonCase ms
                     ++ chr "-" :: map canonCase ds).
  { unfold text, yearFirst. rewrite map_app. cbn [map].
    rewrite map_app. cbn [map]. now rewrite Sy. }
  assert (Hlen : length text = length (map canonCase text))
    by now rewrite length_map.
  pose proof (Forall_firstn _ _ _ strict_patterns_invariant_case 3) as H3.
  assert (H4 : invariant_under canonCase
                 (Regex.seq [d4; Regex.one "-"; d12; Regex.one "-"; d12]))
    by pattern_invariant_case.
  destruct (digits12_shape ds Hds) as [Sd|Sd];
    destruct (digits12_shape ms Hms) as [Sm|Sm];
    rewrite Sd, Sm in Hshape;
    compute_on_shape text Hshape Hlen.
  all: split;
    [eexists; split; [f_equal; apply (slice_all text _ Hlen)|];
     repeat (apply Forall_cons;
             [apply (slice_no_format text _ _ Hs);
              [vm_compute; discriminate|vm_compute; reflexivity]|]);
     apply Forall_nil|].
  all: split; [intros E; rewrite E in Hlen; discriminate|].
  all: repeat split; vm_compute; reflexivity.
Qed.

(** The strict scores at which a date with a four-digit year and no month
    name can arrive, and the fallback's 0.6: none is below 0.6 while the year
    is within 100 years of the clock's. *)
Lemma near_scores (far dashed : bool) :
  let s := score far false dashed true false in
  PrimFloat.ltb 0%float s = true /\ PrimFloat.ltb s s = false
  /\ PrimFloat.ltb s 0.6%float = false.
Proof. destruct far, dashed; vm_compute; auto. Qed.

(** Candidates that only the fallback can read never replace a best match
    of confidence 0.6 or more. *)
Lemma fold_fallbacks (h : Host) (rest : list jsstring) (st : Best) :
  Forall (fun c => c <> []
                   /\ forallb (fun entry => negb (test (snd entry) c))
                        DATE_FORMAT_MAP = true) rest ->
  PrimFloat.ltb (highestConfidence st) 0.6%float = false ->
  fold_left (fun st m => keepBest st m (parsed h m)) rest st = st.
Proof.
  intros Hrest Hst. induction Hrest as [|c rest [Hc Hnone] _ IH];
    cbn [fold_left]; [reflexivity|].
  rewrite (parsed_fallback h c Hc Hnone).
  destruct (Date_of_string h c) as [u|]; unfold keepBest;
    cbn [Confidence]; [rewrite Hst|]; exact IH.
Qed.

(** When no strict pattern matches any candidate, the result is the
    fallback's or absent. *)
Lemma extract_all_fallback (h : Host) (text : jsstring) :
  (forall c, In c (candidates text) ->
     c <> [] /\ forallb (fun entry => negb (test (snd entry) c))
                  DATE_FORMAT_MAP = true) ->
  extractDateFromText h text = Normal None
  \/ exists c t,
       In c (candidates text) /\ Date_of_string h c = Some t
       /\ extractDateFromText h text
          = Normal (Some {| Date := Some (isoDate t);
                            Format := Some (lit "Auto-detected");
                            Confidence := 0.6%float;
                            ExtractedFromText := Some c |}).
Proof.
  intros Hall.
  destruct (extract_isFirstBest h text) as (res & Hres & Hbest).
  destruct res as [r|]; [right|now left].
  destruct Hbest as (i & c & d & Hi & Hc & -> & _).
  pose proof (nth_error_In _ _ Hi) as Hin.
  destruct (Hall c Hin) as [Hne Hnone].
  rewrite (parsed_fallback h c Hne Hnone) in Hc.
  destruct (Date_of_string h c) as [t|] eqn:E; [|discriminate].
  injection Hc as <-. exists c, t. repeat split; auto.
Qed.


Section NumericDates.

Local Open Scope Z_scope.

Lemma expandYear_rule (y : Z) :
  (if y <? 100 then Some (y + (if y <? 50 then 2000 else 1900)) else Some y)
  = Some (expandYear y).
Proof.
  unfold expandYear.
  destruct (Z.ltb_spec y 100), (Z.ltb_spec y 50); try lia; f_equal; lia.
Qed.

Lemma expandYear_range (ys : jsstring) (y : Z) :
  digits4 ys = true -> digits_value ys = Some y ->
  0 <= y <= 9999 /\ 100 <= expandYear y <= 9999.
Proof.
  intros Hys Vy.
  destruct (digits4_cases ys Hys) as [Hall (a & b & c & e & -> & _)].
  destruct (digits_value_range [a; b; c; e] Hall ltac:(discriminate))
    as (n & Hn & Hr).
  rewrite Vy in Hn. injection Hn as <-.
  change (10 ^ Z.of_nat (length [a; b; c; e])) with 10000 in Hr.
  unfold expandYear.
  destruct (Z.ltb_spec y 50); [lia|]. destruct (Z.ltb_spec y 100); lia.
Qed.

(** [parseDate] on a date written day first. *)
Lemma parseDate_day_first (h : Host) (ds ms ys : jsstring) (sp : char)
    (d m y : Z) :
  digits12 ds = true -> digits12 ms = true -> digits4 ys = true ->
  is_sep sp = true ->
  digits_value ds = Some d -> digits_value ms = Some m ->
  digits_value ys = Some y ->
  parseDate h (dayFirst ds ms ys sp) (dayFirstTag sp)
  = Some (Date_ymd h (Some (expandYear y)) (Some (m - 1)) (Some d)).
Proof.
  intros Hds Hms Hys Hsp Vd Vm Vy.
  apply digits12_cases in Hds as [Hds _].
  apply digits12_cases in Hms as [Hms _].
  apply digits4_cases in Hys as [Hys _].
  unfold parseDate.
  assert (Htag : includes (dayFirstTag sp) (lit "MMM")
                 || includes (dayFirstTag sp) (lit "MMMM") = false
                 /\ startsWith (dayFirstTag sp) (lit "YYYY") = false).
  { destruct (sep_cases sp Hsp) as [-> | [-> | ->] ];
      split; vm_compute; reflexivity. }
  destruct Htag as [-> ->].
  unfold dayFirst.
  rewrite (split_three is_sep ds ms ys sp sp)
    by (auto using digits_not_sep).
  unfold part. cbn [nth_error ToString].
  rewrite !parseInt_digits by assumption.
  rewrite Vd, Vm, Vy. cbn [option_map].
  rewrite expandYear_rule. reflexivity.
Qed.

Lemma parseDate_year_first (h : Host) (ys ms ds : jsstring) (y m d : Z) :
  digits4 ys = true -> digits12 ms = true -> digits12 ds = true ->
  digits_value ys = Some y -> digits_value ms = Some m ->
  digits_value ds = Some d ->
  parseDate h (yearFirst ys ms ds) (lit "YYYY-MM-DD")
  = Some (Date_ymd h (Some y) (Some (m - 1)) (Some d)).
Proof.
  intros Hys Hms Hds Vy Vm Vd.
  apply digits12_cases in Hds as [Hds _].
  apply digits12_cases in Hms as [Hms _].
  apply digits4_cases in Hys as [Hys _].
  unfold parseDate.
  replace (includes (lit "YYYY-MM-DD") (lit "MMM")
           || includes (lit "YYYY-MM-DD") (lit "MMMM")) with false
    by (vm_compute; reflexivity).
  replace (startsWith (lit "YYYY-MM-DD") (lit "YYYY")) with true
    by (vm_compute; reflexivity).
  unfold yearFirst.
  rewrite (split_three is_sep ys ms ds (chr "-") (chr "-"))
    by (auto using digits_not_sep).
  unfold part. cbn [nth_error ToString].
  rewrite !parseInt_digits by assumption.
  rewrite Vd, Vm, Vy. reflexivity.
Qed.

Lemma Day_midnight (D : Z) : Day (D * msPerDay) = D.
Proof. unfold Day, msPerDay. now rewrite Z.div_mul by lia. Qed.

Lemma Day_shift (D off : Z) :
  - msPerDay < off < msPerDay ->
  Day (D * msPerDay - off) = if 0 <? off then D - 1 else D.
Proof.
  intros H. unfold Day, msPerDay in *.
  destruct (Z.ltb_spec 0 off); Z.div_mod_to_equations; lia.
Qed.

Lemma isoDate_shift (D off : Z) :
  - msPerDay < off < msPerDay ->
  isoDate (D * msPerDay - off)
  = isoDate ((if 0 <? off then D - 1 else D) * msPerDay).
Proof.
  intros H. apply isoDate_Day. now rewrite Day_shift, Day_midnight.
Qed.

(** A calendar date with a year from 0 to 9999, at local midnight on a host
    of fixed offset: the time value, its local year and its ISO date. *)
Lemma Date_ymd_valid (h : Host) (off y m d : Z) :
  (forall t b, LocalTZA h t b = off) ->
  - msPerDay < off < msPerDay ->
  100 <= y <= 9999 -> 1 <= m <= 12 -> 1 <= d <= DaysInMonth y m ->
  let t := MakeDay y (m - 1) d * msPerDay - off in
  Date_ymd h (Some y) (Some (m - 1)) (Some d) = Some t
  /\ getFullYear h (Some t) = Some y
  /\ isoDate (MakeDay y (m - 1) d * msPerDay) = isoYMD y m d.
Proof.
  intros Hoff Hrange Hy Hm Hd t.
  assert (Hd' : 1 <= d <= DaysInMonth y (m - 1 + 1))
    by (now replace (m - 1 + 1) with m by lia).
  destruct (MakeDay_in_year y (m - 1) d ltac:(lia) Hd') as [E R].
  pose proof (DaysInYear_cases y) as Hc.
  assert (HD : -700000 <= MakeDay y (m - 1) d <= 3000000).
  { rewrite E. unfold DayFromYear. Z.div_mod_to_equations. lia. }
  split; [|split].
  - rewrite (Date_ymd_fixed_offset h off) by (auto; lia).
    fold t. unfold TimeClip.
    replace (Z.abs t <=? 8640000000000000) with true; [reflexivity|].
    symmetry. apply Z.leb_le. unfold t, msPerDay in *. lia.
  - unfold getFullYear, LocalTime. rewrite Hoff. f_equal.
    replace (t + off) with (MakeDay y (m - 1) d * msPerDay) by (unfold t; lia).
    apply (day_of_fields y (m - 1) d); [lia|exact Hd'|apply Day_midnight].
  - destruct (day_of_fields y (m - 1) d (MakeDay y (m - 1) d * msPerDay)
                ltac:(lia) Hd' (Day_midnight _)) as (Y & M & Dt).
    unfold isoDate, isoYMD, iso_year. rewrite Y, M, Dt.
    replace ((0 <=? y) && (y <=? 9999))%bool with true by (symmetry; lia).
    now replace (m - 1 + 1) with m by lia.
Qed.

(** The strict parse of a date written day first, whatever its age. *)
Lemma day_first_parsed (h : Host) (off : Z) (ds ms ys : jsstring) (sp : char)
    (d m y : Z) :
  (forall t b, LocalTZA h t b = off) ->
  - msPerDay < off < msPerDay ->
  digits12 ds = true -> digits12 ms = true -> digits4 ys = true ->
  is_sep sp = true ->
  digits_value ds = Some d -> digits_value ms = Some m ->
  digits_value ys = Some y ->
  1 <= m <= 12 -> 1 <= d <= DaysInMonth (expandYear y) m ->
  let age := Z.abs (currentYear h - expandYear y) in
  parsed h (dayFirst ds ms ys sp)
  = Some {| Date := Some (isoDate (MakeDay (expandYear y) (m - 1) d
                                   * msPerDay - off));
            Format := Some (dayFirstTag sp);
            Confidence :=
              score (50 <? age) (100 <? age) (negb (N.eqb sp (chr "."))) true
                false;
            ExtractedFromText := Some (dayFirst ds ms ys sp) |}.
Proof.
  intros Hoff Hrange Hds Hms Hys Hsp Vd Vm Vy Hm Hd age.
  set (Y := expandYear y) in *.
  set (text := dayFirst ds ms ys sp).
  set (t := MakeDay Y (m - 1) d * msPerDay - off).
  destruct (expandYear_range ys y Hys Vy) as [_ HY]. fold Y in HY.
  destruct (Date_ymd_valid h off Y m d Hoff Hrange HY Hm Hd) as (Ht & Hyear & _).
  fold t in Ht, Hyear.
  assert (Hparse : parseDate h text (dayFirstTag sp) = Some (Some t)).
  { unfold text. rewrite (parseDate_day_first h ds ms ys sp d m y) by assumption.
    fold Y. now rewrite Ht. }
  destruct (day_first_facts ds ms ys sp Hds Hms Hys Hsp)
    as (_ & Hne & _ & _ & (before & pattern & after & Hmap & Hbefore
                           & Htest) & Hdash & Hfour & Hmonth).
  fold text in Hne, Hbefore, Htest, Hdash, Hfour, Hmonth.
  rewrite (parsed_strict h text before after (dayFirstTag sp) pattern t)
    by assumption.
  rewrite calculateDateConfidence_score, Hyear, Hdash, Hfour, Hmonth.
  reflexivity.
Qed.

(** The strict parse of a date written year first. *)
Lemma year_first_parsed (h : Host) (off : Z) (ys ms ds : jsstring)
    (y m d : Z) :
  (forall t b, LocalTZA h t b = off) ->
  - msPerDay < off < msPerDay ->
  digits4 ys = true -> digits12 ms = true -> digits12 ds = true ->
  digits_value ys = Some y -> digits_value ms = Some m ->
  digits_value ds = Some d ->
  100 <= y -> 1 <= m <= 12 -> 1 <= d <= DaysInMonth y m ->
  let age := Z.abs (currentYear h - y) in
  parsed h (yearFirst ys ms ds)
  = Some {| Date := Some (isoDate (MakeDay y (m - 1) d * msPerDay - off));
            Format := Some (lit "YYYY-MM-DD");
            Confidence := score (50 <? age) (100 <? age) true true false;
            ExtractedFromText := Some (yearFirst ys ms ds) |}.
Proof.
  intros Hoff Hrange Hys Hms Hds Vy Vm Vd Hy Hm Hd age.
  set (text := yearFirst ys ms ds).
  set (t := MakeDay y (m - 1) d * msPerDay - off).
  destruct (expandYear_range ys y Hys Vy) as [HY _].
  destruct (Date_ymd_valid h off y m d Hoff Hrange ltac:(lia) Hm Hd)
    as (Ht & Hyear & _).
  fold t in Ht, Hyear.
  assert (Hparse : parseDate h text (lit "YYYY-MM-DD") = Some (Some t)).
  { unfold text. rewrite (parseDate_year_first h ys ms ds y m d) by assumption.
    now rewrite Ht. }
  destruct (year_first_facts ys ms ds Hys Hms Hds)
    as (_ & Hne & Hbefore & Htest & Hdash & Hfour & Hmonth).
  fold text in Hne, Hbefore, Htest, Hdash, Hfour, Hmonth.
  rewrite (parsed_strict h text (firstn 3 DATE_FORMAT_MAP)
             (skipn 4 DATE_FORMAT_MAP) (lit "YYYY-MM-DD")
             (Regex.seq [d4; Regex.one "-"; d12; Regex.one "-"; d12]) t)
    by (assumption || reflexivity).
  rewrite calculateDateConfidence_score, Hyear, Hdash, Hfour, Hmonth.
  reflexivity.
Qed.

(** A date written day first, of a year within 100 years of the clock's: the
    strict parse is the result. *)
Lemma day_first_extract (h : Host) (off : Z) (ds ms ys : jsstring) (sp : char)
    (d m y : Z) :
  (forall t b, LocalTZA h t b = off) ->
  - msPerDay < off < msPerDay ->
  digits12 ds = true -> digits12 ms = true -> digits4 ys = true ->
  is_sep sp = true ->
  digits_value ds = Some d -> digits_value ms = Some m ->
  digits_value ys = Some y ->
  1 <= m <= 12 -> 1 <= d <= DaysInMonth (expandYear y) m ->
  Z.abs (currentYear h - expandYear y) <= 100 ->
  extractDateFromText h (dayFirst ds ms ys sp)
  = Normal (Some {| Date := Some (isoDate (MakeDay (expandYear y) (m - 1) d
                                           * msPerDay - off));
                    Format := Some (dayFirstTag sp);
                    Confidence :=
                      score (50 <? Z.abs (currentYear h - expandYear y)) false
                        (negb (N.eqb sp (chr "."))) true false;
                    ExtractedFromText := Some (dayFirst ds ms ys sp) |}).
Proof.
  intros Hoff Hrange Hds Hms Hys Hsp Vd Vm Vy Hm Hd Hnear.
  pose proof (day_first_parsed h off ds ms ys sp d m y Hoff Hrange Hds Hms
                Hys Hsp Vd Vm Vy Hm Hd) as H1.
  cbv zeta in H1.
  replace (100 <? Z.abs (currentYear h - expandYear y)) with false in H1
    by (symmetry; lia).
  destruct (day_first_facts ds ms ys sp Hds Hms Hys Hsp)
    as (Hcand & _ & Hcut & Hnone & _).
  rewrite extractDateFromText_fold, Hcand.
  cbn [fold_left]. rewrite H1.
  destruct (near_scores (50 <? Z.abs (currentYear h - expandYear y))
              (negb (N.eqb sp (chr ".")))) as (Hpos & Hirr & Hsix).
  unfold keepBest at 3. cbn [highestConfidence Confidence].
  rewrite Hpos.
  unfold keepBest at 2. cbn [highestConfidence Confidence].
  rewrite Hirr.
  rewrite (parsed_fallback h _ Hcut Hnone).
  destruct (Date_of_string h _) as [u|]; unfold keepBest;
    cbn [highestConfidence bestMatch withExtractedFromText Date Format
         Confidence]; [|reflexivity].
  rewrite Hsix. reflexivity.
Qed.

(** A date written year first, of a year within 100 years of the clock's:
    the strict parse is the result. *)
Lemma year_first_extract (h : Host) (off : Z) (ys ms ds : jsstring)
    (y m d : Z) :
  (forall t b, LocalTZA h t b = off) ->
  - msPerDay < off < msPerDay ->
  digits4 ys = true -> digits12 ms = true -> digits12 ds = true ->
  digits_value ys = Some y -> digits_value ms = Some m ->
  digits_value ds = Some d ->
  100 <= y -> 1 <= m <= 12 -> 1 <= d <= DaysInMonth y m ->
  Z.abs (currentYear h - y) <= 100 ->
  extractDateFromText h (yearFirst ys ms ds)
  = Normal (Some {| Date := Some (isoDate (MakeDay y (m - 1) d * msPerDay
                                           - off));
                    Format := Some (lit "YYYY-MM-DD");
                    Confidence :=
                      score (50 <? Z.abs (currentYear h - y)) false true true
                        false;
                    ExtractedFromText := Some (yearFirst ys ms ds) |}).
Proof.
  intros Hoff Hrange Hys Hms Hds Vy Vm Vd Hy Hm Hd Hnear.
  pose proof (year_first_parsed h off ys ms ds y m d Hoff Hrange Hys Hms Hds
                Vy Vm Vd Hy Hm Hd) as H1.
  cbv zeta in H1.
  replace (100 <? Z.abs (currentYear h - y)) with false in H1
    by (symmetry; lia).
  destruct (year_first_facts ys ms ds Hys Hms Hds)
    as ((rest & Hcand & Hrest) & _).
  rewrite extractDateFromText_fold, Hcand.
  cbn [fold_left]. rewrite H1.
  destruct (near_scores (50 <? Z.abs (currentYear h - y)) true)
    as (Hpos & Hirr & Hsix).
  unfold keepBest at 2. cbn [highestConfidence Confidence].
  rewrite Hpos.
  rewrite (fold_fallbacks h rest _ Hrest) by exact Hsix.
  reflexivity.
Qed.


(** X7: a date written day first, [D/M/Y] with one or two digits for the day
    and the month, four digits for the year and the same separator [/], [-]
    or [.] twice, is read back as written: when the fields name a day of the
    calendar (the year expanded by the rule of [parseDate], 00..49 to 20xx
    and 50..99 to 19xx), the year lies within 100 years of the clock and the
    host is on UTC or behind it by a fixed offset of less than a day, the
    result has that date in the form [YYYY-MM-DD], the format tag of the
    separator, the whole text as extracted text, and the score of the five
    tests. *)
Theorem day_first_date_read (h : Host) (off : Z) (ds ms ys : jsstring)
    (sp : char) (d m y : Z) :
  (forall t b, LocalTZA h t b = off) ->
  - msPerDay < off <= 0 ->
  digits12 ds = true -> digits12 ms = true -> digits4 ys = true ->
  is_sep sp = true ->
  digits_value ds = Some d -> digits_value ms = Some m ->
  digits_value ys = Some y ->
  1 <= m <= 12 -> 1 <= d <= DaysInMonth (expandYear y) m ->
  Z.abs (currentYear h - expandYear y) <= 100 ->
  extractDateFromText h (dayFirst ds ms ys sp)
  = Normal (Some {| Date := Some (isoYMD (expandYear y) m d);
                    Format := Some (dayFirstTag sp);
                    Confidence :=
                      score (50 <? Z.abs (currentYear h - expandYear y)) false
                        (negb (N.eqb sp (chr "."))) true false;
                    ExtractedFromText := Some (dayFirst ds ms ys sp) |}).
Proof.
  intros Hoff Hrange Hds Hms Hys Hsp Vd Vm Vy Hm Hd Hnear.
  rewrite (day_first_extract h off ds ms ys sp d m y) by (auto; lia).
  rewrite isoDate_shift by lia.
  replace (0 <? off) with false by (symmetry; lia).
  assert (HY : 100 <= expandYear y <= 9999).
  { destruct (digits4_cases ys Hys) as [Hall (a & b & c & e & -> & _)].
    destruct (digits_value_range [a; b; c; e] Hall ltac:(discriminate))
      as (n & Hn & Hr).
    rewrite Vy in Hn. injection Hn as <-.
    change (10 ^ Z.of_nat (length [a; b; c; e])) with 10000 in Hr.
    unfold expandYear.
    destruct (Z.ltb_spec y 50); [lia|]. destruct (Z.ltb_spec y 100); lia. }
  destruct (Date_ymd_valid h off (expandYear y) m d Hoff ltac:(lia) HY Hm Hd)
    as (_ & _ & Hiso).
  now rewrite Hiso.
Qed.

Lemma day_first_date_read_witness :
  extractDateFromText host_utc (lit "22-03-2024")
  = Normal (Some {| Date := Some (lit "2024-03-22");
                    Format := Some (lit "DD-MM-YYYY");
                    Confidence := 1%float;
                    ExtractedFromText := Some (lit "22-03-2024") |}).
Proof.
  exact (day_first_date_read host_utc 0 (lit "22") (lit "03") (lit "2024")
           (chr "-") 22 3 2024 (fun _ _ => eq_refl)
           ltac:(unfold msPerDay; lia) eq_refl eq_refl eq_refl eq_refl
           eq_refl eq_refl eq_refl ltac:(lia)
           ltac:(vm_compute; split; discriminate)
           ltac:(vm_compute; discriminate)).
Defined.

(** X8: on a host ahead of UTC by a fixed offset of less than a day, the
    same texts give the day before the one written: the date is built at
    local midnight and printed in UTC.  Within a month that is the same year
    and month with the day lowered by one. *)
Theorem day_first_date_east (h : Host) (off : Z) (ds ms ys : jsstring)
    (sp : char) (d m y : Z) :
  (forall t b, LocalTZA h t b = off) ->
  0 < off < msPerDay ->
  digits12 ds = true -> digits12 ms = true -> digits4 ys = true ->
  is_sep sp = true ->
  digits_value ds = Some d -> digits_value ms = Some m ->
  digits_value ys = Some y ->
  1 <= m <= 12 -> 1 <= d <= DaysInMonth (expandYear y) m ->
  Z.abs (currentYear h - expandYear y) <= 100 ->
  let written := MakeDay (expandYear y) (m - 1) d in
  extractDateFromText h (dayFirst ds ms ys sp)
  = Normal (Some {| Date := Some (isoDate ((written - 1) * msPerDay));
                    Format := Some (dayFirstTag sp);
                    Confidence :=
                      score (50 <? Z.abs (currentYear h - expandYear y)) false
                        (negb (N.eqb sp (chr "."))) true false;
                    ExtractedFromText := Some (dayFirst ds ms ys sp) |})
  /\ isoDate (written * msPerDay) = isoYMD (expandYear y) m d
  /\ (1 < d ->
      isoDate ((written - 1) * msPerDay) = isoYMD (expandYear y) m (d - 1)).
Proof.
  intros Hoff Hrange Hds Hms Hys Hsp Vd Vm Vy Hm Hd Hnear written.
  destruct (expandYear_range ys y Hys Vy) as [_ HY].
  split; [|split].
  - rewrite (day_first_extract h off ds ms ys sp d m y) by (auto; lia).
    rewrite isoDate_shift by lia.
    now replace (0 <? off) with true by (symmetry; lia).
  - now destruct (Date_ymd_valid h off (expandYear y) m d Hoff ltac:(lia)
                    HY Hm Hd) as (_ & _ & Hiso).
  - intros Hd1.
    destruct (Date_ymd_valid h off (expandYear y) m (d - 1) Hoff ltac:(lia)
                HY Hm ltac:(lia)) as (_ & _ & Hiso).
    rewrite <- Hiso. f_equal. unfold written, MakeDay. lia.
Qed.

Lemma day_first_date_east_witness :
  extractDateFromText host_ist (lit "22-03-2024")
  = Normal (Some {| Date := Some (lit "2024-03-21");
                    Format := Some (lit "DD-MM-YYYY");
                    Confidence := 1%float;
                    ExtractedFromText := Some (lit "22-03-2024") |}).
Proof.
  exact (proj1 (day_first_date_east host_ist 19800000 (lit "22") (lit "03")
                  (lit "2024") (chr "-") 22 3 2024 (fun _ _ => eq_refl)
                  ltac:(unfold msPerDay; lia) eq_refl eq_refl eq_refl eq_refl
                  eq_refl eq_refl eq_refl ltac:(lia)
                  ltac:(vm_compute; split; discriminate)
                  ltac:(vm_compute; discriminate))).
Defined.

(** X9: a date written [YYYY-M-D] with dashes is read back as written, with
    the tag [YYYY-MM-DD], under the same conditions (a year from 100 on: the
    constructor of [Date] moves the years 0..99 to 1900..1999). *)
Theorem year_first_date_read (h : Host) (off : Z) (ys ms ds : jsstring)
    (y m d : Z) :
  (forall t b, LocalTZA h t b = off) ->
  - msPerDay < off <= 0 ->
  digits4 ys = true -> digits12 ms = true -> digits12 ds = true ->
  digits_value ys = Some y -> digits_value ms = Some m ->
  digits_value ds = Some d ->
  100 <= y -> 1 <= m <= 12 -> 1 <= d <= DaysInMonth y m ->
  Z.abs (currentYear h - y) <= 100 ->
  extractDateFromText h (yearFirst ys ms ds)
  = Normal (Some {| Date := Some (isoYMD y m d);
                    Format := Some (lit "YYYY-MM-DD");
                    Confidence :=
                      score (50 <? Z.abs (currentYear h - y)) false true true
                        false;
                    ExtractedFromText := Some (yearFirst ys ms ds) |}).
Proof.
  intros Hoff Hrange Hys Hms Hds Vy Vm Vd Hy Hm Hd Hnear.
  rewrite (year_first_extract h off ys ms ds y m d) by (auto; lia).
  rewrite isoDate_shift by lia.
  replace (0 <? off) with false by (symmetry; lia).
  destruct (expandYear_range ys y Hys Vy) as [Hr _].
  destruct (Date_ymd_valid h off y m d Hoff ltac:(lia) ltac:(lia) Hm Hd)
    as (_ & _ & Hiso).
  now rewrite Hiso.
Qed.

Lemma year_first_date_read_witness :
  extractDateFromText host_utc (lit "2024-3-5")
  = Normal (Some {| Date := Some (lit "2024-03-05");
                    Format := Some (lit "YYYY-MM-DD");
                    Confidence := 1%float;
                    ExtractedFromText := Some (lit "2024-3-5") |}).
Proof.
  exact (year_first_date_read host_utc 0 (lit "2024") (lit "3") (lit "5")
           2024 3 5 (fun _ _ => eq_refl)
           ltac:(unfold msPerDay; lia) eq_refl eq_refl eq_refl
           eq_refl eq_refl eq_refl ltac:(lia) ltac:(lia)
           ltac:(vm_compute; split; discriminate)
           ltac:(vm_compute; discriminate)).
Defined.

(** X12: the date field of a result can be fed back: for a time value whose
    UTC year lies in 100..9999 and within 100 years of the clock,
    [extractDateFromText] of its ISO date is present, tagged [YYYY-MM-DD],
    with the text as extracted text; its date is the same ISO date on a host
    on UTC or behind it, and the ISO date of the previous day on a host ahead
    of UTC. *)
Theorem date_field_read_back (h : Host) (off t : Z) :
  (forall u b, LocalTZA h u b = off) ->
  - msPerDay < off < msPerDay ->
  100 <= YearFromTime t <= 9999 ->
  Z.abs (currentYear h - YearFromTime t) <= 100 ->
  exists r,
    extractDateFromText h (isoDate t) = Normal (Some r)
    /\ Date r = Some (isoDate (if 0 <? off then t - msPerDay else t))
    /\ Format r = Some (lit "YYYY-MM-DD")
    /\ ExtractedFromText r = Some (isoDate t).
Proof.
  intros Hoff Hrange Hy Hnear.
  set (y := YearFromTime t) in *.
  set (m := MonthFromTime t + 1).
  set (d := DateFromTime t).
  destruct (fields_of_day t) as [Hday Hd]. fold y d in Hday, Hd.
  pose proof (MonthFromTime_range t) as Hm.
  assert (Htext : isoDate t = yearFirst (pad 4 y) (pad 2 m) (pad 2 d)).
  { unfold isoDate, iso_year. fold y m d.
    replace ((0 <=? y) && (y <=? 9999))%bool with true by (symmetry; lia).
    reflexivity. }
  assert (Hdmax : d <= 31).
  { unfold DaysInMonth in Hd.
    destruct (DaysInYear_cases y) as [E|E]; rewrite E in Hd;
      repeat match type of Hd with
             | context [match ?x with _ => _ end] => destruct x
             end; cbn in Hd; lia. }
  assert (H4 : forall n, digits4 (pad 4 n) = true).
  { intros n. unfold digits4.
    now rewrite forallb_pad, length_pad by apply is_digit_digit_char. }
  assert (H2 : forall n, digits12 (pad 2 n) = true).
  { intros n. unfold digits12.
    now rewrite forallb_pad, length_pad by apply is_digit_digit_char. }
  pose proof (year_first_extract h off (pad 4 y) (pad 2 m) (pad 2 d) y m d
                Hoff Hrange (H4 y) (H2 m) (H2 d)
                (digits_value_pad 3 y ltac:(change (10 ^ Z.of_nat 4) with 10000; lia))
                (digits_value_pad 1 m ltac:(change (10 ^ Z.of_nat 2) with 100; unfold m; lia))
                (digits_value_pad 1 d ltac:(change (10 ^ Z.of_nat 2) with 100; lia))
                ltac:(lia) ltac:(unfold m; lia) Hd Hnear) as Hx.
  rewrite <- Htext in Hx. rewrite Hx.
  eexists. split; [reflexivity|]. cbn [Date Format ExtractedFromText].
  repeat split. f_equal.
  replace (m - 1) with (MonthFromTime t) by (unfold m; lia).
  rewrite Hday. apply isoDate_Day.
  rewrite Day_shift by exact Hrange.
  unfold Day, msPerDay.
  destruct (0 <? off); [|reflexivity].
  Z.div_mod_to_equations. lia.
Qed.

Lemma date_field_read_back_witness :
  exists r,
    extractDateFromText host_utc (lit "2024-03-22") = Normal (Some r)
    /\ Date r = Some (lit "2024-03-22").
Proof.
  destruct (date_field_read_back host_utc 0 noon_22_march_2024
              (fun _ _ => eq_refl) ltac:(unfold msPerDay; lia)
              ltac:(vm_compute; split; discriminate)
              ltac:(vm_compute; discriminate)) as (r & H1 & H2 & _).
  exists r. split; [exact H1|exact H2].
Defined.

(** X13: a day-first date more than 100 years from the clock loses against
    its own truncation: the two-digit-year pattern matches the text without
    its last two digits, and when the host's parser reads that candidate its
    reading (tag [Auto-detected], confidence 0.6) replaces the strict parse,
    whose score is lower; otherwise the strict parse of the whole text is
    returned. *)
Theorem far_date_yields_to_host (h : Host) (off : Z) (ds ms ys : jsstring)
    (sp : char) (d m y : Z) :
  (forall t b, LocalTZA h t b = off) ->
  - msPerDay < off < msPerDay ->
  digits12 ds = true -> digits12 ms = true -> digits4 ys = true ->
  is_sep sp = true ->
  digits_value ds = Some d -> digits_value ms = Some m ->
  digits_value ys = Some y ->
  1 <= m <= 12 -> 1 <= d <= DaysInMonth (expandYear y) m ->
  100 < Z.abs (currentYear h - expandYear y) ->
  let text := dayFirst ds ms ys sp in
  let cut := firstn (length text - 2) text in
  extractDateFromText h text
  = Normal (Some match Date_of_string h cut with
                 | Some u =>
                     {| Date := Some (isoDate u);
                        Format := Some (lit "Auto-detected");
                        Confidence := 0.6%float;
                        ExtractedFromText := Some cut |}
                 | None =>
                     {| Date := Some (isoDate (MakeDay (expandYear y) (m - 1) d
                                               * msPerDay - off));
                        Format := Some (dayFirstTag sp);
                        Confidence :=
                          score true true (negb (N.eqb sp (chr "."))) true
                            false;
                        ExtractedFromText := Some text |}
                 end).
Proof.
  intros Hoff Hrange Hds Hms Hys Hsp Vd Vm Vy Hm Hd Hfar text cut.
  pose proof (day_first_parsed h off ds ms ys sp d m y Hoff Hrange Hds Hms
                Hys Hsp Vd Vm Vy Hm Hd) as H1.
  cbv zeta in H1. fold text in H1.
  replace (50 <? Z.abs (currentYear h - expandYear y)) with true in H1
    by (symmetry; lia).
  replace (100 <? Z.abs (currentYear h - expandYear y)) with true in H1
    by (symmetry; lia).
  destruct (day_first_facts ds ms ys sp Hds Hms Hys Hsp)
    as (Hcand & _ & Hcut & Hnone & _).
  fold text in Hcand, Hcut, Hnone. fold cut in Hcand, Hcut, Hnone.
  rewrite extractDateFromText_fold, Hcand.
  cbn [fold_left]. rewrite H1, (parsed_fallback h cut Hcut Hnone).
  assert (Hs : let s := score true true (negb (N.eqb sp (chr "."))) true false
               in PrimFloat.ltb 0%float s = true
                  /\ PrimFloat.ltb s s = false
                  /\ PrimFloat.ltb s 0.6%float = true)
    by (destruct (negb (N.eqb sp (chr "."))); vm_compute; auto).
  destruct Hs as (Hpos & Hirr & Hsix).
  unfold keepBest at 3. cbn [highestConfidence Confidence].
  rewrite Hpos.
  unfold keepBest at 2. cbn [highestConfidence Confidence].
  rewrite Hirr.
  destruct (Date_of_string h cut) as [u|]; unfold keepBest;
    cbn [highestConfidence bestMatch withExtractedFromText Date Format
         Confidence]; [|reflexivity].
  rewrite Hsix. reflexivity.
Qed.

Lemma far_date_yields_to_host_witness :
  extractDateFromText host_month_first (lit "05/03/1900")
  = Normal (Some {| Date := Some (lit "2019-05-03");
                    Format := Some (lit "Auto-detected");
                    Confidence := 0.6%float;
                    ExtractedFromText := Some (lit "05/03/19") |}).
Proof.
  pose proof (far_date_yields_to_host host_month_first 0 (lit "05") (lit "03")
                (lit "1900") (chr "/") 5 3 1900 (fun _ _ => eq_refl)
                ltac:(unfold msPerDay; lia) eq_refl eq_refl eq_refl eq_refl
                eq_refl eq_refl eq_refl ltac:(lia)
                ltac:(vm_compute; split; discriminate)
                ltac:(vm_compute; reflexivity)) as H.
  cbv zeta in H. etransitivity; [exact H|]. vm_compute. reflexivity.
Defined.

End NumericDates.

(** ** Numeric dates no strict pattern accepts *)

Lemma loose_facts (a b c : jsstring) (s1 s2 : char) :
  is_sep s1 = true -> is_sep s2 = true ->
  (digits12 a = true /\ digits12 b = true /\ digits4 c = true /\ s1 <> s2)
  \/ (digits4 a = true /\ digits12 b = true /\ digits12 c = true
      /\ (s1 <> chr "-" \/ s2 <> chr "-")) ->
  let text := looseNumeric a b c s1 s2 in
  nth_error (candidates text) 0 = Some text
  /\ forall w, In w (candidates text) ->
       w <> [] /\ forallb (fun entry => negb (test (snd entry) w))
                    DATE_FORMAT_MAP = true.
Proof.
  intros H1 H2 Hcase text.
  destruct (is_sep_shape s1 H1) as [C1 I1].
  destruct (is_sep_shape s2 H2) as [C2 I2].
  assert (Hshape : map canonCase text
                   = map canonCase a ++ s1 :: map canonCase b
                     ++ s2 :: map canonCase c).
  { unfold text, looseNumeric. rewrite map_app. cbn [map].
    rewrite map_app. cbn [map]. now rewrite C1, C2. }
  assert (Hlen : length text = length (map canonCase text))
    by now rewrite length_map.
  pose proof strict_patterns_invariant_case as Hstrict.
  assert (Hsub : forall w shape,
            map canonCase w = shape ->
            forallb (fun entry => negb (test (snd entry) w)) DATE_FORMAT_MAP
            = forallb (fun entry => negb (test (snd entry) shape))
                DATE_FORMAT_MAP)
    by (intros w shape <-; now apply no_format_under).
  assert (Hslice : forall span,
            map canonCase (slice text span)
            = slice (map canonCase text) span)
    by (intros span; unfold slice; now rewrite <- firstn_map, <- skipn_map).
  cbn [In] in I1, I2.
  destruct Hcase as [(Ha & Hb & Hc & Hne)|(Ha & Hb & Hc & Hne)].
  - pose proof (digits4_shape c Hc) as Sc.
    destruct (digits12_shape a Ha) as [Sa|Sa];
      destruct (digits12_shape b Hb) as [Sb|Sb];
      rewrite Sa, Sb, Sc in Hshape;
      destruct I1 as [<-|[<-|[<-|[] ] ] ];
      destruct I2 as [<-|[<-|[<-|[] ] ] ];
      try (exfalso; apply Hne; reflexivity);
      match type of Hshape with
      | _ = ?s =>
          let shape := eval vm_compute in s in
          assert (Hs : map canonCase text = shape) by exact Hshape;
          rewrite Hs in Hlen, Hslice; cbn [length] in Hlen;
          destruct (shape_facts text shape Hs ltac:(vm_compute; reflexivity))
            as (_ & -> & _);
          match goal with
          | |- context [flat_map ?f ?l] =>
              let v := eval vm_compute in (flat_map f l) in
              replace (flat_map f l) with v by (vm_compute; reflexivity)
          end;
          cbn [map];
          split;
          [cbn [nth_error]; f_equal; apply (slice_all text _ Hlen)
          |intros w Hw; cbn [In] in Hw;
           repeat (destruct Hw as [<-|Hw];
                   [split;
                    [intros E; apply (f_equal (map canonCase)) in E;
                     rewrite Hslice in E; vm_compute in E; discriminate
                    |rewrite (Hsub _ _ (Hslice _)); vm_compute; reflexivity]
                   |]);
           destruct Hw]
      end.
  - pose proof (digits4_shape a Ha) as Sa.
    destruct (digits12_shape b Hb) as [Sb|Sb];
      destruct (digits12_shape c Hc) as [Sc|Sc];
      rewrite Sa, Sb, Sc in Hshape;
      destruct I1 as [<-|[<-|[<-|[] ] ] ];
      destruct I2 as [<-|[<-|[<-|[] ] ] ];
      try (exfalso; destruct Hne as [Hne|Hne]; apply Hne; reflexivity);
      match type of Hshape with
      | _ = ?s =>
          let shape := eval vm_compute in s in
          assert (Hs : map canonCase text = shape) by exact Hshape;
          rewrite Hs in Hlen, Hslice; cbn [length] in Hlen;
          destruct (shape_facts text shape Hs ltac:(vm_compute; reflexivity))
            as (_ & -> & _);
          match goal with
          | |- context [flat_map ?f ?l] =>
              let v := eval vm_compute in (flat_map f l) in
              replace (flat_map f l) with v by (vm_compute; reflexivity)
          end;
          cbn [map];
          split;
          [cbn [nth_error]; f_equal; apply (slice_all text _ Hlen)
          |intros w Hw; cbn [In] in Hw;
           repeat (destruct Hw as [<-|Hw];
                   [split;
                    [intros E; apply (f_equal (map canonCase)) in E;
                     rewrite Hslice in E; vm_compute in E; discriminate
                    |rewrite (Hsub _ _ (Hslice _)); vm_compute; reflexivity]
                   |]);
           destruct Hw]
      end.
Qed.

(** X14: a numeric date is parsed by the code only when it is day first with
    twice the same separator or year first with dashes.  A day-first date
    with two different separators, and a year-first date with a slash or a
    dot, match a pattern of the table but no strict format: every candidate
    of such a text is left to the host's parser, and the result is absent or
    tagged [Auto-detected]; it is the host's reading of the whole text when
    the host reads it. *)
Theorem loose_numeric_left_to_host (h : Host) (a b c : jsstring)
    (s1 s2 : char) :
  is_sep s1 = true -> is_sep s2 = true ->
  (digits12 a = true /\ digits12 b = true /\ digits4 c = true /\ s1 <> s2)
  \/ (digits4 a = true /\ digits12 b = true /\ digits12 c = true
      /\ (s1 <> chr "-" \/ s2 <> chr "-")) ->
  let text := looseNumeric a b c s1 s2 in
  (forall w, In w (candidates text) ->
     tryFormats h w DATE_FORMAT_MAP = Normal None)
  /\ (Date_of_string h text = None ->
      extractDateFromText h text = Normal None
      \/ exists w t,
           In w (candidates text) /\ Date_of_string h w = Some t
           /\ extractDateFromText h text
              = Normal (Some {| Date := Some (isoDate t);
                                Format := Some (lit "Auto-detected");
                                Confidence := 0.6%float;
                                ExtractedFromText := Some w |}))
  /\ (forall t, Date_of_string h text = Some t ->
      extractDateFromText h text
      = Normal (Some {| Date := Some (isoDate t);
                        Format := Some (lit "Auto-detected");
                        Confidence := 0.6%float;
                        ExtractedFromText := Some text |})).
Proof.
  intros H1 H2 Hcase text.
  destruct (loose_facts a b c s1 s2 H1 H2 Hcase) as [Hfirst Hall].
  fold text in Hfirst, Hall.
  split; [|split].
  - intros w Hw. apply tryFormats_miss. now apply Hall.
  - intros _. now apply extract_all_fallback.
  - intros t Ht.
    destruct (Hall text (nth_error_In _ _ Hfirst)) as [Hne Hnone].
    assert (Hp : parsed h text
                 = Some {| Date := Some (isoDate t);
                           Format := Some (lit "Auto-detected");
                           Confidence := 0.6%float;
                           ExtractedFromText := Some text |})
      by (rewrite (parsed_fallback h text Hne Hnone); now rewrite Ht).
    destruct (extract_isFirstBest h text) as (res & Hres & Hbest).
    rewrite Hres. destruct res as [r|].
    + destruct Hbest as (i & w & d & Hi & Hw & -> & Hothers).
      destruct (Hall w (nth_error_In _ _ Hi)) as [Hwne Hwnone].
      rewrite (parsed_fallback h w Hwne Hwnone) in Hw.
      destruct (Date_of_string h w) as [u|] eqn:E; [|discriminate].
      injection Hw as <-.
      destruct i as [|i].
      * rewrite Hfirst in Hi. injection Hi as <-.
        rewrite Ht in E. injection E as <-. reflexivity.
      * destruct (Hothers 0%nat text _ Hfirst Hp) as [_ Hlt].
        specialize (Hlt ltac:(lia)).
        cbn [Confidence withExtractedFromText] in Hlt.
        vm_compute in Hlt. discriminate.
    + cbn [isFirstBest] in Hbest.
      rewrite (Hbest text (nth_error_In _ _ Hfirst)) in Hp.
      discriminate.
Qed.

Lemma loose_numeric_left_to_host_witness :
  tryFormats host_utc (lit "2024/03/22") DATE_FORMAT_MAP = Normal None.
Proof.
  assert (Hcase : (digits12 (lit "2024") = true /\ digits12 (lit "03") = true
                   /\ digits4 (lit "22") = true /\ chr "/" <> chr "/")
                  \/ (digits4 (lit "2024") = true /\ digits12 (lit "03") = true
                      /\ digits12 (lit "22") = true
                      /\ (chr "/" <> chr "-" \/ chr "/" <> chr "-"))).
  { right. repeat split; try reflexivity. left. discriminate. }
  pose proof (loose_numeric_left_to_host host_utc (lit "2024") (lit "03")
                (lit "22") (chr "/") (chr "/") eq_refl eq_refl Hcase) as H.
  cbv zeta in H. destruct H as [H _].
  apply (H (lit "2024/03/22")).
  vm_compute. left. reflexivity.
Defined.

(** ** Dates read back *)

Section ReadBack.

Local Open Scope Z_scope.

Lemma no_dash_pad (w : nat) (n : Z) :
  forallb (fun c => negb (N.eqb c (chr "-"))) (pad w n) = true.
Proof. apply forallb_pad. intros k. now apply digit_char_not. Qed.

Lemma split_dashes (a b c : jsstring) :
  forallb (fun x => negb (N.eqb x (chr "-"))) a = true ->
  forallb (fun x => negb (N.eqb x (chr "-"))) b = true ->
  forallb (fun x => negb (N.eqb x (chr "-"))) c = true ->
  split_char (chr "-") (a ++ chr "-" :: b ++ chr "-" :: c) [] = [a; b; c].
Proof.
  intros Ha Hb Hc.
  rewrite (split_char_first _ a) by exact Ha.
  rewrite (split_char_first _ b) by exact Hb.
  now rewrite (split_char_none _ c) by exact Hc.
Qed.

Lemma year_of_valid_time (t : Z) :
  Z.abs t <= 8640000000000000 -> -271822 <= YearFromTime t <= 275761.
Proof.
  intros Ht. pose proof (YearFromTime_spec t) as S.
  assert (HD : -100000000 <= Day t <= 100000000)
    by (unfold Day, msPerDay; Z.div_mod_to_equations; lia).
  unfold DayFromYear in S. Z.div_mod_to_equations. lia.
Qed.

(** The ISO calendar date of a valid time value is read back, by every
    host, as midnight UTC of that day. *)
Lemma Date_of_string_isoDate (h : Host) (t : Z) :
  Z.abs t <= 8640000000000000 ->
  Date_of_string h (isoDate t) = Some (Day t * msPerDay).
Proof.
  intros Ht.
  pose proof (year_of_valid_time t Ht) as Hy.
  destruct (fields_of_day t) as [Hday Hd].
  pose proof (MonthFromTime_range t) as Hm.
  set (y := YearFromTime t) in *.
  set (m := MonthFromTime t + 1).
  set (d := DateFromTime t) in *.
  assert (Hdmax : d <= 31).
  { unfold DaysInMonth in Hd.
    destruct (DaysInYear_cases y) as [E|E]; rewrite E in Hd;
      repeat match type of Hd with
             | context [match ?x with _ => _ end] => destruct x
             end; cbn in Hd; lia. }
  assert (Hfields : forall (ylen : nat) (sign yabs : Z),
            0 <= yabs < 10 ^ Z.of_nat (S ylen) -> sign * yabs = y ->
            (sign = 1 \/ sign = -1 /\ yabs <> 0) ->
            iso_ymd (S ylen) sign
              (pad (S ylen) yabs ++ chr "-" :: pad 2 m ++ chr "-" :: pad 2 d)
            = Some (Day t * msPerDay)).
  { intros ylen sign yabs Hr Hs Hsign. unfold iso_ymd.
    rewrite split_dashes by apply no_dash_pad.
    rewrite (digits_value_pad ylen yabs Hr).
    rewrite (digits_value_pad 1 m)
      by (change (10 ^ Z.of_nat 2) with 100; unfold m; lia).
    rewrite (digits_value_pad 1 d)
      by (change (10 ^ Z.of_nat 2) with 100; lia).
    rewrite !length_pad, !Nat.eqb_refl, Hs.
    replace (negb ((sign <? 0) && (yabs =? 0))) with true
      by (symmetry; destruct Hsign as [->|[-> Hn] ]; [reflexivity|];
          apply negb_true_iff, andb_false_iff; right; now apply Z.eqb_neq).
    replace (1 <=? m) with true by (symmetry; unfold m; lia).
    replace (m <=? 12) with true by (symmetry; unfold m; lia).
    replace (1 <=? d) with true by (symmetry; lia).
    replace (d <=? DaysInMonth y m) with true by (symmetry; unfold m; lia).
    cbn [andb]. unfold MakeDate. f_equal.
    replace (m - 1) with (MonthFromTime t) by (unfold m; lia).
    rewrite Hday. lia. }
  assert (Hparse : parse_iso_date (isoDate t) = Some (Day t * msPerDay)).
  { unfold isoDate, iso_year. fold y m d.
    destruct (Z.leb_spec 0 y) as [H0|H0];
      [destruct (Z.leb_spec y 9999) as [H9|H9]|]; cbn [andb].
    - rewrite pad4_digits. cbn [app]. unfold parse_iso_date.
      assert (Hc : forall n, N.eqb (digit_char n) (chr "+") = false
                             /\ N.eqb (digit_char n) (chr "-") = false).
      { intros n. split; apply negb_true_iff; now apply digit_char_not. }
      destruct (Hc (y / 10 / 10 / 10)) as [-> ->].
      apply (Hfields 3%nat 1 y);
        [change (10 ^ Z.of_nat 4) with 10000; lia|lia|now left].
    - replace (y <? 0) with false by (symmetry; lia).
      cbn [app parse_iso_date]. rewrite N.eqb_refl.
      replace (Z.abs y) with y by lia.
      apply (Hfields 5%nat 1 y);
        [change (10 ^ Z.of_nat 6) with 1000000; lia|lia|now left].
    - replace (y <? 0) with true by (symmetry; lia).
      cbn [app parse_iso_date].
      replace (N.eqb (chr "-") (chr "+")) with false by reflexivity.
      rewrite N.eqb_refl.
      apply (Hfields 5%nat (-1) (Z.abs y));
        [change (10 ^ Z.of_nat 6) with 1000000; lia|lia|right; lia]. }
  unfold Date_of_string, Date_parse. rewrite Hparse. unfold TimeClip.
  replace (Z.abs (Day t * msPerDay) <=? 8640000000000000) with true;
    [reflexivity|].
  symmetry. apply Z.leb_le.
  unfold Day, msPerDay. Z.div_mod_to_equations. lia.
Qed.

Lemma isoDate_nonempty (t : Z) : exists c s, isoDate t = c :: s.
Proof.
  unfold isoDate, iso_year.
  destruct ((0 <=? YearFromTime t) && (YearFromTime t <=? 9999))%bool.
  - rewrite pad4_digits. cbn [app]. eauto.
  - cbn [app]. eauto.
Qed.

(** A result of [extractDateFromText] carries the ISO date of a valid time
    value. *)
Lemma extract_valid_time (h : Host) (text : jsstring) (r : DateInformation) :
  extractDateFromText h text = Normal (Some r) ->
  exists t, Z.abs t <= 8640000000000000 /\ Date r = Some (isoDate t).
Proof.
  intros H. destruct (extract_fields _ _ _ H) as (t & c & Hd & _ & _ & Hf).
  exists t. split; [|exact Hd].
  destruct Hf as [(f & p & _ & Hp & _)|[Hp _]].
  - eapply parseDate_clip; eauto.
  - eapply Date_of_string_clip; eauto.
Qed.

Lemma hasDate_iso (r : DateInformation) (t : Z) :
  Date r = Some (isoDate t) -> hasDate (Some r) = true.
Proof.
  intros H. unfold hasDate. rewrite H.
  now destruct (isoDate_nonempty t) as (c & s & ->).
Qed.


(** X21: the results of [extractDateFromText] compose with
    [analyzeDateConsistency]: the date of every result is the ISO date of a
    time value, the check of two results is [Consistent] exactly when their
    UTC days are at most 30 apart, and the check of three exactly when that
    holds for each pair; it is never [Unknown]. *)
Theorem extracted_dates_compare_by_day (h : Host)
    (text1 text2 text3 : jsstring) (r1 r2 r3 : DateInformation) :
  extractDateFromText h text1 = Normal (Some r1) ->
  extractDateFromText h text2 = Normal (Some r2) ->
  extractDateFromText h text3 = Normal (Some r3) ->
  exists t1 t2 t3,
    Date r1 = Some (isoDate t1) /\ Date r2 = Some (isoDate t2)
    /\ Date r3 = Some (isoDate t3)
    /\ analyzeDateConsistency h (Some r1) (Some r2) None
       = (if daysApart (Day t1) (Day t2) then Consistent else Inconsistent)
    /\ analyzeDateConsistency h (Some r1) (Some r2) (Some r3)
       = (if daysApart (Day t1) (Day t2) && daysApart (Day t1) (Day t3)
             && daysApart (Day t2) (Day t3)
          then Consistent else Inconsistent).
Proof.
  intros H1 H2 H3.
  destruct (extract_valid_time _ _ _ H1) as (t1 & V1 & D1).
  destruct (extract_valid_time _ _ _ H2) as (t2 & V2 & D2).
  destruct (extract_valid_time _ _ _ H3) as (t3 & V3 & D3).
  exists t1, t2, t3. split; [exact D1|]. split; [exact D2|].
  split; [exact D3|].
  rewrite !analyzeDateConsistency_spec. unfold consistency_spec.
  cbn [filter]. rewrite (hasDate_iso r1 t1 D1), (hasDate_iso r2 t2 D2),
    (hasDate_iso r3 t3 D3).
  cbn [hasDate length Nat.ltb Nat.leb timesOf].
  rewrite D1, D2, D3. cbn [ToString].
  rewrite !Date_of_string_isoDate by assumption.
  unfold within30Days, maximum, minimum, daysApart. cbn [fold_right].
  unfold msPerDay.
  split.
  - destruct (Z.leb_spec (Z.abs (Day t1 - Day t2)) 30) as [L|L];
      [replace (_ <=? _) with true by (symmetry; lia)
      |replace (_ <=? _) with false by (symmetry; lia)]; reflexivity.
  - destruct (Z.leb_spec (Z.abs (Day t1 - Day t2)) 30) as [L1|L1];
      destruct (Z.leb_spec (Z.abs (Day t1 - Day t3)) 30) as [L2|L2];
      destruct (Z.leb_spec (Z.abs (Day t2 - Day t3)) 30) as [L3|L3];
      cbn [andb];
      first [replace (_ <=? _) with true by (symmetry; lia)
            |replace (_ <=? _) with false by (symmetry; lia)]; reflexivity.
Qed.

Lemma extracted_dates_compare_by_day_witness :
  let r1 := {| Date := Some (lit "2024-03-15");
               Format := Some (lit "DD/MM/YYYY"); Confidence := 1%float;
               ExtractedFromText := Some (lit "15/03/2024") |} in
  let r2 := {| Date := Some (lit "2024-03-20");
               Format := Some (lit "DD MMM YYYY"); Confidence := 1%float;
               ExtractedFromText := Some (lit "20 March 2024") |} in
  let r3 := {| Date := Some (lit "2024-03-22");
               Format := Some (lit "DD-MM-YYYY"); Confidence := 1%float;
               ExtractedFromText := Some (lit "22-03-2024") |} in
  exists t1 t2 t3,
    Date r1 = Some (isoDate t1) /\ Date r2 = Some (isoDate t2)
    /\ Date r3 = Some (isoDate t3)
    /\ analyzeDateConsistency host_utc (Some r1) (Some r2) None
       = (if daysApart (Day t1) (Day t2) then Consistent else Inconsistent)
    /\ analyzeDateConsistency host_utc (Some r1) (Some r2) (Some r3)
       = (if daysApart (Day t1) (Day t2) && daysApart (Day t1) (Day t3)
             && daysApart (Day t2) (Day t3)
          then Consistent else Inconsistent).
Proof.
  exact (extracted_dates_compare_by_day host_utc
           (lit "Signed on 15/03/2024") (lit "Date: 20 March 2024")
           (lit "Date of issue: 22-03-2024") _ _ _
           ltac:(vm_compute; reflexivity) ltac:(vm_compute; reflexivity)
           ltac:(vm_compute; reflexivity)).
Defined.

End ReadBack.

(** ** Surrounding white space *)

Lemma dropWhile_all (p : char -> bool) (pre s : jsstring) :
  forallb p pre = true -> dropWhile p (pre ++ s) = dropWhile p s.
Proof.
  induction pre as [|c pre IH]; cbn [forallb app dropWhile]; [reflexivity|].
  intros H. apply andb_true_iff in H as [-> H]. now apply IH.
Qed.

Lemma trimEnd_all (s post : jsstring) :
  forallb is_space post = true -> trimEnd (s ++ post) = trimEnd s.
Proof.
  intros H. unfold trimEnd. rewrite rev_app_distr, dropWhile_all; [reflexivity|].
  apply forallb_forall. intros c Hc. apply in_rev in Hc.
  rewrite forallb_forall in H. now apply H.
Qed.

Lemma trim_padding (pre s post : jsstring) :
  forallb is_space pre = true -> forallb is_space post = true ->
  trim (pre ++ s ++ post) = trim s.
Proof.
  intros Hpre Hpost. unfold trim, trimStart.
  rewrite dropWhile_all by exact Hpre.
  induction s as [|c s IH]; cbn [app dropWhile].
  - rewrite <- (app_nil_r post), dropWhile_all by exact Hpost. reflexivity.
  - destruct (is_space c); [exact IH|].
    change (c :: s ++ post) with ((c :: s) ++ post).
    now apply trimEnd_all.
Qed.

Lemma candidates_empty : candidates [] = [].
Proof. vm_compute. reflexivity. Qed.

Lemma extract_by_trim (h : Host) (text1 text2 : jsstring) :
  trim text1 = trim text2 ->
  extractDateFromText h text1 = extractDateFromText h text2.
Proof.
  intros H. rewrite !extractDateFromText_fold. unfold candidates.
  now rewrite H.
Qed.

(** X20: white space around the text changes nothing, and a text of white
    space only gives no result. *)
Theorem surrounding_space_ignored (h : Host) (pre text post : jsstring) :
  forallb is_space pre = true -> forallb is_space post = true ->
  extractDateFromText h (pre ++ text ++ post) = extractDateFromText h text
  /\ extractDateFromText h (pre ++ post) = Normal None.
Proof.
  intros Hpre Hpost. split.
  - apply extract_by_trim. now apply trim_padding.
  - rewrite (extract_by_trim h (pre ++ post) []); [reflexivity|].
    rewrite <- (trim_padding pre [] post Hpre Hpost). reflexivity.
Qed.

Lemma surrounding_space_ignored_witness :
  extractDateFromText host_utc (lit "   22-03-2024  ")
  = extractDateFromText host_utc (lit "22-03-2024").
Proof.
  exact (proj1 (surrounding_space_ignored host_utc (lit "   ")
                  (lit "22-03-2024") (lit "  ") eq_refl eq_refl)).
Defined.

(** ** The order of the arguments of the consistency check *)

Lemma consistency_swap12 (h : Host) (a b c : option DateInformation) :
  analyzeDateConsistency h a b c = analyzeDateConsistency h b a c.
Proof.
  rewrite !analyzeDateConsistency_spec. unfold consistency_spec.
  cbn [filter].
  destruct (hasDate a) eqn:Ha, (hasDate b) eqn:Hb, (hasDate c) eqn:Hc;
    cbn [length Nat.ltb Nat.leb timesOf]; try reflexivity;
    destruct a as [a|], b as [b|]; try discriminate;
    try (destruct c as [c|]; [|discriminate]);
    repeat match goal with
           | |- context [Date_of_string h ?s] =>
               destruct (Date_of_string h s)
           end; try reflexivity;
    unfold within30Days, maximum, minimum; cbn [fold_right];
    match goal with
    | |- (if (?x <=? ?k)%Z then _ else _) = (if (?y <=? ?k)%Z then _ else _) =>
        replace x with y by lia; reflexivity
    end.
Qed.

Lemma consistency_swap23 (h : Host) (a b c : option DateInformation) :
  analyzeDateConsistency h a b c = analyzeDateConsistency h a c b.
Proof.
  rewrite !analyzeDateConsistency_spec. unfold consistency_spec.
  cbn [filter].
  destruct (hasDate a) eqn:Ha, (hasDate b) eqn:Hb, (hasDate c) eqn:Hc;
    cbn [length Nat.ltb Nat.leb timesOf]; try reflexivity;
    destruct b as [b|], c as [c|]; try discriminate;
    try (destruct a as [a|]; [|discriminate]);
    repeat match goal with
           | |- context [Date_of_string h ?s] =>
               destruct (Date_of_string h s)
           end; try reflexivity;
    unfold within30Days, maximum, minimum; cbn [fold_right];
    match goal with
    | |- (if (?x <=? ?k)%Z then _ else _) = (if (?y <=? ?k)%Z then _ else _) =>
        replace x with y by lia; reflexivity
    end.
Qed.

(** X22: [analyzeDateConsistency] does not depend on which date is given as
    the stamp's, the signature's or the document's: the six orders of its
    arguments give the same answer. *)
Theorem consistency_order_irrelevant (h : Host)
    (a b c : option DateInformation) :
  let answer := analyzeDateConsistency h a b c in
  analyzeDateConsistency h a c b = answer
  /\ analyzeDateConsistency h b a c = answer
  /\ analyzeDateConsistency h b c a = answer
  /\ analyzeDateConsistency h c a b = answer
  /\ analyzeDateConsistency h c b a = answer.
Proof.
  cbv zeta. repeat split.
  - now rewrite consistency_swap23.
  - now rewrite consistency_swap12.
  - now rewrite consistency_swap23, consistency_swap12.
  - now rewrite consistency_swap12, consistency_swap23.
  - now rewrite consistency_swap12, consistency_swap23, consistency_swap12.
Qed.

Lemma inconsistent_pair_stays (h : Host) (a b c : option DateInformation) :
  analyzeDateConsistency h a b None = Inconsistent ->
  analyzeDateConsistency h a b c = Inconsistent.
Proof.
  rewrite !analyzeDateConsistency_spec. unfold consistency_spec.
  cbn [filter hasDate].
  destruct (hasDate a) eqn:Ha, (hasDate b) eqn:Hb, (hasDate c) eqn:Hc;
    cbn [length Nat.ltb Nat.leb timesOf]; try discriminate; try tauto;
    destruct a as [a|], b as [b|]; try discriminate;
    try (destruct c as [c|]; [|discriminate]);
    repeat match goal with
           | |- context [Date_of_string h ?s] =>
               destruct (Date_of_string h s)
           end; try reflexivity; try tauto;
    unfold within30Days, maximum, minimum; cbn [fold_right];
    repeat match goal with
           | |- context [(?x <=? ?k)%Z] => destruct (Z.leb_spec x k)
           end; try reflexivity; try discriminate; lia.
Qed.

(** X23: a date added to an inconsistent pair leaves it inconsistent: when
    two of the three dates are [Inconsistent] without the third, the three are
    [Inconsistent]. *)
Theorem inconsistency_is_monotone (h : Host)
    (a b c : option DateInformation) :
  (analyzeDateConsistency h a b None = Inconsistent
   \/ analyzeDateConsistency h a None c = Inconsistent
   \/ analyzeDateConsistency h None b c = Inconsistent) ->
  analyzeDateConsistency h a b c = Inconsistent.
Proof.
  intros [H|[H|H]].
  - now apply inconsistent_pair_stays.
  - rewrite consistency_swap23. apply inconsistent_pair_stays.
    now rewrite consistency_swap23.
  - rewrite consistency_swap12, consistency_swap23.
    apply inconsistent_pair_stays.
    now rewrite consistency_swap23, consistency_swap12.
Qed.

Lemma inconsistency_is_monotone_witness :
  analyzeDateConsistency host_utc (dated "2024-03-14") (dated "2024-06-01")
    (dated "2024-03-15") = Inconsistent.
Proof.
  apply inconsistency_is_monotone. left. vm_compute. reflexivity.
Defined.

(** ** The second pattern of the table *)




Lemma confidence_irreflexive (a : float) :
  In a confidences -> PrimFloat.ltb a a = false.
Proof.
  intros Ha. destruct (PrimFloat.ltb a a) eqn:E; [|reflexivity].
  pose proof (confidence_lt_not_ge a a Ha Ha E) as H.
  destruct (confidence_bounds a Ha) as (_ & _ & Hr). congruence.
Qed.

(** [13/13/9999] on every host of fixed offset within a day of UTC whose
    generic parser does not read the candidate [13/13/99]: the strict parse
    is the result, and its date is a day of January 10000, printed in the
    expanded form. *)
Lemma month_13_of_9999 (h : Host) (off : Z) :
  (forall t b, LocalTZA h t b = off) ->
  (- msPerDay < off < msPerDay)%Z ->
  Date_of_string h (lit "13/13/99") = None ->
  exists r,
    extractDateFromText h (lit "13/13/9999") = Normal (Some r)
    /\ Format r = Some (lit "DD/MM/YYYY")
    /\ ExtractedFromText r = Some (lit "13/13/9999")
    /\ Date r = Some (if (0 <? off)%Z then lit "+010000-01-12"
                      else lit "+010000-01-13").
Proof.
  intros Hoff Hrange Hnone.
  set (midnight := 253403337600000%Z).
  assert (Hd : parseDate h (lit "13/13/9999") (lit "DD/MM/YYYY")
               = Some (Some (midnight - off)%Z)).
  { transitivity (Some (Date_ymd h (Some 9999%Z) (Some 12%Z) (Some 13%Z)));
      [reflexivity|].
    rewrite (Date_ymd_fixed_offset h off) by (auto; lia).
    change (MakeDay 9999 12 13 * msPerDay)%Z with midnight.
    unfold TimeClip, midnight, msPerDay in *.
    replace (Z.abs (253403337600000 - off) <=? 8640000000000000)%Z with true
      by (symmetry; lia).
    reflexivity. }
  assert (H1 : parsed h (lit "13/13/9999")
               = Some {| Date := Some (isoDate (midnight - off));
                         Format := Some (lit "DD/MM/YYYY");
                         Confidence :=
                           calculateDateConfidence h (lit "13/13/9999")
                             (Some (midnight - off)%Z);
                         ExtractedFromText := Some (lit "13/13/9999") |}).
  { apply (parsed_strict h _ [] (skipn 1 DATE_FORMAT_MAP) (lit "DD/MM/YYYY")
             (Regex.seq [d12; Regex.one "/"; d12; Regex.one "/"; d4]));
      [reflexivity | discriminate | reflexivity
      | vm_compute; reflexivity | exact Hd]. }
  assert (Hc : In (calculateDateConfidence h (lit "13/13/9999")
                     (Some (midnight - off)%Z)) confidences)
    by (rewrite calculateDateConfidence_score; apply score_in_confidences).
  set (c := calculateDateConfidence h (lit "13/13/9999")
              (Some (midnight - off)%Z)) in *.
  assert (H3 : parsed h (lit "13/13/99") = None).
  { rewrite parsed_fallback by (discriminate || (vm_compute; reflexivity)).
    now rewrite Hnone. }
  exists {| Date := Some (isoDate (midnight - off));
            Format := Some (lit "DD/MM/YYYY");
            Confidence := c;
            ExtractedFromText := Some (lit "13/13/9999") |}.
  split; [|split; [reflexivity|split; [reflexivity|]]].
  - rewrite extractDateFromText_fold.
    replace (candidates (lit "13/13/9999"))
      with [lit "13/13/9999"; lit "13/13/9999"; lit "13/13/99"]
      by (vm_compute; reflexivity).
    cbn [fold_left]. rewrite H1, H3.
    unfold keepBest. cbn [highestConfidence Confidence].
    rewrite (proj1 (confidence_bounds c Hc)).
    cbn [highestConfidence Confidence].
    rewrite (confidence_irreflexive c Hc). reflexivity.
  - cbn [Date]. f_equal.
    destruct (Z.ltb_spec 0 off) as [Heast|Hwest].
    + rewrite (isoDate_Day _ (midnight - 1)); [vm_compute; reflexivity|].
      unfold Day, midnight, msPerDay in *. Z.div_mod_to_equations. lia.
    + rewrite (isoDate_Day _ midnight); [vm_compute; reflexivity|].
      unfold Day, midnight, msPerDay in *. Z.div_mod_to_equations. lia.
Qed.

Lemma keepBest_settles (h : Host) (st : Best) (m0 : jsstring) :
  scored st ->
  let st' := keepBest st m0 (parsed h m0) in
  scored st' /\ settled h st' m0
  /\ forall m, settled h st m -> settled h st' m.
Proof.
  intros Hst. cbv zeta. unfold keepBest.
  destruct (parsed h m0) as [d0|] eqn:E0.
  - pose proof (parsed_confidence _ _ _ E0) as H0.
    destruct (PrimFloat.ltb (highestConfidence st) (Confidence d0)) eqn:Hlt.
    + split; [right; exact H0|]. split.
      * unfold settled. rewrite E0. cbn [highestConfidence].
        now apply confidence_irreflexive.
      * intros m Hm. unfold settled in *. cbn [highestConfidence].
        destruct (parsed h m) as [d|] eqn:E; [|exact I].
        pose proof (parsed_confidence _ _ _ E) as Hd.
        destruct (PrimFloat.ltb (Confidence d0) (Confidence d)) eqn:Hlt';
          [|reflexivity].
        exfalso. destruct Hst as [Hz|Hin].
        -- rewrite Hz in Hm.
           destruct (confidence_bounds _ Hd) as (Hpos & _). congruence.
        -- pose proof (proj1 (confidence_pair _ _ Hin Hd) Hm) as Hle.
           pose proof (confidence_trans _ _ _ Hin H0 Hd Hlt Hle) as Hlt2.
           pose proof (proj2 (confidence_pair _ _ Hd H0) Hlt2) as Hle2.
           pose proof (confidence_lt_not_ge _ _ H0 Hd Hlt') as Hn.
           congruence.
    + split; [exact Hst|]. split; [|auto].
      unfold settled. now rewrite E0.
  - split; [exact Hst|]. split; [|auto].
    unfold settled. now rewrite E0.
Qed.

Lemma fold_settles (h : Host) (ms : list jsstring) :
  forall st,
    scored st ->
    let st' := fold_left (fun st m => keepBest st m (parsed h m)) ms st in
    scored st'
    /\ (forall m, In m ms -> settled h st' m)
    /\ forall m, settled h st m -> settled h st' m.
Proof.
  induction ms as [|m0 ms IH]; intros st Hst; cbn [fold_left].
  - split; [exact Hst|]. split; [intros m []|auto].
  - destruct (keepBest_settles h st m0 Hst) as (H1 & H2 & H3).
    destruct (IH _ H1) as (I1 & I2 & I3).
    split; [exact I1|]. split; [|auto].
    intros m [<-|Hin]; auto.
Qed.

Lemma fold_settled (h : Host) (ms : list jsstring) (st : Best) :
  (forall m, In m ms -> settled h st m) ->
  fold_left (fun st m => keepBest st m (parsed h m)) ms st = st.
Proof.
  induction ms as [|m0 ms IH]; intros H; cbn [fold_left]; [reflexivity|].
  assert (E : keepBest st m0 (parsed h m0) = st).
  { specialize (H m0 (or_introl eq_refl)). unfold settled in H.
    unfold keepBest. destruct (parsed h m0); [now rewrite H|reflexivity]. }
  rewrite E. apply IH. intros m Hm. apply H. now right.
Qed.

(** A pattern listed twice in a row adds nothing. *)
Lemma forPatterns_repeated (h : Host) (t : jsstring) (p : regex)
    (before after : list regex) (st : Best) :
  scored st ->
  forPatterns h t (before ++ p :: p :: after) st
  = forPatterns h t (before ++ p :: after) st.
Proof.
  intros Hst. rewrite !forPatterns_fold. f_equal.
  rewrite !flat_map_app. cbn [flat_map]. rewrite !fold_left_app.
  f_equal.
  destruct (fold_settles h (flat_map (fun pattern => matchAll pattern t) before)
              st Hst) as (H1 & _ & _).
  destruct (fold_settles h (matchAll p t) _ H1) as (_ & H2 & _).
  now apply fold_settled.
Qed.

(** X19: the first two entries of [DATE_PATTERNS], commented [DD/MM/YYYY] and
    [MM/DD/YYYY], are the same expression, and the second changes no result:
    [extractDateFromText] is the same function without it. *)
Theorem second_pattern_redundant (h : Host) (text : jsstring) :
  nth_error DATE_PATTERNS 0 = nth_error DATE_PATTERNS 1
  /\ extractDateFromText h text
     = extractDateFromTextWith
         (hd Eps DATE_PATTERNS :: skipn 2 DATE_PATTERNS) h text.
Proof.
  split; [reflexivity|].
  unfold extractDateFromText, extractDateFromTextWith.
  destruct text as [|c text]; [reflexivity|].
  cbv zeta. f_equal.
  apply (forPatterns_repeated h _ (hd Eps DATE_PATTERNS) []
           (skipn 2 DATE_PATTERNS)).
  now left.
Qed.

(** ** The tag of full month names *)


Lemma star_class_mono (X Y : Type) (p : char -> bool) (s : jsstring)
    (k1 : jsstring -> option X) (k2 : jsstring -> option Y) :
  (forall u, succeeds (k1 u) = true -> succeeds (k2 u) = true) ->
  succeeds (star_class p s k1) = true -> succeeds (star_class p s k2) = true.
Proof.
  intros Hk. induction s as [|c s IH]; cbn [star_class]; [apply Hk|].
  destruct (p c); [|apply Hk].
  destruct (star_class p s k1) as [x|].
  - intros _. specialize (IH eq_refl).
    now destruct (star_class p s k2).
  - intros H. destruct (star_class p s k2); [reflexivity|]. now apply Hk.
Qed.

(** A match still succeeds when its continuation succeeds more often. *)
Lemma rmatch_mono (X Y : Type) (r : regex) :
  forall (s : jsstring) (k1 : jsstring -> option X)
         (k2 : jsstring -> option Y),
    (forall u, succeeds (k1 u) = true -> succeeds (k2 u) = true) ->
    succeeds (rmatch r s k1) = true -> succeeds (rmatch r s k2) = true.
Proof.
  induction r as [|p|r1 IH1 r2 IH2|r1 IH1 r2 IH2|p]; intros s k1 k2 Hk;
    cbn [rmatch].
  - apply Hk.
  - destruct s as [|c s]; [auto|]. destruct (p c); [apply Hk|auto].
  - apply IH1. intros u. now apply IH2.
  - destruct (rmatch r1 s k1) as [x|] eqn:E1.
    + intros _.
      assert (H : succeeds (rmatch r1 s k2) = true)
        by (apply (IH1 s k1 k2 Hk); now rewrite E1).
      now destruct (rmatch r1 s k2).
    + intros H. destruct (rmatch r1 s k2); [reflexivity|].
      now apply (IH2 s k1 k2 Hk).
  - destruct s as [|c s]; [auto|]. destruct (p c); [|auto].
    now apply star_class_mono.
Qed.

Lemma month_name_has_abbreviation (s : jsstring) :
  succeeds (match_at MMMM s) = true -> succeeds (match_at MMM s) = true.
Proof.
  unfold succeeds. unfold MMMM, MMM. rewrite !match_at_words.
  intros H. apply existsb_exists in H as (name & Hin & Hp).
  apply existsb_exists.
  exists (String.substring 0 3 name).
  cbn in Hin.
  repeat (destruct Hin as [<-|Hin];
          [split; [cbn; tauto|];
           match goal with
           | H : prefix_i (lit ?n) s = true |- _ =>
               apply (prefix_i_app _ (lit (String.substring 3 9 n)));
               exact H
           end|]).
  destruct Hin.
Qed.

Lemma full_name_pattern_implies_short (s : jsstring) :
  test (Regex.seq [d12; ws; MMMM]) s = true ->
  test (Regex.seq [d12; ws; MMM]) s = true.
Proof.
  induction s as [|c s IH].
  - vm_compute. discriminate.
  - rewrite !test_cons. intros H. apply orb_true_iff in H as [H|H];
      apply orb_true_iff; [left|right; now apply IH].
    revert H. unfold match_at. cbn [Regex.seq rmatch].
    apply rmatch_mono. intros u. apply rmatch_mono. intros v.
    apply month_name_has_abbreviation.
Qed.

Lemma parseDate_month_formats (h : Host) (s : jsstring) :
  parseDate h s (lit "DD MMMM YYYY") = parseDate h s (lit "DD MMM YYYY").
Proof.
  unfold parseDate.
  replace (includes (lit "DD MMMM YYYY") (lit "MMM")
           || includes (lit "DD MMMM YYYY") (lit "MMMM")) with true
    by (vm_compute; reflexivity).
  replace (includes (lit "DD MMM YYYY") (lit "MMM")
           || includes (lit "DD MMM YYYY") (lit "MMMM")) with true
    by (vm_compute; reflexivity).
  replace (startsWith (lit "DD MMMM YYYY") (lit "DD")) with true
    by (vm_compute; reflexivity).
  replace (startsWith (lit "DD MMM YYYY") (lit "DD")) with true
    by (vm_compute; reflexivity).
  reflexivity.
Qed.

Lemma tryFormats_step (h : Host) (s f : jsstring) (p : regex)
    (rest : list (jsstring * regex)) (d : DateInformation) :
  tryFormats h s ((f, p) :: rest) = Normal (Some d) ->
  (test p s = true /\ (exists t, parseDate h s f = Some (Some t))
   /\ Format d = Some f)
  \/ ((test p s = false \/ parseDate h s f = None)
      /\ tryFormats h s rest = Normal (Some d)).
Proof.
  cbn [tryFormats]. destruct (test p s); [|now right; split; [left|]].
  destruct (parseDate h s f) as [ [t|]|]; cbn [toISOString bind].
  - intros H. left. split; [reflexivity|]. split; [now exists t|].
    injection H as <-. reflexivity.
  - discriminate.
  - intros H. right. split; [now right|exact H].
Qed.

Lemma tryFormats_never_full_name (h : Host) (s : jsstring)
    (d : DateInformation) :
  tryFormats h s DATE_FORMAT_MAP = Normal (Some d) ->
  Format d <> Some (lit "DD MMMM YYYY").
Proof.
  unfold DATE_FORMAT_MAP. intros H.
  pose proof (full_name_pattern_implies_short s) as Himp.
  pose proof (parseDate_month_formats h s) as Hsame.
  apply tryFormats_step in H as [(_ & _ & ->)|[_ H] ]; [discriminate|].
  apply tryFormats_step in H as [(_ & _ & ->)|[_ H] ]; [discriminate|].
  apply tryFormats_step in H as [(_ & _ & ->)|[_ H] ]; [discriminate|].
  apply tryFormats_step in H as [(_ & _ & ->)|[_ H] ]; [discriminate|].
  apply tryFormats_step in H as [(_ & _ & ->)|[Hshort H] ]; [discriminate|].
  apply tryFormats_step in H as [(Ht & (t & Hp) & _)|[_ H] ].
  - exfalso. rewrite Hsame in Hp. specialize (Himp Ht).
    destruct Hshort as [Hs|Hs]; congruence.
  - apply tryFormats_step in H as [(_ & _ & ->)|[_ H] ]; [discriminate|].
    discriminate.
Qed.

(** X18: no result carries the format tag [DD MMMM YYYY]: a text that
    matches the pattern of that entry of [DATE_FORMAT_MAP] also matches the
    pattern of [DD MMM YYYY], which comes first. *)
Theorem full_month_name_tag_unused (h : Host) (text : jsstring)
    (r : DateInformation) :
  extractDateFromText h text = Normal (Some r) ->
  Format r <> Some (lit "DD MMMM YYYY").
Proof.
  intros H. destruct (extract_result _ _ _ H) as (c & d & _ & Hc & ->).
  cbn [withExtractedFromText Format].
  unfold parsed, parseAndValidateDate in Hc.
  destruct c as [|a c]; [discriminate|].
  destruct (tryFormats h (a :: c) DATE_FORMAT_MAP) as [ [d'|]|e] eqn:Htry;
    cbn [bind try_catch] in Hc.
  - injection Hc as <-. now apply (tryFormats_never_full_name h (a :: c)).
  - destruct (getTime (Date_of_string h (a :: c)));
      cbn [toISOString bind try_catch] in Hc; [|discriminate].
    destruct (Date_of_string h (a :: c)); cbn [toISOString bind try_catch] in Hc;
      [|discriminate].
    injection Hc as <-. cbn [Format]. discriminate.
  - discriminate.
Qed.

Lemma full_month_name_tag_unused_witness :
  Format {| Date := Some (lit "2024-03-20");
            Format := Some (lit "DD MMM YYYY");
            Confidence := 1%float;
            ExtractedFromText := Some (lit "20 March 2024") |}
  <> Some (lit "DD MMMM YYYY").
Proof.
  exact (full_month_name_tag_unused host_utc (lit "Date: 20 March 2024") _
           ltac:(vm_compute; reflexivity)).
Defined.

(** ** Dates with a month name *)

Lemma digits_not_space_or_comma (s : jsstring) :
  forallb is_digit s = true ->
  forallb (fun c => negb (is_space c || N.eqb c (chr ","))) s = true.
Proof.
  intros H. rewrite forallb_forall in *. intros c Hc.
  specialize (H c Hc). apply digit_cases in H. cbn [In] in H.
  repeat (destruct H as [<-|H]; [reflexivity|]). destruct H.
Qed.

Lemma alpha_not_space_or_comma (s : jsstring) :
  forallb is_alpha s = true ->
  forallb (fun c => negb (is_space c || N.eqb c (chr ","))) s = true.
Proof.
  intros H. rewrite forallb_forall in *. intros c Hc.
  destruct (alpha_facts c (H c Hc)) as (_ & -> & -> & _). reflexivity.
Qed.

Lemma month_keys_alpha (name : string) :
  In name month_keys -> forallb is_alpha (lit name) = true /\ lit name <> [].
Proof.
  intros H. cbn in H.
  repeat (destruct H as [<-|H]; [split; [reflexivity|discriminate]|]).
  destruct H.
Qed.

Lemma parseDate_day_month (h : Host) (ds mw ys : jsstring) (d y : Z) :
  digits12 ds = true -> digits4 ys = true ->
  forallb is_alpha mw = true -> mw <> [] ->
  digits_value ds = Some d -> digits_value ys = Some y ->
  parseDate h (dayMonthYear ds mw ys) (lit "DD MMM YYYY")
  = match monthMap mw with
    | Undefined => None
    | month => Some (Date_ymd h (Some y) (ToNumber month) (Some d))
    end.
Proof.
  intros Hds Hys Hmw Nmw Vd Vy.
  destruct (digits12_cases ds Hds) as [Ads Cds].
  destruct (digits4_cases ys Hys) as [Ays Cys].
  assert (Nds : ds <> [])
    by (destruct Cds as [(a & -> & _)|(a & b & -> & _)]; discriminate).
  assert (Nys : ys <> [])
    by (destruct Cys as (a & b & c & e & -> & _); discriminate).
  unfold parseDate.
  replace (includes (lit "DD MMM YYYY") (lit "MMM")
           || includes (lit "DD MMM YYYY") (lit "MMMM")) with true
    by (vm_compute; reflexivity).
  replace (startsWith (lit "DD MMM YYYY") (lit "DD")) with true
    by (vm_compute; reflexivity).
  unfold dayMonthYear.
  pose proof (split_three_runs (fun c => is_space c || N.eqb c (chr ","))
                ds mw ys (chr " ") (chr " ") [] [] Nds Nmw Nys
                (digits_not_space_or_comma ds Ads)
                (alpha_not_space_or_comma mw Hmw)
                (digits_not_space_or_comma ys Ays)
                eq_refl eq_refl eq_refl eq_refl) as Hsplit.
  cbn [app] in Hsplit. rewrite Hsplit.
  unfold part. cbn [nth_error ToString].
  rewrite !parseInt_digits by assumption.
  rewrite Vd, Vy. now destruct (monthMap mw).
Qed.

Lemma day_month_facts (ds mw ys : jsstring) (name : string) :
  In name month_keys -> sameLetters mw (lit name) ->
  digits12 ds = true -> digits4 ys = true ->
  let text := dayMonthYear ds mw ys in
  text <> [] /\ candidates text = [text]
  /\ forallb (fun entry => negb (test (snd entry) text))
       (firstn 4 DATE_FORMAT_MAP) = true
  /\ test (Regex.seq [d12; ws; MMM]) text = true
  /\ forallb (fun entry => negb (test (snd entry) text))
       (skipn 6 DATE_FORMAT_MAP) = true
  /\ includes text (lit "/") || includes text (lit "-") = false
  /\ test d4 text = true /\ test MMM text = true.
Proof.
  intros Hin Hsame Hds Hys text.
  destruct (month_keys_alpha name Hin) as [Halpha _].
  destruct (sameLetters_facts mw (lit name) Halpha Hsame) as [_ Hmw].
  pose proof (digits4_shape ys Hys) as Sy.
  assert (Hshape : map canonCase text
                   = map canonCase ds
                     ++ chr " " :: map toUpperASCII (lit name)
                     ++ chr " " :: lit "0000").
  { unfold text, dayMonthYear. rewrite map_app. cbn [map].
    rewrite map_app. cbn [map]. now rewrite Hmw, Sy. }
  assert (Hne : text <> []).
  { intros E. rewrite E in Hshape. cbn [map] in Hshape.
    destruct (map canonCase ds); discriminate. }
  split; [exact Hne|].
  pose proof strict_patterns_invariant_case as Hstrict.
  pose proof (Forall_firstn _ _ _ Hstrict 4) as H4.
  assert (H6 : Forall (fun entry => invariant_under canonCase (snd entry))
                 (skipn 6 DATE_FORMAT_MAP)).
  { apply Forall_forall. intros e He. rewrite Forall_forall in Hstrict.
    apply Hstrict. cbn in He. cbn. tauto. }
  assert (H5 : invariant_under canonCase (Regex.seq [d12; ws; MMM]))
    by pattern_invariant_case.
  assert (Hlen : length text = length (map canonCase text))
    by now rewrite length_map.
  cbn in Hin.
  destruct (digits12_shape ds Hds) as [Sd|Sd]; rewrite Sd in Hshape;
    repeat (destruct Hin as [<-|Hin];
            [match type of Hshape with
             | _ = ?s =>
                 let shape := eval vm_compute in s in
                 assert (Hs : map canonCase text = shape) by exact Hshape;
                 rewrite Hs in Hlen; cbn [length] in Hlen;
                 destruct (shape_facts text shape Hs
                             ltac:(vm_compute; reflexivity))
                   as (_ & -> & Hformats & Htest & -> & -> & ->);
                 rewrite (Hformats _ H4), (Hformats _ H6), (Htest _ H5);
                 match goal with
                 | |- context [flat_map ?f ?l] =>
                     let v := eval vm_compute in (flat_map f l) in
                     replace (flat_map f l) with v
                       by (vm_compute; reflexivity)
                 end;
                 cbn [map];
                 rewrite (slice_all text _ Hlen);
                 repeat split; vm_compute; reflexivity
             end|]);
    destruct Hin.
Qed.

Lemma tryFormats_none (h : Host) (s : jsstring)
    (formats : list (jsstring * regex)) :
  Forall (fun entry => test (snd entry) s = false
                       \/ parseDate h s (fst entry) = None) formats ->
  tryFormats h s formats = Normal None.
Proof.
  induction 1 as [|[f p] formats Hfp _ IH]; cbn [tryFormats]; [reflexivity|].
  cbn [fst snd] in Hfp. destruct Hfp as [->| ->]; [exact IH|].
  now destruct (test p s).
Qed.

Lemma parsed_of_none (h : Host) (s : jsstring) :
  s <> [] -> tryFormats h s DATE_FORMAT_MAP = Normal None ->
  parsed h s
  = match Date_of_string h s with
    | Some t => Some {| Date := Some (isoDate t);
                        Format := Some (lit "Auto-detected");
                        Confidence := 0.6%float;
                        ExtractedFromText := Some s |}
    | None => None
    end.
Proof.
  intros Hs Hnone. unfold parsed, parseAndValidateDate.
  destruct s as [|c s]; [contradiction|].
  rewrite Hnone. cbn [bind try_catch getTime].
  destruct (Date_of_string h (c :: s)) as [t|]; [|reflexivity].
  cbn [toISOString bind]. now rewrite toISOString_date.
Qed.

Lemma negtests_Forall (h : Host) (s : jsstring)
    (formats : list (jsstring * regex)) :
  forallb (fun entry => negb (test (snd entry) s)) formats = true ->
  Forall (fun entry => test (snd entry) s = false
                       \/ parseDate h s (fst entry) = None) formats.
Proof.
  intros H. apply Forall_forall. intros e He.
  rewrite forallb_forall in H. left. now apply negb_true_iff, H.
Qed.

(** X15: the patterns accept a month name in any case, the lookup in
    [monthMap] does not.  For a day, a month name whose letters differ from a
    key of the table by their case only, and a four-digit year, the strict
    pattern [DD MMM YYYY] matches, [parseDate] finds no month and returns
    [null], and the result is the host's reading of the text (tag
    [Auto-detected], confidence 0.6) or absent. *)
Theorem month_name_case_sensitive (h : Host) (ds mw ys : jsstring)
    (name : string) :
  In name month_keys -> sameLetters mw (lit name) -> mw <> lit name ->
  digits12 ds = true -> digits4 ys = true ->
  let text := dayMonthYear ds mw ys in
  candidates text = [text]
  /\ test (Regex.seq [d12; ws; MMM]) text = true
  /\ parseDate h text (lit "DD MMM YYYY") = None
  /\ extractDateFromText h text
     = Normal match Date_of_string h text with
              | Some t => Some {| Date := Some (isoDate t);
                                  Format := Some (lit "Auto-detected");
                                  Confidence := 0.6%float;
                                  ExtractedFromText := Some text |}
              | None => None
              end.
Proof.
  intros Hin Hsame Hne Hds Hys text.
  destruct (day_month_facts ds mw ys name Hin Hsame Hds Hys)
    as (Htext & Hcand & H4 & H5 & H6 & _).
  fold text in Htext, Hcand, H4, H5, H6.
  destruct (month_keys_alpha name Hin) as [Halpha Hnonempty].
  destruct (sameLetters_facts mw (lit name) Halpha Hsame) as [Hmw _].
  assert (Nmw : mw <> []).
  { intros ->. unfold sameLetters in Hsame. cbn [map] in Hsame.
    destruct (lit name); [now apply Hnonempty|discriminate]. }
  destruct (digits12_cases ds Hds) as [Ads _].
  destruct (digits4_cases ys Hys) as [Ays _].
  destruct (digits_value_range ds Ads) as (d & Vd & _).
  { intros ->. discriminate. }
  destruct (digits_value_range ys Ays) as (y & Vy & _).
  { intros ->. discriminate. }
  assert (Hparse : parseDate h text (lit "DD MMM YYYY") = None).
  { unfold text.
    rewrite (parseDate_day_month h ds mw ys d y) by assumption.
    now rewrite (monthMap_variant name mw Hin Hsame Hne). }
  split; [exact Hcand|]. split; [exact H5|]. split; [exact Hparse|].
  assert (Hnone : tryFormats h text DATE_FORMAT_MAP = Normal None).
  { change DATE_FORMAT_MAP
      with (firstn 4 DATE_FORMAT_MAP
            ++ [(lit "DD MMM YYYY", Regex.seq [d12; ws; MMM]);
                (lit "DD MMMM YYYY", Regex.seq [d12; ws; MMMM])]
            ++ skipn 6 DATE_FORMAT_MAP).
    apply tryFormats_none. apply Forall_app. split; [|apply Forall_app; split].
    - now apply negtests_Forall.
    - repeat apply Forall_cons; [| |apply Forall_nil]; right; cbn [fst];
        [|rewrite parseDate_month_formats]; exact Hparse.
    - now apply negtests_Forall. }
  rewrite extractDateFromText_fold, Hcand. cbn [fold_left].
  rewrite (parsed_of_none h text Htext Hnone).
  destruct (Date_of_string h text) as [t|]; reflexivity.
Qed.

Lemma month_name_case_sensitive_witness :
  extractDateFromText host_utc (lit "20 MARCH 2024") = Normal None.
Proof.
  exact (proj2 (proj2 (proj2
           (month_name_case_sensitive host_utc (lit "20") (lit "MARCH")
              (lit "2024") "March"
              ltac:(vm_compute; tauto) eq_refl ltac:(discriminate)
              eq_refl eq_refl)))).
Defined.

Lemma sameLetters_refl (w : jsstring) : sameLetters w w.
Proof. reflexivity. Qed.

Lemma month_index_range (name : string) (idx : Z) :
  In (name, idx) monthMap_entries -> (0 <= idx <= 11)%Z /\ In name month_keys.
Proof.
  intros H. split.
  - cbn [monthMap_entries In] in H.
    repeat (destruct H as [ [= <- <-]|H]; [lia|]). destruct H.
  - unfold month_keys. now apply (in_map fst) in H.
Qed.

(** X10: a day, a key of [monthMap] (an English month name or its
    three-letter abbreviation, written as in the table) and a four-digit year
    are read back as written, with the tag [DD MMM YYYY] also for a full
    name, under the conditions of the numeric dates. *)
Theorem day_month_name_read (h : Host) (off : Z) (ds ys : jsstring)
    (name : string) (idx d y : Z) :
  (forall t b, LocalTZA h t b = off) ->
  (- msPerDay < off <= 0)%Z ->
  In (name, idx) monthMap_entries ->
  digits12 ds = true -> digits4 ys = true ->
  digits_value ds = Some d -> digits_value ys = Some y ->
  (100 <= y)%Z -> (1 <= d <= DaysInMonth y (idx + 1))%Z ->
  (Z.abs (currentYear h - y) <= 100)%Z ->
  extractDateFromText h (dayMonthYear ds (lit name) ys)
  = Normal (Some {| Date := Some (isoYMD y (idx + 1) d);
                    Format := Some (lit "DD MMM YYYY");
                    Confidence :=
                      score (50 <? Z.abs (currentYear h - y))%Z false false
                        true true;
                    ExtractedFromText :=
                      Some (dayMonthYear ds (lit name) ys) |}).
Proof.
  intros Hoff Hrange Hentry Hds Hys Vd Vy Hy Hd Hnear.
  destruct (month_index_range name idx Hentry) as [Hidx Hin].
  set (text := dayMonthYear ds (lit name) ys).
  destruct (day_month_facts ds (lit name) ys name Hin (sameLetters_refl _)
              Hds Hys)
    as (Htext & Hcand & H4 & H5 & _ & Hdash & Hfour & Hmonth).
  fold text in Htext, Hcand, H4, H5, Hdash, Hfour, Hmonth.
  destruct (month_keys_alpha name Hin) as [Halpha Hnonempty].
  destruct (expandYear_range ys y Hys Vy) as [Hy9 _].
  destruct (Date_ymd_valid h off y (idx + 1) d Hoff ltac:(lia) ltac:(lia)
              ltac:(lia) Hd) as (Ht & Hyear & Hiso).
  replace (idx + 1 - 1)%Z with idx in Ht, Hyear, Hiso by lia.
  set (t := (MakeDay y idx d * msPerDay - off)%Z) in *.
  assert (Hparse : parseDate h text (lit "DD MMM YYYY") = Some (Some t)).
  { unfold text.
    rewrite (parseDate_day_month h ds (lit name) ys d y) by assumption.
    rewrite (monthMap_exact name idx Hentry). cbn [ToNumber].
    now rewrite Ht. }
  assert (Hconf : calculateDateConfidence h text (Some t)
                  = score (50 <? Z.abs (currentYear h - y))%Z false false
                      true true).
  { rewrite calculateDateConfidence_score, Hyear, Hdash, Hfour, Hmonth.
    change (getFullYear h (Date_now h)) with (Some (currentYear h)).
    unfold yearDiff, exceeds.
    now replace (100 <? Z.abs (currentYear h - y))%Z with false
      by (symmetry; lia). }
  assert (H1 : parsed h text
               = Some {| Date := Some (isoDate t);
                         Format := Some (lit "DD MMM YYYY");
                         Confidence := calculateDateConfidence h text (Some t);
                         ExtractedFromText := Some text |})
    by (apply (parsed_strict h text (firstn 4 DATE_FORMAT_MAP)
                 (skipn 5 DATE_FORMAT_MAP) (lit "DD MMM YYYY")
                 (Regex.seq [d12; ws; MMM]));
        [reflexivity|assumption..]).
  rewrite extractDateFromText_fold, Hcand. cbn [fold_left].
  rewrite H1, Hconf. unfold keepBest. cbn [highestConfidence Confidence].
  assert (Hpos : PrimFloat.ltb 0%float
                   (score (50 <? Z.abs (currentYear h - y))%Z false false
                      true true) = true)
    by (destruct (50 <? Z.abs (currentYear h - y))%Z; vm_compute; reflexivity).
  rewrite Hpos. cbn [bestMatch withExtractedFromText Date Format Confidence].
  unfold t. rewrite isoDate_shift by lia.
  replace (0 <? off)%Z with false by (symmetry; lia).
  now rewrite Hiso.
Qed.

Lemma day_month_name_read_witness :
  extractDateFromText host_utc (lit "20 March 2024")
  = Normal (Some {| Date := Some (lit "2024-03-20");
                    Format := Some (lit "DD MMM YYYY");
                    Confidence := 1%float;
                    ExtractedFromText := Some (lit "20 March 2024") |}).
Proof.
  exact (day_month_name_read host_utc 0 (lit "20") (lit "2024") "March" 2
           20 2024 (fun _ _ => eq_refl) ltac:(unfold msPerDay; lia)
           ltac:(vm_compute; tauto) eq_refl eq_refl eq_refl eq_refl
           ltac:(lia) ltac:(vm_compute; split; discriminate)
           ltac:(vm_compute; discriminate)).
Defined.

Lemma month_first_facts (mw ds ys : jsstring) (comma : bool) (name : string) :
  In name month_keys -> sameLetters mw (lit name) ->
  digits12 ds = true -> digits4 ys = true ->
  let text := monthDayYear mw ds comma ys in
  text <> [] /\ candidates text = [text]
  /\ forallb (fun entry => negb (test (snd entry) text))
       (firstn 6 DATE_FORMAT_MAP) = true
  /\ test (Regex.seq [MMM; ws; d12; opt (Regex.one ","); ws; d4]) text
     = isAbbreviation name
  /\ includes text (lit "/") || includes text (lit "-") = false
  /\ test d4 text = true /\ test MMM text = true.
Proof.
  intros Hin Hsame Hds Hys text.
  destruct (month_keys_alpha name Hin) as [Halpha Hnonempty].
  destruct (sameLetters_facts mw (lit name) Halpha Hsame) as [_ Hmw].
  pose proof (digits4_shape ys Hys) as Sy.
  assert (Hshape : map canonCase text
                   = map toUpperASCII (lit name)
                     ++ chr " " :: map canonCase ds
                     ++ (if comma then [chr ","] else [])
                     ++ chr " " :: lit "0000").
  { unfold text, monthDayYear. rewrite map_app. cbn [map].
    rewrite !map_app. cbn [map]. rewrite Hmw, Sy.
    now destruct comma. }
  assert (Hne : text <> []).
  { intros E. rewrite E in Hshape. cbn [map] in Hshape.
    destruct (lit name); [now apply Hnonempty|discriminate]. }
  split; [exact Hne|].
  pose proof strict_patterns_invariant_case as Hstrict.
  pose proof (Forall_firstn _ _ _ Hstrict 6) as H6.
  assert (H7 : invariant_under canonCase
                 (Regex.seq [MMM; ws; d12; opt (Regex.one ","); ws; d4]))
    by pattern_invariant_case.
  assert (Hlen : length text = length (map canonCase text))
    by now rewrite length_map.
  cbn in Hin.
  destruct (digits12_shape ds Hds) as [Sd|Sd]; rewrite Sd in Hshape;
    destruct comma;
    repeat (destruct Hin as [<-|Hin]; [compute_on_shape text Hshape Hlen;
             rewrite ?(slice_all text _ Hlen);
             repeat split; vm_compute; reflexivity|]);
    destruct Hin.
Qed.

Lemma parseDate_month_first (h : Host) (mw ds ys : jsstring) (comma : bool)
    (d y : Z) :
  digits12 ds = true -> digits4 ys = true ->
  forallb is_alpha mw = true -> mw <> [] ->
  digits_value ds = Some d -> digits_value ys = Some y ->
  parseDate h (monthDayYear mw ds comma ys) (lit "MMM DD, YYYY")
  = match monthMap mw with
    | Undefined => None
    | month => Some (Date_ymd h (Some y) (ToNumber month) (Some d))
    end.
Proof.
  intros Hds Hys Hmw Nmw Vd Vy.
  destruct (digits12_cases ds Hds) as [Ads Cds].
  destruct (digits4_cases ys Hys) as [Ays Cys].
  assert (Nds : ds <> [])
    by (destruct Cds as [(a & -> & _)|(a & b & -> & _)]; discriminate).
  assert (Nys : ys <> [])
    by (destruct Cys as (a & b & c & e & -> & _); discriminate).
  unfold parseDate.
  replace (includes (lit "MMM DD, YYYY") (lit "MMM")
           || includes (lit "MMM DD, YYYY") (lit "MMMM")) with true
    by (vm_compute; reflexivity).
  replace (startsWith (lit "MMM DD, YYYY") (lit "DD")) with false
    by (vm_compute; reflexivity).
  assert (Hsplit : Regex.split
                     (Plus (fun c => is_space c || N.eqb c (chr ",")))
                     (monthDayYear mw ds comma ys) = [mw; ds; ys]).
  { unfold monthDayYear. destruct comma.
    - pose proof (split_three_runs
                    (fun c => is_space c || N.eqb c (chr ","))
                    mw ds ys (chr " ") (chr ",") [] [chr " "] Nmw Nds Nys
                    (alpha_not_space_or_comma mw Hmw)
                    (digits_not_space_or_comma ds Ads)
                    (digits_not_space_or_comma ys Ays)
                    eq_refl eq_refl eq_refl eq_refl) as H.
      cbn [app] in H. exact H.
    - pose proof (split_three_runs
                    (fun c => is_space c || N.eqb c (chr ","))
                    mw ds ys (chr " ") (chr " ") [] [] Nmw Nds Nys
                    (alpha_not_space_or_comma mw Hmw)
                    (digits_not_space_or_comma ds Ads)
                    (digits_not_space_or_comma ys Ays)
                    eq_refl eq_refl eq_refl eq_refl) as H.
      cbn [app] in H. exact H. }
  rewrite Hsplit.
  unfold part. cbn [nth_error ToString].
  rewrite !parseInt_digits by assumption.
  rewrite Vd, Vy. now destruct (monthMap mw).
Qed.

(** X11: a three-letter abbreviation of the table, a day, an optional comma
    and a four-digit year are read back as written, with the tag
    [MMM DD, YYYY]. *)
Theorem month_first_date_read (h : Host) (off : Z) (ds ys : jsstring)
    (comma : bool) (name : string) (idx d y : Z) :
  (forall t b, LocalTZA h t b = off) ->
  (- msPerDay < off <= 0)%Z ->
  In (name, idx) monthMap_entries -> isAbbreviation name = true ->
  digits12 ds = true -> digits4 ys = true ->
  digits_value ds = Some d -> digits_value ys = Some y ->
  (100 <= y)%Z -> (1 <= d <= DaysInMonth y (idx + 1))%Z ->
  (Z.abs (currentYear h - y) <= 100)%Z ->
  extractDateFromText h (monthDayYear (lit name) ds comma ys)
  = Normal (Some {| Date := Some (isoYMD y (idx + 1) d);
                    Format := Some (lit "MMM DD, YYYY");
                    Confidence :=
                      score (50 <? Z.abs (currentYear h - y))%Z false false
                        true true;
                    ExtractedFromText :=
                      Some (monthDayYear (lit name) ds comma ys) |}).
Proof.
  intros Hoff Hrange Hentry Habbr Hds Hys Vd Vy Hy Hd Hnear.
  destruct (month_index_range name idx Hentry) as [Hidx Hin].
  set (text := monthDayYear (lit name) ds comma ys).
  destruct (month_first_facts (lit name) ds ys comma name Hin
              (sameLetters_refl _) Hds Hys)
    as (Htext & Hcand & H6 & H7 & Hdash & Hfour & Hmonth).
  fold text in Htext, Hcand, H6, H7, Hdash, Hfour, Hmonth.
  rewrite Habbr in H7.
  destruct (month_keys_alpha name Hin) as [Halpha Hnonempty].
  destruct (expandYear_range ys y Hys Vy) as [Hy9 _].
  destruct (Date_ymd_valid h off y (idx + 1) d Hoff ltac:(lia) ltac:(lia)
              ltac:(lia) Hd) as (Ht & Hyear & Hiso).
  replace (idx + 1 - 1)%Z with idx in Ht, Hyear, Hiso by lia.
  set (t := (MakeDay y idx d * msPerDay - off)%Z) in *.
  assert (Hparse : parseDate h text (lit "MMM DD, YYYY") = Some (Some t)).
  { unfold text.
    rewrite (parseDate_month_first h (lit name) ds ys comma d y) by assumption.
    rewrite (monthMap_exact name idx Hentry). cbn [ToNumber].
    now rewrite Ht. }
  assert (Hconf : calculateDateConfidence h text (Some t)
                  = score (50 <? Z.abs (currentYear h - y))%Z false false
                      true true).
  { rewrite calculateDateConfidence_score, Hyear, Hdash, Hfour, Hmonth.
    change (getFullYear h (Date_now h)) with (Some (currentYear h)).
    unfold yearDiff, exceeds.
    now replace (100 <? Z.abs (currentYear h - y))%Z with false
      by (symmetry; lia). }
  assert (H1 : parsed h text
               = Some {| Date := Some (isoDate t);
                         Format := Some (lit "MMM DD, YYYY");
                         Confidence := calculateDateConfidence h text (Some t);
                         ExtractedFromText := Some text |})
    by (apply (parsed_strict h text (firstn 6 DATE_FORMAT_MAP) []
                 (lit "MMM DD, YYYY")
                 (Regex.seq [MMM; ws; d12; opt (Regex.one ","); ws; d4]));
        [reflexivity|assumption..]).
  rewrite extractDateFromText_fold, Hcand. cbn [fold_left].
  rewrite H1, Hconf. unfold keepBest. cbn [highestConfidence Confidence].
  assert (Hpos : PrimFloat.ltb 0%float
                   (score (50 <? Z.abs (currentYear h - y))%Z false false
                      true true) = true)
    by (destruct (50 <? Z.abs (currentYear h - y))%Z; vm_compute; reflexivity).
  rewrite Hpos. cbn [bestMatch withExtractedFromText Date Format Confidence].
  unfold t. rewrite isoDate_shift by lia.
  replace (0 <? off)%Z with false by (symmetry; lia).
  now rewrite Hiso.
Qed.

Lemma month_first_date_read_witness :
  extractDateFromText host_utc (lit "Mar 18, 2024")
  = Normal (Some {| Date := Some (lit "2024-03-18");
                    Format := Some (lit "MMM DD, YYYY");
                    Confidence := 1%float;
                    ExtractedFromText := Some (lit "Mar 18, 2024") |}).
Proof.
  exact (month_first_date_read host_utc 0 (lit "18") (lit "2024") true "Mar"
           2 18 2024 (fun _ _ => eq_refl) ltac:(unfold msPerDay; lia)
           ltac:(vm_compute; tauto) eq_refl eq_refl eq_refl eq_refl eq_refl
           ltac:(lia) ltac:(vm_compute; split; discriminate)
           ltac:(vm_compute; discriminate)).
Defined.

(** X16: month first, a full month name or a name in another case than the
    table's matches a pattern of the table but is not parsed by the code: the
    result is the host's reading of the text or absent. *)
Theorem month_first_left_to_host (h : Host) (mw ds ys : jsstring)
    (comma : bool) (name : string) :
  In name month_keys -> sameLetters mw (lit name) ->
  isAbbreviation name = false \/ mw <> lit name ->
  digits12 ds = true -> digits4 ys = true ->
  let text := monthDayYear mw ds comma ys in
  candidates text = [text]
  /\ tryFormats h text DATE_FORMAT_MAP = Normal None
  /\ extractDateFromText h text
     = Normal match Date_of_string h text with
              | Some t => Some {| Date := Some (isoDate t);
                                  Format := Some (lit "Auto-detected");
                                  Confidence := 0.6%float;
                                  ExtractedFromText := Some text |}
              | None => None
              end.
Proof.
  intros Hin Hsame Hcase Hds Hys text.
  destruct (month_first_facts mw ds ys comma name Hin Hsame Hds Hys)
    as (Htext & Hcand & H6 & H7 & _).
  fold text in Htext, Hcand, H6, H7.
  destruct (month_keys_alpha name Hin) as [Halpha Hnonempty].
  destruct (sameLetters_facts mw (lit name) Halpha Hsame) as [Hmw _].
  assert (Nmw : mw <> []).
  { intros ->. unfold sameLetters in Hsame. cbn [map] in Hsame.
    destruct (lit name); [now apply Hnonempty|discriminate]. }
  destruct (digits12_cases ds Hds) as [Ads _].
  destruct (digits4_cases ys Hys) as [Ays _].
  destruct (digits_value_range ds Ads) as (d & Vd & _).
  { intros ->. discriminate. }
  destruct (digits_value_range ys Ays) as (y & Vy & _).
  { intros ->. discriminate. }
  assert (Hnone : tryFormats h text DATE_FORMAT_MAP = Normal None).
  { change DATE_FORMAT_MAP
      with (firstn 6 DATE_FORMAT_MAP
            ++ [(lit "MMM DD, YYYY",
                 Regex.seq [MMM; ws; d12; opt (Regex.one ","); ws; d4])]).
    apply tryFormats_none. apply Forall_app. split.
    - now apply negtests_Forall.
    - apply Forall_cons; [|apply Forall_nil]. cbn [fst snd].
      destruct Hcase as [Hfull|Hne].
      + left. now rewrite H7.
      + right. unfold text.
        rewrite (parseDate_month_first h mw ds ys comma d y) by assumption.
        now rewrite (monthMap_variant name mw Hin Hsame Hne). }
  split; [exact Hcand|]. split; [exact Hnone|].
  rewrite extractDateFromText_fold, Hcand. cbn [fold_left].
  rewrite (parsed_of_none h text Htext Hnone).
  destruct (Date_of_string h text) as [t|]; reflexivity.
Qed.

Lemma month_first_left_to_host_witness :
  extractDateFromText host_legacy (lit "March 18, 2024")
  = Normal (Some {| Date := Some (lit "2024-03-18");
                    Format := Some (lit "Auto-detected");
                    Confidence := 0.6%float;
                    ExtractedFromText := Some (lit "March 18, 2024") |}).
Proof.
  exact (proj2 (proj2
           (month_first_left_to_host host_legacy (lit "March") (lit "18")
              (lit "2024") true "March" ltac:(vm_compute; tauto) eq_refl
              (or_introl eq_refl) eq_refl eq_refl))).
Defined.

Lemma ordinal_facts (ds suffix mw ys : jsstring) (ending name : string) :
  In ending ordinal_suffixes -> sameLetters suffix (lit ending) ->
  In name month_keys -> sameLetters mw (lit name) ->
  digits12 ds = true -> digits4 ys = true ->
  let text := ordinalDate ds suffix mw ys in
  text <> [] /\ candidates text = [text]
  /\ forallb (fun entry => negb (test (snd entry) text)) DATE_FORMAT_MAP
     = true.
Proof.
  intros Hend Hsuffix Hin Hsame Hds Hys text.
  destruct (month_keys_alpha name Hin) as [Halpha Hnonempty].
  destruct (sameLetters_facts mw (lit name) Halpha Hsame) as [_ Hmw].
  assert (Hsf : map canonCase suffix = map toUpperASCII (lit ending)).
  { apply sameLetters_facts; [|exact Hsuffix].
    cbn in Hend. repeat (destruct Hend as [<-|Hend]; [reflexivity|]).
    destruct Hend. }
  pose proof (digits4_shape ys Hys) as Sy.
  assert (Hshape : map canonCase text
                   = map canonCase ds ++ map toUpperASCII (lit ending)
                     ++ chr " " :: map toUpperASCII (lit name)
                     ++ chr " " :: lit "0000").
  { unfold text, ordinalDate. rewrite !map_app. cbn [map].
    rewrite !map_app. cbn [map]. now rewrite Hmw, Sy, Hsf. }
  assert (Hne : text <> []).
  { intros E. rewrite E in Hshape. cbn [map] in Hshape.
    destruct (digits12_shape ds Hds) as [Sd|Sd]; rewrite Sd in Hshape;
      discriminate. }
  split; [exact Hne|].
  pose proof strict_patterns_invariant_case as Hstrict.
  assert (Hlen : length text = length (map canonCase text))
    by now rewrite length_map.
  cbn in Hin, Hend.
  destruct (digits12_shape ds Hds) as [Sd|Sd]; rewrite Sd in Hshape;
    destruct Hend as [<-|[<-|[<-|[<-|[] ] ] ] ];
    repeat (destruct Hin as [<-|Hin]; [compute_on_shape text Hshape Hlen;
             rewrite ?(slice_all text _ Hlen);
             repeat split; vm_compute; reflexivity|]);
    destruct Hin.
Qed.

(** X17: the ordinal dates of the last pattern of the table ([14th March
    2024]) match no strict format: the result is the host's reading of the
    text or absent. *)
Theorem ordinal_dates_left_to_host (h : Host) (ds suffix mw ys : jsstring)
    (ending name : string) :
  In ending ordinal_suffixes -> sameLetters suffix (lit ending) ->
  In name month_keys -> sameLetters mw (lit name) ->
  digits12 ds = true -> digits4 ys = true ->
  let text := ordinalDate ds suffix mw ys in
  candidates text = [text]
  /\ tryFormats h text DATE_FORMAT_MAP = Normal None
  /\ extractDateFromText h text
     = Normal match Date_of_string h text with
              | Some t => Some {| Date := Some (isoDate t);
                                  Format := Some (lit "Auto-detected");
                                  Confidence := 0.6%float;
                                  ExtractedFromText := Some text |}
              | None => None
              end.
Proof.
  intros Hend Hsuffix Hin Hsame Hds Hys text.
  destruct (ordinal_facts ds suffix mw ys ending name Hend Hsuffix Hin Hsame
              Hds Hys) as (Htext & Hcand & Hnone).
  fold text in Htext, Hcand, Hnone.
  split; [exact Hcand|].
  split; [now apply tryFormats_miss|].
  rewrite extractDateFromText_fold, Hcand. cbn [fold_left].
  rewrite (parsed_fallback h text Htext Hnone).
  destruct (Date_of_string h text) as [t|]; reflexivity.
Qed.

Lemma ordinal_dates_left_to_host_witness :
  extractDateFromText host_utc (lit "14th March 2024") = Normal None.
Proof.
  exact (proj2 (proj2
           (ordinal_dates_left_to_host host_utc (lit "14") (lit "th")
              (lit "March") (lit "2024") "th" "March"
              ltac:(vm_compute; tauto) eq_refl ltac:(vm_compute; tauto)
              eq_refl eq_refl eq_refl))).
Defined.

(** * The asynchronous methods *)

Ltac case_log w H :=
  match goal with
  | |- context [Runtime.logAction_throws w ?n ?entry] =>
      destruct (Runtime.logAction_throws w n entry) as [?e|] eqn:H
  end;
  cbn [Runtime.clock_reads Runtime.draws Runtime.waited Runtime.logged
       Runtime.console].

Section Requests.

Import Runtime HuggingFaceService HuggingFaceRequests.

Variable this : Service.
Variable file : File.
Variable userId : jsstring.

Lemma orElse_nonempty (value : option jsstring) (fallback : jsstring) :
  fallback <> [] -> orElse value fallback <> [].
Proof.
  intros H. destruct value as [[|c s]|]; cbn; [assumption|discriminate|assumption].
Qed.

Lemma calculateConfidence_range (text : jsstring) :
  text <> [] ->
  calculateConfidence text <> 0%float
  /\ PrimFloat.leb (0.7 - 0.2)%float (calculateConfidence text) = true
  /\ PrimFloat.leb (calculateConfidence text) 1%float = true.
Proof.
  intros H. rewrite (hf_calculateConfidence_score _ H).
  destruct (hfScore_facts (100 <? length text)%nat
              (500 <? length text)%nat (length text <? 20)%nat
              (existsb is_digit text && existsb is_letter text)
              (existsb is_punctuation text)) as (H0 & Hlo & Hhi & _).
  now repeat split.
Qed.

Ltac run_extraction :=
  unfold extractTextFromDocument, fileToBase64, bind, try_catch, await, ret,
    throw, Date_now, logAction;
  cbn [clock_reads draws waited logged console].

(** X24: when [extractTextFromDocument] fulfils, the text of the result is
    the answer of the model to a request that does not depend on the file,
    or [No text extracted] when the answer is empty or missing; it is never
    empty, the confidence is [calculateConfidence] of it and lies between
    0.7 - 0.2 and 1, there is one page with one line holding the whole text,
    the processing time is the second reading of the clock minus the first,
    and the start and the completion have been logged, in this order. *)
Theorem extraction_fulfilled (w : World) (s s' : State)
    (r : HuggingFaceResult) :
  extractTextFromDocument this file userId w s = (Fulfilled r, s') ->
  exists response,
    textGeneration w (extraction_request this) = Fulfilled response
    /\ extractedText r
       = orElse (generated_text response) (lit "No text extracted")
    /\ extractedText r <> []
    /\ confidence r = calculateConfidence (extractedText r)
    /\ confidence r <> 0%float
    /\ PrimFloat.leb (0.7 - 0.2)%float (confidence r) = true
    /\ PrimFloat.leb (confidence r) 1%float = true
    /\ pages r
       = [ {| pageNumber := 1; width := 800; height := 600;
              lines := [ {| line_content := extractedText r;
                            line_boundingBox := [0; 0; 800; 600]%Z |} ];
              words := [] |} ]
    /\ processingTime r
       = (clock w (S (clock_reads s)) - clock w (clock_reads s))%Z
    /\ result_model r = model this
    /\ logged s'
       = logged s
         ++ [ processing_start this file userId;
              processing_complete this file userId r (processingTime r) ].
Proof.
  run_extraction.
  destruct (logAction_throws w (length (logged s))
              (processing_start this file userId)) as [e|].
  { destruct (logAction_throws w _ _); intros [=]. }
  destruct (readAsDataURL w file) as [result|].
  2:{ destruct (logAction_throws w _ _); intros [=]. }
  destruct (textGeneration w (extraction_request this)) as [response|e].
  2:{ destruct (logAction_throws w _ _); intros [=]. }
  cbn [clock_reads draws waited logged console].
  set (text := orElse (generated_text response) (lit "No text extracted")).
  assert (Htext : text <> [])
    by (apply orElse_nonempty; discriminate).
  destruct (calculateConfidence_range text Htext) as (H0 & Hlo & Hhi).
  match goal with
  | |- context [logAction_throws w ?n ?e] =>
      destruct (logAction_throws w n e) as [e'|]
  end.
  { cbn [clock_reads draws waited logged console].
    destruct (logAction_throws w _ _); intros [=]. }
  intros [= <- <-]. exists response.
  cbn [extractedText confidence pages processingTime result_model logged].
  rewrite <- app_assoc.
  repeat split; try assumption; reflexivity.
Qed.

(** X25: when [extractTextFromDocument] rejects, the failure is that of the
    start log, of reading the file, of the model or of the completion log;
    an error entry with the message of the failure (the generic message when
    the file could not be read) is the last call of the logger, and the
    reason is an [Error] whose message is that message after
    [HuggingFace text extraction failed: ], unless the error log threw, in
    which case the reason is what it threw. *)
Theorem extraction_rejected (w : World) (s s' : State) (e : thrown) :
  extractTextFromDocument this file userId w s = (Rejected e, s') ->
  exists (cause : thrown) (before : list LogEntry),
    let message := messageOf cause (lit "HuggingFace processing failed") in
    let entry := processing_error this file userId message in
    (logAction_throws w (length (logged s))
       (processing_start this file userId) = Some cause
     \/ (readAsDataURL w file = None /\ cause = OtherValue)
     \/ textGeneration w (extraction_request this) = Rejected cause
     \/ (exists r,
           logAction_throws w (S (length (logged s)))
             (processing_complete this file userId r (processingTime r))
           = Some cause))
    /\ logged s' = logged s ++ before ++ [entry]
    /\ (e = ErrorValue (lit "HuggingFace text extraction failed: " ++ message)
        \/ logAction_throws w (length (logged s ++ before)) entry = Some e).
Proof.
  run_extraction.
  assert (Hlen : forall a : LogEntry,
             length (logged s ++ [a]) = S (length (logged s)))
    by (intros a; rewrite length_app; cbn; lia).
  destruct (logAction_throws w (length (logged s))
              (processing_start this file userId)) as [c|] eqn:Hstart.
  { cbn [clock_reads draws waited logged console].
    case_log w Herr; intros [= <- <-];
      exists c, [processing_start this file userId];
      cbn [logged]; rewrite <- ?app_assoc;
      (split; [now left|split; [reflexivity|]]);
      [right; exact Herr|now left]. }
  destruct (readAsDataURL w file) as [dataURL|] eqn:Hread.
  2:{ cbn [clock_reads draws waited logged console].
      case_log w Herr; intros [= <- <-];
        exists OtherValue, [processing_start this file userId];
        cbn [logged]; rewrite <- ?app_assoc;
        (split; [right; left; now split|split; [reflexivity|]]);
        [right; exact Herr|now left]. }
  destruct (textGeneration w (extraction_request this)) as [response|c]
    eqn:Hgen.
  2:{ cbn [clock_reads draws waited logged console].
      case_log w Herr; intros [= <- <-];
        exists c, [processing_start this file userId];
        cbn [logged]; rewrite <- ?app_assoc;
        (split; [right; right; now left|split; [reflexivity|]]);
        [right; exact Herr|now left]. }
  cbn [clock_reads draws waited logged console].
  case_log w Hdone; [|intros [=]].
  rewrite Hlen in Hdone.
  match type of Hdone with
  | logAction_throws w _ (processing_complete _ _ _ ?r _) = _ =>
      set (result := r) in *
  end.
  case_log w Herr; intros [= <- <-];
    exists e0, [processing_start this file userId;
                processing_complete this file userId result
                  (processingTime result)];
    cbn [logged]; rewrite <- ?app_assoc;
    (split; [right; right; right; exists result; exact Hdone
            |split; [reflexivity|]]).
  - right. rewrite <- app_assoc in Herr. exact Herr.
  - now left.
Qed.

Ltac run_analysis :=
  unfold analyzeDocumentWithModel, bind, try_catch, await, ret, throw,
    logAction;
  cbn [clock_reads draws waited logged console].

(** X26: once the start is logged and the model has answered,
    [analyzeDocumentWithModel] fulfils: with what [JSON.parse] makes of the
    answer ([{}] for an empty or missing one), and with the fallback object
    of type [Unknown] and confidence 0.5 when [JSON.parse] throws or when the
    completion log throws.  A parse failure is logged nowhere. *)
Theorem analysis_after_an_answer (text : jsstring) (w : World) (s : State)
    (response : Response) :
  let start :=
    analysis_entry this userId "huggingface_analysis_start"
      [ ("textLength", Integer (Z.of_nat (length text)));
        ("model", Text (model this)) ]%string in
  let complete :=
    analysis_entry this userId "huggingface_analysis_complete"
      [ ("model", Text (model this)); ("success", Flag true) ]%string in
  logAction_throws w (length (logged s)) start = None ->
  textGeneration w (analysis_request this text) = Fulfilled response ->
  analyzeDocumentWithModel this text userId w s
  = match JSON_parse w (orElse (generated_text response) (lit "{}")) with
    | Fulfilled parsed =>
        match logAction_throws w (S (length (logged s))) complete with
        | None => (Fulfilled parsed, with_logged s [start; complete])
        | Some _ => (Fulfilled fallback_analysis,
                     with_logged s [start; complete])
        end
    | Rejected _ => (Fulfilled fallback_analysis, with_logged s [start])
    end.
Proof.
  intros start complete Hstart Hgen. run_analysis.
  fold start. rewrite Hstart, Hgen.
  cbn [clock_reads draws waited logged console].
  destruct (JSON_parse w _) as [parsed|e]; [|reflexivity].
  fold complete. rewrite length_app. cbn [length].
  replace (length (logged s) + 1)%nat with (S (length (logged s))) by lia.
  unfold with_logged. rewrite <- app_assoc. cbn [app].
  destruct (logAction_throws w (S (length (logged s))) complete);
    reflexivity.
Qed.

(** X27: [analyzeDocumentWithModel] rejects only when the start log throws
    or the request fails; the error is logged and the reason is an [Error]
    whose message starts with [HuggingFace analysis failed: ], unless the
    error log threw. *)
Theorem analysis_rejected (text : jsstring) (w : World) (s s' : State)
    (e : thrown) :
  let start :=
    analysis_entry this userId "huggingface_analysis_start"
      [ ("textLength", Integer (Z.of_nat (length text)));
        ("model", Text (model this)) ]%string in
  analyzeDocumentWithModel this text userId w s = (Rejected e, s') ->
  exists cause : thrown,
    let message := messageOf cause (lit "Analysis failed") in
    let entry :=
      analysis_entry this userId "huggingface_analysis_error"
        [ ("error", Text message); ("model", Text (model this)) ]%string in
    (logAction_throws w (length (logged s)) start = Some cause
     \/ textGeneration w (analysis_request this text) = Rejected cause)
    /\ logged s' = logged s ++ [start; entry]
    /\ (e = ErrorValue (lit "HuggingFace analysis failed: " ++ message)
        \/ logAction_throws w (S (length (logged s))) entry = Some e).
Proof.
  intros start. run_analysis. fold start.
  assert (Hlen : length (logged s ++ [start]) = S (length (logged s)))
    by (rewrite length_app; cbn; lia).
  destruct (logAction_throws w (length (logged s)) start) as [c|] eqn:Hstart.
  { cbn [clock_reads draws waited logged console]. rewrite Hlen.
    case_log w Herr; intros [= <- <-]; exists c; cbn [logged];
      rewrite <- ?app_assoc;
      (split; [now left|split; [reflexivity|]]);
      [right; exact Herr|now left]. }
  destruct (textGeneration w (analysis_request this text)) as [response|c]
    eqn:Hgen.
  2:{ cbn [clock_reads draws waited logged console]. rewrite Hlen.
      case_log w Herr; intros [= <- <-]; exists c; cbn [logged];
        rewrite <- ?app_assoc;
        (split; [now right|split; [reflexivity|]]);
        [right; exact Herr|now left]. }
  cbn [clock_reads draws waited logged console].
  destruct (JSON_parse w _) as [parsed|c]; [|intros [=]].
  case_log w Hdone; intros [=].
Qed.

End Requests.

Lemma extraction_fulfilled_witness :
  match HuggingFaceRequests.extractTextFromDocument service_default
          scanned_order (lit "user_7") world_quiet Runtime.initial with
  | (Runtime.Fulfilled r, s') =>
      HuggingFaceRequests.extractedText r = lit "Date: 22-03-2024"
      /\ HuggingFaceRequests.confidence r <> 0%float
      /\ length (Runtime.logged s') = 2%nat
  | (Runtime.Rejected _, _) => False
  end.
Proof.
  destruct (HuggingFaceRequests.extractTextFromDocument service_default
              scanned_order (lit "user_7") world_quiet Runtime.initial)
    as [[r|e] s'] eqn:H.
  - destruct (extraction_fulfilled service_default scanned_order
                (lit "user_7") world_quiet Runtime.initial s' r H)
      as (response & Hgen & Htext & _ & _ & H0 & _ & _ & _ & _ & _ & Hlog).
    injection Hgen as <-. rewrite Hlog. now repeat split.
  - vm_compute in H. discriminate H.
Defined.

Lemma extraction_rejected_witness :
  match HuggingFaceRequests.extractTextFromDocument service_default
          scanned_order (lit "user_7") world_offline Runtime.initial with
  | (Runtime.Rejected e, s') =>
      e = Runtime.ErrorValue
            (lit "HuggingFace text extraction failed: Failed to fetch")
  | (Runtime.Fulfilled _, _) => False
  end.
Proof.
  destruct (HuggingFaceRequests.extractTextFromDocument service_default
              scanned_order (lit "user_7") world_offline Runtime.initial)
    as [[r|e] s'] eqn:H.
  - vm_compute in H. discriminate H.
  - destruct (extraction_rejected service_default scanned_order
                (lit "user_7") world_offline Runtime.initial s' e H)
      as (cause & before & Hcause & _ & [He|He]); [|discriminate He].
    destruct Hcause as [Hc|[[Hc _]|[Hc|[r Hc]]]]; try discriminate Hc.
    injection Hc as <-. exact He.
Defined.

Lemma analysis_after_an_answer_witness :
  HuggingFaceRequests.analyzeDocumentWithModel service_default
    (lit "Order dated 22-03-2024") (lit "user_7") world_quiet Runtime.initial
  = (Runtime.Fulfilled HuggingFaceRequests.fallback_analysis,
     Runtime.with_logged Runtime.initial
       [ HuggingFaceRequests.analysis_entry service_default (lit "user_7")
           "huggingface_analysis_start"
           [ ("textLength", Runtime.Integer 22);
             ("model", Runtime.Text (lit "google/gemma-3-12b-it")) ]%string ]).
Proof.
  exact (analysis_after_an_answer service_default (lit "user_7")
           (lit "Order dated 22-03-2024") world_quiet Runtime.initial
           {| Runtime.generated_text := Some (lit "Date: 22-03-2024") |}
           eq_refl eq_refl).
Defined.

Lemma analysis_rejected_witness :
  match HuggingFaceRequests.analyzeDocumentWithModel service_default
          (lit "Order dated 22-03-2024") (lit "user_7") world_offline
          Runtime.initial with
  | (Runtime.Rejected e, s') =>
      e = Runtime.ErrorValue
            (lit "HuggingFace analysis failed: Failed to fetch")
  | (Runtime.Fulfilled _, _) => False
  end.
Proof.
  destruct (HuggingFaceRequests.analyzeDocumentWithModel service_default
              (lit "Order dated 22-03-2024") (lit "user_7") world_offline
              Runtime.initial) as [[r|e] s'] eqn:H.
  - vm_compute in H. discriminate H.
  - destruct (analysis_rejected service_default (lit "user_7")
                (lit "Order dated 22-03-2024") world_offline Runtime.initial
                s' e H) as (cause & Hcause & _ & [He|He]); [|discriminate He].
    destruct Hcause as [Hc|Hc]; [discriminate Hc|].
    injection Hc as <-. exact He.
Defined.

Section Analysis.

Import Runtime StampSignatureAnalysis.

Variable file : File.
Variable userId : jsstring.

Ltac run_stamps :=
  unfold analyzeStampsAndSignatures, bind, try_catch, ret, throw, Date_now,
    Math_random, delay, logAction, console_error;
  cbn [clock_reads draws waited logged console].

Lemma at_floor_In {A : Type} (l : list A) (x : float) (a : A) :
  at_floor l x = Some a -> In a l.
Proof.
  unfold at_floor. destruct (Math_floor x) as [i|]; [|discriminate].
  destruct (_ && _); [|discriminate]. apply nth_error_In.
Qed.

(** X28: a result of [analyzeStampsAndSignatures] never has a
    [DateAnalysis] nor a [DateInfo], although the interface of the result
    requires the former: no date is extracted.  Its processing time is the
    last reading of the clock minus the first.  Either stamp and signature
    are [Present], the validation is [Y] and the matched type is the name of
    an entry of [getMasterStampList], or both are [Absent] without
    coordinates, the validation is [N] and there is no matched type. *)
Theorem stamp_analysis_result (w : World) (s s' : State)
    (r : StampSignatureAnalysisResult) :
  analyzeStampsAndSignatures file userId w s = (Fulfilled r, s') ->
  DateAnalysis r = None
  /\ DateInfo (Stamp r) = None
  /\ DateInfo (Signature r) = None
  /\ ProcessingTime r
     = (clock w (pred (clock_reads s')) - clock w (clock_reads s))%Z
  /\ ((Status (Stamp r) = Present /\ Status (Signature r) = Present
       /\ StampValidation r = Yes
       /\ exists stamp,
            In (id stamp, name stamp) getMasterStampList
            /\ MatchedStampType r = Some (name stamp))
      \/ (Status (Stamp r) = Absent /\ Status (Signature r) = Absent
          /\ StampValidation r = No
          /\ MatchedStampType r = None
          /\ Coordinates (Stamp r) = None
          /\ Coordinates (Signature r) = None)).
Proof.
  run_stamps.
  assert (Hfallback : forall t,
    let r := fallback_result t in
    DateAnalysis r = None /\ DateInfo (Stamp r) = None
    /\ DateInfo (Signature r) = None /\ ProcessingTime r = t
    /\ Status (Stamp r) = Absent /\ Status (Signature r) = Absent
    /\ StampValidation r = No /\ MatchedStampType r = None
    /\ Coordinates (Stamp r) = None /\ Coordinates (Signature r) = None)
    by (intros t; cbn; repeat split).
  assert (Hout : forall t st,
    (Fulfilled (fallback_result t), st) = (Fulfilled r, s') ->
    t = (clock w (pred (clock_reads st)) - clock w (clock_reads s))%Z ->
    DateAnalysis r = None /\ DateInfo (Stamp r) = None
    /\ DateInfo (Signature r) = None
    /\ ProcessingTime r
       = (clock w (pred (clock_reads s')) - clock w (clock_reads s))%Z
    /\ ((Status (Stamp r) = Present /\ Status (Signature r) = Present
         /\ StampValidation r = Yes
         /\ exists stamp,
              In (id stamp, name stamp) getMasterStampList
              /\ MatchedStampType r = Some (name stamp))
        \/ (Status (Stamp r) = Absent /\ Status (Signature r) = Absent
            /\ StampValidation r = No /\ MatchedStampType r = None
            /\ Coordinates (Stamp r) = None
            /\ Coordinates (Signature r) = None))).
  { intros t st [= <- <-] ->.
    destruct (Hfallback
                (clock w (pred (clock_reads st)) - clock w (clock_reads s))%Z)
      as (H1 & H2 & H3 & H4 & H5).
    repeat split; try assumption. right. exact H5. }
  case_log w Hstart.
  { case_log w Herr; [intros [=]|]. intros H. apply (Hout _ _ H). reflexivity. }
  destruct (at_floor OFFICIAL_STAMP_MASTER_LIST _) as [stamp|] eqn:Hstamp;
    cbn [clock_reads draws waited logged console].
  2:{ case_log w Herr; [intros [=]|]. intros H. apply (Hout _ _ H).
      reflexivity. }
  case_log w Hdone.
  { case_log w Herr; [intros [=]|]. intros H. apply (Hout _ _ H).
    reflexivity. }
  intros [= <- <-]. clear Hout Hfallback.
  cbn [DateAnalysis DateInfo Stamp Signature ProcessingTime Status
       StampValidation MatchedStampType Coordinates present_result
       clock_reads Nat.pred].
  repeat split. left. repeat split.
  exists stamp. split; [|reflexivity].
  unfold getMasterStampList.
  apply (in_map (fun stamp => (id stamp, name stamp))).
  exact (at_floor_In _ _ _ Hstamp).
Qed.

(** X29: [analyzeStampsAndSignatures] rejects only with what the error log
    throws: every other failure is logged and answered with the fallback
    result.  Nothing is written to the console in that case. *)
Theorem stamp_analysis_rejected (w : World) (s s' : State) (e : thrown) :
  analyzeStampsAndSignatures file userId w s = (Rejected e, s') ->
  exists (before : list LogEntry) (message : jsstring),
    let entry :=
      analysis_entry file userId "stamp_signature_analysis_error"
        [ ("error", Text message) ]%string in
    logged s' = logged s ++ before ++ [entry]
    /\ logAction_throws w (length (logged s ++ before)) entry = Some e
    /\ console s' = console s.
Proof.
  run_stamps.
  case_log w Hstart.
  { case_log w Herr; [|intros [=]]. intros [= <- <-].
    eexists [_], _. cbn [logged console]. rewrite <- app_assoc.
    split; [reflexivity|]. split; [exact Herr|reflexivity]. }
  destruct (at_floor OFFICIAL_STAMP_MASTER_LIST _) as [stamp|] eqn:Hstamp;
    cbn [clock_reads draws waited logged console].
  2:{ case_log w Herr; [|intros [=]]. intros [= <- <-].
      eexists [_], _. cbn [logged console]. rewrite <- app_assoc.
      split; [reflexivity|]. split; [exact Herr|reflexivity]. }
  case_log w Hdone; [|intros [=]].
  case_log w Herr; [|intros [=]]. intros [= <- <-].
  eexists [_; _], _. cbn [logged console]. rewrite <- !app_assoc.
  split; [reflexivity|]. split; [|reflexivity].
  rewrite <- app_assoc in Herr. exact Herr.
Qed.

(** X30: the health checks never reject.  That of the stamp service answers
    [true]; that of the inference service answers [response.ok], and [false]
    after writing to the console when [fetch] fails. *)
Theorem health_checks_never_reject (this : HuggingFaceService.Service)
    (w : World) (s : State) :
  (exists s', checkServiceHealth w s = (Fulfilled true, s')
              /\ console s' = console s)
  /\ (exists s',
        HuggingFaceRequests.checkServiceHealth this w s
        = (Fulfilled
             (match fetch w (HuggingFaceRequests.health_request this) with
              | Fulfilled ok => ok
              | Rejected _ => false
              end), s')
        /\ (console s' = console s
            <-> exists ok,
                  fetch w (HuggingFaceRequests.health_request this)
                  = Fulfilled ok)).
Proof.
  split.
  - eexists. split; reflexivity.
  - unfold HuggingFaceRequests.checkServiceHealth, bind, try_catch, await,
      ret, console_error.
    destruct (fetch w _) as [ok|e]; eexists; (split; [reflexivity|]);
      cbn [console].
    + split; [intros _; now exists ok|reflexivity].
    + split; [|intros [ok [=]]].
      intros H. apply (f_equal (@length _)) in H.
      rewrite length_app in H. cbn in H. lia.
Qed.

End Analysis.

Lemma stamp_analysis_result_witness :
  match StampSignatureAnalysis.analyzeStampsAndSignatures scanned_order
          (lit "user_7") world_quiet Runtime.initial with
  | (Runtime.Fulfilled r, s') =>
      StampSignatureAnalysis.DateAnalysis r = None
      /\ StampSignatureAnalysis.ProcessingTime r = 3000%Z
  | (Runtime.Rejected _, _) => False
  end.
Proof.
  destruct (StampSignatureAnalysis.analyzeStampsAndSignatures scanned_order
              (lit "user_7") world_quiet Runtime.initial)
    as [[r|e] s'] eqn:H.
  - destruct (stamp_analysis_result scanned_order (lit "user_7") world_quiet
                Runtime.initial s' r H) as (Hdate & _ & _ & Htime & _).
    split; [exact Hdate|]. rewrite Htime.
    vm_compute in H. injection H as _ <-. reflexivity.
  - vm_compute in H. discriminate H.
Defined.

Lemma stamp_analysis_rejected_witness :
  match StampSignatureAnalysis.analyzeStampsAndSignatures scanned_order
          (lit "user_7") world_failing_logger Runtime.initial with
  | (Runtime.Rejected e, s') =>
      e = Runtime.ErrorValue (lit "Audit log unavailable")
      /\ Runtime.console s' = []
  | (Runtime.Fulfilled _, _) => False
  end.
Proof.
  destruct (StampSignatureAnalysis.analyzeStampsAndSignatures scanned_order
              (lit "user_7") world_failing_logger Runtime.initial)
    as [[r|e] s'] eqn:H.
  - vm_compute in H. discriminate H.
  - destruct (stamp_analysis_rejected scanned_order (lit "user_7")
                world_failing_logger Runtime.initial s' e H)
      as (before & message & _ & He & Hconsole).
    split; [now injection He|exact Hconsole].
Defined.

(** ** The master list *)

(** The draws 0, 0.5 and the largest double below 1 select the first, the
    fourth and the last entry. *)
Example matched_stamp_of_draw :
  map (fun r =>
         option_map StampSignatureAnalysis.id
           (Runtime.at_floor StampSignatureAnalysis.OFFICIAL_STAMP_MASTER_LIST
              (r * Runtime.length_of
                     StampSignatureAnalysis.OFFICIAL_STAMP_MASTER_LIST)))
    [0; 0.5; 0x1.fffffffffffffp-1]%float
  = [Some (lit "stamp_1"); Some (lit "stamp_4"); Some (lit "stamp_6")].
Proof. vm_compute. reflexivity. Qed.

(** Every pattern of the master list is found in the name of its own entry
    and in the name of no other entry, and every keyword of an entry occurs
    in its name written in upper case. *)
Example master_list_patterns :
  map (fun stamp =>
         map (fun other =>
                test (StampSignatureAnalysis.pattern stamp)
                  (StampSignatureAnalysis.name other))
           StampSignatureAnalysis.OFFICIAL_STAMP_MASTER_LIST)
    StampSignatureAnalysis.OFFICIAL_STAMP_MASTER_LIST
  = [ [true; false; false; false; false; false];
      [false; true; false; false; false; false];
      [false; false; true; false; false; false];
      [false; false; false; true; false; false];
      [false; false; false; false; true; false];
      [false; false; false; false; false; true] ]
  /\ forallb (fun stamp =>
               forallb (fun keyword =>
                          includes
                            (map toUpperASCII
                               (StampSignatureAnalysis.name stamp))
                            keyword)
                 (StampSignatureAnalysis.keywords stamp))
       StampSignatureAnalysis.OFFICIAL_STAMP_MASTER_LIST = true.
Proof. vm_compute. split; reflexivity. Qed.
